(** * DocFormer: multimodal relative-position attention, shallow embedding

    Source: [src/docformer/modeling.py].

    Tensors are a shape together with an index function.  Integer
    tensors ([torch.LongTensor]) carry [Z]; floating tensors carry real
    numbers, the idealisation of [float32] under which the algebraic
    statements about attention scores are read.  Every operation that
    can raise in PyTorch, einops or Python returns a [result]; the kind
    of exception is kept.  Device placement ([.to(DEVICE)]) is the
    identity on values and is not modelled. *)

From Stdlib Require Import String Ascii.
From Stdlib Require Import List ZArith Lia Bool Arith.
From Stdlib Require Import QArith Qreals Reals Lra.
Import ListNotations.
Close Scope Q_scope.

Set Implicit Arguments.

(* ================================================================= *)
(** ** Exceptions and the error monad *)

Inductive exn : Type :=
| RuntimeError        (* torch: size / broadcast mismatch *)
| IndexError          (* torch / python: index out of range *)
| AssertionError      (* python assert *)
| ZeroDivisionError   (* python // and % by zero *)
| UnboundLocalError   (* python: local read before assignment *)
| EinopsError         (* einops.rearrange: pattern does not fit *)
| ValueError.         (* torch.nn: argument out of its domain *)

Inductive result (A : Type) : Type :=
| Ok (a : A)
| Raise (e : exn).

Arguments Ok {A} a.
Arguments Raise {A} e.

Definition bind {A B : Type} (m : result A) (k : A -> result B) : result B :=
  match m with
  | Ok a => k a
  | Raise e => Raise e
  end.

Definition fmap {A B : Type} (f : A -> B) (m : result A) : result B :=
  bind m (fun a => Ok (f a)).

Definition is_ok {A : Type} (m : result A) : bool :=
  match m with Ok _ => true | Raise _ => false end.

Declare Scope result_scope.
Delimit Scope result_scope with result.
Notation "x <- m ;; k" := (bind m (fun x => k))
  (at level 61, m at next level, right associativity) : result_scope.
Notation "'assert!' b 'else' e ;; k" := (if b then k else Raise e)
  (at level 61, b at next level, e at next level, right associativity) : result_scope.
Open Scope result_scope.

(* ================================================================= *)
(** ** Tensors *)

Record Tensor (A : Type) : Type := mkTensor {
  shape : list nat;
  data  : list nat -> A
}.

Arguments mkTensor {A} shape data.

Definition LongTensor  := Tensor Z.
Definition FloatTensor := Tensor R.

(** [x.shape[i]] for a non-negative [i]. *)
Definition size {A} (x : Tensor A) (i : nat) : result nat :=
  match nth_error (shape x) i with
  | Some d => Ok d
  | None => Raise IndexError
  end.

(** [x.shape[-1]]. *)
Definition last_dim {A} (x : Tensor A) : result nat :=
  match rev (shape x) with
  | d :: _ => Ok d
  | [] => Raise IndexError
  end.

(** All index tuples of a shape, in row-major order. *)
Fixpoint indices (s : list nat) : list (list nat) :=
  match s with
  | [] => [[]]
  | d :: s' => flat_map (fun i => map (cons i) (indices s')) (seq 0 d)
  end.

(** An index tuple lies inside a shape. *)
Fixpoint in_shape (s : list nat) (idx : list nat) : Prop :=
  match s, idx with
  | [], [] => True
  | d :: s', i :: idx' => i < d /\ in_shape s' idx'
  | _, _ => False
  end.

(** *** Broadcasting *)

(** Two sizes of one dimension broadcast when they are equal or one of
    them is 1. *)
Definition bdim (a b : nat) : result nat :=
  if a =? b then Ok a
  else if a =? 1 then Ok b
  else if b =? 1 then Ok a
  else Raise RuntimeError.

(** Shapes are aligned at their last dimension; both arguments are
    given last dimension first. *)
Fixpoint bshape_rev (s1 s2 : list nat) : result (list nat) :=
  match s1, s2 with
  | [], s => Ok s
  | s, [] => Ok s
  | a :: s1', b :: s2' =>
      d <- bdim a b ;;
      r <- bshape_rev s1' s2' ;;
      Ok (d :: r)
  end.

Definition broadcast_shapes (s1 s2 : list nat) : result (list nat) :=
  fmap (@rev nat) (bshape_rev (rev s1) (rev s2)).

Fixpoint map2 {A B C} (f : A -> B -> C) (l1 : list A) (l2 : list B) : list C :=
  match l1, l2 with
  | a :: l1', b :: l2' => f a b :: map2 f l1' l2'
  | _, _ => []
  end.

(** The index an operand of shape [s] is read at when the broadcast
    result is read at [idx]: leading dimensions the operand lacks are
    dropped, and a dimension of size 1 is read at 0. *)
Definition bidx (s : list nat) (idx : list nat) : list nat :=
  map2 (fun d i => if d =? 1 then 0 else i) s
       (skipn (length idx - length s) idx).

Definition broadcast2 {A} (f : A -> A -> A) (x y : Tensor A) : result (Tensor A) :=
  s <- broadcast_shapes (shape x) (shape y) ;;
  Ok (mkTensor s (fun idx => f (data x (bidx (shape x) idx))
                               (data y (bidx (shape y) idx)))).

Definition tmap {A} (f : A -> A) (x : Tensor A) : Tensor A :=
  mkTensor (shape x) (fun idx => f (data x idx)).

(** *** Integer tensors *)

(** [torch.arange(n)]. *)
Definition arange (n : nat) : LongTensor :=
  mkTensor [n] (fun idx => match idx with
                           | i :: _ => Z.of_nat i
                           | [] => 0%Z
                           end).

(** [x[None, :]]: a new leading dimension of size 1. *)
Definition unsqueeze_first {A} (x : Tensor A) : Tensor A :=
  mkTensor (1 :: shape x) (fun idx => data x (tl idx)).

(** [x[:, None]]: a new trailing dimension of size 1 (for a vector). *)
Definition unsqueeze_last {A} (x : Tensor A) : Tensor A :=
  mkTensor (shape x ++ [1]) (fun idx => data x (removelast idx)).

(** [torch.clamp(x, lo, hi)] is [min(max(x, lo), hi)] elementwise. *)
Definition clamp_Z (lo hi : Z) (v : Z) : Z := Z.min (Z.max v lo) hi.

Definition clamp (x : LongTensor) (lo hi : Z) : LongTensor :=
  tmap (clamp_Z lo hi) x.

(** The stop of a Python slice [[:n]] on a dimension of size [len]:
    a non-negative stop is cut at the size, a negative one counts from
    the end.  A slice never raises. *)
Definition slice_stop (n : Z) (len : nat) : nat :=
  if (n <? 0)%Z then Z.to_nat (Z.max 0 (Z.of_nat len + n))
  else Nat.min (Z.to_nat n) len.

(** [x[:a, :b]]. *)
Definition slice2 {A} (x : Tensor A) (a b : Z) : result (Tensor A) :=
  match shape x with
  | d0 :: d1 :: rest =>
      Ok (mkTensor (slice_stop a d0 :: slice_stop b d1 :: rest) (data x))
  | _ => Raise IndexError
  end.

(** A row index of a tensor with [n] rows: [0 <= z < n], or a negative
    [z >= -n] counted from the end. *)
Definition valid_row (n : nat) (z : Z) : bool :=
  ((- Z.of_nat n <=? z) && (z <? Z.of_nat n))%Z.

Definition norm_row (n : nat) (z : Z) : nat :=
  Z.to_nat (if (z <? 0)%Z then z + Z.of_nat n else z).

(** [table[idx]] for an integer index tensor: every entry of [idx]
    selects a row of [table]; the result has shape
    [idx.shape + table.shape[1:]]. *)
Definition index_rows {A} (table : Tensor A) (idx : LongTensor) : result (Tensor A) :=
  match shape table with
  | [] => Raise IndexError
  | n :: rest =>
      assert! (forallb (fun i => valid_row n (data idx i)) (indices (shape idx)))
        else IndexError ;;
      let k := length (shape idx) in
      Ok (mkTensor (shape idx ++ rest)
            (fun i => data table (norm_row n (data idx (firstn k i)) :: skipn k i)))
  end.

(** *** Floating tensors *)

(** [sum_n n f] is the sum of [f 0 .. f (n-1)]. *)
Fixpoint sum_n (n : nat) (f : nat -> R) : R :=
  match n with
  | 0 => 0%R
  | S n' => (sum_n n' f + f n')%R
  end.

(** [torch.softmax(x, dim=-1)]. *)
Definition softmax (x : FloatTensor) : result FloatTensor :=
  n <- last_dim x ;;
  Ok (mkTensor (shape x)
        (fun idx => (exp (data x idx) /
                     sum_n n (fun j => exp (data x (removelast idx ++ [j]))))%R)).

(** *** [torch.einsum] with two operands

    An equation is [lx,ly->lo], one letter per dimension.  A letter
    shared by both operands must have broadcastable sizes; letters
    absent from the output are summed over.  The source uses neither a
    letter repeated inside one operand nor an ellipsis, and they are not
    modelled. *)

Definition label := ascii.
Definition assignment := list (label * nat).

Fixpoint lookup (l : label) (e : assignment) : option nat :=
  match e with
  | [] => None
  | (l', v) :: e' => if Ascii.eqb l l' then Some v else lookup l e'
  end.

Definition lookup0 (l : label) (e : assignment) : nat :=
  match lookup l e with Some v => v | None => 0 end.

Fixpoint update (l : label) (v : nat) (e : assignment) : assignment :=
  match e with
  | [] => [(l, v)]
  | (l', v') :: e' =>
      if Ascii.eqb l l' then (l, v) :: e' else (l', v') :: update l v e'
  end.

Fixpoint take_until (c : ascii) (s : list ascii) : option (list ascii * list ascii) :=
  match s with
  | [] => None
  | a :: s' =>
      if Ascii.eqb a c then Some ([], s')
      else match take_until c s' with
           | Some (p, r) => Some (a :: p, r)
           | None => None
           end
  end.

Definition parse_equation (equation : string)
  : option (list label * list label * list label) :=
  match take_until ","%char (list_ascii_of_string equation) with
  | Some (lx, rest) =>
      match take_until "-"%char rest with
      | Some (ly, ">"%char :: lo) => Some (lx, ly, lo)
      | _ => None
      end
  | None => None
  end.

(** The sizes of the letters of one operand, merged into the sizes
    found so far. *)
Fixpoint label_sizes (ls : list label) (dims : list nat) (e : assignment)
  : result assignment :=
  match ls, dims with
  | [], [] => Ok e
  | l :: ls', d :: dims' =>
      match lookup l e with
      | None => label_sizes ls' dims' (update l d e)
      | Some d0 => d' <- bdim d0 d ;; label_sizes ls' dims' (update l d' e)
      end
  | _, _ => Raise RuntimeError
  end.

Definition mem (l : label) (ls : list label) : bool := existsb (Ascii.eqb l) ls.

Fixpoint dedup (ls : list label) : list label :=
  match ls with
  | [] => []
  | l :: ls' => if mem l ls' then dedup ls' else l :: dedup ls'
  end.

(** The index one operand is read at under an assignment of the
    letters; a dimension of size 1 is read at 0. *)
Definition op_index (ls : list label) (dims : list nat) (a : assignment) : list nat :=
  map2 (fun l d => if d =? 1 then 0 else lookup0 l a) ls dims.

Fixpoint sum_over (cs : list label) (sz : assignment) (a : assignment)
    (f : assignment -> R) : R :=
  match cs with
  | [] => f a
  | c :: cs' => sum_n (lookup0 c sz) (fun j => sum_over cs' sz ((c, j) :: a) f)
  end.

Definition einsum (equation : string) (x y : FloatTensor) : result FloatTensor :=
  match parse_equation equation with
  | None => Raise ValueError
  | Some (lx, ly, lo) =>
      sz <- label_sizes lx (shape x) [] ;;
      sz <- label_sizes ly (shape y) sz ;;
      assert! (forallb (fun l => mem l (lx ++ ly)) lo) else RuntimeError ;;
      let contracted :=
        dedup (filter (fun l => negb (mem l lo)) (lx ++ ly)) in
      Ok (mkTensor (map (fun l => lookup0 l sz) lo)
            (fun idx =>
               sum_over contracted sz (combine lo idx)
                 (fun a => (data x (op_index lx (shape x) a) *
                            data y (op_index ly (shape y) a))%R)))
  end.

(** *** [einops.rearrange], the two patterns of the source *)

(** [rearrange(x, 'b t (head k) -> head b t k', head=head)]. *)
Definition rearrange_split_heads (x : FloatTensor) (head : nat) : result FloatTensor :=
  match shape x with
  | [b; t; e] =>
      assert! (negb (head =? 0)) else EinopsError ;;
      assert! (e mod head =? 0) else EinopsError ;;
      let k := e / head in
      Ok (mkTensor [head; b; t; k]
            (fun idx => match idx with
                        | [h0; b0; t0; k0] => data x [b0; t0; h0 * k + k0]
                        | _ => 0%R
                        end))
  | _ => Raise EinopsError
  end.

(** [rearrange(x, 'head b t d -> b t (head d)')]. *)
Definition rearrange_merge_heads (x : FloatTensor) : result FloatTensor :=
  match shape x with
  | [head; b; t; d] =>
      Ok (mkTensor [b; t; head * d]
            (fun idx => match idx with
                        | [b0; t0; j] => data x [j / d; b0; t0; j mod d]
                        | _ => 0%R
                        end))
  | _ => Raise EinopsError
  end.

(* ================================================================= *)
(** ** [torch.nn] modules used by the source *)

(** The values a constructor draws for a parameter, by parameter name.
    Training replaces them; every statement below holds for all of
    them. *)
Definition init_values := string -> list nat -> R.

Module Linear.

Record t : Type := mk {
  in_features : nat;
  out_features : nat;
  weight : FloatTensor;      (* (out_features, in_features) *)
  bias : FloatTensor         (* (out_features) *)
}.

Definition init (in_features out_features : nat) (w b : list nat -> R) : t :=
  mk in_features out_features
     (mkTensor [out_features; in_features] w)
     (mkTensor [out_features] b).

(** [y[..., j] = sum_i x[..., i] * weight[j, i] + bias[j]]. *)
Definition forward (self : t) (x : FloatTensor) : result FloatTensor :=
  d <- last_dim x ;;
  assert! (d =? in_features self) else RuntimeError ;;
  Ok (mkTensor (removelast (shape x) ++ [out_features self])
        (fun idx =>
           let j := last idx 0 in
           let pre := removelast idx in
           (sum_n (in_features self)
                  (fun i => data x (pre ++ [i]) * data (weight self) [j; i])
            + data (bias self) [j])%R)).

End Linear.

Module Dropout.

(** A probability given in the configuration is a Python float, a
    rational number. *)
Record t : Type := mk {
  p : Q;
  training : bool
}.

(** [nn.Dropout(p)] accepts [0 <= p <= 1]. *)
Definition init (p : Q) (training : bool) : result t :=
  assert! (Qle_bool 0%Q p && Qle_bool p 1%Q) else ValueError ;;
  Ok (mk p training).

(** In evaluation mode the identity.  In training mode the elements
    the drawn [mask] keeps are scaled by [1 / (1 - p)], the others are
    zeroed; with [p = 1] no mask keeps an element. *)
Definition forward (self : t) (mask : list nat -> bool) (x : FloatTensor)
  : FloatTensor :=
  if training self
  then mkTensor (shape x)
         (fun idx => if mask idx then (data x idx / (1 - Q2R (p self)))%R
                     else 0%R)
  else x.

End Dropout.

(* ================================================================= *)
(** ** [class RelativePosition] *)

Module RelativePosition.

Record t : Type := mk {
  num_units : nat;
  max_relative_position : nat;
  embeddings_table : FloatTensor;
  max_length : nat;
  final_mat : LongTensor
}.

(** The index table built by [__init__];
    [range_vec_k[None, :] - range_vec_q[:, None]] broadcasts [(1, L)]
    against [(L, 1)]. *)
Definition build_final_mat (max_relative_position max_seq_length : nat)
  : result LongTensor :=
  let range_vec_q := arange max_seq_length in
  let range_vec_k := arange max_seq_length in
  distance_mat <- broadcast2 Z.sub (unsqueeze_first range_vec_k)
                                   (unsqueeze_last range_vec_q) ;;
  let distance_mat_clipped :=
    clamp distance_mat (- Z.of_nat max_relative_position)
                       (Z.of_nat max_relative_position) in
  let final_mat := tmap (fun v => (v + Z.of_nat max_relative_position)%Z)
                        distance_mat_clipped in
  Ok final_mat.

(** [__init__(num_units, max_relative_position, max_seq_length)];
    [xavier] are the values [xavier_uniform_] draws for the table. *)
Definition init (num_units max_relative_position max_seq_length : nat)
    (xavier : list nat -> R) : result t :=
  let embeddings_table :=
    mkTensor [max_relative_position * 2 + 1; num_units] xavier in
  final_mat <- build_final_mat max_relative_position max_seq_length ;;
  Ok (mk num_units max_relative_position embeddings_table
         max_seq_length final_mat).

(** [forward(length_q, length_k)]:
    [self.embeddings_table[self.final_mat[:length_q, :length_k]]]. *)
Definition forward (self : t) (length_q length_k : Z) : result FloatTensor :=
  sl <- slice2 (final_mat self) length_q length_k ;;
  embeddings <- index_rows (embeddings_table self) sl ;;
  Ok embeddings.

End RelativePosition.

(* ================================================================= *)
(** ** [class MultiModalAttentionLayer] *)

Module MultiModalAttentionLayer.

Record t : Type := mk {
  embed_dim : nat;
  n_heads : nat;
  head_dim : nat;
  relative_positions_text : RelativePosition.t;
  relative_positions_img : RelativePosition.t;
  fc_k_text : Linear.t;
  fc_q_text : Linear.t;
  fc_v_text : Linear.t;
  fc_k_img : Linear.t;
  fc_q_img : Linear.t;
  fc_v_img : Linear.t;
  fc_k_spatial : Linear.t;
  fc_q_spatial : Linear.t;
  dropout : Dropout.t;
  to_out : Linear.t * Dropout.t;
  scale : FloatTensor
}.

(** [__init__(embed_dim, n_heads, max_relative_position,
    max_seq_length, dropout)]. *)
Definition init (embed_dim n_heads max_relative_position max_seq_length : nat)
    (dropout : Q) (training : bool) (iv : init_values) : result t :=
  assert! (negb (n_heads =? 0)) else ZeroDivisionError ;;
  assert! (embed_dim mod n_heads =? 0) else AssertionError ;;
  let head_dim := embed_dim / n_heads in
  relative_positions_text <-
    RelativePosition.init head_dim max_relative_position max_seq_length
      (iv "relative_positions_text.embeddings_table"%string) ;;
  relative_positions_img <-
    RelativePosition.init head_dim max_relative_position max_seq_length
      (iv "relative_positions_img.embeddings_table"%string) ;;
  let linear (name : string) :=
    Linear.init embed_dim embed_dim
      (iv (name ++ ".weight")%string) (iv (name ++ ".bias")%string) in
  dropout_attn <- Dropout.init dropout training ;;
  dropout_out <- Dropout.init dropout training ;;
  Ok (mk embed_dim n_heads head_dim
         relative_positions_text relative_positions_img
         (linear "fc_k_text"%string) (linear "fc_q_text"%string)
         (linear "fc_v_text"%string)
         (linear "fc_k_img"%string) (linear "fc_q_img"%string)
         (linear "fc_v_img"%string)
         (linear "fc_k_spatial"%string) (linear "fc_q_spatial"%string)
         dropout_attn
         (linear "to_out.0"%string, dropout_out)
         (mkTensor [1] (fun _ => sqrt (INR embed_dim)))).

(** The masks the three dropout calls of one [forward] draw. *)
Record draws : Type := mk_draws {
  mask_text : list nat -> bool;
  mask_img : list nat -> bool;
  mask_out : list nat -> bool
}.

(** The local variables of [forward] at its [return]. *)
Record locals : Type := mk_locals {
  seq_length : nat;
  key_text_nh : FloatTensor;
  query_text_nh : FloatTensor;
  value_text_nh : FloatTensor;
  dots_text : FloatTensor;
  rel_pos_embed_text : FloatTensor;
  rel_pos_key_text : FloatTensor;
  rel_pos_query_text : FloatTensor;
  dots_text_spatial : FloatTensor;
  text_attn_scores : FloatTensor;
  key_img_nh : FloatTensor;
  query_img_nh : FloatTensor;
  value_img_nh : FloatTensor;
  dots_img : FloatTensor;
  rel_pos_embed_img : FloatTensor;
  rel_pos_key_img : FloatTensor;
  rel_pos_query_img : FloatTensor;
  dots_img_spatial : FloatTensor;
  img_attn_scores : FloatTensor;
  text_attn_probs : FloatTensor;
  img_attn_probs : FloatTensor;
  text_context : FloatTensor;
  img_context : FloatTensor;
  context : FloatTensor;
  embeddings : FloatTensor;
  returned : FloatTensor
}.

Definition forward_locals (self : t) (rng : draws)
    (text_feat img_feat text_spatial_feat img_spatial_feat : FloatTensor)
  : result locals :=
  seq_length <- size text_feat 1 ;;
  (* self attention of text *)
  k <- Linear.forward (fc_k_text self) text_feat ;;
  key_text_nh <- rearrange_split_heads k (n_heads self) ;;
  q <- Linear.forward (fc_q_text self) text_feat ;;
  query_text_nh <- rearrange_split_heads q (n_heads self) ;;
  v <- Linear.forward (fc_v_text self) text_feat ;;
  value_text_nh <- rearrange_split_heads v (n_heads self) ;;
  qk <- einsum "hblk,hbtk->hblt" query_text_nh key_text_nh ;;
  dots_text <- broadcast2 Rdiv qk (scale self) ;;
  (* 1D relative positions (query, key) *)
  rel_pos_embed_text <-
    RelativePosition.forward (relative_positions_text self)
      (Z.of_nat seq_length) (Z.of_nat seq_length) ;;
  rel_pos_key_text <- einsum "bhrd,lrd->bhlr" key_text_nh rel_pos_embed_text ;;
  rel_pos_query_text <- einsum "bhld,lrd->bhlr" query_text_nh rel_pos_embed_text ;;
  (* shared spatial <-> text hidden features *)
  key_spatial_text <- Linear.forward (fc_k_spatial self) text_spatial_feat ;;
  query_spatial_text <- Linear.forward (fc_q_spatial self) text_spatial_feat ;;
  key_spatial_text_nh <- rearrange_split_heads key_spatial_text (n_heads self) ;;
  query_spatial_text_nh <- rearrange_split_heads query_spatial_text (n_heads self) ;;
  qk_s <- einsum "hblk,hbtk->hblt" query_spatial_text_nh key_spatial_text_nh ;;
  dots_text_spatial <- broadcast2 Rdiv qk_s (scale self) ;;
  (* Line 38 of pseudo-code *)
  s1 <- broadcast2 Rplus dots_text rel_pos_key_text ;;
  s2 <- broadcast2 Rplus s1 rel_pos_query_text ;;
  text_attn_scores <- broadcast2 Rplus s2 dots_text_spatial ;;
  (* self-attention of image *)
  k <- Linear.forward (fc_k_img self) img_feat ;;
  key_img_nh <- rearrange_split_heads k (n_heads self) ;;
  q <- Linear.forward (fc_q_img self) img_feat ;;
  query_img_nh <- rearrange_split_heads q (n_heads self) ;;
  v <- Linear.forward (fc_v_img self) img_feat ;;
  value_img_nh <- rearrange_split_heads v (n_heads self) ;;
  qk <- einsum "hblk,hbtk->hblt" query_img_nh key_img_nh ;;
  dots_img <- broadcast2 Rdiv qk (scale self) ;;
  (* 1D relative positions (query, key) *)
  rel_pos_embed_img <-
    RelativePosition.forward (relative_positions_img self)
      (Z.of_nat seq_length) (Z.of_nat seq_length) ;;
  rel_pos_key_img <- einsum "bhrd,lrd->bhlr" key_img_nh rel_pos_embed_text ;;
  rel_pos_query_img <- einsum "bhld,lrd->bhlr" query_img_nh rel_pos_embed_text ;;
  (* shared spatial <-> image features *)
  key_spatial_img <- Linear.forward (fc_k_spatial self) img_spatial_feat ;;
  query_spatial_img <- Linear.forward (fc_q_spatial self) img_spatial_feat ;;
  key_spatial_img_nh <- rearrange_split_heads key_spatial_img (n_heads self) ;;
  query_spatial_img_nh <- rearrange_split_heads query_spatial_img (n_heads self) ;;
  qk_s <- einsum "hblk,hbtk->hblt" query_spatial_img_nh key_spatial_img_nh ;;
  dots_img_spatial <- broadcast2 Rdiv qk_s (scale self) ;;
  (* Line 59 of pseudo-code *)
  s1 <- broadcast2 Rplus dots_img rel_pos_key_img ;;
  s2 <- broadcast2 Rplus s1 rel_pos_query_img ;;
  img_attn_scores <- broadcast2 Rplus s2 dots_img_spatial ;;
  sm <- softmax text_attn_scores ;;
  let text_attn_probs := Dropout.forward (dropout self) (mask_text rng) sm in
  sm <- softmax img_attn_scores ;;
  let img_attn_probs := Dropout.forward (dropout self) (mask_img rng) sm in
  text_context <- einsum "hblt,hbtv->hblv" text_attn_probs value_text_nh ;;
  img_context <- einsum "hblt,hbtv->hblv" img_attn_probs value_img_nh ;;
  context <- broadcast2 Rplus text_context img_context ;;
  embeddings <- rearrange_merge_heads context ;;
  o <- Linear.forward (fst (to_out self)) embeddings ;;
  let returned := Dropout.forward (snd (to_out self)) (mask_out rng) o in
  Ok (mk_locals seq_length
        key_text_nh query_text_nh value_text_nh dots_text
        rel_pos_embed_text rel_pos_key_text rel_pos_query_text
        dots_text_spatial text_attn_scores
        key_img_nh query_img_nh value_img_nh dots_img
        rel_pos_embed_img rel_pos_key_img rel_pos_query_img
        dots_img_spatial img_attn_scores
        text_attn_probs img_attn_probs text_context img_context
        context embeddings returned).

Definition forward (self : t) (rng : draws)
    (text_feat img_feat text_spatial_feat img_spatial_feat : FloatTensor)
  : result FloatTensor :=
  fmap returned
    (forward_locals self rng text_feat img_feat text_spatial_feat
                    img_spatial_feat).

End MultiModalAttentionLayer.

(* ================================================================= *)
(** ** [nn.LayerNorm], [class PreNorm], [class PreNormAttn],
       [class FeedForward] *)

Module LayerNorm.

Record t : Type := mk {
  normalized_shape : nat;
  eps : R;
  weight : FloatTensor;
  bias : FloatTensor
}.

Definition init (dim : nat) (eps : R) (w b : list nat -> R) : t :=
  mk dim eps (mkTensor [dim] w) (mkTensor [dim] b).

(** Normalisation over the last dimension, with the biased variance. *)
Definition forward (self : t) (x : FloatTensor) : result FloatTensor :=
  d <- last_dim x ;;
  assert! (d =? normalized_shape self) else RuntimeError ;;
  Ok (mkTensor (shape x)
        (fun idx =>
           let pre := removelast idx in
           let j := last idx 0 in
           let mean := (sum_n d (fun i => data x (pre ++ [i])) / INR d)%R in
           let var :=
             (sum_n d (fun i => (data x (pre ++ [i]) - mean) *
                                (data x (pre ++ [i]) - mean)) / INR d)%R in
           ((data x idx - mean) / sqrt (var + eps self)
            * data (weight self) [j] + data (bias self) [j])%R)).

End LayerNorm.

(** The default [eps] of [nn.LayerNorm]. *)
Definition layer_norm_default_eps : R := (1 / 100000)%R.

Module PreNormAttn.

Record t : Type := mk {
  norm_t_bar : LayerNorm.t;
  norm_v_bar : LayerNorm.t;
  norm_t_bar_s : LayerNorm.t;
  norm_v_bar_s : LayerNorm.t;
  fn : MultiModalAttentionLayer.t
}.

Definition init (dim : nat) (fn : MultiModalAttentionLayer.t) (iv : init_values) : t :=
  let norm (name : string) :=
    LayerNorm.init dim layer_norm_default_eps
      (iv (name ++ ".weight")%string) (iv (name ++ ".bias")%string) in
  mk (norm "norm_t_bar"%string) (norm "norm_v_bar"%string)
     (norm "norm_t_bar_s"%string) (norm "norm_v_bar_s"%string) fn.

Definition forward (self : t) (rng : MultiModalAttentionLayer.draws)
    (t_bar v_bar t_bar_s v_bar_s : FloatTensor) : result FloatTensor :=
  a1 <- LayerNorm.forward (norm_t_bar self) t_bar ;;
  a2 <- LayerNorm.forward (norm_v_bar self) v_bar ;;
  a3 <- LayerNorm.forward (norm_t_bar_s self) t_bar_s ;;
  a4 <- LayerNorm.forward (norm_v_bar_s self) v_bar_s ;;
  MultiModalAttentionLayer.forward (fn self) rng a1 a2 a3 a4.

End PreNormAttn.

Module FeedForward.

(** [net = Sequential(Linear, GELU, Dropout, Linear, Dropout)]. *)
Record t : Type := mk {
  net_0 : Linear.t;
  net_2 : Dropout.t;
  net_3 : Linear.t;
  net_4 : Dropout.t
}.

Record draws : Type := mk_draws {
  mask_hidden : list nat -> bool;
  mask_out : list nat -> bool
}.

Definition init (dim hidden_dim : nat) (dropout : Q) (training : bool)
    (iv : init_values) : result t :=
  d2 <- Dropout.init dropout training ;;
  d4 <- Dropout.init dropout training ;;
  Ok (mk (Linear.init dim hidden_dim (iv "net.0.weight"%string)
                      (iv "net.0.bias"%string))
         d2
         (Linear.init hidden_dim dim (iv "net.3.weight"%string)
                      (iv "net.3.bias"%string))
         d4).

(** [gelu] is the activation [nn.GELU()] computes, [x * Phi(x)]; the
    error function is not part of the Standard Library and the
    activation is taken as given. *)
Definition forward (gelu : R -> R) (self : t) (rng : draws) (x : FloatTensor)
  : result FloatTensor :=
  h <- Linear.forward (net_0 self) x ;;
  let h := tmap gelu h in
  let h := Dropout.forward (net_2 self) (mask_hidden rng) h in
  o <- Linear.forward (net_3 self) h ;;
  Ok (Dropout.forward (net_4 self) (mask_out rng) o).

End FeedForward.

Module PreNorm.

Record t : Type := mk {
  norm : LayerNorm.t;
  fn : FeedForward.t
}.

Definition init (dim : nat) (fn : FeedForward.t) (iv : init_values) : t :=
  mk (LayerNorm.init dim layer_norm_default_eps
        (iv "norm.weight"%string) (iv "norm.bias"%string)) fn.

Definition forward (gelu : R -> R) (self : t) (rng : FeedForward.draws)
    (x : FloatTensor) : result FloatTensor :=
  n <- LayerNorm.forward (norm self) x ;;
  FeedForward.forward gelu (fn self) rng n.

End PreNorm.

(* ================================================================= *)
(** ** The configuration dictionary *)

Record config : Type := mk_config {
  vocab_size : nat;
  hidden_size : nat;
  pad_token_id : nat;
  max_position_embeddings : nat;
  max_2d_position_embeddings : nat;
  coordinate_size : nat;
  shape_size : nat;
  layer_norm_eps : R;
  hidden_dropout_prob : Q;
  num_hidden_layers : nat;
  num_attention_heads : nat;
  max_relative_positions : nat;
  intermediate_ff_size_factor : nat
}.

(* ================================================================= *)
(** ** [class DocFormerEncoder] *)

Module DocFormerEncoder.

Record block : Type := mk_block {
  attn : PreNormAttn.t;
  ff : PreNorm.t
}.

Record t : Type := mk {
  layers : list block
}.

Record draws : Type := mk_draws {
  attn_draws : MultiModalAttentionLayer.draws;
  ff_draws : FeedForward.draws
}.

Definition prefixed (prefix : string) (iv : init_values) : init_values :=
  fun name => iv (prefix ++ name)%string.

Definition init_block (cfg : config) (training : bool) (iv : init_values)
  : result block :=
  mmal <- MultiModalAttentionLayer.init
            (hidden_size cfg) (num_attention_heads cfg)
            (max_relative_positions cfg) (max_position_embeddings cfg)
            (hidden_dropout_prob cfg) training (prefixed "0.fn." iv) ;;
  f <- FeedForward.init (hidden_size cfg)
         (hidden_size cfg * intermediate_ff_size_factor cfg)
         (hidden_dropout_prob cfg) training (prefixed "1.fn." iv) ;;
  Ok (mk_block (PreNormAttn.init (hidden_size cfg) mmal (prefixed "0." iv))
               (PreNorm.init (hidden_size cfg) f (prefixed "1." iv))).

(** [for _ in range(n): self.layers.append(encoder_block)]; [iv i]
    are the values drawn for block [i]. *)
Fixpoint init_layers (cfg : config) (training : bool) (iv : nat -> init_values)
    (i n : nat) : result (list block) :=
  match n with
  | 0 => Ok []
  | S n' =>
      b <- init_block cfg training (iv i) ;;
      bs <- init_layers cfg training iv (S i) n' ;;
      Ok (b :: bs)
  end.

Definition init (cfg : config) (training : bool) (iv : nat -> init_values)
  : result t :=
  ls <- init_layers cfg training iv 0 (num_hidden_layers cfg) ;;
  Ok (mk ls).

(** What one pass of the loop body read and computed. *)
Record iteration : Type := mk_iteration {
  arg_text_feat : FloatTensor;
  arg_img_feat : FloatTensor;
  arg_text_spatial_feat : FloatTensor;
  arg_img_spatial_feat : FloatTensor;
  skip : FloatTensor;
  attn_out : FloatTensor;
  x_attn : FloatTensor;
  ff_out : FloatTensor;
  x : FloatTensor
}.

Definition body (gelu : R -> R) (b : block) (rng : draws)
    (text_feat img_feat text_spatial_feat img_spatial_feat : FloatTensor)
  : result iteration :=
  s1 <- broadcast2 Rplus text_feat img_feat ;;
  s2 <- broadcast2 Rplus s1 text_spatial_feat ;;
  skip <- broadcast2 Rplus s2 img_spatial_feat ;;
  a <- PreNormAttn.forward (attn b) (attn_draws rng)
         text_feat img_feat text_spatial_feat img_spatial_feat ;;
  x1 <- broadcast2 Rplus a skip ;;
  f <- PreNorm.forward gelu (ff b) (ff_draws rng) x1 ;;
  x2 <- broadcast2 Rplus f x1 ;;
  Ok (mk_iteration text_feat img_feat text_spatial_feat img_spatial_feat
                   skip a x1 f x2).

(** The loop over [self.layers]; the state is the variable
    [text_feat], the other three arguments are never assigned.  The
    list of iterations is returned in the order they ran; [rng i] are
    the masks drawn in iteration [i]. *)
Fixpoint loop (gelu : R -> R) (ls : list block) (rng : nat -> draws) (i : nat)
    (text_feat img_feat text_spatial_feat img_spatial_feat : FloatTensor)
  : result (list iteration) :=
  match ls with
  | [] => Ok []
  | b :: ls' =>
      it <- body gelu b (rng i)
              text_feat img_feat text_spatial_feat img_spatial_feat ;;
      let text_feat := x it in
      its <- loop gelu ls' rng (S i)
               text_feat img_feat text_spatial_feat img_spatial_feat ;;
      Ok (it :: its)
  end.

Definition forward_trace (gelu : R -> R) (self : t) (rng : nat -> draws)
    (text_feat img_feat text_spatial_feat img_spatial_feat : FloatTensor)
  : result (list iteration) :=
  loop gelu (layers self) rng 0
       text_feat img_feat text_spatial_feat img_spatial_feat.

(** [return x]: with no layer the local [x] was never assigned. *)
Definition forward (gelu : R -> R) (self : t) (rng : nat -> draws)
    (text_feat img_feat text_spatial_feat img_spatial_feat : FloatTensor)
  : result FloatTensor :=
  its <- forward_trace gelu self rng
           text_feat img_feat text_spatial_feat img_spatial_feat ;;
  match rev its with
  | it :: _ => Ok (x it)
  | [] => Raise UnboundLocalError
  end.

End DocFormerEncoder.

(* ================================================================= *)
(** ** Slice assignment and [nn.Embedding] *)

Definition zeros (s : list nat) : FloatTensor := mkTensor s (fun _ => 0%R).

(** Integer to floating tensor, the promotion [long * float] performs. *)
Definition to_float (x : LongTensor) : FloatTensor :=
  mkTensor (shape x) (fun idx => IZR (data x idx)).

(** [torch.arange(0, n, 2)]. *)
Definition arange_step2 (n : nat) : LongTensor :=
  mkTensor [(n + 1) / 2] (fun idx => (2 * Z.of_nat (hd 0%nat idx))%Z).

(** The right-hand side of a slice assignment is expanded to the shape
    of the slice: aligned at the last dimension, each of its sizes is
    the slice's or 1.  Both arguments last dimension first. *)
Fixpoint expandable_rev (src dst : list nat) : bool :=
  match src, dst with
  | [], _ => true
  | _ :: _, [] => false
  | a :: src', b :: dst' => ((a =? b) || (a =? 1)) && expandable_rev src' dst'
  end.

Definition expandable (src dst : list nat) : bool :=
  expandable_rev (rev src) (rev dst).

(** [x[..., start:stop] = v]. *)
Definition assign_last_slice (x : FloatTensor) (start stop : nat) (v : FloatTensor)
  : result FloatTensor :=
  d <- last_dim x ;;
  let stop' := Nat.min stop d in
  let start' := Nat.min start d in
  let width := stop' - start' in
  assert! (expandable (shape v) (removelast (shape x) ++ [width]))
    else RuntimeError ;;
  Ok (mkTensor (shape x)
        (fun idx =>
           let j := last idx 0 in
           if (start' <=? j) && (j <? stop')
           then data v (bidx (shape v) (removelast idx ++ [j - start']))
           else data x idx)).

(** [x[0, :, start::2] = v] for a three-dimensional [x]. *)
Definition assign_0_all_step2 (x : FloatTensor) (start : nat) (v : FloatTensor)
  : result FloatTensor :=
  match shape x with
  | [d0; d1; d2] =>
      assert! (negb (d0 =? 0)) else IndexError ;;
      let count := (d2 - Nat.min start d2 + 1) / 2 in
      assert! (expandable (shape v) [d1; count]) else RuntimeError ;;
      Ok (mkTensor (shape x)
            (fun idx =>
               match idx with
               | [0; i; j] =>
                   if (start <=? j) && Nat.even (j - start)
                   then data v (bidx (shape v) [i; (j - start) / 2])
                   else data x idx
               | _ => data x idx
               end))
  | _ => Raise IndexError
  end.

(** [x[:, :, i]] for a three-dimensional [x]. *)
Definition select_last {A} (x : Tensor A) (i : nat) : result (Tensor A) :=
  match shape x with
  | [d0; d1; d2] =>
      assert! (i <? d2) else IndexError ;;
      Ok (mkTensor [d0; d1] (fun idx => data x (idx ++ [i])))
  | _ => Raise IndexError
  end.

Module Embedding.

Record t : Type := mk {
  num_embeddings : nat;
  embedding_dim : nat;
  padding_idx : option nat;
  weight : FloatTensor
}.

(** [nn.Embedding(num_embeddings, embedding_dim, padding_idx)]: a
    positive [padding_idx] is asserted to be a row; the row is then
    zeroed, which raises for row 0 of an empty table. *)
Definition init (num_embeddings embedding_dim : nat) (padding_idx : option nat)
    (w : list nat -> R) : result t :=
  match padding_idx with
  | None =>
      Ok (mk num_embeddings embedding_dim None
             (mkTensor [num_embeddings; embedding_dim] w))
  | Some p =>
      assert! ((p =? 0) || (p <? num_embeddings)) else AssertionError ;;
      assert! (p <? num_embeddings) else IndexError ;;
      Ok (mk num_embeddings embedding_dim (Some p)
             (mkTensor [num_embeddings; embedding_dim]
                (fun idx => if hd 0 idx =? p then 0%R else w idx)))
  end.

(** Every entry of [input] must be a row, [0 <= v < num_embeddings]. *)
Definition forward (self : t) (input : LongTensor) : result FloatTensor :=
  assert! (forallb (fun i => (0 <=? data input i)%Z &&
                             (data input i <? Z.of_nat (num_embeddings self))%Z)
                   (indices (shape input)))
    else IndexError ;;
  Ok (mkTensor (shape input ++ [embedding_dim self])
        (fun idx =>
           data (weight self)
                [Z.to_nat (data input (removelast idx)); last idx 0])).

End Embedding.

(* ================================================================= *)
(** ** [class PositionalEncoding] *)

Module PositionalEncoding.

Record t : Type := mk {
  dropout : Dropout.t;
  max_len : nat;
  d_model : nat;
  pe : FloatTensor
}.

Definition init (d_model : nat) (dropout : Q) (max_len : nat) (training : bool)
  : result t :=
  dr <- Dropout.init dropout training ;;
  let position := to_float (unsqueeze_last (arange max_len)) in
  (* -math.log(10000.0) / d_model *)
  assert! (negb (d_model =? 0)) else ZeroDivisionError ;;
  let div_term :=
    tmap exp (tmap (fun v => (v * (- ln 10000 / INR d_model))%R)
                   (to_float (arange_step2 d_model))) in
  let pe := zeros [1; max_len; d_model] in
  arg <- broadcast2 Rmult position div_term ;;
  pe <- assign_0_all_step2 pe 0 (tmap sin arg) ;;
  arg <- broadcast2 Rmult position div_term ;;
  pe <- assign_0_all_step2 pe 1 (tmap cos arg) ;;
  Ok (mk dr max_len d_model pe).

(** [x = self.pe[0, :self.max_len]; self.dropout(x).unsqueeze(0)]. *)
Definition forward (self : t) (mask : list nat -> bool) : result FloatTensor :=
  match shape (pe self) with
  | d0 :: d1 :: rest =>
      assert! (negb (d0 =? 0)) else IndexError ;;
      let x := mkTensor (slice_stop (Z.of_nat (max_len self)) d1 :: rest)
                        (fun idx => data (pe self) (0 :: idx)) in
      Ok (unsqueeze_first (Dropout.forward (dropout self) mask x))
  | _ => Raise IndexError
  end.

End PositionalEncoding.

(* ================================================================= *)
(** ** [class DocFormerEmbeddings] *)

Module DocFormerEmbeddings.

Record t : Type := mk {
  cfg : config;
  word_embeddings : Embedding.t;
  position_embeddings_v : PositionalEncoding.t;
  x_v : Embedding.t;
  position_embeddings_t : PositionalEncoding.t;
  LayerNorm_ : LayerNorm.t;
  dropout : Dropout.t;
  x_embedding_v : list Embedding.t;
  y_embedding_v : list Embedding.t;
  x_embedding_t : list Embedding.t;
  y_embedding_t : list Embedding.t
}.

(** The eight tables of one axis of one stream, in the order of the
    lists [x_embedding_v] ... [y_embedding_t]: two of width
    [coordinate_size], six of width [shape_size]. *)
Definition eight (c : config) (iv : init_values) (names : list string)
  : result (list Embedding.t) :=
  let widths := [coordinate_size c; coordinate_size c;
                 shape_size c; shape_size c; shape_size c;
                 shape_size c; shape_size c; shape_size c] in
  fold_right
    (fun nw acc =>
       e <- Embedding.init (max_2d_position_embeddings c) (snd nw) None
              (iv (fst nw ++ ".weight")%string) ;;
       es <- acc ;;
       Ok (e :: es))
    (Ok []) (combine names widths).

Definition x_names (suffix : string) : list string :=
  map (fun n => (n ++ suffix)%string)
    ["x_topleft_position_embeddings"; "x_bottomright_position_embeddings";
     "w_position_embeddings"; "x_topleft_distance_to_prev_embeddings";
     "x_bottomleft_distance_to_prev_embeddings";
     "x_topright_distance_to_prev_embeddings";
     "x_bottomright_distance_to_prev_embeddings";
     "x_centroid_distance_to_prev_embeddings"]%string.

Definition y_names (suffix : string) : list string :=
  map (fun n => (n ++ suffix)%string)
    ["y_topleft_position_embeddings"; "y_bottomright_position_embeddings";
     "h_position_embeddings"; "y_topleft_distance_to_prev_embeddings";
     "y_bottomleft_distance_to_prev_embeddings";
     "y_topright_distance_to_prev_embeddings";
     "y_bottomright_distance_to_prev_embeddings";
     "y_centroid_distance_to_prev_embeddings"]%string.

Definition init (c : config) (training : bool) (iv : init_values) : result t :=
  word_embeddings <-
    Embedding.init (vocab_size c) (hidden_size c) (Some (pad_token_id c))
      (iv "word_embeddings.weight"%string) ;;
  position_embeddings_v <-
    PositionalEncoding.init (hidden_size c) (1 # 10)%Q (max_position_embeddings c)
      training ;;
  x_v <- Embedding.init (max_2d_position_embeddings c) (coordinate_size c) None
           (iv "x_v.weight"%string) ;;
  xs_v <- eight c iv (x_names "_v") ;;
  ys_v <- eight c iv (y_names "_v") ;;
  position_embeddings_t <-
    PositionalEncoding.init (hidden_size c) (1 # 10)%Q (max_position_embeddings c)
      training ;;
  xs_t <- eight c iv (x_names "_t") ;;
  ys_t <- eight c iv (y_names "_t") ;;
  let ln := LayerNorm.init (hidden_size c) (layer_norm_eps c)
              (iv "LayerNorm.weight"%string) (iv "LayerNorm.bias"%string) in
  dr <- Dropout.init (hidden_dropout_prob c) training ;;
  Ok (mk c word_embeddings position_embeddings_v x_v position_embeddings_t
         ln dr xs_v ys_v xs_t ys_t).

Record draws : Type := mk_draws {
  mask_v : list nat -> bool;
  mask_t : list nat -> bool
}.

(** One [for i in range(num_feat)] loop; the state is the pair of
    tensors the body assigns into. *)
Fixpoint fill (xs ys : list Embedding.t) (x_feature y_feature : LongTensor)
    (sub_dim : nat) (range : list nat) (x_calc y_calc : FloatTensor)
  : result (FloatTensor * FloatTensor) :=
  match range with
  | [] => Ok (x_calc, y_calc)
  | i :: range' =>
      temp_x <- select_last x_feature i ;;
      ex <- match nth_error xs i with
            | Some e => Embedding.forward e temp_x
            | None => Raise IndexError
            end ;;
      x_calc <- assign_last_slice x_calc (i * sub_dim) ((i + 1) * sub_dim) ex ;;
      temp_y <- select_last y_feature i ;;
      ey <- match nth_error ys i with
            | Some e => Embedding.forward e temp_y
            | None => Raise IndexError
            end ;;
      y_calc <- assign_last_slice y_calc (i * sub_dim) ((i + 1) * sub_dim) ey ;;
      fill xs ys x_feature y_feature sub_dim range' x_calc y_calc
  end.

Definition forward (self : t) (rng : draws) (x_feature y_feature : LongTensor)
  : result (FloatTensor * FloatTensor) :=
  match shape x_feature with
  | [batch; seq_len; num_feat] =>
      let hidden_size := hidden_size (cfg self) in
      assert! (negb (num_feat =? 0)) else ZeroDivisionError ;;
      let sub_dim := hidden_size / num_feat in
      let x_calculated_embedding_v := zeros [batch; seq_len; hidden_size] in
      let y_calculated_embedding_v := zeros [batch; seq_len; hidden_size] in
      xy <- fill (x_embedding_v self) (y_embedding_v self) x_feature y_feature
              sub_dim (seq 0 num_feat)
              x_calculated_embedding_v y_calculated_embedding_v ;;
      s <- broadcast2 Rplus (fst xy) (snd xy) ;;
      pos <- PositionalEncoding.forward (position_embeddings_v self) (mask_v rng) ;;
      v_bar_s <- broadcast2 Rplus s pos ;;
      let x_calculated_embedding_t := zeros [batch; seq_len; hidden_size] in
      let y_calculated_embedding_t := zeros [batch; seq_len; hidden_size] in
      xy <- fill (x_embedding_t self) (y_embedding_t self) x_feature y_feature
              sub_dim (seq 0 num_feat)
              x_calculated_embedding_t y_calculated_embedding_t ;;
      s <- broadcast2 Rplus (fst xy) (snd xy) ;;
      pos <- PositionalEncoding.forward (position_embeddings_t self) (mask_t rng) ;;
      t_bar_s <- broadcast2 Rplus s pos ;;
      Ok (v_bar_s, t_bar_s)
  | _ => Raise ValueError
  end.

End DocFormerEmbeddings.

(* ================================================================= *)
(** ** Vocabulary of the statements *)

(** [dot n f g] is the sum of [f j * g j] for [j < n]. *)
Definition dot (n : nat) (f g : nat -> R) : R :=
  sum_n n (fun j => (f j * g j)%R).

(** Element [[b, t, j]] of [lin(x)]. *)
Definition linear_at (lin : Linear.t) (x : FloatTensor) (b t j : nat) : R :=
  (sum_n (Linear.in_features lin)
         (fun i => data x [b; t; i] * data (Linear.weight lin) [j; i])
   + data (Linear.bias lin) [j])%R.

(** Element [[h, b, t, k]] of [rearrange(lin(x), 'b t (head k) -> head b t k')]
    for heads of width [hd]. *)
Definition head_at (lin : Linear.t) (x : FloatTensor) (hd h b t k : nat) : R :=
  linear_at lin x b t (h * hd + k).

(** The row of the embedding table for query position [q] and key
    position [k]: the clipped distance, shifted. *)
Definition rel_index (mrp q k : nat) : nat :=
  Z.to_nat (clamp_Z (- Z.of_nat mrp) (Z.of_nat mrp) (Z.of_nat k - Z.of_nat q)
            + Z.of_nat mrp).

(** [x] multiplied by the constant [c]. *)
Definition scaled (c : R) (x : FloatTensor) : FloatTensor :=
  tmap (fun v => (c * v)%R) x.

(** What [Dropout.forward] makes of one element [v] whose mask bit is
    [keep]. *)
Definition dropout_at (d : Dropout.t) (keep : bool) (v : R) : R :=
  if Dropout.training d
  then if keep then (v / (1 - Q2R (Dropout.p d)))%R else 0%R
  else v.

(** The local variables [loc] of a call of
    [MultiModalAttentionLayer.forward] on four inputs of shape
    [(B, T, embed_dim)], each described by its shape and its elements in
    terms of the variables assigned before it. *)
Record attention_run (self : MultiModalAttentionLayer.t)
    (rng : MultiModalAttentionLayer.draws)
    (text_feat img_feat text_spatial_feat img_spatial_feat : FloatTensor)
    (B T : nat) (loc : MultiModalAttentionLayer.locals) : Prop := {
  run_seq_length : MultiModalAttentionLayer.seq_length loc = T;
  run_key_text :
    shape (MultiModalAttentionLayer.key_text_nh loc) =
      [MultiModalAttentionLayer.n_heads self; B; T;
       MultiModalAttentionLayer.head_dim self] /\
    forall h b t k,
      data (MultiModalAttentionLayer.key_text_nh loc) [h; b; t; k] =
      head_at (MultiModalAttentionLayer.fc_k_text self) text_feat
              (MultiModalAttentionLayer.head_dim self) h b t k;
  run_query_text :
    shape (MultiModalAttentionLayer.query_text_nh loc) =
      [MultiModalAttentionLayer.n_heads self; B; T;
       MultiModalAttentionLayer.head_dim self] /\
    forall h b t k,
      data (MultiModalAttentionLayer.query_text_nh loc) [h; b; t; k] =
      head_at (MultiModalAttentionLayer.fc_q_text self) text_feat
              (MultiModalAttentionLayer.head_dim self) h b t k;
  run_value_text :
    shape (MultiModalAttentionLayer.value_text_nh loc) =
      [MultiModalAttentionLayer.n_heads self; B; T;
       MultiModalAttentionLayer.head_dim self] /\
    forall h b t k,
      data (MultiModalAttentionLayer.value_text_nh loc) [h; b; t; k] =
      head_at (MultiModalAttentionLayer.fc_v_text self) text_feat
              (MultiModalAttentionLayer.head_dim self) h b t k;
  run_dots_text :
    shape (MultiModalAttentionLayer.dots_text loc) =
      [MultiModalAttentionLayer.n_heads self; B; T; T] /\
    forall h b l t,
      h < MultiModalAttentionLayer.n_heads self -> b < B -> l < T -> t < T ->
      data (MultiModalAttentionLayer.dots_text loc) [h; b; l; t] =
      (dot (MultiModalAttentionLayer.head_dim self)
           (fun k => data (MultiModalAttentionLayer.query_text_nh loc) [h; b; l; k])
           (fun k => data (MultiModalAttentionLayer.key_text_nh loc) [h; b; t; k])
       / sqrt (INR (MultiModalAttentionLayer.embed_dim self)))%R;
  run_rel_pos_embed_text :
    shape (MultiModalAttentionLayer.rel_pos_embed_text loc) =
      [T; T; MultiModalAttentionLayer.head_dim self] /\
    forall l r d, l < T -> r < T ->
      data (MultiModalAttentionLayer.rel_pos_embed_text loc) [l; r; d] =
      data (RelativePosition.embeddings_table
              (MultiModalAttentionLayer.relative_positions_text self))
           [rel_index (RelativePosition.max_relative_position
                         (MultiModalAttentionLayer.relative_positions_text self))
                      l r; d];
  run_rel_pos_key_text :
    shape (MultiModalAttentionLayer.rel_pos_key_text loc) =
      [MultiModalAttentionLayer.n_heads self; B; T; T] /\
    forall h b l r,
      h < MultiModalAttentionLayer.n_heads self -> b < B -> l < T -> r < T ->
      data (MultiModalAttentionLayer.rel_pos_key_text loc) [h; b; l; r] =
      dot (MultiModalAttentionLayer.head_dim self)
          (fun d => data (MultiModalAttentionLayer.key_text_nh loc) [h; b; r; d])
          (fun d => data (MultiModalAttentionLayer.rel_pos_embed_text loc) [l; r; d]);
  run_rel_pos_query_text :
    shape (MultiModalAttentionLayer.rel_pos_query_text loc) =
      [MultiModalAttentionLayer.n_heads self; B; T; T] /\
    forall h b l r,
      h < MultiModalAttentionLayer.n_heads self -> b < B -> l < T -> r < T ->
      data (MultiModalAttentionLayer.rel_pos_query_text loc) [h; b; l; r] =
      dot (MultiModalAttentionLayer.head_dim self)
          (fun d => data (MultiModalAttentionLayer.query_text_nh loc) [h; b; l; d])
          (fun d => data (MultiModalAttentionLayer.rel_pos_embed_text loc) [l; r; d]);
  run_dots_text_spatial :
    shape (MultiModalAttentionLayer.dots_text_spatial loc) =
      [MultiModalAttentionLayer.n_heads self; B; T; T] /\
    forall h b l t,
      h < MultiModalAttentionLayer.n_heads self -> b < B -> l < T -> t < T ->
      data (MultiModalAttentionLayer.dots_text_spatial loc) [h; b; l; t] =
      (dot (MultiModalAttentionLayer.head_dim self)
           (fun k => head_at (MultiModalAttentionLayer.fc_q_spatial self)
                             text_spatial_feat
                             (MultiModalAttentionLayer.head_dim self) h b l k)
           (fun k => head_at (MultiModalAttentionLayer.fc_k_spatial self)
                             text_spatial_feat
                             (MultiModalAttentionLayer.head_dim self) h b t k)
       / sqrt (INR (MultiModalAttentionLayer.embed_dim self)))%R;
  run_text_attn_scores :
    shape (MultiModalAttentionLayer.text_attn_scores loc) =
      [MultiModalAttentionLayer.n_heads self; B; T; T] /\
    forall h b l t,
      h < MultiModalAttentionLayer.n_heads self -> b < B -> l < T -> t < T ->
      data (MultiModalAttentionLayer.text_attn_scores loc) [h; b; l; t] =
      (data (MultiModalAttentionLayer.dots_text loc) [h; b; l; t]
       + data (MultiModalAttentionLayer.rel_pos_key_text loc) [h; b; l; t]
       + data (MultiModalAttentionLayer.rel_pos_query_text loc) [h; b; l; t]
       + data (MultiModalAttentionLayer.dots_text_spatial loc) [h; b; l; t])%R;
  run_key_img :
    shape (MultiModalAttentionLayer.key_img_nh loc) =
      [MultiModalAttentionLayer.n_heads self; B; T;
       MultiModalAttentionLayer.head_dim self] /\
    forall h b t k,
      data (MultiModalAttentionLayer.key_img_nh loc) [h; b; t; k] =
      head_at (MultiModalAttentionLayer.fc_k_img self) img_feat
              (MultiModalAttentionLayer.head_dim self) h b t k;
  run_query_img :
    shape (MultiModalAttentionLayer.query_img_nh loc) =
      [MultiModalAttentionLayer.n_heads self; B; T;
       MultiModalAttentionLayer.head_dim self] /\
    forall h b t k,
      data (MultiModalAttentionLayer.query_img_nh loc) [h; b; t; k] =
      head_at (MultiModalAttentionLayer.fc_q_img self) img_feat
              (MultiModalAttentionLayer.head_dim self) h b t k;
  run_value_img :
    shape (MultiModalAttentionLayer.value_img_nh loc) =
      [MultiModalAttentionLayer.n_heads self; B; T;
       MultiModalAttentionLayer.head_dim self] /\
    forall h b t k,
      data (MultiModalAttentionLayer.value_img_nh loc) [h; b; t; k] =
      head_at (MultiModalAttentionLayer.fc_v_img self) img_feat
              (MultiModalAttentionLayer.head_dim self) h b t k;
  run_dots_img :
    shape (MultiModalAttentionLayer.dots_img loc) =
      [MultiModalAttentionLayer.n_heads self; B; T; T] /\
    forall h b l t,
      h < MultiModalAttentionLayer.n_heads self -> b < B -> l < T -> t < T ->
      data (MultiModalAttentionLayer.dots_img loc) [h; b; l; t] =
      (dot (MultiModalAttentionLayer.head_dim self)
           (fun k => data (MultiModalAttentionLayer.query_img_nh loc) [h; b; l; k])
           (fun k => data (MultiModalAttentionLayer.key_img_nh loc) [h; b; t; k])
       / sqrt (INR (MultiModalAttentionLayer.embed_dim self)))%R;
  run_rel_pos_embed_img :
    shape (MultiModalAttentionLayer.rel_pos_embed_img loc) =
      [T; T; MultiModalAttentionLayer.head_dim self] /\
    forall l r d, l < T -> r < T ->
      data (MultiModalAttentionLayer.rel_pos_embed_img loc) [l; r; d] =
      data (RelativePosition.embeddings_table
              (MultiModalAttentionLayer.relative_positions_img self))
           [rel_index (RelativePosition.max_relative_position
                         (MultiModalAttentionLayer.relative_positions_img self))
                      l r; d];
  run_rel_pos_key_img :
    shape (MultiModalAttentionLayer.rel_pos_key_img loc) =
      [MultiModalAttentionLayer.n_heads self; B; T; T] /\
    forall h b l r,
      h < MultiModalAttentionLayer.n_heads self -> b < B -> l < T -> r < T ->
      data (MultiModalAttentionLayer.rel_pos_key_img loc) [h; b; l; r] =
      dot (MultiModalAttentionLayer.head_dim self)
          (fun d => data (MultiModalAttentionLayer.key_img_nh loc) [h; b; r; d])
          (fun d => data (MultiModalAttentionLayer.rel_pos_embed_text loc) [l; r; d]);
  run_rel_pos_query_img :
    shape (MultiModalAttentionLayer.rel_pos_query_img loc) =
      [MultiModalAttentionLayer.n_heads self; B; T; T] /\
    forall h b l r,
      h < MultiModalAttentionLayer.n_heads self -> b < B -> l < T -> r < T ->
      data (MultiModalAttentionLayer.rel_pos_query_img loc) [h; b; l; r] =
      dot (MultiModalAttentionLayer.head_dim self)
          (fun d => data (MultiModalAttentionLayer.query_img_nh loc) [h; b; l; d])
          (fun d => data (MultiModalAttentionLayer.rel_pos_embed_text loc) [l; r; d]);
  run_dots_img_spatial :
    shape (MultiModalAttentionLayer.dots_img_spatial loc) =
      [MultiModalAttentionLayer.n_heads self; B; T; T] /\
    forall h b l t,
      h < MultiModalAttentionLayer.n_heads self -> b < B -> l < T -> t < T ->
      data (MultiModalAttentionLayer.dots_img_spatial loc) [h; b; l; t] =
      (dot (MultiModalAttentionLayer.head_dim self)
           (fun k => head_at (MultiModalAttentionLayer.fc_q_spatial self)
                             img_spatial_feat
                             (MultiModalAttentionLayer.head_dim self) h b l k)
           (fun k => head_at (MultiModalAttentionLayer.fc_k_spatial self)
                             img_spatial_feat
                             (MultiModalAttentionLayer.head_dim self) h b t k)
       / sqrt (INR (MultiModalAttentionLayer.embed_dim self)))%R;
  run_img_attn_scores :
    shape (MultiModalAttentionLayer.img_attn_scores loc) =
      [MultiModalAttentionLayer.n_heads self; B; T; T] /\
    forall h b l t,
      h < MultiModalAttentionLayer.n_heads self -> b < B -> l < T -> t < T ->
      data (MultiModalAttentionLayer.img_attn_scores loc) [h; b; l; t] =
      (data (MultiModalAttentionLayer.dots_img loc) [h; b; l; t]
       + data (MultiModalAttentionLayer.rel_pos_key_img loc) [h; b; l; t]
       + data (MultiModalAttentionLayer.rel_pos_query_img loc) [h; b; l; t]
       + data (MultiModalAttentionLayer.dots_img_spatial loc) [h; b; l; t])%R;
  run_text_attn_probs :
    shape (MultiModalAttentionLayer.text_attn_probs loc) =
      [MultiModalAttentionLayer.n_heads self; B; T; T] /\
    forall h b l t,
      data (MultiModalAttentionLayer.text_attn_probs loc) [h; b; l; t] =
      dropout_at (MultiModalAttentionLayer.dropout self)
        (MultiModalAttentionLayer.mask_text rng [h; b; l; t])
        (exp (data (MultiModalAttentionLayer.text_attn_scores loc) [h; b; l; t]) /
         sum_n T (fun j =>
           exp (data (MultiModalAttentionLayer.text_attn_scores loc) [h; b; l; j])))%R;
  run_img_attn_probs :
    shape (MultiModalAttentionLayer.img_attn_probs loc) =
      [MultiModalAttentionLayer.n_heads self; B; T; T] /\
    forall h b l t,
      data (MultiModalAttentionLayer.img_attn_probs loc) [h; b; l; t] =
      dropout_at (MultiModalAttentionLayer.dropout self)
        (MultiModalAttentionLayer.mask_img rng [h; b; l; t])
        (exp (data (MultiModalAttentionLayer.img_attn_scores loc) [h; b; l; t]) /
         sum_n T (fun j =>
           exp (data (MultiModalAttentionLayer.img_attn_scores loc) [h; b; l; j])))%R;
  run_text_context :
    shape (MultiModalAttentionLayer.text_context loc) =
      [MultiModalAttentionLayer.n_heads self; B; T;
       MultiModalAttentionLayer.head_dim self] /\
    forall h b l v,
      h < MultiModalAttentionLayer.n_heads self -> b < B -> l < T ->
      v < MultiModalAttentionLayer.head_dim self ->
      data (MultiModalAttentionLayer.text_context loc) [h; b; l; v] =
      dot T
          (fun t => data (MultiModalAttentionLayer.text_attn_probs loc) [h; b; l; t])
          (fun t => data (MultiModalAttentionLayer.value_text_nh loc) [h; b; t; v]);
  run_img_context :
    shape (MultiModalAttentionLayer.img_context loc) =
      [MultiModalAttentionLayer.n_heads self; B; T;
       MultiModalAttentionLayer.head_dim self] /\
    forall h b l v,
      h < MultiModalAttentionLayer.n_heads self -> b < B -> l < T ->
      v < MultiModalAttentionLayer.head_dim self ->
      data (MultiModalAttentionLayer.img_context loc) [h; b; l; v] =
      dot T
          (fun t => data (MultiModalAttentionLayer.img_attn_probs loc) [h; b; l; t])
          (fun t => data (MultiModalAttentionLayer.value_img_nh loc) [h; b; t; v]);
  run_context :
    shape (MultiModalAttentionLayer.context loc) =
      [MultiModalAttentionLayer.n_heads self; B; T;
       MultiModalAttentionLayer.head_dim self] /\
    forall h b l v,
      h < MultiModalAttentionLayer.n_heads self -> b < B -> l < T ->
      v < MultiModalAttentionLayer.head_dim self ->
      data (MultiModalAttentionLayer.context loc) [h; b; l; v] =
      (data (MultiModalAttentionLayer.text_context loc) [h; b; l; v]
       + data (MultiModalAttentionLayer.img_context loc) [h; b; l; v])%R;
  run_embeddings :
    shape (MultiModalAttentionLayer.embeddings loc) =
      [B; T; MultiModalAttentionLayer.n_heads self *
             MultiModalAttentionLayer.head_dim self] /\
    forall b t j,
      data (MultiModalAttentionLayer.embeddings loc) [b; t; j] =
      data (MultiModalAttentionLayer.context loc)
           [j / MultiModalAttentionLayer.head_dim self; b; t;
            j mod MultiModalAttentionLayer.head_dim self];
  run_returned :
    shape (MultiModalAttentionLayer.returned loc) =
      [B; T; MultiModalAttentionLayer.embed_dim self] /\
    forall b t j,
      data (MultiModalAttentionLayer.returned loc) [b; t; j] =
      dropout_at (snd (MultiModalAttentionLayer.to_out self))
        (MultiModalAttentionLayer.mask_out rng [b; t; j])
        (linear_at (fst (MultiModalAttentionLayer.to_out self))
                   (MultiModalAttentionLayer.embeddings loc) b t j)
}.

(** The layer [self] after the contents of
    [relative_positions_img.embeddings_table] were overwritten by
    [values]; the shape of the table and everything else are kept. *)
Definition with_img_table_values (self : MultiModalAttentionLayer.t)
    (values : list nat -> R) : MultiModalAttentionLayer.t :=
  let rp := MultiModalAttentionLayer.relative_positions_img self in
  MultiModalAttentionLayer.mk
    (MultiModalAttentionLayer.embed_dim self)
    (MultiModalAttentionLayer.n_heads self)
    (MultiModalAttentionLayer.head_dim self)
    (MultiModalAttentionLayer.relative_positions_text self)
    (RelativePosition.mk
       (RelativePosition.num_units rp)
       (RelativePosition.max_relative_position rp)
       (mkTensor (shape (RelativePosition.embeddings_table rp)) values)
       (RelativePosition.max_length rp)
       (RelativePosition.final_mat rp))
    (MultiModalAttentionLayer.fc_k_text self)
    (MultiModalAttentionLayer.fc_q_text self)
    (MultiModalAttentionLayer.fc_v_text self)
    (MultiModalAttentionLayer.fc_k_img self)
    (MultiModalAttentionLayer.fc_q_img self)
    (MultiModalAttentionLayer.fc_v_img self)
    (MultiModalAttentionLayer.fc_k_spatial self)
    (MultiModalAttentionLayer.fc_q_spatial self)
    (MultiModalAttentionLayer.dropout self)
    (MultiModalAttentionLayer.to_out self)
    (MultiModalAttentionLayer.scale self).

(** The local variables of [forward] other than [rel_pos_embed_img]
    that belong to the image branch or follow it. *)
Definition after_img_lookup (loc : MultiModalAttentionLayer.locals)
  : list FloatTensor :=
  [MultiModalAttentionLayer.rel_pos_key_img loc;
   MultiModalAttentionLayer.rel_pos_query_img loc;
   MultiModalAttentionLayer.dots_img_spatial loc;
   MultiModalAttentionLayer.img_attn_scores loc;
   MultiModalAttentionLayer.text_attn_probs loc;
   MultiModalAttentionLayer.img_attn_probs loc;
   MultiModalAttentionLayer.text_context loc;
   MultiModalAttentionLayer.img_context loc;
   MultiModalAttentionLayer.context loc;
   MultiModalAttentionLayer.embeddings loc;
   MultiModalAttentionLayer.returned loc].

(** The relative-position terms and the spatial term of the attention
    score are zero, in both modalities, at every position of a call on
    [B] sequences of length [T] with [nh] heads. *)
Definition rel_and_spatial_terms_zero (nh B T : nat)
    (loc : MultiModalAttentionLayer.locals) : Prop :=
  forall h b l t, h < nh -> b < B -> l < T -> t < T ->
    data (MultiModalAttentionLayer.rel_pos_key_text loc) [h; b; l; t] = 0%R /\
    data (MultiModalAttentionLayer.rel_pos_query_text loc) [h; b; l; t] = 0%R /\
    data (MultiModalAttentionLayer.dots_text_spatial loc) [h; b; l; t] = 0%R /\
    data (MultiModalAttentionLayer.rel_pos_key_img loc) [h; b; l; t] = 0%R /\
    data (MultiModalAttentionLayer.rel_pos_query_img loc) [h; b; l; t] = 0%R /\
    data (MultiModalAttentionLayer.dots_img_spatial loc) [h; b; l; t] = 0%R.

(** The query and key projections of both modalities have no bias. *)
Definition no_qk_bias (self : MultiModalAttentionLayer.t) : Prop :=
  forall j,
    data (Linear.bias (MultiModalAttentionLayer.fc_q_text self)) [j] = 0%R /\
    data (Linear.bias (MultiModalAttentionLayer.fc_k_text self)) [j] = 0%R /\
    data (Linear.bias (MultiModalAttentionLayer.fc_q_img self)) [j] = 0%R /\
    data (Linear.bias (MultiModalAttentionLayer.fc_k_img self)) [j] = 0%R.

(** Parameter values for examples: the text query and key projections
    have weight 1, every other parameter is 0. *)
Definition unit_text_qk : init_values :=
  fun name _ =>
    if (String.eqb name "fc_q_text.weight" || String.eqb name "fc_k_text.weight")%bool
    then 1%R else 0%R.

(** An input for examples: one sequence of two positions of width 1,
    holding 0 and 1. *)
Definition zero_one : FloatTensor :=
  mkTensor [1; 2; 1]
    (fun idx => match idx with
                | [_; 1; _] => 1%R
                | _ => 0%R
                end).

(** Draws for examples: every mask keeps every element. *)
Definition keep_all : MultiModalAttentionLayer.draws :=
  MultiModalAttentionLayer.mk_draws (fun _ => true) (fun _ => true) (fun _ => true).

(** The value of the variable [text_feat] when iteration [i] of the loop
    of [DocFormerEncoder.forward] starts: the argument for the first
    iteration, the [x] of the iteration before for the others. *)
Definition text_feat_at (text_feat : FloatTensor)
    (its : list DocFormerEncoder.iteration) (i : nat) : FloatTensor :=
  match i with
  | 0 => text_feat
  | S j => match nth_error its j with
           | Some prev => DocFormerEncoder.x prev
           | None => text_feat
           end
  end.

(** One iteration [it] of the loop of [DocFormerEncoder.forward], run
    with block [blk] and masks [d] while the variable [text_feat] holds
    [text_in], on tensors of shape [(B, T, H)]. *)
Record encoder_iteration (gelu : R -> R) (blk : DocFormerEncoder.block)
    (d : DocFormerEncoder.draws)
    (text_in img_feat text_spatial_feat img_spatial_feat : FloatTensor)
    (B T H : nat) (it : DocFormerEncoder.iteration) : Prop := {
  it_args :
    DocFormerEncoder.arg_text_feat it = text_in /\
    DocFormerEncoder.arg_img_feat it = img_feat /\
    DocFormerEncoder.arg_text_spatial_feat it = text_spatial_feat /\
    DocFormerEncoder.arg_img_spatial_feat it = img_spatial_feat;
  it_skip :
    shape (DocFormerEncoder.skip it) = [B; T; H] /\
    forall b t j, b < B -> t < T -> j < H ->
      data (DocFormerEncoder.skip it) [b; t; j] =
      (data text_in [b; t; j] + data img_feat [b; t; j]
       + data text_spatial_feat [b; t; j] + data img_spatial_feat [b; t; j])%R;
  it_attn :
    PreNormAttn.forward (DocFormerEncoder.attn blk)
      (DocFormerEncoder.attn_draws d)
      text_in img_feat text_spatial_feat img_spatial_feat
      = Ok (DocFormerEncoder.attn_out it) /\
    shape (DocFormerEncoder.attn_out it) = [B; T; H];
  it_x_attn :
    shape (DocFormerEncoder.x_attn it) = [B; T; H] /\
    forall b t j, b < B -> t < T -> j < H ->
      data (DocFormerEncoder.x_attn it) [b; t; j] =
      (data (DocFormerEncoder.attn_out it) [b; t; j]
       + data (DocFormerEncoder.skip it) [b; t; j])%R;
  it_ff :
    PreNorm.forward gelu (DocFormerEncoder.ff blk) (DocFormerEncoder.ff_draws d)
      (DocFormerEncoder.x_attn it) = Ok (DocFormerEncoder.ff_out it) /\
    shape (DocFormerEncoder.ff_out it) = [B; T; H];
  it_x :
    shape (DocFormerEncoder.x it) = [B; T; H] /\
    forall b t j, b < B -> t < T -> j < H ->
      data (DocFormerEncoder.x it) [b; t; j] =
      (data (DocFormerEncoder.ff_out it) [b; t; j]
       + data (DocFormerEncoder.x_attn it) [b; t; j])%R
}.

(** A configuration for examples: two layers, one head, hidden size 2,
    sequences of at most 2 positions, no dropout. *)
Definition small_config : config :=
  mk_config 1 2 0 2 1 1 1 layer_norm_default_eps 0%Q 2 1 1 1.

(** A configuration for examples whose hidden size, 12, is not a
    multiple of 8; each feature is embedded in one column. *)
Definition config_12 : config :=
  mk_config 1 12 0 2 1 1 1 layer_norm_default_eps 0%Q 1 1 1 1.

(** Draws for examples: every mask keeps every element. *)
Definition encoder_keep_all : nat -> DocFormerEncoder.draws :=
  fun _ => DocFormerEncoder.mk_draws keep_all
             (FeedForward.mk_draws (fun _ => true) (fun _ => true)).

Definition embeddings_keep_all : DocFormerEmbeddings.draws :=
  DocFormerEmbeddings.mk_draws (fun _ => true) (fun _ => true).

(** Geometric features for examples: every bucket index is 0. *)
Definition zero_features (s : list nat) : LongTensor :=
  mkTensor s (fun _ => 0%Z).

(** [total] is [dots + rel_key + rel_query + spatial], evaluated from
    the left with broadcasting, where [dots] is the contraction of [q]
    and [k] over the head, divided by [scale], and [spatial] is a tensor
    divided by [scale]. *)
Definition sum_of_four_terms (scale q k dots rel_key rel_query spatial total
                              : FloatTensor) : Prop :=
  exists qk qk_s s1 s2,
    einsum "hblk,hbtk->hblt" q k = Ok qk /\
    broadcast2 Rdiv qk scale = Ok dots /\
    broadcast2 Rdiv qk_s scale = Ok spatial /\
    broadcast2 Rplus dots rel_key = Ok s1 /\
    broadcast2 Rplus s1 rel_query = Ok s2 /\
    broadcast2 Rplus s2 spatial = Ok total.

From Stdlib Require Import FunctionalExtensionality.

(* ================================================================= *)
(** ** [class LanguageFeatureExtractor] *)

Module LanguageFeatureExtractor.

Record t : Type := mk {
  embedding_vector : Embedding.t
}.

Definition init (max_vocab_size hidden_dim : nat) (iv : init_values) : result t :=
  e <- Embedding.init max_vocab_size hidden_dim None
         (iv "embedding_vector.weight"%string) ;;
  Ok (mk e).

Definition forward (self : t) (x : LongTensor) : result FloatTensor :=
  Embedding.forward (embedding_vector self) x.

End LanguageFeatureExtractor.

(* ================================================================= *)
(** ** [nn.Conv2d], [nn.BatchNorm2d] and the activations *)

(** [F.relu], [nn.ReLU()] and [torch.sigmoid] on one element. *)
Definition relu (v : R) : R := Rmax 0 v.

Definition sigmoid (v : R) : R := (1 / (1 + exp (- v)))%R.

Module Conv2d.

(** The source gives the channels, a square kernel and sometimes a
    stride; padding is 0 and dilation 1, the defaults.  Kernel size and
    stride are positive in every call of the source. *)
Record t : Type := mk {
  in_channels : nat;
  out_channels : nat;
  kernel_size : nat;
  stride : nat;
  weight : FloatTensor;      (* (out_channels, in_channels, k, k) *)
  bias : FloatTensor         (* (out_channels) *)
}.

Definition init (in_channels out_channels kernel_size stride : nat)
    (w b : list nat -> R) : t :=
  mk in_channels out_channels kernel_size stride
     (mkTensor [out_channels; in_channels; kernel_size; kernel_size] w)
     (mkTensor [out_channels] b).

(** The size of an output dimension for an input dimension of size
    [n >= kernel_size]. *)
Definition out_size (self : t) (n : nat) : nat :=
  (n - kernel_size self) / stride self + 1.

(** Output channel [o] at position [(i, j)] for one image [img], read
    at [[c; row; column]]. *)
Definition at_position (self : t) (img : list nat -> R) (o i j : nat) : R :=
  (sum_n (in_channels self) (fun c =>
     sum_n (kernel_size self) (fun di =>
       sum_n (kernel_size self) (fun dj =>
         img [c; (i * stride self + di)%nat; (j * stride self + dj)%nat]
         * data (weight self) [o; c; di; dj])))
   + data (bias self) [o])%R.

(** A batch [(N, C, H, W)] or one image [(C, H, W)]; the channels must
    be [in_channels] and the kernel must fit into the image. *)
Definition forward (self : t) (x : FloatTensor) : result FloatTensor :=
  match shape x with
  | [n; c; h; w] =>
      assert! (c =? in_channels self) else RuntimeError ;;
      assert! ((kernel_size self <=? h) && (kernel_size self <=? w))
        else RuntimeError ;;
      Ok (mkTensor [n; out_channels self; out_size self h; out_size self w]
            (fun idx => match idx with
                        | [b; o; i; j] =>
                            at_position self (fun cij => data x (b :: cij)) o i j
                        | _ => 0%R
                        end))
  | [c; h; w] =>
      assert! (c =? in_channels self) else RuntimeError ;;
      assert! ((kernel_size self <=? h) && (kernel_size self <=? w))
        else RuntimeError ;;
      Ok (mkTensor [out_channels self; out_size self h; out_size self w]
            (fun idx => match idx with
                        | [o; i; j] => at_position self (data x) o i j
                        | _ => 0%R
                        end))
  | _ => Raise RuntimeError
  end.

End Conv2d.

Module BatchNorm2d.

(** [torch.nn.BatchNorm2d(num_features)] as the source uses it: built
    inside [forward] and called once.  Such a module is in training
    mode, its weight is 1 and its bias 0: every channel is normalised
    with its mean and biased variance over the batch and the image. *)
Definition eps : R := (1 / 100000)%R.

(** [sum_nhw n h w f] is the sum of [f b i j] over a batch of [n] images
    of [h] rows and [w] columns. *)
Definition sum_nhw (n h w : nat) (f : nat -> nat -> nat -> R) : R :=
  sum_n n (fun b => sum_n h (fun i => sum_n w (fun j => f b i j))).

Definition forward (num_features : nat) (x : FloatTensor) : result FloatTensor :=
  match shape x with
  | [n; c; h; w] =>
      (* more than one value per channel is expected when training *)
      assert! (negb (n * h * w =? 1)) else ValueError ;;
      assert! (c =? num_features) else RuntimeError ;;
      let count := INR (n * h * w) in
      let mean (ch : nat) :=
        (sum_nhw n h w (fun b i j => data x [b; ch; i; j]) / count)%R in
      let var (ch : nat) :=
        (sum_nhw n h w (fun b i j => (data x [b; ch; i; j] - mean ch)
                                     * (data x [b; ch; i; j] - mean ch))
         / count)%R in
      Ok (mkTensor (shape x)
            (fun idx => match idx with
                        | [b; ch; i; j] =>
                            ((data x idx - mean ch) / sqrt (var ch + eps))%R
                        | _ => 0%R
                        end))
  | _ => Raise ValueError
  end.

End BatchNorm2d.

(* ================================================================= *)
(** ** [class ResNetFeatureExtractor] *)

(** [rearrange(x, "b e w h -> b e (w h)")]. *)
Definition rearrange_flatten_wh (x : FloatTensor) : result FloatTensor :=
  match shape x with
  | [b; e; w; h] =>
      Ok (mkTensor [b; e; w * h]
            (fun idx => match idx with
                        | [b0; e0; s] => data x [b0; e0; s / h; s mod h]
                        | _ => 0%R
                        end))
  | _ => Raise EinopsError
  end.

(** [rearrange(x, "b e s -> b s e")]. *)
Definition rearrange_swap_es (x : FloatTensor) : result FloatTensor :=
  match shape x with
  | [b; e; s] =>
      Ok (mkTensor [b; s; e]
            (fun idx => match idx with
                        | [b0; s0; e0] => data x [b0; e0; s0]
                        | _ => 0%R
                        end))
  | _ => Raise EinopsError
  end.

Module ResNetFeatureExtractor.

(** [resnet50] is the torchvision backbone without its last two
    children; it is library code and is taken as given, a function from
    the image batch to the feature map or an exception. *)
Record t : Type := mk {
  resnet50 : FloatTensor -> result FloatTensor;
  conv1 : Conv2d.t;
  linear1 : Linear.t
}.

Definition init (backbone : FloatTensor -> result FloatTensor) (iv : init_values)
  : t :=
  mk backbone
     (Conv2d.init 2048 768 1 1 (iv "conv1.weight"%string) (iv "conv1.bias"%string))
     (Linear.init 49 512 (iv "linear1.weight"%string) (iv "linear1.bias"%string)).

Definition forward (self : t) (x : FloatTensor) : result FloatTensor :=
  x <- resnet50 self x ;;
  x <- Conv2d.forward (conv1 self) x ;;
  let x := tmap relu x in
  x <- rearrange_flatten_wh x ;;
  x <- Linear.forward (linear1 self) x ;;
  x <- rearrange_swap_es x ;;
  Ok x.

End ResNetFeatureExtractor.

(* ================================================================= *)
(** ** The input dictionary and [class ExtractFeatures] *)

(** What a call of a task model does: it returns, it raises the
    [KeyError] of a dictionary lookup, or one of its layers raises. *)
Inductive outcome (A : Type) : Type :=
| Returns (a : A)
| KeyError (key : string)
| Raises (e : exn).

Arguments Returns {A} a.
Arguments KeyError {A} key.
Arguments Raises {A} e.

Definition lift {A : Type} (m : result A) : outcome A :=
  match m with
  | Ok a => Returns a
  | Raise e => Raises e
  end.

Definition obind {A B : Type} (m : outcome A) (k : A -> outcome B) : outcome B :=
  match m with
  | Returns a => k a
  | KeyError key => KeyError key
  | Raises e => Raises e
  end.

Notation "x <-- m ;; k" := (obind m (fun x => k))
  (at level 61, m at next level, right associativity) : result_scope.

(** The dictionary [encoding], by the five keys the models read; a key
    the dictionary lacks is [None].  The values have the types the
    feature pipeline gives them: floating images, integer ids and
    geometric features. *)
Record encoding : Type := mk_encoding {
  resized_scaled_img : option FloatTensor;
  d_resized_scaled_img : option FloatTensor;
  input_ids : option LongTensor;
  x_features : option LongTensor;
  y_features : option LongTensor
}.

(** [encoding[key]]. *)
Definition getitem {A : Type} (key : string) (entry : option A) : outcome A :=
  match entry with
  | Some v => Returns v
  | None => KeyError key
  end.

Module ExtractFeatures.

Record t : Type := mk {
  visual_feature : ResNetFeatureExtractor.t;
  language_feature : LanguageFeatureExtractor.t;
  spatial_feature : DocFormerEmbeddings.t
}.

Definition init (c : config) (training : bool)
    (backbone : FloatTensor -> result FloatTensor) (iv : init_values) : result t :=
  let visual_feature :=
    ResNetFeatureExtractor.init backbone
      (DocFormerEncoder.prefixed "visual_feature." iv) in
  language_feature <-
    LanguageFeatureExtractor.init (vocab_size c) (hidden_size c)
      (DocFormerEncoder.prefixed "language_feature." iv) ;;
  spatial_feature <-
    DocFormerEmbeddings.init c training
      (DocFormerEncoder.prefixed "spatial_feature." iv) ;;
  Ok (mk visual_feature language_feature spatial_feature).

(** Returns [(v_bar, t_bar, v_bar_s, t_bar_s)]. *)
Definition forward (self : t) (rng : DocFormerEmbeddings.draws)
    (enc : encoding) (use_tdi : bool)
  : outcome (FloatTensor * FloatTensor * FloatTensor * FloatTensor) :=
  image <-- (if use_tdi
             then getitem "d_resized_scaled_img" (d_resized_scaled_img enc)
             else getitem "resized_scaled_img" (resized_scaled_img enc)) ;;
  language <-- getitem "input_ids" (input_ids enc) ;;
  x_feature <-- getitem "x_features" (x_features enc) ;;
  y_feature <-- getitem "y_features" (y_features enc) ;;
  v_bar <-- lift (ResNetFeatureExtractor.forward (visual_feature self) image) ;;
  t_bar <-- lift (LanguageFeatureExtractor.forward (language_feature self) language) ;;
  s <-- lift (DocFormerEmbeddings.forward (spatial_feature self) rng
                x_feature y_feature) ;;
  let v_bar_s := fst s in
  let t_bar_s := snd s in
  Returns (v_bar, t_bar, v_bar_s, t_bar_s).

End ExtractFeatures.

(* ================================================================= *)
(** ** [class DocFormer], [class DocFormerForClassification] *)

(** The masks one call of a task model draws. *)
Record model_draws : Type := mk_model_draws {
  embeddings_draws : DocFormerEmbeddings.draws;
  encoder_draws : nat -> DocFormerEncoder.draws;
  mask_output : list nat -> bool
}.

(** The statements the three [forward] methods have in common: the
    features are extracted, the loop [features[f] = features[f]] leaves
    the dictionary as it is, the encoder is called with the text stream
    first, and its output goes through the dropout of the model. *)
Definition encode (gelu : R -> R) (extract_feature : ExtractFeatures.t)
    (encoder : DocFormerEncoder.t) (dropout : Dropout.t) (rng : model_draws)
    (x : encoding) (use_tdi : bool) : outcome FloatTensor :=
  f <-- ExtractFeatures.forward extract_feature (embeddings_draws rng) x use_tdi ;;
  let '(v_bar, t_bar, v_bar_s, t_bar_s) := f in
  output <-- lift (DocFormerEncoder.forward gelu encoder (encoder_draws rng)
                     t_bar v_bar t_bar_s v_bar_s) ;;
  let output := Dropout.forward dropout (mask_output rng) output in
  Returns output.

Module DocFormer.

Record t : Type := mk {
  cfg : config;
  extract_feature : ExtractFeatures.t;
  encoder : DocFormerEncoder.t;
  dropout : Dropout.t
}.

(** [iv] are the values drawn outside the encoder, [ivl i] those of
    encoder layer [i]. *)
Definition init (c : config) (training : bool)
    (backbone : FloatTensor -> result FloatTensor)
    (iv : init_values) (ivl : nat -> init_values) : result t :=
  extract_feature <-
    ExtractFeatures.init c training backbone
      (DocFormerEncoder.prefixed "extract_feature." iv) ;;
  encoder <- DocFormerEncoder.init c training ivl ;;
  dropout <- Dropout.init (hidden_dropout_prob c) training ;;
  Ok (mk c extract_feature encoder dropout).

Definition forward (gelu : R -> R) (self : t) (rng : model_draws)
    (x : encoding) (use_tdi : bool) : outcome FloatTensor :=
  output <-- encode gelu (extract_feature self) (encoder self) (dropout self)
               rng x use_tdi ;;
  Returns output.

End DocFormer.

Module DocFormerForClassification.

Record t : Type := mk {
  cfg : config;
  extract_feature : ExtractFeatures.t;
  encoder : DocFormerEncoder.t;
  dropout : Dropout.t;
  classifier : Linear.t
}.

Definition init (c : config) (num_classes : nat) (training : bool)
    (backbone : FloatTensor -> result FloatTensor)
    (iv : init_values) (ivl : nat -> init_values) : result t :=
  extract_feature <-
    ExtractFeatures.init c training backbone
      (DocFormerEncoder.prefixed "extract_feature." iv) ;;
  encoder <- DocFormerEncoder.init c training ivl ;;
  dropout <- Dropout.init (hidden_dropout_prob c) training ;;
  Ok (mk c extract_feature encoder dropout
         (Linear.init (hidden_size c) num_classes
            (iv "classifier.weight"%string) (iv "classifier.bias"%string))).

Definition forward (gelu : R -> R) (self : t) (rng : model_draws)
    (x : encoding) (use_tdi : bool) : outcome FloatTensor :=
  output <-- encode gelu (extract_feature self) (encoder self) (dropout self)
               rng x use_tdi ;;
  output <-- lift (Linear.forward (classifier self) output) ;;
  Returns output.

End DocFormerForClassification.

(* ================================================================= *)
(** ** [class ShallowDecoder], [class DocFormer_For_IR] *)

(** Where the parameters of a module are kept.  The decoder calls
    [.cuda()], which raises where no CUDA device can be used, and its
    first layer needs its parameters where the moved input is; this
    much of device placement is modelled, for the decoder alone. *)
Inductive device : Type := cpu | gpu.

Definition is_gpu (d : device) : bool :=
  match d with gpu => true | cpu => false end.

(** [.cuda()] on this machine: [cuda_error] is [None] when a CUDA
    device can be used, and otherwise the exception the call raises. *)
Definition cuda {A : Type} (cuda_error : option exn) (x : A) : result A :=
  match cuda_error with
  | None => Ok x
  | Some e => Raise e
  end.

(** [x.unsqueeze(1)]. *)
Definition unsqueeze_1 {A} (x : Tensor A) : result (Tensor A) :=
  match shape x with
  | [] => Raise IndexError
  | d :: rest =>
      Ok (mkTensor (d :: 1 :: rest)
            (fun idx => match idx with
                        | i :: _ :: r => data x (i :: r)
                        | _ => data x idx
                        end))
  end.

Module ShallowDecoder.

Record t : Type := mk {
  linear1 : Linear.t;
  conv1 : Conv2d.t;
  conv2 : Conv2d.t;
  conv3 : Conv2d.t;
  conv4 : Conv2d.t;
  conv5 : Conv2d.t;
  conv6 : Conv2d.t;
  conv7 : Conv2d.t;
  conv8 : Conv2d.t;
  conv9 : Conv2d.t;
  placed : device
}.

Definition init (iv : init_values) : t :=
  let conv (name : string) (i o k s : nat) :=
    Conv2d.init i o k s (iv (name ++ ".weight")%string) (iv (name ++ ".bias")%string) in
  mk (Linear.init 768 512 (iv "linear1.weight"%string) (iv "linear1.bias"%string))
     (conv "conv1"%string 1 3 3 1)
     (conv "conv2"%string 3 3 3 1)
     (conv "conv3"%string 3 3 5 1)
     (conv "conv4"%string 3 3 5 2)
     (conv "conv5"%string 3 3 7 1)
     (conv "conv6"%string 3 3 7 1)
     (conv "conv7"%string 3 3 7 1)
     (conv "conv8"%string 3 3 7 1)
     (conv "conv9"%string 3 3 3 1)
     cpu.

(** [ShallowDecoder().cuda()]: the parameters move to the CUDA device. *)
Definition to_cuda (cuda_error : option exn) (self : t) : result t :=
  _ <- cuda cuda_error tt ;;
  Ok (mk (linear1 self) (conv1 self) (conv2 self) (conv3 self) (conv4 self)
         (conv5 self) (conv6 self) (conv7 self) (conv8 self) (conv9 self) gpu).

(** One line of [forward],
    [nn.ReLU()(torch.nn.BatchNorm2d(num_features).cuda()(layer(x)))],
    for [x] on the CUDA device: the normalisation is built and moved,
    then [layer], whose parameters must be where [x] is, is applied. *)
Definition line (cuda_error : option exn) (self : t) (num_features : nat)
    (layer : FloatTensor -> result FloatTensor) (x : FloatTensor)
  : result FloatTensor :=
  _ <- cuda cuda_error tt ;;
  assert! (is_gpu (placed self)) else RuntimeError ;;
  y <- layer x ;;
  y <- BatchNorm2d.forward num_features y ;;
  Ok (tmap relu y).

Definition forward (cuda_error : option exn) (self : t) (x : FloatTensor)
  : result FloatTensor :=
  x <- unsqueeze_1 x ;;
  x <- cuda cuda_error x ;;
  x <- line cuda_error self 1 (Linear.forward (linear1 self)) x ;;
  x <- line cuda_error self 3 (Conv2d.forward (conv1 self)) x ;;
  x <- line cuda_error self 3 (Conv2d.forward (conv2 self)) x ;;
  x <- line cuda_error self 3 (Conv2d.forward (conv3 self)) x ;;
  x <- line cuda_error self 3 (Conv2d.forward (conv4 self)) x ;;
  x <- line cuda_error self 3 (Conv2d.forward (conv5 self)) x ;;
  x <- line cuda_error self 3 (Conv2d.forward (conv6 self)) x ;;
  x <- line cuda_error self 3 (Conv2d.forward (conv7 self)) x ;;
  x <- line cuda_error self 3 (Conv2d.forward (conv8 self)) x ;;
  x <- line cuda_error self 3 (Conv2d.forward (conv9 self)) x ;;
  Ok (tmap sigmoid x).

End ShallowDecoder.

Module DocFormer_For_IR.

Record t : Type := mk {
  cfg : config;
  extract_feature : ExtractFeatures.t;
  encoder : DocFormerEncoder.t;
  dropout : Dropout.t;
  classifier : Linear.t;
  decoder : ShallowDecoder.t
}.

Definition init (cuda_error : option exn) (c : config) (num_classes : nat)
    (training : bool) (backbone : FloatTensor -> result FloatTensor)
    (iv : init_values) (ivl : nat -> init_values) : result t :=
  extract_feature <-
    ExtractFeatures.init c training backbone
      (DocFormerEncoder.prefixed "extract_feature." iv) ;;
  encoder <- DocFormerEncoder.init c training ivl ;;
  dropout <- Dropout.init (hidden_dropout_prob c) training ;;
  let classifier :=
    Linear.init 68 num_classes
      (iv "classifier.weight"%string) (iv "classifier.bias"%string) in
  decoder <- ShallowDecoder.to_cuda cuda_error
               (ShallowDecoder.init (DocFormerEncoder.prefixed "decoder." iv)) ;;
  Ok (mk c extract_feature encoder dropout classifier decoder).

(** Returns the dictionary [{'mlm_labels': output_mlm, 'ir': output_ir}],
    here the pair of its two values. *)
Definition forward (cuda_error : option exn) (gelu : R -> R) (self : t)
    (rng : model_draws) (x : encoding) (use_tdi : bool)
  : outcome (FloatTensor * FloatTensor) :=
  output <-- encode gelu (extract_feature self) (encoder self) (dropout self)
               rng x use_tdi ;;
  output_mlm <-- lift (Linear.forward (classifier self) output) ;;
  output_ir <-- lift (ShallowDecoder.forward cuda_error (decoder self) output) ;;
  Returns (output_mlm, output_ir).

End DocFormer_For_IR.

(* ================================================================= *)
(** ** Vocabulary of the further statements *)



(** The angle of the sinusoidal positional encoding for position [pos]
    and the pair of columns [2 i], [2 i + 1] of a model of width
    [d_model]: [pos / 10000 ^ (2 i / d_model)]. *)
Definition sinusoid_angle (d_model pos i : nat) : R :=
  (INR pos / Rpower 10000 (INR (2 * i) / INR d_model))%R.

(** Inputs for examples: a backbone that gives a zero feature map for
    [b] images, and a dictionary of [b] images with sequences of [t]
    zero ids and zero geometric features. *)
Definition zero_backbone (b : nat) : FloatTensor -> result FloatTensor :=
  fun _ => Ok (zeros [b; 2048; 7; 7]).

Definition zero_encoding (b t : nat) : encoding :=
  mk_encoding (Some (zeros [b; 3; 224; 224])) None
              (Some (zero_features [b; t]))
              (Some (zero_features [b; t; 8]))
              (Some (zero_features [b; t; 8])).

Definition model_keep_all : model_draws :=
  mk_model_draws embeddings_keep_all encoder_keep_all (fun _ => true).

(** A configuration of the published size for examples: width 768, 512
    positions, 12 heads, one layer, and a vocabulary of three tokens. *)
Definition base_config : config :=
  mk_config 3 768 0 512 1024 96 96 layer_norm_default_eps (1 # 10)%Q 1 12 8 4.

(** What the constructors of the task models check of a configuration:
    [pad_token_id] is a row of the word table, [hidden_size] is 1 or a
    positive even number, [hidden_dropout_prob] is a probability, and,
    when there is a layer, the heads are positive and divide
    [hidden_size]. *)
Definition constructible (c : config) : bool :=
  (pad_token_id c <? vocab_size c)
  && negb (hidden_size c =? 0)
  && (Nat.even (hidden_size c) || (hidden_size c =? 1))
  && (Qle_bool 0 (hidden_dropout_prob c) && Qle_bool (hidden_dropout_prob c) 1)
  && ((num_hidden_layers c =? 0)
      || (negb (num_attention_heads c =? 0)
          && (hidden_size c mod num_attention_heads c =? 0))).

(** The first of the four keys [ExtractFeatures.forward] reads, in the
    order it reads them, that the dictionary lacks; the image is read
    under the key that [use_tdi] selects. *)
Definition first_missing_key (x : encoding) (use_tdi : bool) : option string :=
  let image_key :=
    (if use_tdi then "d_resized_scaled_img" else "resized_scaled_img")%string in
  match (if use_tdi then d_resized_scaled_img x else resized_scaled_img x) with
  | None => Some image_key
  | Some _ =>
      match input_ids x with
      | None => Some "input_ids"%string
      | Some _ =>
          match x_features x with
          | None => Some "x_features"%string
          | Some _ =>
              match y_features x with
              | None => Some "y_features"%string
              | Some _ => None
              end
          end
      end
  end.

(** Column [k] of the row of the table [name] that the bucket of
    feature [i] at position [(b, t)] selects. *)
Definition feature_embedding (iv : init_values) (name : string)
    (feature : LongTensor) (b t i k : nat) : R :=
  iv (name ++ ".weight")%string [Z.to_nat (data feature [b; t; i]); k].

(** A configuration for examples with bands of width 2: hidden size
    16, two positions, three buckets. *)
Definition config_16 : config :=
  mk_config 2 16 0 2 3 2 2 layer_norm_default_eps 0%Q 1 1 1 1.

(* ================================================================= *)
(** * Properties *)

(** ** The error monad and broadcasting *)

Lemma bind_ok_inv {A B} (m : result A) (k : A -> result B) (b : B) :
  bind m k = Ok b -> exists a, m = Ok a /\ k a = Ok b.
Proof.
  destruct m as [a|e]; simpl; intros H.
  - exists a; split; [reflexivity | exact H].
  - discriminate H.
Qed.

Lemma bdim_refl (a : nat) : bdim a a = Ok a.
Proof. unfold bdim. now rewrite Nat.eqb_refl. Qed.

Lemma bdim_1_r (a : nat) : bdim a 1 = Ok a.
Proof.
  unfold bdim. destruct (a =? 1) eqn:E.
  - reflexivity.
  - reflexivity.
Qed.

Lemma bdim_1_l (a : nat) : bdim 1 a = Ok a.
Proof.
  unfold bdim. destruct (1 =? a) eqn:E.
  - apply Nat.eqb_eq in E. now subst.
  - reflexivity.
Qed.

(** Reading a dimension of size [d] at an index below [d]: the
    broadcast rule changes nothing. *)
Lemma bsel (d i : nat) : i < d -> (if d =? 1 then 0 else i) = i.
Proof.
  intros H. destruct (d =? 1) eqn:E; [|reflexivity].
  apply Nat.eqb_eq in E. lia.
Qed.

Lemma in_indices (s : list nat) : forall idx, In idx (indices s) -> in_shape s idx.
Proof.
  induction s as [|d s IH]; simpl; intros idx H.
  - destruct H as [<-|[]]. exact I.
  - apply in_flat_map in H. destruct H as [i [Hi H]].
    apply in_map_iff in H. destruct H as [idx' [<- H]].
    apply in_seq in Hi. simpl. split; [lia | now apply IH].
Qed.

Lemma indices_complete (s : list nat) : forall idx, in_shape s idx -> In idx (indices s).
Proof.
  induction s as [|d s IH]; intros [|i idx] H; simpl in H; try contradiction.
  - now left.
  - destruct H as [Hi H]. simpl. apply in_flat_map. exists i. split.
    + apply in_seq. lia.
    + apply in_map. now apply IH.
Qed.

(** ** [RelativePosition] *)

Lemma clamp_Z_bounds (m v : Z) :
  (0 <= m)%Z -> (- m <= clamp_Z (- m) m v <= m)%Z.
Proof. unfold clamp_Z. lia. Qed.

Lemma slice_stop_le (n : Z) (len : nat) : slice_stop n len <= len.
Proof. unfold slice_stop. destruct (n <? 0)%Z eqn:E; lia. Qed.

Lemma slice_stop_in_range (n : Z) (len : nat) :
  (0 <= n <= Z.of_nat len)%Z -> slice_stop n len = Z.to_nat n.
Proof. unfold slice_stop. intros H. destruct (n <? 0)%Z eqn:E; lia. Qed.

Lemma slice_stop_beyond (n : Z) (len : nat) :
  (Z.of_nat len <= n)%Z -> slice_stop n len = len.
Proof. unfold slice_stop. intros H. destruct (n <? 0)%Z eqn:E; lia. Qed.

(** The table [__init__] builds: it never raises, is square, and holds
    the clipped and shifted distance. *)
Lemma build_final_mat_spec (mrp L : nat) :
  exists fm,
    RelativePosition.build_final_mat mrp L = Ok fm /\
    shape fm = [L; L] /\
    forall q k, q < L -> k < L ->
      data fm [q; k] =
      (clamp_Z (- Z.of_nat mrp) (Z.of_nat mrp) (Z.of_nat k - Z.of_nat q)
       + Z.of_nat mrp)%Z.
Proof.
  unfold RelativePosition.build_final_mat, broadcast2, broadcast_shapes.
  simpl. rewrite bdim_1_r, bdim_1_l. simpl.
  eexists. split; [reflexivity|]. split; [reflexivity|].
  intros q k Hq Hk. simpl.
  unfold bidx; simpl.
  rewrite (bsel Hk), (bsel Hq). reflexivity.
Qed.

Lemma init_spec (nu mrp L : nat) (xavier : list nat -> R) :
  exists self,
    RelativePosition.init nu mrp L xavier = Ok self /\
    RelativePosition.num_units self = nu /\
    RelativePosition.max_relative_position self = mrp /\
    RelativePosition.max_length self = L /\
    RelativePosition.embeddings_table self = mkTensor [mrp * 2 + 1; nu] xavier /\
    RelativePosition.build_final_mat mrp L = Ok (RelativePosition.final_mat self).
Proof.
  unfold RelativePosition.init.
  destruct (build_final_mat_spec mrp L) as [fm [E _]].
  rewrite E. simpl. eexists. repeat split; reflexivity.
Qed.

(** [forward] on a constructed module, for all integers: the slice is
    cut at the size of the table, every index it holds is a row of the
    embedding table, and nothing is raised. *)
Lemma forward_spec (nu mrp L : nat) (xavier : list nat -> R)
    (self : RelativePosition.t) (length_q length_k : Z) :
  RelativePosition.init nu mrp L xavier = Ok self ->
  exists e,
    RelativePosition.forward self length_q length_k = Ok e /\
    shape e = [slice_stop length_q L; slice_stop length_k L; nu] /\
    forall q k d,
      q < slice_stop length_q L -> k < slice_stop length_k L ->
      data e [q; k; d] = xavier [rel_index mrp q k; d].
Proof.
  intros Hinit.
  destruct (init_spec nu mrp L xavier) as [self' [E [_ [_ [_ [Htab Hfm]]]]]].
  rewrite E in Hinit. injection Hinit as <-.
  destruct (build_final_mat_spec mrp L) as [fm [E' [Hshape Hdata]]].
  rewrite E' in Hfm. injection Hfm as Hfm. rewrite Hfm in *. clear E E' Hfm.
  unfold RelativePosition.forward, slice2. rewrite Hshape. simpl.
  unfold index_rows. rewrite Htab. simpl shape. cbv beta iota.
  assert (Hin : forall q k, q < slice_stop length_q L -> k < slice_stop length_k L ->
            (0 <= data (RelativePosition.final_mat self') [q; k] <=
             2 * Z.of_nat mrp)%Z).
  { intros q k Hq Hk.
    pose proof (slice_stop_le length_q L). pose proof (slice_stop_le length_k L).
    rewrite Hdata by lia.
    pose proof (@clamp_Z_bounds (Z.of_nat mrp) (Z.of_nat k - Z.of_nat q)%Z).
    lia. }
  match goal with |- context [forallb ?f ?l] =>
    assert (Hall : forallb f l = true) end.
  { apply forallb_forall. intros idx Hidx. apply in_indices in Hidx.
    destruct idx as [|q [|k [|? ?]]]; simpl in Hidx; try tauto.
    destruct Hidx as [Hq [Hk _]]. simpl data.
    specialize (Hin q k Hq Hk). unfold valid_row.
    apply andb_true_iff. split; [apply Z.leb_le | apply Z.ltb_lt]; lia. }
  rewrite Hall. simpl.
  eexists. split; [reflexivity|]. split; [reflexivity|].
  intros q k d Hq Hk. simpl.
  pose proof (slice_stop_le length_q L). pose proof (slice_stop_le length_k L).
  specialize (Hin q k Hq Hk). rewrite Hdata in * by lia.
  unfold norm_row.
  match goal with |- context [(?z <? 0)%Z] =>
    destruct (z <? 0)%Z eqn:Hneg end.
  - apply Z.ltb_lt in Hneg. lia.
  - reflexivity.
Qed.

(** ** Tensor operations on well-shaped arguments *)

Lemma sum_n_ext (n : nat) (f g : nat -> R) :
  (forall j, j < n -> f j = g j) -> sum_n n f = sum_n n g.
Proof.
  induction n as [|n IH]; intros H; simpl.
  - reflexivity.
  - rewrite IH by (intros j Hj; apply H; lia). rewrite H by lia. reflexivity.
Qed.

Lemma bshape_rev_refl (s : list nat) : bshape_rev s s = Ok s.
Proof.
  induction s as [|d s IH]; simpl.
  - reflexivity.
  - rewrite bdim_refl. simpl. rewrite IH. reflexivity.
Qed.

Lemma broadcast_shapes_refl (s : list nat) : broadcast_shapes s s = Ok s.
Proof.
  unfold broadcast_shapes. rewrite bshape_rev_refl. simpl.
  now rewrite rev_involutive.
Qed.

Lemma bidx_in_shape (s : list nat) : forall idx, in_shape s idx -> bidx s idx = idx.
Proof.
  unfold bidx. induction s as [|d s IH]; intros [|i idx] H; simpl in H; try contradiction.
  - reflexivity.
  - destruct H as [Hi H].
    assert (Hlen : forall (s0 idx0 : list nat), in_shape s0 idx0 ->
                     Datatypes.length idx0 = Datatypes.length s0).
    { clear. induction s0 as [|d0 s0 IH0]; intros [|i0 idx0] H0; simpl in H0;
        try contradiction; simpl; [reflexivity|].
      f_equal. apply IH0. tauto. }
    specialize (IH idx H). pose proof (Hlen s idx H) as Hl.
    simpl Datatypes.length. rewrite Hl, Nat.sub_diag. simpl.
    rewrite Hl, Nat.sub_diag in IH. simpl in IH.
    rewrite (bsel Hi). f_equal. exact IH.
Qed.

(** Elementwise operation on two tensors of one shape. *)
Lemma broadcast2_same (f : R -> R -> R) (x y : FloatTensor) (s : list nat) :
  shape x = s -> shape y = s ->
  exists z,
    broadcast2 f x y = Ok z /\ shape z = s /\
    forall idx, in_shape s idx -> data z idx = f (data x idx) (data y idx).
Proof.
  intros Hx Hy. unfold broadcast2. rewrite Hx, Hy, broadcast_shapes_refl. simpl.
  eexists. split; [reflexivity|]. split; [reflexivity|].
  intros idx Hidx. simpl. now rewrite (bidx_in_shape s idx Hidx).
Qed.

(** Division of a four-dimensional tensor by a one-element tensor. *)
Lemma broadcast2_scalar4 (f : R -> R -> R) (x c : FloatTensor) (h b l t : nat) :
  shape x = [h; b; l; t] -> shape c = [1] ->
  exists z,
    broadcast2 f x c = Ok z /\ shape z = [h; b; l; t] /\
    forall h0 b0 l0 t0, h0 < h -> b0 < b -> l0 < l -> t0 < t ->
      data z [h0; b0; l0; t0] = f (data x [h0; b0; l0; t0]) (data c [0]).
Proof.
  intros Hx Hc. unfold broadcast2, broadcast_shapes. rewrite Hx, Hc. simpl.
  rewrite bdim_1_r. simpl.
  eexists. split; [reflexivity|]. split; [reflexivity|].
  intros h0 b0 l0 t0 Hh Hb Hl Ht. simpl. unfold bidx. simpl.
  now rewrite (bsel Hh), (bsel Hb), (bsel Hl), (bsel Ht).
Qed.

Lemma linear_forward3 (lin : Linear.t) (x : FloatTensor) (B T E : nat) :
  shape x = [B; T; E] -> Linear.in_features lin = E ->
  exists y,
    Linear.forward lin x = Ok y /\
    shape y = [B; T; Linear.out_features lin] /\
    forall b t j, data y [b; t; j] = linear_at lin x b t j.
Proof.
  intros Hx Hin. unfold Linear.forward, last_dim. rewrite Hx. simpl.
  rewrite Hin, Nat.eqb_refl.
  eexists. split; [reflexivity|]. split; [reflexivity|].
  intros b t j. unfold linear_at. simpl. now rewrite Hin.
Qed.

Lemma split_heads3 (x : FloatTensor) (B T E nh : nat) :
  shape x = [B; T; E] -> nh <> 0 -> E mod nh = 0 ->
  exists y,
    rearrange_split_heads x nh = Ok y /\
    shape y = [nh; B; T; E / nh] /\
    forall h b t k, data y [h; b; t; k] = data x [b; t; h * (E / nh) + k].
Proof.
  intros Hx Hnh Hmod. unfold rearrange_split_heads. rewrite Hx.
  destruct (nh =? 0) eqn:E0; [apply Nat.eqb_eq in E0; contradiction|].
  simpl negb. cbv iota. rewrite Hmod. simpl.
  eexists. split; [reflexivity|]. split; [reflexivity|].
  intros; reflexivity.
Qed.

Lemma merge_heads4 (x : FloatTensor) (H B T D : nat) :
  shape x = [H; B; T; D] ->
  exists y,
    rearrange_merge_heads x = Ok y /\
    shape y = [B; T; H * D] /\
    forall b t j, data y [b; t; j] = data x [j / D; b; t; j mod D].
Proof.
  intros Hx. unfold rearrange_merge_heads. rewrite Hx.
  eexists. split; [reflexivity|]. split; [reflexivity|].
  intros; reflexivity.
Qed.

Lemma softmax4 (x : FloatTensor) (h b l t : nat) :
  shape x = [h; b; l; t] ->
  exists y,
    softmax x = Ok y /\ shape y = [h; b; l; t] /\
    forall h0 b0 l0 t0,
      data y [h0; b0; l0; t0] =
      (exp (data x [h0; b0; l0; t0]) /
       sum_n t (fun j => exp (data x [h0; b0; l0; j])))%R.
Proof.
  intros Hx. unfold softmax, last_dim. rewrite Hx. simpl.
  eexists. split; [reflexivity|]. split; [reflexivity|].
  intros; reflexivity.
Qed.

Lemma einsum_hblk_hbtk (x y : FloatTensor) (h b l t k : nat) :
  shape x = [h; b; l; k] -> shape y = [h; b; t; k] ->
  exists e,
    einsum "hblk,hbtk->hblt" x y = Ok e /\ shape e = [h; b; l; t] /\
    forall h0 b0 l0 t0, h0 < h -> b0 < b -> l0 < l -> t0 < t ->
      data e [h0; b0; l0; t0] =
      sum_n k (fun j => (data x [h0; b0; l0; j] * data y [h0; b0; t0; j])%R).
Proof.
  intros Hx Hy. unfold einsum. rewrite Hx, Hy. cbn -[Nat.eqb].
  rewrite !bdim_refl. cbn -[Nat.eqb].
  eexists. split; [reflexivity|]. split; [reflexivity|].
  intros h0 b0 l0 t0 Hh Hb Hl Ht. cbn -[Nat.eqb].
  apply sum_n_ext. intros j Hj.
  now rewrite (bsel Hh), (bsel Hb), (bsel Hl), (bsel Ht), (bsel Hj).
Qed.

Lemma einsum_bhrd_lrd (x y : FloatTensor) (h b l r d : nat) :
  shape x = [h; b; r; d] -> shape y = [l; r; d] ->
  exists e,
    einsum "bhrd,lrd->bhlr" x y = Ok e /\ shape e = [h; b; l; r] /\
    forall h0 b0 l0 r0, h0 < h -> b0 < b -> l0 < l -> r0 < r ->
      data e [h0; b0; l0; r0] =
      sum_n d (fun j => (data x [h0; b0; r0; j] * data y [l0; r0; j])%R).
Proof.
  intros Hx Hy. unfold einsum. rewrite Hx, Hy. cbn -[Nat.eqb].
  rewrite !bdim_refl. cbn -[Nat.eqb].
  eexists. split; [reflexivity|]. split; [reflexivity|].
  intros h0 b0 l0 r0 Hh Hb Hl Hr. cbn -[Nat.eqb].
  apply sum_n_ext. intros j Hj.
  now rewrite (bsel Hh), (bsel Hb), (bsel Hl), (bsel Hr), (bsel Hj).
Qed.

Lemma einsum_bhld_lrd (x y : FloatTensor) (h b l r d : nat) :
  shape x = [h; b; l; d] -> shape y = [l; r; d] ->
  exists e,
    einsum "bhld,lrd->bhlr" x y = Ok e /\ shape e = [h; b; l; r] /\
    forall h0 b0 l0 r0, h0 < h -> b0 < b -> l0 < l -> r0 < r ->
      data e [h0; b0; l0; r0] =
      sum_n d (fun j => (data x [h0; b0; l0; j] * data y [l0; r0; j])%R).
Proof.
  intros Hx Hy. unfold einsum. rewrite Hx, Hy. cbn -[Nat.eqb].
  rewrite !bdim_refl. cbn -[Nat.eqb].
  eexists. split; [reflexivity|]. split; [reflexivity|].
  intros h0 b0 l0 r0 Hh Hb Hl Hr. cbn -[Nat.eqb].
  apply sum_n_ext. intros j Hj.
  now rewrite (bsel Hh), (bsel Hb), (bsel Hl), (bsel Hr), (bsel Hj).
Qed.

Lemma einsum_hblt_hbtv (x y : FloatTensor) (h b l t v : nat) :
  shape x = [h; b; l; t] -> shape y = [h; b; t; v] ->
  exists e,
    einsum "hblt,hbtv->hblv" x y = Ok e /\ shape e = [h; b; l; v] /\
    forall h0 b0 l0 v0, h0 < h -> b0 < b -> l0 < l -> v0 < v ->
      data e [h0; b0; l0; v0] =
      sum_n t (fun j => (data x [h0; b0; l0; j] * data y [h0; b0; j; v0])%R).
Proof.
  intros Hx Hy. unfold einsum. rewrite Hx, Hy. cbn -[Nat.eqb].
  rewrite !bdim_refl. cbn -[Nat.eqb].
  eexists. split; [reflexivity|]. split; [reflexivity|].
  intros h0 b0 l0 v0 Hh Hb Hl Hv. cbn -[Nat.eqb].
  apply sum_n_ext. intros j Hj.
  now rewrite (bsel Hh), (bsel Hb), (bsel Hl), (bsel Hv), (bsel Hj).
Qed.

Lemma dropout_forward_shape (d : Dropout.t) (m : list nat -> bool) (x : FloatTensor) :
  shape (Dropout.forward d m x) = shape x.
Proof. unfold Dropout.forward. destruct (Dropout.training d); reflexivity. Qed.

Lemma dropout_forward_data (d : Dropout.t) (m : list nat -> bool) (x : FloatTensor)
    (idx : list nat) :
  data (Dropout.forward d m x) idx = dropout_at d (m idx) (data x idx).
Proof.
  unfold Dropout.forward, dropout_at. destruct (Dropout.training d); reflexivity.
Qed.

(** ** [MultiModalAttentionLayer] *)

(** What a successful [__init__] fixes. *)
Lemma mmal_init_inv (E nh mrp L : nat) (p : Q) (tr : bool) (iv : init_values)
    (self : MultiModalAttentionLayer.t) :
  MultiModalAttentionLayer.init E nh mrp L p tr iv = Ok self ->
  MultiModalAttentionLayer.embed_dim self = E /\
  MultiModalAttentionLayer.n_heads self = nh /\
  nh <> 0 /\ E mod nh = 0 /\
  MultiModalAttentionLayer.head_dim self = E / nh /\
  RelativePosition.init (E / nh) mrp L
    (iv "relative_positions_text.embeddings_table"%string)
    = Ok (MultiModalAttentionLayer.relative_positions_text self) /\
  RelativePosition.init (E / nh) mrp L
    (iv "relative_positions_img.embeddings_table"%string)
    = Ok (MultiModalAttentionLayer.relative_positions_img self) /\
  (forall lin,
     In lin [MultiModalAttentionLayer.fc_k_text self;
             MultiModalAttentionLayer.fc_q_text self;
             MultiModalAttentionLayer.fc_v_text self;
             MultiModalAttentionLayer.fc_k_img self;
             MultiModalAttentionLayer.fc_q_img self;
             MultiModalAttentionLayer.fc_v_img self;
             MultiModalAttentionLayer.fc_k_spatial self;
             MultiModalAttentionLayer.fc_q_spatial self;
             fst (MultiModalAttentionLayer.to_out self)] ->
     Linear.in_features lin = E /\ Linear.out_features lin = E) /\
  MultiModalAttentionLayer.scale self = mkTensor [1] (fun _ => sqrt (INR E)) /\
  Dropout.training (MultiModalAttentionLayer.dropout self) = tr /\
  Dropout.training (snd (MultiModalAttentionLayer.to_out self)) = tr.
Proof.
  unfold MultiModalAttentionLayer.init.
  destruct (nh =? 0) eqn:Hnh; simpl negb; cbv iota; [discriminate|].
  destruct (E mod nh =? 0) eqn:Hmod; [|discriminate].
  apply Nat.eqb_neq in Hnh. apply Nat.eqb_eq in Hmod.
  destruct (RelativePosition.init (E / nh) mrp L
              (iv "relative_positions_text.embeddings_table"%string)) as [rt|] eqn:Ert;
    [|discriminate].
  destruct (RelativePosition.init (E / nh) mrp L
              (iv "relative_positions_img.embeddings_table"%string)) as [ri|] eqn:Eri;
    [|discriminate].
  cbn [bind]. unfold Dropout.init.
  destruct (Qle_bool 0 p && Qle_bool p 1); [|discriminate].
  cbn [bind]. intros H. injection H as <-. cbn.
  repeat split; try assumption; try reflexivity.
  - destruct H as [<-|[<-|[<-|[<-|[<-|[<-|[<-|[<-|[<-|[]]]]]]]]]]; reflexivity.
  - destruct H as [<-|[<-|[<-|[<-|[<-|[<-|[<-|[<-|[<-|[]]]]]]]]]]; reflexivity.
Qed.

Ltac step x lem :=
  let E := fresh "E_" x in
  let Hs := fresh "Hs_" x in
  let Hd := fresh "Hd_" x in
  destruct lem as (x & E & Hs & Hd); rewrite E; cbn [bind].

(** A call on four inputs of shape [(B, T, embed_dim)], [T] within the
    length fixed at construction, returns, and its local variables are
    as [attention_run] describes. *)
Lemma forward_locals_run (E nh mrp L : nat) (p : Q) (tr : bool) (iv : init_values)
    (self : MultiModalAttentionLayer.t) (rng : MultiModalAttentionLayer.draws)
    (text_feat img_feat text_spatial_feat img_spatial_feat : FloatTensor)
    (B T : nat) :
  MultiModalAttentionLayer.init E nh mrp L p tr iv = Ok self ->
  shape text_feat = [B; T; E] -> shape img_feat = [B; T; E] ->
  shape text_spatial_feat = [B; T; E] -> shape img_spatial_feat = [B; T; E] ->
  T <= L ->
  exists loc,
    MultiModalAttentionLayer.forward_locals self rng
      text_feat img_feat text_spatial_feat img_spatial_feat = Ok loc /\
    attention_run self rng text_feat img_feat text_spatial_feat img_spatial_feat
                  B T loc.
Proof.
  intros Hinit Ht Hi Hts His HTL.
  destruct (mmal_init_inv _ _ _ _ _ _ _ Hinit)
    as (HE & Hnh & Hnh0 & Hmod & Hhd & Hrt & Hri & Hlin & Hscale & _ & _).
  assert (Hl : forall lin x B' T',
             In lin [MultiModalAttentionLayer.fc_k_text self;
                     MultiModalAttentionLayer.fc_q_text self;
                     MultiModalAttentionLayer.fc_v_text self;
                     MultiModalAttentionLayer.fc_k_img self;
                     MultiModalAttentionLayer.fc_q_img self;
                     MultiModalAttentionLayer.fc_v_img self;
                     MultiModalAttentionLayer.fc_k_spatial self;
                     MultiModalAttentionLayer.fc_q_spatial self;
                     fst (MultiModalAttentionLayer.to_out self)] ->
             shape x = [B'; T'; E] ->
             exists y, Linear.forward lin x = Ok y /\ shape y = [B'; T'; E] /\
                       forall b t j, data y [b; t; j] = linear_at lin x b t j).
  { intros lin x B' T' Hin Hx. destruct (Hlin lin Hin) as [Hi1 Ho1].
    destruct (linear_forward3 lin x Hx Hi1) as (y & Ey & Hsy & Hdy).
    exists y. rewrite Ho1 in Hsy. auto. }
  assert (Lin : forall lin,
             In lin [MultiModalAttentionLayer.fc_k_text self;
                     MultiModalAttentionLayer.fc_q_text self;
                     MultiModalAttentionLayer.fc_v_text self;
                     MultiModalAttentionLayer.fc_k_img self;
                     MultiModalAttentionLayer.fc_q_img self;
                     MultiModalAttentionLayer.fc_v_img self;
                     MultiModalAttentionLayer.fc_k_spatial self;
                     MultiModalAttentionLayer.fc_q_spatial self;
                     fst (MultiModalAttentionLayer.to_out self)] ->
             forall x B' T', shape x = [B'; T'; E] ->
             exists y, Linear.forward lin x = Ok y /\ shape y = [B'; T'; E] /\
                       forall b t j, data y [b; t; j] = linear_at lin x b t j)
    by (intros; eapply Hl; eauto).
  clear Hl Hlin.
  set (hd := E / nh) in *.
  assert (HEhd : nh * hd = E).
  { unfold hd. pose proof (Nat.div_mod E nh Hnh0). lia. }
  set (sc := mkTensor [1] (fun _ : list nat => sqrt (INR E))) in *.
  unfold MultiModalAttentionLayer.forward_locals.
  unfold size. rewrite Ht. cbn [nth_error bind].
  rewrite Hnh, Hscale.
  (* text *)
  step k (Lin (MultiModalAttentionLayer.fc_k_text self) ltac:(simpl; tauto) _ _ _ Ht).
  step kt (split_heads3 k Hs_k Hnh0 Hmod). fold hd in Hs_kt, Hd_kt.
  step q (Lin (MultiModalAttentionLayer.fc_q_text self) ltac:(simpl; tauto) _ _ _ Ht).
  step qt (split_heads3 q Hs_q Hnh0 Hmod). fold hd in Hs_qt, Hd_qt.
  step v (Lin (MultiModalAttentionLayer.fc_v_text self) ltac:(simpl; tauto) _ _ _ Ht).
  step vt (split_heads3 v Hs_v Hnh0 Hmod). fold hd in Hs_vt, Hd_vt.
  step qk (einsum_hblk_hbtk qt kt Hs_qt Hs_kt).
  step dt (broadcast2_scalar4 Rdiv qk sc Hs_qk eq_refl).
  step rt (@forward_spec _ _ _ _ _ (Z.of_nat T) (Z.of_nat T) Hrt).
  rewrite !slice_stop_in_range, !Nat2Z.id in Hs_rt, Hd_rt by lia.
  step rkt (einsum_bhrd_lrd kt rt Hs_kt Hs_rt).
  step rqt (einsum_bhld_lrd qt rt Hs_qt Hs_rt).
  step ks (Lin (MultiModalAttentionLayer.fc_k_spatial self) ltac:(simpl; tauto) _ _ _ Hts).
  step qs (Lin (MultiModalAttentionLayer.fc_q_spatial self) ltac:(simpl; tauto) _ _ _ Hts).
  step kst (split_heads3 ks Hs_ks Hnh0 Hmod). fold hd in Hs_kst, Hd_kst.
  step qst (split_heads3 qs Hs_qs Hnh0 Hmod). fold hd in Hs_qst, Hd_qst.
  step qks (einsum_hblk_hbtk qst kst Hs_qst Hs_kst).
  step dts (broadcast2_scalar4 Rdiv qks sc Hs_qks eq_refl).
  step s1 (broadcast2_same Rplus dt rkt Hs_dt Hs_rkt).
  step s2 (broadcast2_same Rplus s1 rqt Hs_s1 Hs_rqt).
  step st (broadcast2_same Rplus s2 dts Hs_s2 Hs_dts).
  (* image *)
  step k' (Lin (MultiModalAttentionLayer.fc_k_img self) ltac:(simpl; tauto) _ _ _ Hi).
  step ki (split_heads3 k' Hs_k' Hnh0 Hmod). fold hd in Hs_ki, Hd_ki.
  step q' (Lin (MultiModalAttentionLayer.fc_q_img self) ltac:(simpl; tauto) _ _ _ Hi).
  step qi (split_heads3 q' Hs_q' Hnh0 Hmod). fold hd in Hs_qi, Hd_qi.
  step v' (Lin (MultiModalAttentionLayer.fc_v_img self) ltac:(simpl; tauto) _ _ _ Hi).
  step vi (split_heads3 v' Hs_v' Hnh0 Hmod). fold hd in Hs_vi, Hd_vi.
  step qk' (einsum_hblk_hbtk qi ki Hs_qi Hs_ki).
  step di (broadcast2_scalar4 Rdiv qk' sc Hs_qk' eq_refl).
  step ri (@forward_spec _ _ _ _ _ (Z.of_nat T) (Z.of_nat T) Hri).
  rewrite !slice_stop_in_range, !Nat2Z.id in Hs_ri, Hd_ri by lia.
  step rki (einsum_bhrd_lrd ki rt Hs_ki Hs_rt).
  step rqi (einsum_bhld_lrd qi rt Hs_qi Hs_rt).
  step ks' (Lin (MultiModalAttentionLayer.fc_k_spatial self) ltac:(simpl; tauto) _ _ _ His).
  step qs' (Lin (MultiModalAttentionLayer.fc_q_spatial self) ltac:(simpl; tauto) _ _ _ His).
  step ksi (split_heads3 ks' Hs_ks' Hnh0 Hmod). fold hd in Hs_ksi, Hd_ksi.
  step qsi (split_heads3 qs' Hs_qs' Hnh0 Hmod). fold hd in Hs_qsi, Hd_qsi.
  step qks' (einsum_hblk_hbtk qsi ksi Hs_qsi Hs_ksi).
  step dis (broadcast2_scalar4 Rdiv qks' sc Hs_qks' eq_refl).
  step s1' (broadcast2_same Rplus di rki Hs_di Hs_rki).
  step s2' (broadcast2_same Rplus s1' rqi Hs_s1' Hs_rqi).
  step si (broadcast2_same Rplus s2' dis Hs_s2' Hs_dis).
  (* softmax, contexts, output *)
  step smt (softmax4 st Hs_st). step smi (softmax4 si Hs_si).
  pose proof (dropout_forward_shape (MultiModalAttentionLayer.dropout self)
                (MultiModalAttentionLayer.mask_text rng) smt) as Hpt.
  pose proof (dropout_forward_shape (MultiModalAttentionLayer.dropout self)
                (MultiModalAttentionLayer.mask_img rng) smi) as Hpi.
  rewrite Hs_smt in Hpt. rewrite Hs_smi in Hpi.
  step ct (einsum_hblt_hbtv _ vt Hpt Hs_vt).
  step ci (einsum_hblt_hbtv _ vi Hpi Hs_vi).
  step c (broadcast2_same Rplus ct ci Hs_ct Hs_ci).
  step em (merge_heads4 c Hs_c).
  rewrite HEhd in Hs_em.
  step o (Lin (fst (MultiModalAttentionLayer.to_out self)) ltac:(simpl; tauto) _ _ _ Hs_em).
  eexists. split; [reflexivity|].
  assert (Htab : forall xavier rp, RelativePosition.init hd mrp L xavier = Ok rp ->
            data (RelativePosition.embeddings_table rp) = xavier /\
            RelativePosition.max_relative_position rp = mrp).
  { intros xavier rp Hrp.
    destruct (init_spec hd mrp L xavier) as (s' & Es' & _ & Hm & _ & Ht' & _).
    rewrite Hrp in Es'. injection Es' as <-. rewrite Ht'. auto. }
  destruct (Htab _ _ Hrt) as [Hrt_tab Hrt_m].
  destruct (Htab _ _ Hri) as [Hri_tab Hri_m].
  assert (I4 : forall h0 b0 l0 t0 d, h0 < nh -> b0 < B -> l0 < T -> t0 < d ->
            in_shape [nh; B; T; d] [h0; b0; l0; t0]) by (simpl; tauto).
  constructor; cbn -[in_shape]; rewrite ?Hhd, ?HE, ?Hnh; fold hd.
  - reflexivity.
  - split; [exact Hs_kt|]. intros. unfold head_at. now rewrite Hd_kt, Hd_k.
  - split; [exact Hs_qt|]. intros. unfold head_at. now rewrite Hd_qt, Hd_q.
  - split; [exact Hs_vt|]. intros. unfold head_at. now rewrite Hd_vt, Hd_v.
  - split; [exact Hs_dt|]. intros. unfold dot. rewrite Hd_dt, Hd_qk by assumption.
    reflexivity.
  - split; [exact Hs_rt|]. intros. rewrite Hrt_tab, Hrt_m. now apply Hd_rt.
  - split; [exact Hs_rkt|]. intros. now apply Hd_rkt.
  - split; [exact Hs_rqt|]. intros. now apply Hd_rqt.
  - split; [exact Hs_dts|]. intros. unfold dot, head_at.
    rewrite Hd_dts, Hd_qks by assumption. unfold sc. cbn [data].
    f_equal. apply sum_n_ext. intros j Hj.
    now rewrite Hd_qst, Hd_kst, Hd_qs, Hd_ks.
  - split; [exact Hs_st|]. intros.
    rewrite Hd_st, Hd_s2, Hd_s1 by (apply I4; assumption). reflexivity.
  - split; [exact Hs_ki|]. intros. unfold head_at. now rewrite Hd_ki, Hd_k'.
  - split; [exact Hs_qi|]. intros. unfold head_at. now rewrite Hd_qi, Hd_q'.
  - split; [exact Hs_vi|]. intros. unfold head_at. now rewrite Hd_vi, Hd_v'.
  - split; [exact Hs_di|]. intros. unfold dot. rewrite Hd_di, Hd_qk' by assumption.
    reflexivity.
  - split; [exact Hs_ri|]. intros. rewrite Hri_tab, Hri_m. now apply Hd_ri.
  - split; [exact Hs_rki|]. intros. now apply Hd_rki.
  - split; [exact Hs_rqi|]. intros. now apply Hd_rqi.
  - split; [exact Hs_dis|]. intros. unfold dot, head_at.
    rewrite Hd_dis, Hd_qks' by assumption. unfold sc. cbn [data].
    f_equal. apply sum_n_ext. intros j Hj.
    now rewrite Hd_qsi, Hd_ksi, Hd_qs', Hd_ks'.
  - split; [exact Hs_si|]. intros.
    rewrite Hd_si, Hd_s2', Hd_s1' by (apply I4; assumption). reflexivity.
  - split; [exact Hpt|]. intros. now rewrite dropout_forward_data, Hd_smt.
  - split; [exact Hpi|]. intros. now rewrite dropout_forward_data, Hd_smi.
  - split; [exact Hs_ct|]. intros. now apply Hd_ct.
  - split; [exact Hs_ci|]. intros. now apply Hd_ci.
  - split; [exact Hs_c|]. intros. apply Hd_c. now apply I4.
  - split; [now rewrite HEhd|]. intros. now apply Hd_em.
  - split; [now rewrite dropout_forward_shape|]. intros.
    now rewrite dropout_forward_data, Hd_o.
Qed.

(** What every call of [forward] that reaches its [return] computed, on
    any inputs: the way the scores are summed, the table the
    relative-position terms are read from, and the fusion. *)
Lemma forward_locals_inv (self : MultiModalAttentionLayer.t)
    (rng : MultiModalAttentionLayer.draws)
    (text_feat img_feat text_spatial_feat img_spatial_feat : FloatTensor)
    (loc : MultiModalAttentionLayer.locals) :
  MultiModalAttentionLayer.forward_locals self rng
    text_feat img_feat text_spatial_feat img_spatial_feat = Ok loc ->
  sum_of_four_terms (MultiModalAttentionLayer.scale self)
    (MultiModalAttentionLayer.query_text_nh loc)
    (MultiModalAttentionLayer.key_text_nh loc)
    (MultiModalAttentionLayer.dots_text loc)
    (MultiModalAttentionLayer.rel_pos_key_text loc)
    (MultiModalAttentionLayer.rel_pos_query_text loc)
    (MultiModalAttentionLayer.dots_text_spatial loc)
    (MultiModalAttentionLayer.text_attn_scores loc) /\
  sum_of_four_terms (MultiModalAttentionLayer.scale self)
    (MultiModalAttentionLayer.query_img_nh loc)
    (MultiModalAttentionLayer.key_img_nh loc)
    (MultiModalAttentionLayer.dots_img loc)
    (MultiModalAttentionLayer.rel_pos_key_img loc)
    (MultiModalAttentionLayer.rel_pos_query_img loc)
    (MultiModalAttentionLayer.dots_img_spatial loc)
    (MultiModalAttentionLayer.img_attn_scores loc) /\
  RelativePosition.forward (MultiModalAttentionLayer.relative_positions_text self)
    (Z.of_nat (MultiModalAttentionLayer.seq_length loc))
    (Z.of_nat (MultiModalAttentionLayer.seq_length loc))
    = Ok (MultiModalAttentionLayer.rel_pos_embed_text loc) /\
  einsum "bhrd,lrd->bhlr" (MultiModalAttentionLayer.key_img_nh loc)
    (MultiModalAttentionLayer.rel_pos_embed_text loc)
    = Ok (MultiModalAttentionLayer.rel_pos_key_img loc) /\
  einsum "bhld,lrd->bhlr" (MultiModalAttentionLayer.query_img_nh loc)
    (MultiModalAttentionLayer.rel_pos_embed_text loc)
    = Ok (MultiModalAttentionLayer.rel_pos_query_img loc) /\
  einsum "hblt,hbtv->hblv" (MultiModalAttentionLayer.text_attn_probs loc)
    (MultiModalAttentionLayer.value_text_nh loc)
    = Ok (MultiModalAttentionLayer.text_context loc) /\
  einsum "hblt,hbtv->hblv" (MultiModalAttentionLayer.img_attn_probs loc)
    (MultiModalAttentionLayer.value_img_nh loc)
    = Ok (MultiModalAttentionLayer.img_context loc) /\
  broadcast2 Rplus (MultiModalAttentionLayer.text_context loc)
    (MultiModalAttentionLayer.img_context loc)
    = Ok (MultiModalAttentionLayer.context loc) /\
  rearrange_merge_heads (MultiModalAttentionLayer.context loc)
    = Ok (MultiModalAttentionLayer.embeddings loc) /\
  exists o,
    Linear.forward (fst (MultiModalAttentionLayer.to_out self))
      (MultiModalAttentionLayer.embeddings loc) = Ok o /\
    MultiModalAttentionLayer.returned loc =
      Dropout.forward (snd (MultiModalAttentionLayer.to_out self))
        (MultiModalAttentionLayer.mask_out rng) o.
Proof.
  unfold MultiModalAttentionLayer.forward_locals.
  repeat match goal with
         | |- bind ?m _ = Ok _ -> _ =>
             let E := fresh "E" in
             destruct m eqn:E; cbn [bind]; cbv zeta; [|discriminate]
         end.
  intros H. injection H as <-. cbn. unfold sum_of_four_terms.
  repeat split; eauto 10.
Qed.

(** The contraction of keys with the relative-position embedding raises
    when the two sizes of the key position do not broadcast. *)
Lemma einsum_bhrd_lrd_mismatch (x y : FloatTensor) (h b r d l r' d' : nat) :
  shape x = [h; b; r; d] -> shape y = [l; r'; d'] ->
  bdim r r' = Raise RuntimeError ->
  einsum "bhrd,lrd->bhlr" x y = Raise RuntimeError.
Proof.
  intros Hx Hy Hr. unfold einsum. rewrite Hx, Hy. cbn -[Nat.eqb bdim].
  rewrite Hr. reflexivity.
Qed.

Lemma bdim_mismatch (T L : nat) :
  L < T -> 2 <= L -> bdim T L = Raise RuntimeError.
Proof.
  intros H1 H2. unfold bdim.
  destruct (T =? L) eqn:E1; [apply Nat.eqb_eq in E1; lia|].
  destruct (T =? 1) eqn:E2; [apply Nat.eqb_eq in E2; lia|].
  destruct (L =? 1) eqn:E3; [apply Nat.eqb_eq in E3; lia|].
  reflexivity.
Qed.

(** More positions than the table holds, the table holding at least
    two: the slice of the index table is cut to the table, and the
    contraction of the keys with the embedding of the cut slice
    raises. *)
Lemma forward_locals_too_long (E nh mrp L : nat) (p : Q) (tr : bool)
    (iv : init_values)
    (self : MultiModalAttentionLayer.t) (rng : MultiModalAttentionLayer.draws)
    (text_feat img_feat text_spatial_feat img_spatial_feat : FloatTensor)
    (B T : nat) :
  MultiModalAttentionLayer.init E nh mrp L p tr iv = Ok self ->
  shape text_feat = [B; T; E] ->
  L < T -> 2 <= L ->
  MultiModalAttentionLayer.forward_locals self rng
    text_feat img_feat text_spatial_feat img_spatial_feat = Raise RuntimeError.
Proof.
  intros Hinit Ht HLT HL.
  destruct (mmal_init_inv _ _ _ _ _ _ _ Hinit)
    as (HE & Hnh & Hnh0 & Hmod & Hhd & Hrt & Hri & Hlin & Hscale & _ & _).
  assert (Lin : forall lin,
             In lin [MultiModalAttentionLayer.fc_k_text self;
                     MultiModalAttentionLayer.fc_q_text self;
                     MultiModalAttentionLayer.fc_v_text self] ->
             exists y, Linear.forward lin text_feat = Ok y /\
                       shape y = [B; T; E] /\
                       forall b t j, data y [b; t; j] = linear_at lin text_feat b t j).
  { intros lin Hin.
    destruct (Hlin lin ltac:(simpl in *; tauto)) as [Hi1 Ho1].
    destruct (linear_forward3 lin text_feat Ht Hi1) as (y & Ey & Hsy & Hdy).
    exists y. rewrite Ho1 in Hsy. auto. }
  set (hd := E / nh) in *.
  set (sc := mkTensor [1] (fun _ : list nat => sqrt (INR E))) in *.
  unfold MultiModalAttentionLayer.forward_locals.
  unfold size. rewrite Ht. cbn [nth_error bind].
  rewrite Hnh, Hscale.
  step k (Lin (MultiModalAttentionLayer.fc_k_text self) ltac:(simpl; tauto)).
  step kt (split_heads3 k Hs_k Hnh0 Hmod). fold hd in Hs_kt, Hd_kt.
  step q (Lin (MultiModalAttentionLayer.fc_q_text self) ltac:(simpl; tauto)).
  step qt (split_heads3 q Hs_q Hnh0 Hmod). fold hd in Hs_qt, Hd_qt.
  step v (Lin (MultiModalAttentionLayer.fc_v_text self) ltac:(simpl; tauto)).
  step vt (split_heads3 v Hs_v Hnh0 Hmod). fold hd in Hs_vt, Hd_vt.
  step qk (einsum_hblk_hbtk qt kt Hs_qt Hs_kt).
  step dt (broadcast2_scalar4 Rdiv qk sc Hs_qk eq_refl).
  step rt (@forward_spec _ _ _ _ _ (Z.of_nat T) (Z.of_nat T) Hrt).
  rewrite !slice_stop_beyond in Hs_rt by lia.
  rewrite (einsum_bhrd_lrd_mismatch kt rt Hs_kt Hs_rt (bdim_mismatch HLT HL)).
  reflexivity.
Qed.

(** *** A table for one position read by a longer sequence *)

Lemma einsum_bhrd_lrd_one (x y : FloatTensor) (h b r d : nat) :
  shape x = [h; b; r; d] -> shape y = [1; 1; d] ->
  exists e,
    einsum "bhrd,lrd->bhlr" x y = Ok e /\ shape e = [h; b; 1; r] /\ True.
Proof.
  intros Hx Hy. unfold einsum. rewrite Hx, Hy. cbn -[Nat.eqb bdim].
  rewrite bdim_1_r. cbn -[Nat.eqb bdim]. rewrite bdim_refl. cbn -[Nat.eqb bdim].
  eexists. split; [reflexivity|]. split; [reflexivity | exact I].
Qed.

Lemma einsum_bhld_lrd_one (x y : FloatTensor) (h b l d : nat) :
  shape x = [h; b; l; d] -> shape y = [1; 1; d] ->
  exists e,
    einsum "bhld,lrd->bhlr" x y = Ok e /\ shape e = [h; b; l; 1] /\ True.
Proof.
  intros Hx Hy. unfold einsum. rewrite Hx, Hy. cbn -[Nat.eqb bdim].
  rewrite bdim_1_r. cbn -[Nat.eqb bdim]. rewrite bdim_refl. cbn -[Nat.eqb bdim].
  eexists. split; [reflexivity|]. split; [reflexivity | exact I].
Qed.

Lemma broadcast2_shape (f : R -> R -> R) (x y : FloatTensor) (s : list nat) :
  broadcast_shapes (shape x) (shape y) = Ok s ->
  exists z, broadcast2 f x y = Ok z /\ shape z = s /\ True.
Proof.
  intros H. unfold broadcast2. rewrite H. cbn [bind].
  eexists. split; [reflexivity|]. split; [reflexivity | exact I].
Qed.

Lemma broadcast_shapes_row (h b t : nat) :
  broadcast_shapes [h; b; t; t] [h; b; 1; t] = Ok [h; b; t; t].
Proof.
  unfold broadcast_shapes. cbn [rev app bshape_rev].
  rewrite !bdim_refl, bdim_1_r. reflexivity.
Qed.

Lemma broadcast_shapes_column (h b t : nat) :
  broadcast_shapes [h; b; t; t] [h; b; t; 1] = Ok [h; b; t; t].
Proof.
  unfold broadcast_shapes. cbn [rev app bshape_rev].
  rewrite !bdim_refl, bdim_1_r. reflexivity.
Qed.

(** A layer built for one position, called on longer sequences: the
    embedding of the cut slice has shape [(1, 1, head_dim)], its
    dimensions of size 1 broadcast, and [forward] returns a tensor of
    the shape of its inputs. *)
Lemma forward_locals_broadcast (E nh mrp : nat) (p : Q) (tr : bool)
    (iv : init_values)
    (self : MultiModalAttentionLayer.t) (rng : MultiModalAttentionLayer.draws)
    (text_feat img_feat text_spatial_feat img_spatial_feat : FloatTensor)
    (B T : nat) :
  MultiModalAttentionLayer.init E nh mrp 1 p tr iv = Ok self ->
  shape text_feat = [B; T; E] -> shape img_feat = [B; T; E] ->
  shape text_spatial_feat = [B; T; E] -> shape img_spatial_feat = [B; T; E] ->
  1 <= T ->
  exists loc,
    MultiModalAttentionLayer.forward_locals self rng
      text_feat img_feat text_spatial_feat img_spatial_feat = Ok loc /\
    shape (MultiModalAttentionLayer.returned loc) = [B; T; E].
Proof.
  intros Hinit Ht Hi Hts His HT.
  destruct (mmal_init_inv _ _ _ _ _ _ _ Hinit)
    as (HE & Hnh & Hnh0 & Hmod & Hhd & Hrt & Hri & Hlin & Hscale & _ & _).
  assert (Lin : forall lin,
             In lin [MultiModalAttentionLayer.fc_k_text self;
                     MultiModalAttentionLayer.fc_q_text self;
                     MultiModalAttentionLayer.fc_v_text self;
                     MultiModalAttentionLayer.fc_k_img self;
                     MultiModalAttentionLayer.fc_q_img self;
                     MultiModalAttentionLayer.fc_v_img self;
                     MultiModalAttentionLayer.fc_k_spatial self;
                     MultiModalAttentionLayer.fc_q_spatial self;
                     fst (MultiModalAttentionLayer.to_out self)] ->
             forall x B' T', shape x = [B'; T'; E] ->
             exists y, Linear.forward lin x = Ok y /\ shape y = [B'; T'; E] /\
                       forall b t j, data y [b; t; j] = linear_at lin x b t j).
  { intros lin Hin x B' T' Hx. destruct (Hlin lin Hin) as [Hi1 Ho1].
    destruct (linear_forward3 lin x Hx Hi1) as (y & Ey & Hsy & Hdy).
    exists y. rewrite Ho1 in Hsy. auto. }
  clear Hlin.
  set (hd := E / nh) in *.
  assert (HEhd : nh * hd = E).
  { unfold hd. pose proof (Nat.div_mod E nh Hnh0). lia. }
  set (sc := mkTensor [1] (fun _ : list nat => sqrt (INR E))) in *.
  unfold MultiModalAttentionLayer.forward_locals.
  unfold size. rewrite Ht. cbn [nth_error bind].
  rewrite Hnh, Hscale.
  (* text *)
  step k (Lin (MultiModalAttentionLayer.fc_k_text self) ltac:(simpl; tauto) _ _ _ Ht).
  step kt (split_heads3 k Hs_k Hnh0 Hmod). fold hd in Hs_kt, Hd_kt.
  step q (Lin (MultiModalAttentionLayer.fc_q_text self) ltac:(simpl; tauto) _ _ _ Ht).
  step qt (split_heads3 q Hs_q Hnh0 Hmod). fold hd in Hs_qt, Hd_qt.
  step v (Lin (MultiModalAttentionLayer.fc_v_text self) ltac:(simpl; tauto) _ _ _ Ht).
  step vt (split_heads3 v Hs_v Hnh0 Hmod). fold hd in Hs_vt, Hd_vt.
  step qk (einsum_hblk_hbtk qt kt Hs_qt Hs_kt).
  step dt (broadcast2_scalar4 Rdiv qk sc Hs_qk eq_refl).
  step rt (@forward_spec _ _ _ _ _ (Z.of_nat T) (Z.of_nat T) Hrt).
  rewrite !slice_stop_beyond in Hs_rt by lia.
  step rkt (einsum_bhrd_lrd_one kt rt Hs_kt Hs_rt).
  step rqt (einsum_bhld_lrd_one qt rt Hs_qt Hs_rt).
  step ks (Lin (MultiModalAttentionLayer.fc_k_spatial self) ltac:(simpl; tauto) _ _ _ Hts).
  step qs (Lin (MultiModalAttentionLayer.fc_q_spatial self) ltac:(simpl; tauto) _ _ _ Hts).
  step kst (split_heads3 ks Hs_ks Hnh0 Hmod). fold hd in Hs_kst, Hd_kst.
  step qst (split_heads3 qs Hs_qs Hnh0 Hmod). fold hd in Hs_qst, Hd_qst.
  step qks (einsum_hblk_hbtk qst kst Hs_qst Hs_kst).
  step dts (broadcast2_scalar4 Rdiv qks sc Hs_qks eq_refl).
  step s1 (@broadcast2_shape Rplus dt rkt [nh; B; T; T]
             ltac:(rewrite Hs_dt, Hs_rkt; apply broadcast_shapes_row)).
  step s2 (@broadcast2_shape Rplus s1 rqt [nh; B; T; T]
             ltac:(rewrite Hs_s1, Hs_rqt; apply broadcast_shapes_column)).
  step st (broadcast2_same Rplus s2 dts Hs_s2 Hs_dts).
  (* image *)
  step k' (Lin (MultiModalAttentionLayer.fc_k_img self) ltac:(simpl; tauto) _ _ _ Hi).
  step ki (split_heads3 k' Hs_k' Hnh0 Hmod). fold hd in Hs_ki, Hd_ki.
  step q' (Lin (MultiModalAttentionLayer.fc_q_img self) ltac:(simpl; tauto) _ _ _ Hi).
  step qi (split_heads3 q' Hs_q' Hnh0 Hmod). fold hd in Hs_qi, Hd_qi.
  step v' (Lin (MultiModalAttentionLayer.fc_v_img self) ltac:(simpl; tauto) _ _ _ Hi).
  step vi (split_heads3 v' Hs_v' Hnh0 Hmod). fold hd in Hs_vi, Hd_vi.
  step qk' (einsum_hblk_hbtk qi ki Hs_qi Hs_ki).
  step di (broadcast2_scalar4 Rdiv qk' sc Hs_qk' eq_refl).
  step ri (@forward_spec _ _ _ _ _ (Z.of_nat T) (Z.of_nat T) Hri).
  step rki (einsum_bhrd_lrd_one ki rt Hs_ki Hs_rt).
  step rqi (einsum_bhld_lrd_one qi rt Hs_qi Hs_rt).
  step ks' (Lin (MultiModalAttentionLayer.fc_k_spatial self) ltac:(simpl; tauto) _ _ _ His).
  step qs' (Lin (MultiModalAttentionLayer.fc_q_spatial self) ltac:(simpl; tauto) _ _ _ His).
  step ksi (split_heads3 ks' Hs_ks' Hnh0 Hmod). fold hd in Hs_ksi, Hd_ksi.
  step qsi (split_heads3 qs' Hs_qs' Hnh0 Hmod). fold hd in Hs_qsi, Hd_qsi.
  step qks' (einsum_hblk_hbtk qsi ksi Hs_qsi Hs_ksi).
  step dis (broadcast2_scalar4 Rdiv qks' sc Hs_qks' eq_refl).
  step s1' (@broadcast2_shape Rplus di rki [nh; B; T; T]
              ltac:(rewrite Hs_di, Hs_rki; apply broadcast_shapes_row)).
  step s2' (@broadcast2_shape Rplus s1' rqi [nh; B; T; T]
              ltac:(rewrite Hs_s1', Hs_rqi; apply broadcast_shapes_column)).
  step si (broadcast2_same Rplus s2' dis Hs_s2' Hs_dis).
  (* softmax, contexts, output *)
  step smt (softmax4 st Hs_st). step smi (softmax4 si Hs_si).
  pose proof (dropout_forward_shape (MultiModalAttentionLayer.dropout self)
                (MultiModalAttentionLayer.mask_text rng) smt) as Hpt.
  pose proof (dropout_forward_shape (MultiModalAttentionLayer.dropout self)
                (MultiModalAttentionLayer.mask_img rng) smi) as Hpi.
  rewrite Hs_smt in Hpt. rewrite Hs_smi in Hpi.
  step ct (einsum_hblt_hbtv _ vt Hpt Hs_vt).
  step ci (einsum_hblt_hbtv _ vi Hpi Hs_vi).
  step c (broadcast2_same Rplus ct ci Hs_ct Hs_ci).
  step em (merge_heads4 c Hs_c).
  rewrite HEhd in Hs_em.
  step o (Lin (fst (MultiModalAttentionLayer.to_out self)) ltac:(simpl; tauto) _ _ _ Hs_em).
  eexists. split; [reflexivity|].
  cbn [MultiModalAttentionLayer.returned].
  now rewrite dropout_forward_shape.
Qed.

(* ================================================================= *)
(** * The claims *)

(** C4, as the code behaves.  [RelativePosition(num_units,
    max_relative_position, max_seq_length)] is always constructed; its
    index table is square of side [L = max_seq_length], entry [[q, k]]
    is [clip(k - q, -max_relative_position, max_relative_position) +
    max_relative_position], which is [2 * max_relative_position] when
    [k - q >= max_relative_position] and [0] when
    [k - q <= -max_relative_position]; the learned table has shape
    [(2 * max_relative_position + 1, num_units)]; and
    [forward(length_q, length_k)] returns the rows of the learned table
    selected by the slice [[:length_q, :length_k]], a tensor of shape
    [(min(length_q, L), min(length_k, L), num_units)], which is
    [(length_q, length_k, num_units)] when both lengths are within the
    table. *)
Theorem C4_relative_position_table (nu mrp L : nat) (xavier : list nat -> R) :
  exists self,
    RelativePosition.init nu mrp L xavier = Ok self /\
    shape (RelativePosition.final_mat self) = [L; L] /\
    shape (RelativePosition.embeddings_table self) = [2 * mrp + 1; nu] /\
    (forall q k, q < L -> k < L ->
       data (RelativePosition.final_mat self) [q; k] =
         (clamp_Z (- Z.of_nat mrp) (Z.of_nat mrp) (Z.of_nat k - Z.of_nat q)
          + Z.of_nat mrp)%Z /\
       (q + mrp <= k ->
        data (RelativePosition.final_mat self) [q; k] = (2 * Z.of_nat mrp)%Z) /\
       (k + mrp <= q ->
        data (RelativePosition.final_mat self) [q; k] = 0%Z)) /\
    (forall length_q length_k : nat,
       exists e,
         RelativePosition.forward self (Z.of_nat length_q) (Z.of_nat length_k)
           = Ok e /\
         shape e = [Nat.min length_q L; Nat.min length_k L; nu] /\
         (length_q <= L -> length_k <= L ->
          shape e = [length_q; length_k; nu]) /\
         forall q k d,
           q < Nat.min length_q L -> k < Nat.min length_k L -> d < nu ->
           data e [q; k; d] =
           data (RelativePosition.embeddings_table self)
                [Z.to_nat (data (RelativePosition.final_mat self) [q; k]); d]).
Proof.
  destruct (init_spec nu mrp L xavier) as (self & Einit & _ & _ & _ & Htab & Hfm).
  destruct (build_final_mat_spec mrp L) as (fm & Efm & Hshape & Hdata).
  rewrite Efm in Hfm. injection Hfm as Hfm. subst fm.
  exists self. split; [exact Einit|]. split; [exact Hshape|].
  split; [rewrite Htab; simpl; f_equal; lia|].
  split.
  - intros q k Hq Hk. rewrite (Hdata q k Hq Hk). unfold clamp_Z.
    split; [reflexivity|]. split; intros; lia.
  - intros lq lk.
    destruct (@forward_spec nu mrp L xavier self (Z.of_nat lq) (Z.of_nat lk) Einit)
      as (e & Ee & Hse & Hde).
    assert (Hstop : forall n, slice_stop (Z.of_nat n) L = Nat.min n L).
    { intros n. unfold slice_stop.
      destruct (Z.of_nat n <? 0)%Z eqn:E1; [apply Z.ltb_lt in E1; lia|].
      now rewrite Nat2Z.id. }
    rewrite !Hstop in Hse, Hde.
    exists e. split; [exact Ee|]. split; [exact Hse|]. split.
    + intros Hlq Hlk. rewrite Hse. f_equal; [lia|]. f_equal. lia.
    + intros q k d Hq Hk _. rewrite (Hde q k d Hq Hk), Htab. simpl.
      rewrite Hdata by lia. reflexivity.
Qed.

(** A table for 3 positions clipped at distance 1, read in full. *)
Lemma C4_relative_position_table_witness :
  exists self,
    RelativePosition.init 2 1 3 (fun _ => 0%R) = Ok self /\
    data (RelativePosition.final_mat self) [0; 2] = 2%Z /\
    data (RelativePosition.final_mat self) [2; 0] = 0%Z /\
    exists e, RelativePosition.forward self 3 3 = Ok e /\ shape e = [3; 3; 2].
Proof.
  destruct (C4_relative_position_table 2 1 3 (fun _ => 0%R))
    as (self & Einit & _ & _ & Hentry & Hfwd).
  exists self. split; [exact Einit|].
  destruct (Hentry 0 2 ltac:(lia) ltac:(lia)) as (_ & Hhi & _).
  destruct (Hentry 2 0 ltac:(lia) ltac:(lia)) as (_ & _ & Hlo).
  split; [apply Hhi; lia|]. split; [apply Hlo; lia|].
  destruct (Hfwd 3 3) as (e & Ee & _ & Hse & _).
  exists e. split; [exact Ee | apply Hse; lia].
Defined.

(** C4 fails on the code in its last clause: a table built for 2
    positions, read with lengths 3 and 3, returns a tensor of shape
    [(2, 2, 1)], not [(3, 3, 1)]. *)
Lemma C4_counterexample :
  exists self e,
    RelativePosition.init 1 1 2 (fun _ => 0%R) = Ok self /\
    RelativePosition.forward self 3 3 = Ok e /\
    shape e = [2; 2; 1] /\
    shape e <> [3; 3; 1].
Proof.
  destruct (init_spec 1 1 2 (fun _ => 0%R)) as (self & Einit & _).
  destruct (@forward_spec 1 1 2 (fun _ => 0%R) self 3 3 Einit) as (e & Ee & Hse & _).
  exists self, e. split; [exact Einit|]. split; [exact Ee|].
  split; [exact Hse|]. rewrite Hse. discriminate.
Qed.

(** C6, as the code behaves.  [forward(length_q, length_k)] never
    raises.  The slice [[:length_q, :length_k]] of the index table is
    cut at the size of the table, so a length beyond
    [max_seq_length] yields the embeddings of the whole table in that
    direction: the result has shape
    [(min(length_q, L), min(length_k, L), num_units)]. *)
Theorem C6_forward_truncates (nu mrp L : nat) (xavier : list nat -> R) :
  exists self,
    RelativePosition.init nu mrp L xavier = Ok self /\
    (forall length_q length_k : Z,
       exists e, RelativePosition.forward self length_q length_k = Ok e) /\
    (forall length_q length_k : nat,
       exists e,
         RelativePosition.forward self (Z.of_nat length_q) (Z.of_nat length_k)
           = Ok e /\
         shape e = [Nat.min length_q L; Nat.min length_k L; nu]).
Proof.
  destruct (init_spec nu mrp L xavier) as (self & Einit & _).
  exists self. split; [exact Einit|]. split.
  - intros lq lk.
    destruct (@forward_spec nu mrp L xavier self lq lk Einit) as (e & Ee & _).
    now exists e.
  - intros lq lk.
    destruct (@forward_spec nu mrp L xavier self (Z.of_nat lq) (Z.of_nat lk) Einit)
      as (e & Ee & Hse & _).
    exists e. split; [exact Ee|]. rewrite Hse. unfold slice_stop.
    destruct (Z.of_nat lq <? 0)%Z eqn:E1; [apply Z.ltb_lt in E1; lia|].
    destruct (Z.of_nat lk <? 0)%Z eqn:E2; [apply Z.ltb_lt in E2; lia|].
    now rewrite !Nat2Z.id.
Qed.

(** C6 fails on the code: a table built for 2 positions, asked for 5
    queries and 3 keys, raises nothing and returns the embeddings of its
    2 by 2 entries. *)
Lemma C6_counterexample :
  exists self e,
    RelativePosition.init 1 1 2 (fun _ => 0%R) = Ok self /\
    RelativePosition.max_length self = 2 /\
    RelativePosition.forward self 5 3 = Ok e /\
    shape e = [2; 2; 1].
Proof.
  destruct (init_spec 1 1 2 (fun _ => 0%R)) as (self & Einit & _ & _ & HL & _).
  destruct (@forward_spec 1 1 2 (fun _ => 0%R) self 5 3 Einit) as (e & Ee & Hse & _).
  exists self, e. split; [exact Einit|]. split; [exact HL|].
  split; [exact Ee|]. exact Hse.
Qed.

(** The lookup in the image table raises or returns according to the
    shape of the table and the index table only. *)
Lemma index_rows_values (s : list nat) (f g : list nat -> R) (idx : LongTensor) :
  (exists e1 e2, index_rows (mkTensor s f) idx = Ok e1 /\
                 index_rows (mkTensor s g) idx = Ok e2) \/
  (exists x, index_rows (mkTensor s f) idx = Raise x /\
             index_rows (mkTensor s g) idx = Raise x).
Proof.
  unfold index_rows. simpl shape. destruct s as [|n rest].
  - right. eexists. split; reflexivity.
  - destruct (forallb (fun i => valid_row n (data idx i)) (indices (shape idx))).
    + left. eexists. eexists. split; reflexivity.
    + right. eexists. split; reflexivity.
Qed.

(** Overwriting the image table changes no local variable of [forward]
    other than [rel_pos_embed_img], and not whether it raises. *)
Lemma img_table_unused (self : MultiModalAttentionLayer.t) (values : list nat -> R)
    (rng : MultiModalAttentionLayer.draws)
    (text_feat img_feat text_spatial_feat img_spatial_feat : FloatTensor) :
  fmap after_img_lookup
    (MultiModalAttentionLayer.forward_locals (with_img_table_values self values) rng
       text_feat img_feat text_spatial_feat img_spatial_feat) =
  fmap after_img_lookup
    (MultiModalAttentionLayer.forward_locals self rng
       text_feat img_feat text_spatial_feat img_spatial_feat).
Proof.
  unfold MultiModalAttentionLayer.forward_locals.
  cbn [with_img_table_values
       MultiModalAttentionLayer.embed_dim MultiModalAttentionLayer.n_heads
       MultiModalAttentionLayer.head_dim
       MultiModalAttentionLayer.relative_positions_text
       MultiModalAttentionLayer.relative_positions_img
       MultiModalAttentionLayer.fc_k_text MultiModalAttentionLayer.fc_q_text
       MultiModalAttentionLayer.fc_v_text MultiModalAttentionLayer.fc_k_img
       MultiModalAttentionLayer.fc_q_img MultiModalAttentionLayer.fc_v_img
       MultiModalAttentionLayer.fc_k_spatial MultiModalAttentionLayer.fc_q_spatial
       MultiModalAttentionLayer.dropout MultiModalAttentionLayer.to_out
       MultiModalAttentionLayer.scale].
  unfold RelativePosition.forward at 2 4.
  cbn [RelativePosition.final_mat RelativePosition.embeddings_table].
  destruct (RelativePosition.embeddings_table
              (MultiModalAttentionLayer.relative_positions_img self)) as [s g].
  cbn [shape].
  repeat lazymatch goal with
  | |- fmap _ (bind (bind (slice2 ?m ?a ?b) _) _) = _ =>
      destruct (slice2 m a b) as [sl|]; cbn [bind fmap]; [|reflexivity];
      destruct (index_rows_values s values g sl)
        as [(e1 & e2 & H1 & H2)|(x & H1 & H2)];
      rewrite H1, H2; cbn [bind fmap]; [|reflexivity]
  | |- fmap _ (bind ?m _) = fmap _ (bind ?m _) =>
      destruct m; cbn [bind fmap]; cbv zeta; [|reflexivity]
  end.
  reflexivity.
Qed.

(** C10.  The value [forward] returns, and whether it raises, do not
    depend on the contents of [relative_positions_img.embeddings_table]:
    the embedding looked up in it is assigned to [rel_pos_embed_img] and
    never read, both relative-position terms of the image branch being
    computed from [rel_pos_embed_text]. *)
Theorem C10_img_table_irrelevant (self : MultiModalAttentionLayer.t)
    (values1 values2 : list nat -> R) (rng : MultiModalAttentionLayer.draws)
    (text_feat img_feat text_spatial_feat img_spatial_feat : FloatTensor) :
  MultiModalAttentionLayer.forward (with_img_table_values self values1) rng
    text_feat img_feat text_spatial_feat img_spatial_feat =
  MultiModalAttentionLayer.forward (with_img_table_values self values2) rng
    text_feat img_feat text_spatial_feat img_spatial_feat.
Proof.
  assert (H : forall values,
    MultiModalAttentionLayer.forward (with_img_table_values self values) rng
      text_feat img_feat text_spatial_feat img_spatial_feat =
    MultiModalAttentionLayer.forward self rng
      text_feat img_feat text_spatial_feat img_spatial_feat).
  { intros values.
    pose proof (img_table_unused self values rng text_feat img_feat
                  text_spatial_feat img_spatial_feat) as H.
    unfold MultiModalAttentionLayer.forward.
    destruct (MultiModalAttentionLayer.forward_locals
                (with_img_table_values self values) rng text_feat img_feat
                text_spatial_feat img_spatial_feat) as [l1|x1];
      destruct (MultiModalAttentionLayer.forward_locals self rng text_feat
                  img_feat text_spatial_feat img_spatial_feat) as [l2|x2];
      cbn in H |- *; try discriminate H.
    - injection H as _ _ _ _ _ _ _ _ _ _ H. now rewrite H.
    - injection H as H. now rewrite H. }
  now rewrite (H values1), (H values2).
Qed.

Lemma dot_ext (n : nat) (f f' g g' : nat -> R) :
  (forall j, j < n -> f j = f' j) -> (forall j, j < n -> g j = g' j) ->
  dot n f g = dot n f' g'.
Proof.
  intros Hf Hg. unfold dot. apply sum_n_ext. intros j Hj.
  now rewrite (Hf j Hj), (Hg j Hj).
Qed.

(** C1.  In every call of [forward] that reaches its [return], in
    each modality the scores are the sum, evaluated from the left, of
    exactly four tensors: the contraction of queries and keys over the
    head divided by [scale], the relative-position term of the keys,
    the relative-position term of the queries, and the spatial
    contraction divided by [scale]; [scale] is the one-element tensor
    [sqrt(embed_dim)], which differs from [sqrt(head_dim)] as soon as
    there are two heads.  On four inputs of shape [(B, T, embed_dim)],
    [T] within the length fixed at construction, [forward] reaches its
    [return] and every score is the sum of the four terms written out
    in the inputs and the parameters. *)
Theorem C1_attention_scores (E nh mrp L : nat) (p : Q) (tr : bool) (iv : init_values)
    (self : MultiModalAttentionLayer.t) (rng : MultiModalAttentionLayer.draws)
    (text_feat img_feat text_spatial_feat img_spatial_feat : FloatTensor)
    (B T : nat) :
  MultiModalAttentionLayer.init E nh mrp L p tr iv = Ok self ->
  let hd := MultiModalAttentionLayer.head_dim self in
  let rel l t d :=
    data (RelativePosition.embeddings_table
            (MultiModalAttentionLayer.relative_positions_text self))
         [rel_index mrp l t; d] in
  MultiModalAttentionLayer.scale self = mkTensor [1] (fun _ => sqrt (INR E)) /\
  hd = E / nh /\
  (2 <= nh -> 0 < E -> sqrt (INR E) <> sqrt (INR hd)) /\
  (forall loc,
     MultiModalAttentionLayer.forward_locals self rng
       text_feat img_feat text_spatial_feat img_spatial_feat = Ok loc ->
     sum_of_four_terms (MultiModalAttentionLayer.scale self)
       (MultiModalAttentionLayer.query_text_nh loc)
       (MultiModalAttentionLayer.key_text_nh loc)
       (MultiModalAttentionLayer.dots_text loc)
       (MultiModalAttentionLayer.rel_pos_key_text loc)
       (MultiModalAttentionLayer.rel_pos_query_text loc)
       (MultiModalAttentionLayer.dots_text_spatial loc)
       (MultiModalAttentionLayer.text_attn_scores loc) /\
     sum_of_four_terms (MultiModalAttentionLayer.scale self)
       (MultiModalAttentionLayer.query_img_nh loc)
       (MultiModalAttentionLayer.key_img_nh loc)
       (MultiModalAttentionLayer.dots_img loc)
       (MultiModalAttentionLayer.rel_pos_key_img loc)
       (MultiModalAttentionLayer.rel_pos_query_img loc)
       (MultiModalAttentionLayer.dots_img_spatial loc)
       (MultiModalAttentionLayer.img_attn_scores loc)) /\
  (shape text_feat = [B; T; E] -> shape img_feat = [B; T; E] ->
   shape text_spatial_feat = [B; T; E] -> shape img_spatial_feat = [B; T; E] ->
   T <= L ->
   exists loc,
    MultiModalAttentionLayer.forward_locals self rng
      text_feat img_feat text_spatial_feat img_spatial_feat = Ok loc /\
    (forall h b l t, h < nh -> b < B -> l < T -> t < T ->
       data (MultiModalAttentionLayer.text_attn_scores loc) [h; b; l; t] =
       (dot hd (fun k => head_at (MultiModalAttentionLayer.fc_q_text self)
                                 text_feat hd h b l k)
               (fun k => head_at (MultiModalAttentionLayer.fc_k_text self)
                                 text_feat hd h b t k) / sqrt (INR E)
        + dot hd (fun d => head_at (MultiModalAttentionLayer.fc_k_text self)
                                   text_feat hd h b t d)
                 (rel l t)
        + dot hd (fun d => head_at (MultiModalAttentionLayer.fc_q_text self)
                                   text_feat hd h b l d)
                 (rel l t)
        + dot hd (fun k => head_at (MultiModalAttentionLayer.fc_q_spatial self)
                                   text_spatial_feat hd h b l k)
                 (fun k => head_at (MultiModalAttentionLayer.fc_k_spatial self)
                                   text_spatial_feat hd h b t k) / sqrt (INR E))%R /\
       data (MultiModalAttentionLayer.img_attn_scores loc) [h; b; l; t] =
       (dot hd (fun k => head_at (MultiModalAttentionLayer.fc_q_img self)
                                 img_feat hd h b l k)
               (fun k => head_at (MultiModalAttentionLayer.fc_k_img self)
                                 img_feat hd h b t k) / sqrt (INR E)
        + dot hd (fun d => head_at (MultiModalAttentionLayer.fc_k_img self)
                                   img_feat hd h b t d)
                 (rel l t)
        + dot hd (fun d => head_at (MultiModalAttentionLayer.fc_q_img self)
                                   img_feat hd h b l d)
                 (rel l t)
        + dot hd (fun k => head_at (MultiModalAttentionLayer.fc_q_spatial self)
                                   img_spatial_feat hd h b l k)
                 (fun k => head_at (MultiModalAttentionLayer.fc_k_spatial self)
                                   img_spatial_feat hd h b t k) / sqrt (INR E))%R)).
Proof.
  intros Hinit hd rel.
  destruct (mmal_init_inv _ _ _ _ _ _ _ Hinit)
    as (HE & Hnh & Hnh0 & Hmod & Hhd & Hrt & _ & _ & Hscale & _).
  split; [exact Hscale|]. split; [exact Hhd|].
  split.
  { intros H2 HE0 Heq. unfold hd in Heq. rewrite Hhd in Heq.
    apply sqrt_inj in Heq; try apply pos_INR.
    apply INR_eq in Heq.
    assert (E / nh < E) by (apply Nat.div_lt; lia). lia. }
  split.
  { intros loc Hloc.
    destruct (forward_locals_inv _ _ _ _ _ _ Hloc) as (S1 & S2 & _).
    split; assumption. }
  intros Ht Hi Hts His HTL.
  destruct (@forward_locals_run E nh mrp L p tr iv self rng text_feat img_feat
              text_spatial_feat img_spatial_feat B T Hinit Ht Hi Hts His HTL)
    as (loc & Eloc & run).
  assert (Hm : RelativePosition.max_relative_position
                 (MultiModalAttentionLayer.relative_positions_text self) = mrp).
  { destruct (init_spec (E / nh) mrp L
                (iv "relative_positions_text.embeddings_table"%string))
      as (s' & Es' & _ & Hm & _).
    rewrite Hrt in Es'. injection Es' as <-. exact Hm. }
  destruct run. rewrite Hnh, HE, Hm in *.
  assert (Hrel : forall l t, l < T -> t < T -> forall j, j < hd ->
            data (MultiModalAttentionLayer.rel_pos_embed_text loc) [l; t; j]
            = rel l t j).
  { intros l t Hl Hlt j _. now apply (proj2 run_rel_pos_embed_text0). }
  exists loc. split; [exact Eloc|].
  - intros h b l t Hh Hb Hl Hlt. split.
    + rewrite (proj2 run_text_attn_scores0), (proj2 run_dots_text0),
        (proj2 run_rel_pos_key_text0), (proj2 run_rel_pos_query_text0),
        (proj2 run_dots_text_spatial0) by assumption.
      fold hd.
      apply f_equal2; [apply f_equal2; [apply f_equal2;
        [apply (f_equal (fun x => (x / sqrt (INR E))%R))|]|]|reflexivity].
      * apply dot_ext; intros;
          [apply (proj2 run_query_text0) | apply (proj2 run_key_text0)].
      * apply dot_ext; intros; [apply (proj2 run_key_text0) | now apply Hrel].
      * apply dot_ext; intros; [apply (proj2 run_query_text0) | now apply Hrel].
    + rewrite (proj2 run_img_attn_scores0), (proj2 run_dots_img0),
        (proj2 run_rel_pos_key_img0), (proj2 run_rel_pos_query_img0),
        (proj2 run_dots_img_spatial0) by assumption.
      fold hd.
      apply f_equal2; [apply f_equal2; [apply f_equal2;
        [apply (f_equal (fun x => (x / sqrt (INR E))%R))|]|]|reflexivity].
      * apply dot_ext; intros;
          [apply (proj2 run_query_img0) | apply (proj2 run_key_img0)].
      * apply dot_ext; intros; [apply (proj2 run_key_img0) | now apply Hrel].
      * apply dot_ext; intros; [apply (proj2 run_query_img0) | now apply Hrel].
Qed.

(** Two heads of width 1 on a sequence of two zero vectors. *)
Lemma C1_attention_scores_witness :
  exists self loc,
    MultiModalAttentionLayer.init 2 2 1 2 0%Q false (fun _ _ => 0%R) = Ok self /\
    MultiModalAttentionLayer.forward_locals self
      (MultiModalAttentionLayer.mk_draws (fun _ => true) (fun _ => true)
                                         (fun _ => true))
      (zeros [1; 2; 2]) (zeros [1; 2; 2]) (zeros [1; 2; 2]) (zeros [1; 2; 2])
      = Ok loc /\
    MultiModalAttentionLayer.head_dim self = 1 /\
    sqrt (INR 2) <> sqrt (INR (MultiModalAttentionLayer.head_dim self)).
Proof.
  assert (Hinit : exists self,
            MultiModalAttentionLayer.init 2 2 1 2 0%Q false (fun _ _ => 0%R)
            = Ok self) by (eexists; reflexivity).
  destruct Hinit as [self Hinit].
  destruct (@C1_attention_scores 2 2 1 2 0%Q false (fun _ _ => 0%R) self
              (MultiModalAttentionLayer.mk_draws (fun _ => true) (fun _ => true)
                                                 (fun _ => true))
              (zeros [1; 2; 2]) (zeros [1; 2; 2]) (zeros [1; 2; 2])
              (zeros [1; 2; 2]) 1 2 Hinit)
    as (_ & Hhd & Hscale & _ & Hrun).
  destruct (Hrun eq_refl eq_refl eq_refl eq_refl (le_n 2)) as (loc & Eloc & _).
  exists self, loc. split; [exact Hinit|]. split; [exact Eloc|].
  split; [exact Hhd|]. apply Hscale; lia.
Defined.

(** C2.  In every call of [forward] that reaches its [return], the two
    relative-position terms of the image branch are the contractions of
    the image keys and of the image queries with [rel_pos_embed_text],
    the embedding looked up in [relative_positions_text].  On four
    inputs of shape [(B, T, embed_dim)], [T] within the length fixed at
    construction, they are the image keys and queries contracted with
    rows of [relative_positions_text.embeddings_table], and they stay
    the same tensors when the image branch's own table is
    overwritten. *)
Theorem C2_img_uses_text_table (E nh mrp L : nat) (p : Q) (tr : bool)
    (iv : init_values)
    (self : MultiModalAttentionLayer.t) (rng : MultiModalAttentionLayer.draws)
    (text_feat img_feat text_spatial_feat img_spatial_feat : FloatTensor)
    (B T : nat) :
  MultiModalAttentionLayer.init E nh mrp L p tr iv = Ok self ->
  let hd := MultiModalAttentionLayer.head_dim self in
  let text_table :=
    RelativePosition.embeddings_table
      (MultiModalAttentionLayer.relative_positions_text self) in
  (forall loc,
     MultiModalAttentionLayer.forward_locals self rng
       text_feat img_feat text_spatial_feat img_spatial_feat = Ok loc ->
     RelativePosition.forward
       (MultiModalAttentionLayer.relative_positions_text self)
       (Z.of_nat (MultiModalAttentionLayer.seq_length loc))
       (Z.of_nat (MultiModalAttentionLayer.seq_length loc))
       = Ok (MultiModalAttentionLayer.rel_pos_embed_text loc) /\
     einsum "bhrd,lrd->bhlr" (MultiModalAttentionLayer.key_img_nh loc)
       (MultiModalAttentionLayer.rel_pos_embed_text loc)
       = Ok (MultiModalAttentionLayer.rel_pos_key_img loc) /\
     einsum "bhld,lrd->bhlr" (MultiModalAttentionLayer.query_img_nh loc)
       (MultiModalAttentionLayer.rel_pos_embed_text loc)
       = Ok (MultiModalAttentionLayer.rel_pos_query_img loc)) /\
  (shape text_feat = [B; T; E] -> shape img_feat = [B; T; E] ->
   shape text_spatial_feat = [B; T; E] -> shape img_spatial_feat = [B; T; E] ->
   T <= L ->
   exists loc,
    MultiModalAttentionLayer.forward_locals self rng
      text_feat img_feat text_spatial_feat img_spatial_feat = Ok loc /\
    (forall h b l r, h < nh -> b < B -> l < T -> r < T ->
       data (MultiModalAttentionLayer.rel_pos_key_img loc) [h; b; l; r] =
       dot hd (fun d => head_at (MultiModalAttentionLayer.fc_k_img self)
                                img_feat hd h b r d)
              (fun d => data text_table [rel_index mrp l r; d]) /\
       data (MultiModalAttentionLayer.rel_pos_query_img loc) [h; b; l; r] =
       dot hd (fun d => head_at (MultiModalAttentionLayer.fc_q_img self)
                                img_feat hd h b l d)
              (fun d => data text_table [rel_index mrp l r; d])) /\
    (forall values, exists loc',
       MultiModalAttentionLayer.forward_locals
         (with_img_table_values self values) rng
         text_feat img_feat text_spatial_feat img_spatial_feat = Ok loc' /\
       MultiModalAttentionLayer.rel_pos_key_img loc' =
         MultiModalAttentionLayer.rel_pos_key_img loc /\
       MultiModalAttentionLayer.rel_pos_query_img loc' =
         MultiModalAttentionLayer.rel_pos_query_img loc)).
Proof.
  intros Hinit hd text_table. split.
  { intros loc Hloc.
    destruct (forward_locals_inv _ _ _ _ _ _ Hloc) as (_ & _ & R1 & R2 & R3 & _).
    auto. }
  intros Ht Hi Hts His HTL.
  destruct (@forward_locals_run E nh mrp L p tr iv self rng text_feat img_feat
              text_spatial_feat img_spatial_feat B T Hinit Ht Hi Hts His HTL)
    as (loc & Eloc & run).
  destruct (mmal_init_inv _ _ _ _ _ _ _ Hinit)
    as (HE & Hnh & Hnh0 & Hmod & Hhd & Hrt & _).
  assert (Hm : RelativePosition.max_relative_position
                 (MultiModalAttentionLayer.relative_positions_text self) = mrp).
  { destruct (init_spec (E / nh) mrp L
                (iv "relative_positions_text.embeddings_table"%string))
      as (s' & Es' & _ & Hm & _).
    rewrite Hrt in Es'. injection Es' as <-. exact Hm. }
  destruct run. rewrite Hnh, HE, Hm in *.
  exists loc. split; [exact Eloc|]. split.
  - intros h b l r Hh Hb Hl Hr. split.
    + rewrite (proj2 run_rel_pos_key_img0) by assumption.
      apply dot_ext; intros;
        [apply (proj2 run_key_img0)
        | now apply (proj2 run_rel_pos_embed_text0)].
    + rewrite (proj2 run_rel_pos_query_img0) by assumption.
      apply dot_ext; intros;
        [apply (proj2 run_query_img0)
        | now apply (proj2 run_rel_pos_embed_text0)].
  - intros values.
    pose proof (img_table_unused self values rng text_feat img_feat
                  text_spatial_feat img_spatial_feat) as H.
    rewrite Eloc in H.
    destruct (MultiModalAttentionLayer.forward_locals
                (with_img_table_values self values) rng text_feat img_feat
                text_spatial_feat img_spatial_feat) as [loc'|x];
      cbn in H; [|discriminate H].
    injection H as H1 H2 _. exists loc'. auto.
Qed.

(** One head on a sequence of two zero vectors. *)
Lemma C2_img_uses_text_table_witness :
  exists self loc,
    MultiModalAttentionLayer.init 1 1 1 2 0%Q false (fun _ _ => 0%R) = Ok self /\
    MultiModalAttentionLayer.forward_locals self
      (MultiModalAttentionLayer.mk_draws (fun _ => true) (fun _ => true)
                                         (fun _ => true))
      (zeros [1; 2; 1]) (zeros [1; 2; 1]) (zeros [1; 2; 1]) (zeros [1; 2; 1])
      = Ok loc /\
    data (MultiModalAttentionLayer.rel_pos_key_img loc) [0; 0; 0; 1] =
    dot (MultiModalAttentionLayer.head_dim self)
        (fun d => head_at (MultiModalAttentionLayer.fc_k_img self)
                          (zeros [1; 2; 1])
                          (MultiModalAttentionLayer.head_dim self) 0 0 1 d)
        (fun d => data (RelativePosition.embeddings_table
                          (MultiModalAttentionLayer.relative_positions_text self))
                       [rel_index 1 0 1; d]).
Proof.
  assert (Hinit : exists self,
            MultiModalAttentionLayer.init 1 1 1 2 0%Q false (fun _ _ => 0%R)
            = Ok self) by (eexists; reflexivity).
  destruct Hinit as [self Hinit].
  destruct (@C2_img_uses_text_table 1 1 1 2 0%Q false (fun _ _ => 0%R) self
              (MultiModalAttentionLayer.mk_draws (fun _ => true) (fun _ => true)
                                                 (fun _ => true))
              (zeros [1; 2; 1]) (zeros [1; 2; 1]) (zeros [1; 2; 1])
              (zeros [1; 2; 1]) 1 2 Hinit) as (_ & Hrun).
  destruct (Hrun eq_refl eq_refl eq_refl eq_refl (le_n 2))
    as (loc & Eloc & Hrel & _).
  exists self, loc. split; [exact Hinit|]. split; [exact Eloc|].
  apply (Hrel 0 0 0 1); lia.
Defined.



(** C8, as the code behaves.  A call on four inputs of shape
    [(B, L, embed_dim)], [L] the length fixed at construction, returns a
    tensor of that shape.  A call whose [text_feat] is longer, by one
    position or more, raises when [L >= 2]; no index is out of range:
    the slice of the index table is cut to the table, and the
    contraction of the keys with the embedding of the cut slice raises
    the size-mismatch [RuntimeError] of [torch.einsum].  When [L = 1]
    the cut slice has dimensions of size 1, which broadcast, and a call
    on longer inputs returns. *)
Theorem C8_boundary (E nh mrp L : nat) (p : Q) (tr : bool) (iv : init_values)
    (self : MultiModalAttentionLayer.t) (rng : MultiModalAttentionLayer.draws)
    (B : nat) :
  MultiModalAttentionLayer.init E nh mrp L p tr iv = Ok self ->
  (forall text_feat img_feat text_spatial_feat img_spatial_feat,
     shape text_feat = [B; L; E] -> shape img_feat = [B; L; E] ->
     shape text_spatial_feat = [B; L; E] -> shape img_spatial_feat = [B; L; E] ->
     exists out,
       MultiModalAttentionLayer.forward self rng
         text_feat img_feat text_spatial_feat img_spatial_feat = Ok out /\
       shape out = [B; L; E]) /\
  (forall T text_feat img_feat text_spatial_feat img_spatial_feat,
     shape text_feat = [B; T; E] ->
     L < T -> 2 <= L ->
     MultiModalAttentionLayer.forward self rng
       text_feat img_feat text_spatial_feat img_spatial_feat
     = Raise RuntimeError) /\
  (forall T text_feat img_feat text_spatial_feat img_spatial_feat,
     shape text_feat = [B; T; E] -> shape img_feat = [B; T; E] ->
     shape text_spatial_feat = [B; T; E] -> shape img_spatial_feat = [B; T; E] ->
     L = 1 -> 1 <= T ->
     exists out,
       MultiModalAttentionLayer.forward self rng
         text_feat img_feat text_spatial_feat img_spatial_feat = Ok out /\
       shape out = [B; T; E]).
Proof.
  intros Hinit. split; [|split].
  - intros text_feat img_feat text_spatial_feat img_spatial_feat Ht Hi Hts His.
    destruct (@forward_locals_run E nh mrp L p tr iv self rng text_feat img_feat
                text_spatial_feat img_spatial_feat B L Hinit Ht Hi Hts His
                (le_n L))
      as (loc & Eloc & run).
    destruct (mmal_init_inv _ _ _ _ _ _ _ Hinit) as (HE & _).
    exists (MultiModalAttentionLayer.returned loc). split.
    + unfold MultiModalAttentionLayer.forward. now rewrite Eloc.
    + pose proof (proj1 (run_returned run)) as Hr. rewrite HE in Hr. exact Hr.
  - intros T text_feat img_feat text_spatial_feat img_spatial_feat Ht HLT HL.
    unfold MultiModalAttentionLayer.forward.
    now rewrite (@forward_locals_too_long E nh mrp L p tr iv self rng
                   text_feat img_feat text_spatial_feat img_spatial_feat B
                   T Hinit Ht HLT HL).
  - intros T text_feat img_feat text_spatial_feat img_spatial_feat
           Ht Hi Hts His HL HT. subst L.
    destruct (@forward_locals_broadcast E nh mrp p tr iv self rng
                text_feat img_feat text_spatial_feat img_spatial_feat B T
                Hinit Ht Hi Hts His HT) as (loc & Eloc & Hs).
    exists (MultiModalAttentionLayer.returned loc). split; [|exact Hs].
    unfold MultiModalAttentionLayer.forward. now rewrite Eloc.
Qed.

(** A layer built for 2 positions: 2 positions pass, 3 raise. *)
Lemma C8_boundary_witness :
  exists self out,
    MultiModalAttentionLayer.init 2 1 1 2 0%Q false (fun _ _ => 0%R) = Ok self /\
    MultiModalAttentionLayer.forward self
      (MultiModalAttentionLayer.mk_draws (fun _ => true) (fun _ => true)
                                         (fun _ => true))
      (zeros [1; 2; 2]) (zeros [1; 2; 2]) (zeros [1; 2; 2]) (zeros [1; 2; 2])
      = Ok out /\
    shape out = [1; 2; 2] /\
    MultiModalAttentionLayer.forward self
      (MultiModalAttentionLayer.mk_draws (fun _ => true) (fun _ => true)
                                         (fun _ => true))
      (zeros [1; 3; 2]) (zeros [1; 3; 2]) (zeros [1; 3; 2]) (zeros [1; 3; 2])
      = Raise RuntimeError.
Proof.
  assert (Hinit : exists self,
            MultiModalAttentionLayer.init 2 1 1 2 0%Q false (fun _ _ => 0%R)
            = Ok self) by (eexists; reflexivity).
  destruct Hinit as [self Hinit].
  destruct (@C8_boundary 2 1 1 2 0%Q false (fun _ _ => 0%R) self
              (MultiModalAttentionLayer.mk_draws (fun _ => true) (fun _ => true)
                                                 (fun _ => true))
              1 Hinit) as (Hok & Hbad & _).
  destruct (Hok (zeros [1; 2; 2]) (zeros [1; 2; 2]) (zeros [1; 2; 2])
                (zeros [1; 2; 2]) eq_refl eq_refl eq_refl eq_refl)
    as (out & Eout & Hshape).
  exists self, out. split; [exact Hinit|]. split; [exact Eout|].
  split; [exact Hshape|].
  apply (Hbad 3); [reflexivity | lia | lia].
Defined.

(** C8 fails on the code: a layer built for 1 position accepts 2.  The
    embedding of the cut slice has shape [(1, 1, head_dim)], and its
    dimensions of size 1 broadcast against the 2 positions. *)
Lemma C8_counterexample :
  exists self out,
    MultiModalAttentionLayer.init 2 1 1 1 0%Q false (fun _ _ => 0%R) = Ok self /\
    MultiModalAttentionLayer.forward self
      (MultiModalAttentionLayer.mk_draws (fun _ => true) (fun _ => true)
                                         (fun _ => true))
      (zeros [1; 2; 2]) (zeros [1; 2; 2]) (zeros [1; 2; 2]) (zeros [1; 2; 2])
      = Ok out /\
    shape out = [1; 2; 2].
Proof.
  assert (H : match
                (self <- MultiModalAttentionLayer.init 2 1 1 1 0%Q false
                           (fun _ _ => 0%R) ;;
                 MultiModalAttentionLayer.forward self
                   (MultiModalAttentionLayer.mk_draws
                      (fun _ => true) (fun _ => true) (fun _ => true))
                   (zeros [1; 2; 2]) (zeros [1; 2; 2]) (zeros [1; 2; 2])
                   (zeros [1; 2; 2]))
              with
              | Ok out => shape out = [1; 2; 2]
              | Raise _ => False
              end) by (lazy; reflexivity).
  revert H.
  destruct (MultiModalAttentionLayer.init 2 1 1 1 0%Q false (fun _ _ => 0%R))
    as [self|] eqn:Hinit; cbn [bind]; [|contradiction].
  destruct (MultiModalAttentionLayer.forward self _ _ _ _ _) as [out|] eqn:Hf;
    [|contradiction].
  intros H. exists self, out. auto.
Qed.

(** ** Scaling the inputs *)

Lemma sum_n_scale (n : nat) (a : R) (f : nat -> R) :
  sum_n n (fun j => (a * f j)%R) = (a * sum_n n f)%R.
Proof.
  induction n as [|n IH]; simpl.
  - lra.
  - rewrite IH. lra.
Qed.

Lemma linear_at_scaled (lin : Linear.t) (c : R) (x : FloatTensor) (b t j : nat) :
  data (Linear.bias lin) [j] = 0%R ->
  linear_at lin (scaled c x) b t j = (c * linear_at lin x b t j)%R.
Proof.
  intros Hb. unfold linear_at, scaled, tmap. simpl. rewrite Hb.
  rewrite !Rplus_0_r, <- sum_n_scale. apply sum_n_ext. intros i _. lra.
Qed.

Lemma dot_scale (n : nat) (c : R) (f g : nat -> R) :
  dot n (fun j => (c * f j)%R) (fun j => (c * g j)%R) = (c * c * dot n f g)%R.
Proof.
  unfold dot. rewrite <- sum_n_scale. apply sum_n_ext. intros j _. lra.
Qed.

Lemma dropout_at_eval (d : Dropout.t) (keep : bool) (v : R) :
  Dropout.training d = false -> dropout_at d keep v = v.
Proof. intros H. unfold dropout_at. now rewrite H. Qed.

(** C9, as the code behaves.  In evaluation mode, on four inputs of
    shape [(B, T, embed_dim)], when the relative-position and spatial
    terms are zero and the query and key projections have no bias,
    multiplying all four inputs by [c] multiplies every attention score
    by [c * c]; the attention probabilities are unchanged when
    [c * c = 1], that is for [c = 1] and [c = -1]. *)
Theorem C9_scores_scale_quadratically (E nh mrp L : nat) (p : Q)
    (iv : init_values)
    (self : MultiModalAttentionLayer.t) (rng : MultiModalAttentionLayer.draws)
    (text_feat img_feat text_spatial_feat img_spatial_feat : FloatTensor)
    (B T : nat) (c : R) :
  MultiModalAttentionLayer.init E nh mrp L p false iv = Ok self ->
  shape text_feat = [B; T; E] -> shape img_feat = [B; T; E] ->
  shape text_spatial_feat = [B; T; E] -> shape img_spatial_feat = [B; T; E] ->
  T <= L ->
  exists loc loc',
    MultiModalAttentionLayer.forward_locals self rng
      text_feat img_feat text_spatial_feat img_spatial_feat = Ok loc /\
    MultiModalAttentionLayer.forward_locals self rng
      (scaled c text_feat) (scaled c img_feat)
      (scaled c text_spatial_feat) (scaled c img_spatial_feat) = Ok loc' /\
    (rel_and_spatial_terms_zero nh B T loc ->
     rel_and_spatial_terms_zero nh B T loc' ->
     no_qk_bias self ->
     (forall h b l t, h < nh -> b < B -> l < T -> t < T ->
        data (MultiModalAttentionLayer.text_attn_scores loc') [h; b; l; t] =
          (c * c * data (MultiModalAttentionLayer.text_attn_scores loc)
                        [h; b; l; t])%R /\
        data (MultiModalAttentionLayer.img_attn_scores loc') [h; b; l; t] =
          (c * c * data (MultiModalAttentionLayer.img_attn_scores loc)
                        [h; b; l; t])%R) /\
     ((c * c = 1)%R ->
      forall h b l t, h < nh -> b < B -> l < T -> t < T ->
        data (MultiModalAttentionLayer.text_attn_probs loc') [h; b; l; t] =
          data (MultiModalAttentionLayer.text_attn_probs loc) [h; b; l; t] /\
        data (MultiModalAttentionLayer.img_attn_probs loc') [h; b; l; t] =
          data (MultiModalAttentionLayer.img_attn_probs loc) [h; b; l; t])).
Proof.
  intros Hinit Ht Hi Hts His HTL.
  destruct (@forward_locals_run E nh mrp L p false iv self rng text_feat img_feat
              text_spatial_feat img_spatial_feat B T Hinit Ht Hi Hts His HTL)
    as (loc & Eloc & run).
  destruct (@forward_locals_run E nh mrp L p false iv self rng
              (scaled c text_feat) (scaled c img_feat)
              (scaled c text_spatial_feat) (scaled c img_spatial_feat)
              B T Hinit Ht Hi Hts His HTL)
    as (loc' & Eloc' & run').
  destruct (mmal_init_inv _ _ _ _ _ _ _ Hinit)
    as (HE & Hnh & Hnh0 & Hmod & Hhd & _ & _ & _ & _ & Htr & _).
  exists loc, loc'. split; [exact Eloc|]. split; [exact Eloc'|].
  intros Hz Hz' Hbias.
  destruct run, run'. rewrite Hnh, HE in *.
  set (hd := MultiModalAttentionLayer.head_dim self) in *.
  assert (Hscores : forall h b l t, h < nh -> b < B -> l < T -> t < T ->
     data (MultiModalAttentionLayer.text_attn_scores loc') [h; b; l; t] =
       (c * c * data (MultiModalAttentionLayer.text_attn_scores loc)
                     [h; b; l; t])%R /\
     data (MultiModalAttentionLayer.img_attn_scores loc') [h; b; l; t] =
       (c * c * data (MultiModalAttentionLayer.img_attn_scores loc)
                     [h; b; l; t])%R).
  { intros h b l t Hh Hb Hl Hlt.
    destruct (Hz h b l t Hh Hb Hl Hlt) as (Z1 & Z2 & Z3 & Z4 & Z5 & Z6).
    destruct (Hz' h b l t Hh Hb Hl Hlt) as (Z1' & Z2' & Z3' & Z4' & Z5' & Z6').
    split.
    - rewrite (proj2 run_text_attn_scores0), (proj2 run_text_attn_scores1)
        by assumption.
      rewrite Z1, Z2, Z3, Z1', Z2', Z3'.
      rewrite (proj2 run_dots_text0), (proj2 run_dots_text1) by assumption.
      rewrite (@dot_ext hd
                 (fun k => data (MultiModalAttentionLayer.query_text_nh loc')
                                [h; b; l; k])
                 (fun k => (c * data (MultiModalAttentionLayer.query_text_nh loc)
                                     [h; b; l; k])%R)
                 (fun k => data (MultiModalAttentionLayer.key_text_nh loc')
                                [h; b; t; k])
                 (fun k => (c * data (MultiModalAttentionLayer.key_text_nh loc)
                                     [h; b; t; k])%R)).
      + rewrite dot_scale. unfold Rdiv. lra.
      + intros j _. rewrite (proj2 run_query_text0), (proj2 run_query_text1).
        unfold head_at. apply linear_at_scaled. apply Hbias.
      + intros j _. rewrite (proj2 run_key_text0), (proj2 run_key_text1).
        unfold head_at. apply linear_at_scaled. apply Hbias.
    - rewrite (proj2 run_img_attn_scores0), (proj2 run_img_attn_scores1)
        by assumption.
      rewrite Z4, Z5, Z6, Z4', Z5', Z6'.
      rewrite (proj2 run_dots_img0), (proj2 run_dots_img1) by assumption.
      rewrite (@dot_ext hd
                 (fun k => data (MultiModalAttentionLayer.query_img_nh loc')
                                [h; b; l; k])
                 (fun k => (c * data (MultiModalAttentionLayer.query_img_nh loc)
                                     [h; b; l; k])%R)
                 (fun k => data (MultiModalAttentionLayer.key_img_nh loc')
                                [h; b; t; k])
                 (fun k => (c * data (MultiModalAttentionLayer.key_img_nh loc)
                                     [h; b; t; k])%R)).
      + rewrite dot_scale. unfold Rdiv. lra.
      + intros j _. rewrite (proj2 run_query_img0), (proj2 run_query_img1).
        unfold head_at. apply linear_at_scaled. apply Hbias.
      + intros j _. rewrite (proj2 run_key_img0), (proj2 run_key_img1).
        unfold head_at. apply linear_at_scaled. apply Hbias. }
  split; [exact Hscores|].
  intros Hc h b l t Hh Hb Hl Hlt.
  assert (Hsame : forall j, j < T ->
     data (MultiModalAttentionLayer.text_attn_scores loc') [h; b; l; j] =
       data (MultiModalAttentionLayer.text_attn_scores loc) [h; b; l; j] /\
     data (MultiModalAttentionLayer.img_attn_scores loc') [h; b; l; j] =
       data (MultiModalAttentionLayer.img_attn_scores loc) [h; b; l; j]).
  { intros j Hj. destruct (Hscores h b l j Hh Hb Hl Hj) as [H1 H2].
    rewrite H1, H2, Hc. split; lra. }
  rewrite (proj2 run_text_attn_probs0), (proj2 run_text_attn_probs1),
    (proj2 run_img_attn_probs0), (proj2 run_img_attn_probs1).
  rewrite !dropout_at_eval by exact Htr.
  rewrite (proj1 (Hsame t Hlt)), (proj2 (Hsame t Hlt)).
  split; (f_equal; apply sum_n_ext; intros j Hj; f_equal; apply (Hsame j Hj)).
Qed.

(** The parameters a successful [__init__] holds are the values drawn
    for them. *)
Lemma mmal_init_params (E nh mrp L : nat) (p : Q) (tr : bool) (iv : init_values)
    (self : MultiModalAttentionLayer.t) :
  MultiModalAttentionLayer.init E nh mrp L p tr iv = Ok self ->
  let linear (name : string) :=
    Linear.init E E (iv (name ++ ".weight")%string) (iv (name ++ ".bias")%string) in
  MultiModalAttentionLayer.fc_k_text self = linear "fc_k_text"%string /\
  MultiModalAttentionLayer.fc_q_text self = linear "fc_q_text"%string /\
  MultiModalAttentionLayer.fc_v_text self = linear "fc_v_text"%string /\
  MultiModalAttentionLayer.fc_k_img self = linear "fc_k_img"%string /\
  MultiModalAttentionLayer.fc_q_img self = linear "fc_q_img"%string /\
  MultiModalAttentionLayer.fc_v_img self = linear "fc_v_img"%string /\
  MultiModalAttentionLayer.fc_k_spatial self = linear "fc_k_spatial"%string /\
  MultiModalAttentionLayer.fc_q_spatial self = linear "fc_q_spatial"%string /\
  fst (MultiModalAttentionLayer.to_out self) = linear "to_out.0"%string /\
  data (RelativePosition.embeddings_table
          (MultiModalAttentionLayer.relative_positions_text self))
    = iv "relative_positions_text.embeddings_table"%string.
Proof.
  intros Hinit linear.
  destruct (mmal_init_inv _ _ _ _ _ _ _ Hinit)
    as (_ & _ & _ & _ & _ & Hrt & _).
  assert (Htab : data (RelativePosition.embeddings_table
                         (MultiModalAttentionLayer.relative_positions_text self))
                 = iv "relative_positions_text.embeddings_table"%string).
  { destruct (init_spec (E / nh) mrp L
                (iv "relative_positions_text.embeddings_table"%string))
      as (s' & Es' & _ & _ & _ & Ht' & _).
    rewrite Hrt in Es'. injection Es' as <-. now rewrite Ht'. }
  revert Hinit. unfold MultiModalAttentionLayer.init.
  destruct (nh =? 0); simpl negb; cbv iota; [discriminate|].
  destruct (E mod nh =? 0); [|discriminate].
  destruct (RelativePosition.init (E / nh) mrp L
              (iv "relative_positions_text.embeddings_table"%string));
    [|discriminate].
  destruct (RelativePosition.init (E / nh) mrp L
              (iv "relative_positions_img.embeddings_table"%string));
    [|discriminate].
  cbn [bind]. unfold Dropout.init.
  destruct (Qle_bool 0 p && Qle_bool p 1); [|discriminate].
  cbn [bind]. intros H. injection H as <-.
  repeat split; try reflexivity. exact Htab.
Qed.

Lemma sum_n_zero (n : nat) (f : nat -> R) :
  (forall j, j < n -> f j = 0%R) -> sum_n n f = 0%R.
Proof.
  induction n as [|n IH]; intros H; simpl.
  - reflexivity.
  - rewrite IH by (intros; apply H; lia). rewrite H by lia. lra.
Qed.

(** With a zero text table and a zero spatial query projection the
    relative-position and spatial terms are zero on every input. *)
Lemma zero_params_zero_terms (E nh mrp L : nat) (p : Q) (tr : bool)
    (iv : init_values)
    (self : MultiModalAttentionLayer.t) (rng : MultiModalAttentionLayer.draws)
    (text_feat img_feat text_spatial_feat img_spatial_feat : FloatTensor)
    (B T : nat) (loc : MultiModalAttentionLayer.locals) :
  MultiModalAttentionLayer.init E nh mrp L p tr iv = Ok self ->
  (forall idx, iv "relative_positions_text.embeddings_table"%string idx = 0%R) ->
  (forall idx, iv "fc_q_spatial.weight"%string idx = 0%R) ->
  (forall idx, iv "fc_q_spatial.bias"%string idx = 0%R) ->
  attention_run self rng text_feat img_feat text_spatial_feat img_spatial_feat
                B T loc ->
  rel_and_spatial_terms_zero nh B T loc.
Proof.
  intros Hinit Htab Hw Hb run.
  destruct (mmal_init_params _ _ _ _ _ _ _ Hinit)
    as (_ & _ & _ & _ & _ & _ & _ & Hqs & _ & Ht).
  destruct (mmal_init_inv _ _ _ _ _ _ _ Hinit) as (HE & Hnh & _).
  destruct run. rewrite Hnh in *.
  assert (Hrel : forall l r d, l < T -> r < T ->
            data (MultiModalAttentionLayer.rel_pos_embed_text loc) [l; r; d] = 0%R).
  { intros l r d Hl Hr. rewrite (proj2 run_rel_pos_embed_text0) by assumption.
    rewrite Ht. apply Htab. }
  assert (Hq : forall x h b l k,
            head_at (MultiModalAttentionLayer.fc_q_spatial self) x
                    (MultiModalAttentionLayer.head_dim self) h b l k = 0%R).
  { intros. unfold head_at, linear_at. rewrite Hqs. simpl.
    rewrite Hb, sum_n_zero; [lra|]. intros. rewrite Hw. lra. }
  intros h b l t Hh Hb' Hl Hlt.
  rewrite (proj2 run_rel_pos_key_text0), (proj2 run_rel_pos_query_text0),
    (proj2 run_dots_text_spatial0), (proj2 run_rel_pos_key_img0),
    (proj2 run_rel_pos_query_img0), (proj2 run_dots_img_spatial0) by assumption.
  unfold dot.
  repeat split;
    try (apply sum_n_zero; intros; rewrite Hrel by assumption; lra);
    (rewrite sum_n_zero; [unfold Rdiv; lra|]; intros; rewrite Hq; lra).
Qed.

(** A layer of width 1 whose text scores are [x_l * x_t], on the
    sequence [(0, 1)], with every input multiplied by [-1]. *)
Lemma C9_scores_scale_quadratically_witness :
  exists self loc loc',
    MultiModalAttentionLayer.init 1 1 0 2 0%Q false unit_text_qk = Ok self /\
    MultiModalAttentionLayer.forward_locals self keep_all
      zero_one (zeros [1; 2; 1]) (zeros [1; 2; 1]) (zeros [1; 2; 1]) = Ok loc /\
    MultiModalAttentionLayer.forward_locals self keep_all
      (scaled (-1) zero_one) (scaled (-1) (zeros [1; 2; 1]))
      (scaled (-1) (zeros [1; 2; 1])) (scaled (-1) (zeros [1; 2; 1])) = Ok loc' /\
    data (MultiModalAttentionLayer.text_attn_probs loc') [0; 0; 1; 1] =
    data (MultiModalAttentionLayer.text_attn_probs loc) [0; 0; 1; 1].
Proof.
  assert (Hinit : exists self,
            MultiModalAttentionLayer.init 1 1 0 2 0%Q false unit_text_qk
            = Ok self) by (eexists; reflexivity).
  destruct Hinit as [self Hinit].
  destruct (@C9_scores_scale_quadratically 1 1 0 2 0%Q unit_text_qk self keep_all
              zero_one (zeros [1; 2; 1]) (zeros [1; 2; 1]) (zeros [1; 2; 1])
              1 2 (-1)%R Hinit eq_refl eq_refl eq_refl eq_refl (le_n 2))
    as (loc & loc' & Eloc & Eloc' & H).
  exists self, loc, loc'. split; [exact Hinit|]. split; [exact Eloc|].
  split; [exact Eloc'|].
  destruct (@forward_locals_run 1 1 0 2 0%Q false unit_text_qk self keep_all
              zero_one (zeros [1; 2; 1]) (zeros [1; 2; 1]) (zeros [1; 2; 1])
              1 2 Hinit eq_refl eq_refl eq_refl eq_refl (le_n 2))
    as (l1 & El1 & run).
  destruct (@forward_locals_run 1 1 0 2 0%Q false unit_text_qk self keep_all
              (scaled (-1) zero_one) (scaled (-1) (zeros [1; 2; 1]))
              (scaled (-1) (zeros [1; 2; 1])) (scaled (-1) (zeros [1; 2; 1]))
              1 2 Hinit eq_refl eq_refl eq_refl eq_refl (le_n 2))
    as (l2 & El2 & run').
  rewrite Eloc in El1. injection El1 as <-.
  rewrite Eloc' in El2. injection El2 as <-.
  destruct H as [_ Hprobs].
  - exact (@zero_params_zero_terms _ _ _ _ _ _ _ _ _ _ _ _ _ _ _ _ Hinit
             (fun _ => eq_refl) (fun _ => eq_refl) (fun _ => eq_refl) run).
  - exact (@zero_params_zero_terms _ _ _ _ _ _ _ _ _ _ _ _ _ _ _ _ Hinit
             (fun _ => eq_refl) (fun _ => eq_refl) (fun _ => eq_refl) run').
  - intros j.
    destruct (mmal_init_params _ _ _ _ _ _ _ Hinit)
      as (Hk & Hq & _ & Hki & Hqi & _).
    rewrite Hk, Hq, Hki, Hqi. repeat split; reflexivity.
  - apply Hprobs; [lra | lia | lia | lia | lia].
Defined.

(** The text scores of the layer of width 1 with unit query and key
    weights: [x_l * x_t]. *)
Lemma unit_layer_text_scores (self : MultiModalAttentionLayer.t)
    (x y z w : FloatTensor) (loc : MultiModalAttentionLayer.locals) :
  MultiModalAttentionLayer.init 1 1 0 2 0%Q false unit_text_qk = Ok self ->
  attention_run self keep_all x y z w 1 2 loc ->
  forall t, t < 2 ->
    data (MultiModalAttentionLayer.text_attn_scores loc) [0; 0; 1; t] =
    (data x [0; 1; 0]%nat * data x [0; t; 0]%nat)%R.
Proof.
  intros Hinit run t Ht.
  pose proof (@zero_params_zero_terms _ _ _ _ _ _ _ _ _ _ _ _ _ _ _ _ Hinit
             (fun _ => eq_refl) (fun _ => eq_refl) (fun _ => eq_refl) run) as Hz.
  destruct (mmal_init_params _ _ _ _ _ _ _ Hinit) as (Hk & Hq & _).
  destruct (mmal_init_inv _ _ _ _ _ _ _ Hinit) as (HE & Hnh & _ & _ & Hhd & _).
  destruct (Hz 0 0 1 t ltac:(lia) ltac:(lia) ltac:(lia) Ht) as (Z1 & Z2 & Z3 & _).
  pose proof (proj2 (run_text_attn_scores run)) as Hs.
  pose proof (proj2 (run_dots_text run)) as Hd.
  rewrite Hnh, ?HE in Hs, Hd.
  rewrite Hs by lia.
  rewrite Z1, Z2, Z3.
  rewrite Hd by lia.
  rewrite Hhd. unfold dot. simpl sum_n.
  rewrite (proj2 (run_query_text run)), (proj2 (run_key_text run)).
  unfold head_at, linear_at. rewrite Hk, Hq, Hhd. cbn.
  rewrite ?HE. simpl INR. rewrite sqrt_1. field.
Qed.

(** C9 fails on the code.  A layer of width 1 whose text scores are
    [x_l * x_t], in evaluation mode, with zero relative-position and
    spatial terms, on the sequence [(0, 1)]: the probability position 1
    gives itself is [e / (1 + e)]; with every input doubled it is
    [e^4 / (1 + e^4)]. *)
Lemma C9_counterexample :
  exists self loc loc',
    MultiModalAttentionLayer.init 1 1 0 2 0%Q false unit_text_qk = Ok self /\
    MultiModalAttentionLayer.forward_locals self keep_all
      zero_one (zeros [1; 2; 1]) (zeros [1; 2; 1]) (zeros [1; 2; 1]) = Ok loc /\
    MultiModalAttentionLayer.forward_locals self keep_all
      (scaled 2 zero_one) (scaled 2 (zeros [1; 2; 1]))
      (scaled 2 (zeros [1; 2; 1])) (scaled 2 (zeros [1; 2; 1])) = Ok loc' /\
    rel_and_spatial_terms_zero 1 1 2 loc /\
    rel_and_spatial_terms_zero 1 1 2 loc' /\
    data (MultiModalAttentionLayer.text_attn_probs loc) [0; 0; 1; 1] =
      (exp 1 / (1 + exp 1))%R /\
    data (MultiModalAttentionLayer.text_attn_probs loc') [0; 0; 1; 1] =
      (exp 4 / (1 + exp 4))%R /\
    data (MultiModalAttentionLayer.text_attn_probs loc') [0; 0; 1; 1] <>
    data (MultiModalAttentionLayer.text_attn_probs loc) [0; 0; 1; 1].
Proof.
  assert (Hinit : exists self,
            MultiModalAttentionLayer.init 1 1 0 2 0%Q false unit_text_qk
            = Ok self) by (eexists; reflexivity).
  destruct Hinit as [self Hinit].
  destruct (@forward_locals_run 1 1 0 2 0%Q false unit_text_qk self keep_all
              zero_one (zeros [1; 2; 1]) (zeros [1; 2; 1]) (zeros [1; 2; 1])
              1 2 Hinit eq_refl eq_refl eq_refl eq_refl (le_n 2))
    as (loc & Eloc & run).
  destruct (@forward_locals_run 1 1 0 2 0%Q false unit_text_qk self keep_all
              (scaled 2 zero_one) (scaled 2 (zeros [1; 2; 1]))
              (scaled 2 (zeros [1; 2; 1])) (scaled 2 (zeros [1; 2; 1]))
              1 2 Hinit eq_refl eq_refl eq_refl eq_refl (le_n 2))
    as (loc' & Eloc' & run').
  destruct (mmal_init_inv _ _ _ _ _ _ _ Hinit)
    as (_ & _ & _ & _ & _ & _ & _ & _ & _ & Htr & _).
  assert (P : data (MultiModalAttentionLayer.text_attn_probs loc) [0; 0; 1; 1] =
              (exp 1 / (1 + exp 1))%R).
  { rewrite (proj2 (run_text_attn_probs run)), dropout_at_eval by exact Htr.
    simpl sum_n.
    rewrite !(unit_layer_text_scores Hinit run) by lia.
    cbn [zero_one data]. rewrite !Rmult_1_r, Rmult_0_r, exp_0.
    f_equal. lra. }
  assert (P' : data (MultiModalAttentionLayer.text_attn_probs loc') [0; 0; 1; 1] =
               (exp 4 / (1 + exp 4))%R).
  { rewrite (proj2 (run_text_attn_probs run')), dropout_at_eval by exact Htr.
    simpl sum_n.
    rewrite !(unit_layer_text_scores Hinit run') by lia.
    cbn [zero_one scaled tmap data].
    replace (2 * 1 * (2 * 1))%R with 4%R by lra.
    replace (2 * 1 * (2 * 0))%R with 0%R by lra.
    rewrite exp_0. f_equal. lra. }
  exists self, loc, loc'.
  split; [exact Hinit|]. split; [exact Eloc|]. split; [exact Eloc'|].
  split.
  { exact (@zero_params_zero_terms _ _ _ _ _ _ _ _ _ _ _ _ _ _ _ _ Hinit
             (fun _ => eq_refl) (fun _ => eq_refl) (fun _ => eq_refl) run). }
  split.
  { exact (@zero_params_zero_terms _ _ _ _ _ _ _ _ _ _ _ _ _ _ _ _ Hinit
             (fun _ => eq_refl) (fun _ => eq_refl) (fun _ => eq_refl) run'). }
  split; [exact P|]. split; [exact P'|].
  rewrite P, P'. intros Heq.
  pose proof (exp_pos 1) as H1. pose proof (exp_pos 4) as H4.
  assert (Hexp : exp 4 = exp 1).
  { apply (f_equal (fun v => (v * (1 + exp 4) * (1 + exp 1))%R)) in Heq.
    field_simplify in Heq; lra. }
  apply exp_inv in Hexp. lra.
Qed.

(** ** [DocFormerEncoder] *)

Lemma layer_norm_forward3 (ln : LayerNorm.t) (x : FloatTensor) (B T H : nat) :
  shape x = [B; T; H] -> LayerNorm.normalized_shape ln = H ->
  exists y, LayerNorm.forward ln x = Ok y /\ shape y = [B; T; H].
Proof.
  intros Hx Hn. unfold LayerNorm.forward, last_dim. rewrite Hx. simpl.
  rewrite Hn, Nat.eqb_refl. eexists. split; [reflexivity|]. reflexivity.
Qed.

Lemma in_shape3 (B T H b t j : nat) :
  b < B -> t < T -> j < H -> in_shape [B; T; H] [b; t; j].
Proof. simpl. tauto. Qed.

(** What a successful construction of one block fixes. *)
Lemma init_block_inv (cfg : config) (tr : bool) (iv : init_values)
    (blk : DocFormerEncoder.block) :
  DocFormerEncoder.init_block cfg tr iv = Ok blk ->
  exists ivm,
    MultiModalAttentionLayer.init (hidden_size cfg) (num_attention_heads cfg)
      (max_relative_positions cfg) (max_position_embeddings cfg)
      (hidden_dropout_prob cfg) tr ivm
      = Ok (PreNormAttn.fn (DocFormerEncoder.attn blk)) /\
    LayerNorm.normalized_shape (PreNormAttn.norm_t_bar (DocFormerEncoder.attn blk))
      = hidden_size cfg /\
    LayerNorm.normalized_shape (PreNormAttn.norm_v_bar (DocFormerEncoder.attn blk))
      = hidden_size cfg /\
    LayerNorm.normalized_shape (PreNormAttn.norm_t_bar_s (DocFormerEncoder.attn blk))
      = hidden_size cfg /\
    LayerNorm.normalized_shape (PreNormAttn.norm_v_bar_s (DocFormerEncoder.attn blk))
      = hidden_size cfg /\
    LayerNorm.normalized_shape (PreNorm.norm (DocFormerEncoder.ff blk))
      = hidden_size cfg /\
    Linear.in_features (FeedForward.net_0 (PreNorm.fn (DocFormerEncoder.ff blk)))
      = hidden_size cfg /\
    Linear.out_features (FeedForward.net_0 (PreNorm.fn (DocFormerEncoder.ff blk)))
      = hidden_size cfg * intermediate_ff_size_factor cfg /\
    Linear.in_features (FeedForward.net_3 (PreNorm.fn (DocFormerEncoder.ff blk)))
      = hidden_size cfg * intermediate_ff_size_factor cfg /\
    Linear.out_features (FeedForward.net_3 (PreNorm.fn (DocFormerEncoder.ff blk)))
      = hidden_size cfg.
Proof.
  unfold DocFormerEncoder.init_block.
  destruct (MultiModalAttentionLayer.init _ _ _ _ _ _ _) as [mmal|] eqn:Em;
    [|discriminate].
  cbn [bind]. unfold FeedForward.init, Dropout.init.
  destruct (Qle_bool 0 (hidden_dropout_prob cfg) &&
            Qle_bool (hidden_dropout_prob cfg) 1); [|discriminate].
  cbn [bind]. intros H. injection H as <-.
  eexists. split; [exact Em|]. cbn. repeat split; reflexivity.
Qed.

Lemma pre_norm_attn_forward (cfg : config) (tr : bool) (iv : init_values)
    (blk : DocFormerEncoder.block) (d : MultiModalAttentionLayer.draws)
    (t_bar v_bar t_bar_s v_bar_s : FloatTensor) (B T : nat) :
  DocFormerEncoder.init_block cfg tr iv = Ok blk ->
  shape t_bar = [B; T; hidden_size cfg] -> shape v_bar = [B; T; hidden_size cfg] ->
  shape t_bar_s = [B; T; hidden_size cfg] ->
  shape v_bar_s = [B; T; hidden_size cfg] ->
  T <= max_position_embeddings cfg ->
  exists out,
    PreNormAttn.forward (DocFormerEncoder.attn blk) d t_bar v_bar t_bar_s v_bar_s
      = Ok out /\
    shape out = [B; T; hidden_size cfg].
Proof.
  intros Hb H1 H2 H3 H4 HT.
  destruct (init_block_inv _ _ _ Hb) as (ivm & Hm & N1 & N2 & N3 & N4 & _).
  unfold PreNormAttn.forward.
  destruct (layer_norm_forward3 _ _ H1 N1) as (a1 & E1 & S1). rewrite E1.
  destruct (layer_norm_forward3 _ _ H2 N2) as (a2 & E2 & S2). rewrite E2.
  destruct (layer_norm_forward3 _ _ H3 N3) as (a3 & E3 & S3). rewrite E3.
  destruct (layer_norm_forward3 _ _ H4 N4) as (a4 & E4 & S4). rewrite E4.
  cbn [bind].
  destruct (@forward_locals_run _ _ _ _ _ _ _ _ d a1 a2 a3 a4 B T Hm S1 S2 S3 S4 HT)
    as (loc & Eloc & run).
  destruct (mmal_init_inv _ _ _ _ _ _ _ Hm) as (HE & _).
  exists (MultiModalAttentionLayer.returned loc). split.
  - unfold MultiModalAttentionLayer.forward. now rewrite Eloc.
  - pose proof (proj1 (run_returned run)) as Hr. now rewrite HE in Hr.
Qed.

Lemma pre_norm_forward (gelu : R -> R) (cfg : config) (tr : bool) (iv : init_values)
    (blk : DocFormerEncoder.block) (d : FeedForward.draws)
    (x : FloatTensor) (B T : nat) :
  DocFormerEncoder.init_block cfg tr iv = Ok blk ->
  shape x = [B; T; hidden_size cfg] ->
  exists out,
    PreNorm.forward gelu (DocFormerEncoder.ff blk) d x = Ok out /\
    shape out = [B; T; hidden_size cfg].
Proof.
  intros Hb Hx.
  destruct (init_block_inv _ _ _ Hb)
    as (_ & _ & _ & _ & _ & _ & N & I0 & O0 & I3 & O3).
  unfold PreNorm.forward, FeedForward.forward.
  destruct (layer_norm_forward3 _ _ Hx N) as (n & En & Sn). rewrite En.
  cbn [bind].
  destruct (linear_forward3 _ n Sn I0) as (h & Eh & Sh & _). rewrite Eh.
  cbn [bind]. rewrite O0 in Sh.
  match goal with |- context [Linear.forward ?l ?a] =>
    destruct (@linear_forward3 l a B T
                (hidden_size cfg * intermediate_ff_size_factor cfg))
      as (o & Eo & So & _)
  end.
  { rewrite dropout_forward_shape. exact Sh. }
  { exact I3. }
  rewrite Eo. cbn [bind]. eexists. split; [reflexivity|].
  rewrite dropout_forward_shape, So, O3. reflexivity.
Qed.

Lemma body_spec (gelu : R -> R) (cfg : config) (tr : bool) (iv : init_values)
    (blk : DocFormerEncoder.block) (d : DocFormerEncoder.draws)
    (text_in img_feat text_spatial_feat img_spatial_feat : FloatTensor)
    (B T : nat) :
  DocFormerEncoder.init_block cfg tr iv = Ok blk ->
  shape text_in = [B; T; hidden_size cfg] ->
  shape img_feat = [B; T; hidden_size cfg] ->
  shape text_spatial_feat = [B; T; hidden_size cfg] ->
  shape img_spatial_feat = [B; T; hidden_size cfg] ->
  T <= max_position_embeddings cfg ->
  exists it,
    DocFormerEncoder.body gelu blk d
      text_in img_feat text_spatial_feat img_spatial_feat = Ok it /\
    encoder_iteration gelu blk d
      text_in img_feat text_spatial_feat img_spatial_feat
      B T (hidden_size cfg) it.
Proof.
  intros Hb H1 H2 H3 H4 HT. unfold DocFormerEncoder.body.
  step s1 (broadcast2_same Rplus text_in img_feat H1 H2).
  step s2 (broadcast2_same Rplus s1 text_spatial_feat Hs_s1 H3).
  step sk (broadcast2_same Rplus s2 img_spatial_feat Hs_s2 H4).
  destruct (@pre_norm_attn_forward cfg tr iv blk (DocFormerEncoder.attn_draws d)
              text_in img_feat text_spatial_feat img_spatial_feat B T
              Hb H1 H2 H3 H4 HT) as (a & Ea & Sa).
  rewrite Ea. cbn [bind].
  step x1 (broadcast2_same Rplus a sk Sa Hs_sk).
  destruct (@pre_norm_forward gelu cfg tr iv blk (DocFormerEncoder.ff_draws d)
              x1 B T Hb Hs_x1) as (f & Ef & Sf).
  rewrite Ef. cbn [bind].
  step x2 (broadcast2_same Rplus f x1 Sf Hs_x1).
  eexists. split; [reflexivity|].
  constructor; cbn.
  - auto.
  - split; [exact Hs_sk|]. intros b t j Hb' Ht' Hj.
    pose proof (in_shape3 Hb' Ht' Hj) as Hin.
    now rewrite Hd_sk, Hd_s2, Hd_s1.
  - auto.
  - split; [exact Hs_x1|]. intros b t j Hb' Ht' Hj.
    apply Hd_x1. now apply in_shape3.
  - auto.
  - split; [exact Hs_x2|]. intros b t j Hb' Ht' Hj.
    apply Hd_x2. now apply in_shape3.
Qed.

Lemma init_layers_inv (cfg : config) (tr : bool) (iv : nat -> init_values) :
  forall n i ls,
    DocFormerEncoder.init_layers cfg tr iv i n = Ok ls ->
    length ls = n /\
    forall k blk, nth_error ls k = Some blk ->
      DocFormerEncoder.init_block cfg tr (iv (i + k)) = Ok blk.
Proof.
  induction n as [|n IH]; intros i ls H; simpl in H.
  - injection H as <-. split; [reflexivity|]. intros [|k] blk Hk; discriminate Hk.
  - destruct (DocFormerEncoder.init_block cfg tr (iv i)) as [b|] eqn:Eb;
      [|discriminate H].
    cbn [bind] in H.
    destruct (DocFormerEncoder.init_layers cfg tr iv (S i) n) as [bs|] eqn:Ebs;
      [|discriminate H].
    cbn [bind] in H. injection H as <-.
    destruct (IH (S i) bs Ebs) as [Hlen Hnth].
    split; [simpl; now rewrite Hlen|].
    intros [|k] blk Hk; simpl in Hk.
    + injection Hk as <-. now rewrite Nat.add_0_r.
    + replace (i + S k) with (S i + k) by lia. now apply Hnth.
Qed.

(** The arguments of every iteration, on any inputs: [text_feat] is the
    only variable the loop assigns. *)
Lemma loop_frame (gelu : R -> R) (rng : nat -> DocFormerEncoder.draws)
    (img_feat text_spatial_feat img_spatial_feat : FloatTensor) :
  forall ls i0 text_feat its,
    DocFormerEncoder.loop gelu ls rng i0
      text_feat img_feat text_spatial_feat img_spatial_feat = Ok its ->
    length its = length ls /\
    forall k it, nth_error its k = Some it ->
      DocFormerEncoder.arg_text_feat it = text_feat_at text_feat its k /\
      DocFormerEncoder.arg_img_feat it = img_feat /\
      DocFormerEncoder.arg_text_spatial_feat it = text_spatial_feat /\
      DocFormerEncoder.arg_img_spatial_feat it = img_spatial_feat.
Proof.
  induction ls as [|b ls IH]; intros i0 text_feat its H; simpl in H.
  - injection H as <-. split; [reflexivity|]. intros [|k] it Hk; discriminate Hk.
  - destruct (DocFormerEncoder.body gelu b (rng i0) text_feat img_feat
                text_spatial_feat img_spatial_feat) as [it0|] eqn:Eb;
      [|discriminate H].
    cbn [bind] in H.
    destruct (DocFormerEncoder.loop gelu ls rng (S i0) (DocFormerEncoder.x it0)
                img_feat text_spatial_feat img_spatial_feat) as [its'|] eqn:El;
      [|discriminate H].
    cbn [bind] in H. injection H as <-.
    destruct (IH _ _ _ El) as [Hlen Hnth].
    split; [simpl; now rewrite Hlen|].
    assert (Hargs : DocFormerEncoder.arg_text_feat it0 = text_feat /\
                    DocFormerEncoder.arg_img_feat it0 = img_feat /\
                    DocFormerEncoder.arg_text_spatial_feat it0 = text_spatial_feat /\
                    DocFormerEncoder.arg_img_spatial_feat it0 = img_spatial_feat).
    { revert Eb. unfold DocFormerEncoder.body.
      repeat match goal with
             | |- bind ?m _ = Ok _ -> _ =>
                 destruct m; cbn [bind]; [|discriminate]
             end.
      intros Eb. injection Eb as <-. cbn. auto. }
    intros [|k] it Hk; simpl in Hk.
    + injection Hk as <-. exact Hargs.
    + destruct (Hnth k it Hk) as (A1 & A2 & A3 & A4).
      split; [|auto]. rewrite A1.
      destruct k as [|k]; simpl.
      * reflexivity.
      * destruct (nth_error its' k) as [prev|] eqn:Ep; [reflexivity|].
        exfalso. apply nth_error_None in Ep.
        assert (nth_error its' (S k) <> None) by (rewrite Hk; discriminate).
        apply nth_error_Some in H. lia.
Qed.

Lemma loop_spec (gelu : R -> R) (cfg : config) (tr : bool)
    (rng : nat -> DocFormerEncoder.draws)
    (img_feat text_spatial_feat img_spatial_feat : FloatTensor) (B T : nat) :
  shape img_feat = [B; T; hidden_size cfg] ->
  shape text_spatial_feat = [B; T; hidden_size cfg] ->
  shape img_spatial_feat = [B; T; hidden_size cfg] ->
  T <= max_position_embeddings cfg ->
  forall ls,
    (forall k blk, nth_error ls k = Some blk ->
       exists ivb, DocFormerEncoder.init_block cfg tr ivb = Ok blk) ->
    forall i0 text_feat,
      shape text_feat = [B; T; hidden_size cfg] ->
      exists its,
        DocFormerEncoder.loop gelu ls rng i0
          text_feat img_feat text_spatial_feat img_spatial_feat = Ok its /\
        forall k it, nth_error its k = Some it ->
          exists blk,
            nth_error ls k = Some blk /\
            encoder_iteration gelu blk (rng (i0 + k))
              (text_feat_at text_feat its k)
              img_feat text_spatial_feat img_spatial_feat
              B T (hidden_size cfg) it.
Proof.
  intros H2 H3 H4 HT.
  induction ls as [|b ls IH]; intros Hgood i0 text_feat H1; simpl.
  - exists []. split; [reflexivity|]. intros [|k] it Hk; discriminate Hk.
  - destruct (Hgood 0 b eq_refl) as [ivb Hb].
    destruct (@body_spec gelu cfg tr ivb b (rng i0) text_feat img_feat
                text_spatial_feat img_spatial_feat B T Hb H1 H2 H3 H4 HT)
      as (it0 & E0 & I0).
    rewrite E0. cbn [bind].
    destruct (IH (fun k blk Hk => Hgood (S k) blk Hk) (S i0)
                 (DocFormerEncoder.x it0) (proj1 (it_x I0)))
      as (its' & El & Hits).
    rewrite El. cbn [bind].
    exists (it0 :: its'). split; [reflexivity|].
    intros [|k] it Hk; simpl in Hk.
    + injection Hk as <-. exists b. split; [reflexivity|].
      now rewrite Nat.add_0_r.
    + destruct (Hits k it Hk) as (blk & Hblk & Hit).
      exists blk. split; [exact Hblk|].
      replace (i0 + S k) with (S i0 + k) by lia.
      assert (Htext : text_feat_at text_feat (it0 :: its') (S k) =
                      text_feat_at (DocFormerEncoder.x it0) its' k).
      { destruct k as [|k]; simpl; [reflexivity|].
        destruct (nth_error its' k) as [prev|] eqn:Ep; [reflexivity|].
        exfalso. apply nth_error_None in Ep.
        assert (nth_error its' (S k) <> None) by (rewrite Hk; discriminate).
        apply nth_error_Some in H. lia. }
      rewrite Htext. exact Hit.
Qed.

(** C3.  The loop of [DocFormerEncoder.forward] runs once for each of
    the [num_hidden_layers] blocks.  On any inputs, the image, the
    text-spatial and the image-spatial arguments of every iteration are
    the tensors [forward] was called with, and only [text_feat]
    changes: it is the argument in the first iteration and the output
    [x] of the iteration before in the others.  On four inputs of shape
    [(B, T, hidden_size)], [T] within [max_position_embeddings], every
    iteration returns, its skip connection is the elementwise sum of
    the four raw arguments, added to the output of the pre-normalised
    attention, and the feed-forward output is added to that sum. *)
Theorem C3_encoder_threading (gelu : R -> R) (cfg : config) (tr : bool)
    (iv : nat -> init_values) (enc : DocFormerEncoder.t)
    (rng : nat -> DocFormerEncoder.draws)
    (text_feat img_feat text_spatial_feat img_spatial_feat : FloatTensor)
    (B T : nat) :
  DocFormerEncoder.init cfg tr iv = Ok enc ->
  length (DocFormerEncoder.layers enc) = num_hidden_layers cfg /\
  (forall its,
     DocFormerEncoder.forward_trace gelu enc rng
       text_feat img_feat text_spatial_feat img_spatial_feat = Ok its ->
     length its = num_hidden_layers cfg /\
     forall i it, nth_error its i = Some it ->
       DocFormerEncoder.arg_text_feat it = text_feat_at text_feat its i /\
       DocFormerEncoder.arg_img_feat it = img_feat /\
       DocFormerEncoder.arg_text_spatial_feat it = text_spatial_feat /\
       DocFormerEncoder.arg_img_spatial_feat it = img_spatial_feat) /\
  (shape text_feat = [B; T; hidden_size cfg] ->
   shape img_feat = [B; T; hidden_size cfg] ->
   shape text_spatial_feat = [B; T; hidden_size cfg] ->
   shape img_spatial_feat = [B; T; hidden_size cfg] ->
   T <= max_position_embeddings cfg ->
   exists its,
     DocFormerEncoder.forward_trace gelu enc rng
       text_feat img_feat text_spatial_feat img_spatial_feat = Ok its /\
     forall i it, nth_error its i = Some it ->
       exists blk,
         nth_error (DocFormerEncoder.layers enc) i = Some blk /\
         encoder_iteration gelu blk (rng i) (text_feat_at text_feat its i)
           img_feat text_spatial_feat img_spatial_feat
           B T (hidden_size cfg) it).
Proof.
  intros Hinit. unfold DocFormerEncoder.init in Hinit.
  destruct (DocFormerEncoder.init_layers cfg tr iv 0 (num_hidden_layers cfg))
    as [ls|] eqn:Els; [|discriminate Hinit].
  cbn [bind] in Hinit. injection Hinit as <-. cbn [DocFormerEncoder.layers].
  destruct (init_layers_inv _ _ _ _ _ Els) as [Hlen Hblocks].
  split; [exact Hlen|]. split.
  - intros its Hits. unfold DocFormerEncoder.forward_trace in Hits.
    cbn [DocFormerEncoder.layers] in Hits.
    destruct (@loop_frame gelu rng img_feat text_spatial_feat img_spatial_feat
                ls 0 text_feat its Hits) as [Hl Hframe].
    split; [now rewrite Hl|]. exact Hframe.
  - intros H1 H2 H3 H4 HT. unfold DocFormerEncoder.forward_trace.
    cbn [DocFormerEncoder.layers].
    destruct (@loop_spec gelu cfg tr rng img_feat text_spatial_feat
                img_spatial_feat B T H2 H3 H4 HT ls
                (fun k blk Hk => ex_intro _ (iv (0 + k)) (Hblocks k blk Hk))
                0 text_feat H1)
      as (its & El & Hits).
    exists its. split; [exact El|]. exact Hits.
Qed.

(** Two layers on one sequence of two zero vectors of width 2: the
    second iteration receives the output of the first as [text_feat],
    and the image argument it was called with. *)
Lemma C3_encoder_threading_witness :
  exists enc it0 it1,
    DocFormerEncoder.init small_config false (fun _ _ _ => 0%R) = Ok enc /\
    DocFormerEncoder.forward_trace (fun v => v) enc encoder_keep_all
      (zeros [1; 2; 2]) (zeros [1; 2; 2]) (zeros [1; 2; 2]) (zeros [1; 2; 2])
      = Ok [it0; it1] /\
    DocFormerEncoder.arg_text_feat it1 = DocFormerEncoder.x it0 /\
    DocFormerEncoder.arg_img_feat it1 = zeros [1; 2; 2] /\
    shape (DocFormerEncoder.skip it1) = [1; 2; 2].
Proof.
  assert (Hinit : exists enc,
            DocFormerEncoder.init small_config false (fun _ _ _ => 0%R) = Ok enc)
    by (eexists; reflexivity).
  destruct Hinit as [enc Hinit].
  destruct (@C3_encoder_threading (fun v => v) small_config false
              (fun _ _ _ => 0%R) enc encoder_keep_all
              (zeros [1; 2; 2]) (zeros [1; 2; 2]) (zeros [1; 2; 2])
              (zeros [1; 2; 2]) 1 2 Hinit)
    as (_ & Hframe & Hrun).
  destruct (Hrun eq_refl eq_refl eq_refl eq_refl (le_n 2)) as (its & Eits & Hits).
  destruct (Hframe its Eits) as [Hlen Hargs].
  destruct its as [|it0 [|it1 [|it2 its]]]; try discriminate Hlen.
  exists enc, it0, it1. split; [exact Hinit|]. split; [exact Eits|].
  destruct (Hargs 1 it1 eq_refl) as (A1 & A2 & _).
  destruct (Hits 1 it1 eq_refl) as (blk & _ & Hit).
  split; [exact A1|]. split; [exact A2|]. exact (proj1 (it_skip Hit)).
Defined.

(** ** [DocFormerEmbeddings] *)

(** The sine and cosine columns of the positional encoding fit when the
    model width is even, or 1. *)
Lemma half_columns (d : nat) :
  d <> 0 ->
  (((d + 1) / 2 =? (d - Nat.min 1 d + 1) / 2) || ((d + 1) / 2 =? 1)) =
  (Nat.even d || (d =? 1)).
Proof.
  intros Hd. replace (d - Nat.min 1 d + 1) with d by lia.
  destruct (Nat.Even_or_Odd d) as [[k Hk]|[k Hk]]; subst d.
  - replace (Nat.even (2 * k)) with true
      by (symmetry; apply Nat.even_spec; now exists k).
    replace ((2 * k + 1) / 2) with k
      by (apply Nat.div_unique with 1; lia).
    replace (2 * k / 2) with k
      by (apply Nat.div_unique with 0; lia).
    now rewrite Nat.eqb_refl.
  - replace (Nat.even (2 * k + 1)) with false.
    2:{ symmetry. apply Bool.not_true_is_false. intros He.
        apply Nat.even_spec in He. destruct He as [m Hm]. lia. }
    replace ((2 * k + 1 + 1) / 2) with (k + 1)
      by (apply Nat.div_unique with 0; lia).
    replace ((2 * k + 1) / 2) with k
      by (apply Nat.div_unique with 1; lia).
    destruct (k + 1 =? k) eqn:E1; [apply Nat.eqb_eq in E1; lia|].
    destruct (k + 1 =? 1) eqn:E2; destruct (2 * k + 1 =? 1) eqn:E3;
      try reflexivity.
    + apply Nat.eqb_eq in E2. apply Nat.eqb_neq in E3. lia.
    + apply Nat.eqb_neq in E2. apply Nat.eqb_eq in E3. lia.
Qed.

(** [PositionalEncoding(d_model, dropout, max_len)] is constructed
    exactly when the dropout probability lies in [[0, 1]], the width is not
    zero,
    and the sine and cosine columns fit. *)
Lemma positional_encoding_init (d : nat) (p : Q) (max_len : nat) (tr : bool) :
  (exists pe, PositionalEncoding.init d p max_len tr = Ok pe /\
              shape (PositionalEncoding.pe pe) = [1; max_len; d] /\
              PositionalEncoding.max_len pe = max_len /\
              Dropout.training (PositionalEncoding.dropout pe) = tr) \/
  (exists x, PositionalEncoding.init d p max_len tr = Raise x) /\
  (Qle_bool 0 p && Qle_bool p 1 && negb (d =? 0) && (Nat.even d || (d =? 1)))
  = false.
Proof.
  unfold PositionalEncoding.init, Dropout.init.
  destruct (Qle_bool 0 p && Qle_bool p 1) eqn:Ep; cbn [bind andb];
    [|right; split; [eexists; reflexivity | reflexivity]].
  destruct (d =? 0) eqn:Ed; cbn [negb andb];
    [right; split; [eexists; reflexivity | reflexivity]|].
  apply Nat.eqb_neq in Ed.
  unfold broadcast2, broadcast_shapes. cbn [shape to_float unsqueeze_last arange
    tmap arange_step2 app rev bshape_rev bind fmap].
  rewrite bdim_1_l. cbn [bind fmap rev app].
  unfold assign_0_all_step2. cbn [shape zeros tmap Nat.eqb negb].
  unfold expandable. cbn [rev app expandable_rev].
  rewrite !Nat.eqb_refl. cbn [orb andb bind shape Nat.eqb negb].
  replace (d - Nat.min 0 d + 1) with (d + 1) by lia.
  rewrite !Nat.eqb_refl. cbn [orb andb bind shape Nat.eqb negb].
  rewrite (half_columns Ed).
  destruct (Nat.even d || (d =? 1));
    rewrite ?Nat.eqb_refl; cbn [orb andb bind shape Nat.eqb negb].
  - left. eexists. split; [reflexivity|]. cbn. auto.
  - right. split; [eexists; reflexivity | reflexivity].
Qed.

(** The eight tables of one axis are always constructed. *)
Lemma eight_spec (c : config) (iv : init_values) (names : list string) :
  exists es,
    DocFormerEmbeddings.eight c iv names = Ok es /\
    es = map (fun nw : string * nat =>
                Embedding.mk (max_2d_position_embeddings c) (snd nw) None
                  (mkTensor [max_2d_position_embeddings c; snd nw]
                            (iv (fst nw ++ ".weight")%string)))
             (combine names
                [coordinate_size c; coordinate_size c;
                 shape_size c; shape_size c; shape_size c;
                 shape_size c; shape_size c; shape_size c]).
Proof.
  unfold DocFormerEmbeddings.eight.
  generalize (combine names
                [coordinate_size c; coordinate_size c;
                 shape_size c; shape_size c; shape_size c;
                 shape_size c; shape_size c; shape_size c]).
  induction l as [|nw l IH]; cbn [fold_right].
  - eexists. split; reflexivity.
  - destruct IH as (es & Ees & Hes). unfold Embedding.init at 1. cbn [bind].
    rewrite Ees. cbn [bind].
    eexists. split; [reflexivity|]. simpl. now rewrite Hes.
Qed.

Lemma word_embedding_init (n d p : nat) (w : list nat -> R) :
  (exists e, Embedding.init n d (Some p) w = Ok e) /\ (p <? n) = true \/
  (exists x, Embedding.init n d (Some p) w = Raise x) /\ (p <? n) = false.
Proof.
  unfold Embedding.init.
  destruct (p <? n) eqn:E.
  - rewrite orb_true_r. left. split; [eexists; reflexivity | reflexivity].
  - right. split; [|reflexivity].
    destruct (p =? 0); cbn [orb]; eexists; reflexivity.
Qed.

(** [DocFormerEmbeddings(config)] is constructed exactly when
    [pad_token_id] is a row of the word table, [hidden_size] is 1 or a
    positive even number and the dropout probability lies in [[0, 1]]. *)
Lemma embeddings_init_ok (c : config) (tr : bool) (iv : init_values) :
  is_ok (DocFormerEmbeddings.init c tr iv) =
  (pad_token_id c <? vocab_size c)
  && negb (hidden_size c =? 0)
  && (Nat.even (hidden_size c) || (hidden_size c =? 1))
  && (Qle_bool 0 (hidden_dropout_prob c) && Qle_bool (hidden_dropout_prob c) 1).
Proof.
  unfold DocFormerEmbeddings.init.
  destruct (word_embedding_init (vocab_size c) (hidden_size c) (pad_token_id c)
              (iv "word_embeddings.weight"%string))
    as [[[e Ee] Hp]|[[x Ex] Hp]]; rewrite Hp.
  2:{ rewrite Ex. reflexivity. }
  rewrite Ee. cbn [bind andb].
  destruct (positional_encoding_init (hidden_size c) (1 # 10)
              (max_position_embeddings c) tr)
    as [(pe & Epe & _)|[[x Ex] Hpe]].
  2:{ rewrite Ex. cbn [bind is_ok].
      change (Qle_bool 0 (1 # 10) && Qle_bool (1 # 10) 1) with true in Hpe.
      cbn [andb] in Hpe. rewrite Hpe. reflexivity. }
  assert (Hd : negb (hidden_size c =? 0)
               && (Nat.even (hidden_size c) || (hidden_size c =? 1)) = true).
  { destruct (positional_encoding_init (hidden_size c) (1 # 10)
                (max_position_embeddings c) tr)
      as [_|[[x Ex] Hpe]]; [|rewrite Epe in Ex; discriminate Ex].
    revert Epe. unfold PositionalEncoding.init, Dropout.init.
    change (Qle_bool 0 (1 # 10) && Qle_bool (1 # 10) 1) with true.
    cbn [bind].
    destruct (hidden_size c =? 0) eqn:Ed; cbn [negb andb]; [discriminate|].
    apply Nat.eqb_neq in Ed. intros Epe.
    destruct (Nat.even (hidden_size c) || (hidden_size c =? 1)) eqn:Ev;
      [reflexivity|].
    exfalso. revert Epe.
    unfold broadcast2, broadcast_shapes. cbn [shape to_float unsqueeze_last arange
      tmap arange_step2 app rev bshape_rev bind fmap].
    rewrite bdim_1_l. cbn [bind fmap rev app].
    unfold assign_0_all_step2. cbn [shape zeros tmap Nat.eqb negb].
    unfold expandable. cbn [rev app expandable_rev].
    rewrite !Nat.eqb_refl. cbn [orb andb bind shape Nat.eqb negb].
    replace (hidden_size c - Nat.min 0 (hidden_size c) + 1)
      with (hidden_size c + 1) by lia.
    rewrite !Nat.eqb_refl. cbn [orb andb bind shape Nat.eqb negb].
    rewrite (half_columns Ed), Ev. cbn [andb bind]. discriminate. }
  rewrite Epe. cbn [bind].
  rewrite Hd. cbn [andb].
  unfold Embedding.init at 1. cbn [bind].
  destruct (eight_spec c iv (DocFormerEmbeddings.x_names "_v")) as (e1 & E1 & _).
  destruct (eight_spec c iv (DocFormerEmbeddings.y_names "_v")) as (e2 & E2 & _).
  destruct (eight_spec c iv (DocFormerEmbeddings.x_names "_t")) as (e3 & E3 & _).
  destruct (eight_spec c iv (DocFormerEmbeddings.y_names "_t")) as (e4 & E4 & _).
  rewrite E1. cbn [bind]. rewrite E2. cbn [bind].
  rewrite E3. cbn [bind]. rewrite E4. cbn [bind].
  unfold Dropout.init.
  destruct (Qle_bool 0 (hidden_dropout_prob c)
            && Qle_bool (hidden_dropout_prob c) 1); reflexivity.
Qed.

(** What a successful construction fixes. *)
Lemma embeddings_init_inv (c : config) (tr : bool) (iv : init_values)
    (emb : DocFormerEmbeddings.t) :
  DocFormerEmbeddings.init c tr iv = Ok emb ->
  DocFormerEmbeddings.cfg emb = c /\
  (exists pv,
     PositionalEncoding.init (hidden_size c) (1 # 10) (max_position_embeddings c) tr
       = Ok pv /\
     DocFormerEmbeddings.position_embeddings_v emb = pv) /\
  (exists pt,
     PositionalEncoding.init (hidden_size c) (1 # 10) (max_position_embeddings c) tr
       = Ok pt /\
     DocFormerEmbeddings.position_embeddings_t emb = pt) /\
  DocFormerEmbeddings.eight c iv (DocFormerEmbeddings.x_names "_v")
    = Ok (DocFormerEmbeddings.x_embedding_v emb) /\
  DocFormerEmbeddings.eight c iv (DocFormerEmbeddings.y_names "_v")
    = Ok (DocFormerEmbeddings.y_embedding_v emb) /\
  DocFormerEmbeddings.eight c iv (DocFormerEmbeddings.x_names "_t")
    = Ok (DocFormerEmbeddings.x_embedding_t emb) /\
  DocFormerEmbeddings.eight c iv (DocFormerEmbeddings.y_names "_t")
    = Ok (DocFormerEmbeddings.y_embedding_t emb).
Proof.
  unfold DocFormerEmbeddings.init.
  destruct (Embedding.init (vocab_size c) (hidden_size c) (Some (pad_token_id c))
              (iv "word_embeddings.weight"%string)); [|discriminate].
  cbn [bind].
  destruct (PositionalEncoding.init (hidden_size c) (1 # 10)
              (max_position_embeddings c) tr) as [pe|] eqn:Epe; [|discriminate].
  cbn [bind]. unfold Embedding.init at 1. cbn [bind].
  destruct (DocFormerEmbeddings.eight c iv (DocFormerEmbeddings.x_names "_v"));
    [|discriminate]. cbn [bind].
  destruct (DocFormerEmbeddings.eight c iv (DocFormerEmbeddings.y_names "_v"));
    [|discriminate]. cbn [bind].
  destruct (DocFormerEmbeddings.eight c iv (DocFormerEmbeddings.x_names "_t"));
    [|discriminate]. cbn [bind].
  destruct (DocFormerEmbeddings.eight c iv (DocFormerEmbeddings.y_names "_t"));
    [|discriminate]. cbn [bind].
  destruct (Dropout.init (hidden_dropout_prob c) tr); [|discriminate].
  cbn [bind]. intros H. injection H as <-. cbn.
  repeat split; try reflexivity; eexists; split; reflexivity.
Qed.

(** The tables of one axis: table [i] exists for [i < 8], has
    [max_2d_position_embeddings] rows and width [coordinate_size] or
    [shape_size]. *)
Lemma eight_nth (c : config) (iv : init_values) (names : list string)
    (es : list Embedding.t) (i : nat) :
  length names = 8 ->
  DocFormerEmbeddings.eight c iv names = Ok es ->
  i < 8 ->
  exists e,
    nth_error es i = Some e /\
    Embedding.num_embeddings e = max_2d_position_embeddings c /\
    (Embedding.embedding_dim e = coordinate_size c \/
     Embedding.embedding_dim e = shape_size c).
Proof.
  intros Hlen Hes Hi.
  destruct (eight_spec c iv names) as (es' & Ees & Hes').
  rewrite Hes in Ees. injection Ees as <-. subst es.
  destruct names as [|n0 [|n1 [|n2 [|n3 [|n4 [|n5 [|n6 [|n7 [|n8 names]]]]]]]]];
    try discriminate Hlen.
  do 8 (destruct i as [|i];
        [eexists; split; [reflexivity|]; cbn; auto|]).
  lia.
Qed.

Lemma embedding_forward2 (e : Embedding.t) (input : LongTensor) (B T : nat) :
  shape input = [B; T] ->
  (forall b t, b < B -> t < T ->
     (0 <= data input [b; t] < Z.of_nat (Embedding.num_embeddings e))%Z) ->
  exists y,
    Embedding.forward e input = Ok y /\
    shape y = [B; T; Embedding.embedding_dim e].
Proof.
  intros Hs Hin. unfold Embedding.forward. rewrite Hs.
  match goal with |- context [forallb ?f ?l] =>
    assert (Hall : forallb f l = true) end.
  { apply forallb_forall. intros idx Hidx. apply in_indices in Hidx.
    destruct idx as [|b [|t [|? ?]]]; simpl in Hidx; try tauto.
    destruct Hidx as (Hb & Ht & _). specialize (Hin b t Hb Ht).
    apply andb_true_iff. split; [apply Z.leb_le | apply Z.ltb_lt]; lia. }
  rewrite Hall. eexists. split; reflexivity.
Qed.

(** One slice assignment into band [i] of width [sub]: it fits when
    the value has the width of the band or width 1, and it leaves the
    columns from the end of the band on as they were. *)
Lemma assign_band (x v : FloatTensor) (B T H w sub i : nat) :
  shape x = [B; T; H] -> shape v = [B; T; w] ->
  (i + 1) * sub <= H ->
  w = sub \/ w = 1 ->
  exists y,
    assign_last_slice x (i * sub) ((i + 1) * sub) v = Ok y /\
    shape y = [B; T; H] /\
    forall b t j, (i + 1) * sub <= j -> data y [b; t; j] = data x [b; t; j].
Proof.
  intros Hx Hv Hle Hw. unfold assign_last_slice, last_dim. rewrite Hx, Hv.
  cbn [rev app bind removelast].
  replace (Nat.min ((i + 1) * sub) H) with ((i + 1) * sub) by lia.
  replace (Nat.min (i * sub) H) with (i * sub) by lia.
  replace ((i + 1) * sub - i * sub) with sub by lia.
  unfold expandable. cbn [rev app expandable_rev].
  assert (Hfit : (w =? sub) || (w =? 1) = true).
  { destruct Hw as [->| ->]; rewrite Nat.eqb_refl; [reflexivity|].
    apply orb_true_r. }
  rewrite Hfit, !Nat.eqb_refl. cbn [orb andb].
  eexists. split; [reflexivity|]. split; [reflexivity|].
  intros b t j Hj. cbn [data last].
  replace (j <? (i + 1) * sub) with false
    by (symmetry; apply Nat.ltb_ge; lia).
  now rewrite andb_false_r.
Qed.

(** One [for i in range(num_feat)] loop over features below 8. *)
Lemma fill_spec (c : config) (iv : init_values) (xn yn : list string)
    (xs ys : list Embedding.t) (x_feature y_feature : LongTensor)
    (B T sub : nat) :
  length xn = 8 -> length yn = 8 ->
  DocFormerEmbeddings.eight c iv xn = Ok xs ->
  DocFormerEmbeddings.eight c iv yn = Ok ys ->
  shape x_feature = [B; T; 8] -> shape y_feature = [B; T; 8] ->
  (forall b t i, b < B -> t < T -> i < 8 ->
     (0 <= data x_feature [b; t; i] < Z.of_nat (max_2d_position_embeddings c))%Z /\
     (0 <= data y_feature [b; t; i] < Z.of_nat (max_2d_position_embeddings c))%Z) ->
  8 * sub <= hidden_size c ->
  coordinate_size c = sub \/ coordinate_size c = 1 ->
  shape_size c = sub \/ shape_size c = 1 ->
  forall range x_calc y_calc,
    (forall i, In i range -> i < 8) ->
    shape x_calc = [B; T; hidden_size c] ->
    shape y_calc = [B; T; hidden_size c] ->
    exists x_calc' y_calc',
      DocFormerEmbeddings.fill xs ys x_feature y_feature sub range x_calc y_calc
        = Ok (x_calc', y_calc') /\
      shape x_calc' = [B; T; hidden_size c] /\
      shape y_calc' = [B; T; hidden_size c] /\
      forall b t j, 8 * sub <= j ->
        data x_calc' [b; t; j] = data x_calc [b; t; j] /\
        data y_calc' [b; t; j] = data y_calc [b; t; j].
Proof.
  intros Hxn Hyn Hxs Hys Hxf Hyf Hrange Hsub Hcs Hss.
  induction range as [|i range IH]; intros xc yc Hin Hxc Hyc;
    cbn [DocFormerEmbeddings.fill].
  - exists xc, yc. repeat split; auto.
  - assert (Hi : i < 8) by (apply Hin; now left).
    unfold select_last at 1. rewrite Hxf.
    replace (i <? 8) with true by (symmetry; apply Nat.ltb_lt; exact Hi).
    cbn [bind].
    destruct (@eight_nth c iv xn xs i Hxn Hxs Hi) as (ex & Eex & Nex & Wex).
    rewrite Eex.
    match goal with |- context [Embedding.forward ex ?inp] =>
      destruct (@embedding_forward2 ex inp B T eq_refl) as (vx & Evx & Svx)
    end.
    { intros b t Hb Ht. rewrite Nex. cbn [data app].
      apply (Hrange b t i Hb Ht Hi). }
    rewrite Evx. cbn [bind].
    destruct (@assign_band xc vx B T (hidden_size c)
                (Embedding.embedding_dim ex) sub i Hxc Svx ltac:(nia)
                ltac:(destruct Wex as [-> | ->]; assumption))
      as (xc1 & Exc1 & Sxc1 & Dxc1).
    rewrite Exc1. cbn [bind].
    unfold select_last at 1. rewrite Hyf.
    replace (i <? 8) with true by (symmetry; apply Nat.ltb_lt; exact Hi).
    cbn [bind].
    destruct (@eight_nth c iv yn ys i Hyn Hys Hi) as (ey & Eey & Ney & Wey).
    rewrite Eey.
    match goal with |- context [Embedding.forward ey ?inp] =>
      destruct (@embedding_forward2 ey inp B T eq_refl) as (vy & Evy & Svy)
    end.
    { intros b t Hb Ht. rewrite Ney. cbn [data app].
      apply (Hrange b t i Hb Ht Hi). }
    rewrite Evy. cbn [bind].
    destruct (@assign_band yc vy B T (hidden_size c)
                (Embedding.embedding_dim ey) sub i Hyc Svy ltac:(nia)
                ltac:(destruct Wey as [-> | ->]; assumption))
      as (yc1 & Eyc1 & Syc1 & Dyc1).
    rewrite Eyc1. cbn [bind].
    destruct (IH xc1 yc1 (fun k Hk => Hin k (or_intror Hk)) Sxc1 Syc1)
      as (xc' & yc' & E' & Sx' & Sy' & D').
    exists xc', yc'. split; [exact E'|]. split; [exact Sx'|].
    split; [exact Sy'|].
    intros b t j Hj. destruct (D' b t j Hj) as [D1 D2].
    rewrite D1, D2, Dxc1, Dyc1 by nia. auto.
Qed.

(** Adding a tensor with one batch entry to a tensor with [B]. *)
Lemma broadcast2_batch1 (f : R -> R -> R) (x y : FloatTensor) (B T H : nat) :
  shape x = [B; T; H] -> shape y = [1; T; H] ->
  exists z,
    broadcast2 f x y = Ok z /\ shape z = [B; T; H] /\
    forall b t j, b < B -> t < T -> j < H ->
      data z [b; t; j] = f (data x [b; t; j]) (data y [0; t; j]).
Proof.
  intros Hx Hy. unfold broadcast2, broadcast_shapes. rewrite Hx, Hy.
  cbn [rev app bshape_rev]. rewrite !bdim_refl, bdim_1_r. cbn [bind fmap rev app].
  eexists. split; [reflexivity|]. split; [reflexivity|].
  intros b t j Hb Ht Hj. cbn [data]. unfold bidx. cbn.
  now rewrite (bsel Hb), (bsel Ht), (bsel Hj).
Qed.

Lemma positional_encoding_forward (d : nat) (p : Q) (max_len : nat) (tr : bool)
    (pe : PositionalEncoding.t) (mask : list nat -> bool) :
  PositionalEncoding.init d p max_len tr = Ok pe ->
  exists pos,
    PositionalEncoding.forward pe mask = Ok pos /\
    shape pos = [1; max_len; d].
Proof.
  intros Hinit.
  destruct (positional_encoding_init d p max_len tr)
    as [(pe' & Epe & Hs & Hm & _)|[[x Ex] _]];
    [|rewrite Hinit in Ex; discriminate Ex].
  rewrite Hinit in Epe. injection Epe as <-.
  unfold PositionalEncoding.forward. rewrite Hs, Hm. cbn [Nat.eqb negb].
  eexists. split; [reflexivity|].
  cbn [shape unsqueeze_first]. rewrite dropout_forward_shape. cbn [shape].
  rewrite slice_stop_in_range, Nat2Z.id by lia. reflexivity.
Qed.

(** [forward] on eight features per axis, buckets within the tables,
    sequences as long as the positional encoding, tables as wide as a
    band (or of width 1): it returns, and what lies behind the eight
    bands of width [hidden_size // 8] is the positional encoding
    alone. *)
Lemma embeddings_forward_bands (c : config) (tr : bool) (iv : init_values)
    (emb : DocFormerEmbeddings.t) (rng : DocFormerEmbeddings.draws)
    (x_feature y_feature : LongTensor) (B T : nat) :
  DocFormerEmbeddings.init c tr iv = Ok emb ->
  shape x_feature = [B; T; 8] -> shape y_feature = [B; T; 8] ->
  (forall b t i, b < B -> t < T -> i < 8 ->
     (0 <= data x_feature [b; t; i] < Z.of_nat (max_2d_position_embeddings c))%Z /\
     (0 <= data y_feature [b; t; i] < Z.of_nat (max_2d_position_embeddings c))%Z) ->
  T = max_position_embeddings c ->
  coordinate_size c = hidden_size c / 8 \/ coordinate_size c = 1 ->
  shape_size c = hidden_size c / 8 \/ shape_size c = 1 ->
  exists v_bar_s t_bar_s pos_v pos_t,
    DocFormerEmbeddings.forward emb rng x_feature y_feature
      = Ok (v_bar_s, t_bar_s) /\
    shape v_bar_s = [B; T; hidden_size c] /\
    shape t_bar_s = [B; T; hidden_size c] /\
    PositionalEncoding.forward (DocFormerEmbeddings.position_embeddings_v emb)
      (DocFormerEmbeddings.mask_v rng) = Ok pos_v /\
    PositionalEncoding.forward (DocFormerEmbeddings.position_embeddings_t emb)
      (DocFormerEmbeddings.mask_t rng) = Ok pos_t /\
    forall b t j, b < B -> t < T ->
      8 * (hidden_size c / 8) <= j -> j < hidden_size c ->
      data v_bar_s [b; t; j] = (0 + 0 + data pos_v [0%nat; t; j])%R /\
      data t_bar_s [b; t; j] = (0 + 0 + data pos_t [0%nat; t; j])%R.
Proof.
  intros Hinit Hxf Hyf Hrange HT Hcs Hss.
  destruct (embeddings_init_inv _ _ _ Hinit)
    as (Hcfg & (pv & Epv & Hpv) & (pt & Ept & Hpt) & Exv & Eyv & Ext & Eyt).
  assert (Hsub : 8 * (hidden_size c / 8) <= hidden_size c).
  { pose proof (Nat.div_mod (hidden_size c) 8 ltac:(lia)). lia. }
  assert (Hseq : forall i, In i (seq 0 8) -> i < 8)
    by (intros i Hi; apply in_seq in Hi; lia).
  unfold DocFormerEmbeddings.forward. rewrite Hxf, Hcfg.
  cbn [Nat.eqb negb].
  destruct (@fill_spec c iv (DocFormerEmbeddings.x_names "_v")
              (DocFormerEmbeddings.y_names "_v") _ _ x_feature y_feature B T
              (hidden_size c / 8) eq_refl eq_refl Exv Eyv Hxf Hyf Hrange Hsub
              Hcs Hss (seq 0 8) (zeros [B; T; hidden_size c])
              (zeros [B; T; hidden_size c]) Hseq eq_refl eq_refl)
    as (xv & yv & Ev & Sxv & Syv & Dv).
  rewrite Ev. cbn [bind fst snd].
  step sv (broadcast2_same Rplus xv yv Sxv Syv).
  destruct (@positional_encoding_forward _ _ _ _ pv
              (DocFormerEmbeddings.mask_v rng) Epv) as (pos_v & Epos_v & Spos_v).
  rewrite Hpv, Epos_v. cbn [bind]. rewrite <- HT in Spos_v.
  step v (broadcast2_batch1 Rplus sv pos_v Hs_sv Spos_v).
  destruct (@fill_spec c iv (DocFormerEmbeddings.x_names "_t")
              (DocFormerEmbeddings.y_names "_t") _ _ x_feature y_feature B T
              (hidden_size c / 8) eq_refl eq_refl Ext Eyt Hxf Hyf Hrange Hsub
              Hcs Hss (seq 0 8) (zeros [B; T; hidden_size c])
              (zeros [B; T; hidden_size c]) Hseq eq_refl eq_refl)
    as (xt & yt & Et & Sxt & Syt & Dt).
  rewrite Et. cbn [bind fst snd].
  step st (broadcast2_same Rplus xt yt Sxt Syt).
  destruct (@positional_encoding_forward _ _ _ _ pt
              (DocFormerEmbeddings.mask_t rng) Ept) as (pos_t & Epos_t & Spos_t).
  rewrite Hpt, Epos_t. cbn [bind]. rewrite <- HT in Spos_t.
  step t (broadcast2_batch1 Rplus st pos_t Hs_st Spos_t).
  exists v, t, pos_v, pos_t.
  split; [reflexivity|]. split; [exact Hs_v|]. split; [exact Hs_t|].
  split; [reflexivity|]. split; [reflexivity|].
  intros b t0 j Hb Ht0 Hj Hj'.
  rewrite Hd_v, Hd_t by assumption.
  rewrite Hd_sv, Hd_st by (simpl; tauto).
  destruct (Dv b t0 j Hj) as [-> ->]. destruct (Dt b t0 j Hj) as [-> ->].
  split; reflexivity.
Qed.

(** C7, as the code behaves.  [DocFormerEmbeddings(config)] never looks
    at [hidden_size % 8].  It is constructed exactly when
    [pad_token_id] is a row of the word table, [hidden_size] is 1 or a
    positive even number (an odd width makes the cosine columns of the
    positional encoding one fewer than the values assigned to them) and
    the dropout probability lies in [[0, 1]]; so for every positive even
    [hidden_size], a multiple of 8 or not.  [forward] then cuts eight
    bands of width [hidden_size // 8]; with tables of that width it
    returns, and the [hidden_size % 8] columns behind the bands receive
    no feature embedding: they hold the positional encoding alone. *)
Theorem C7_construction_ignores_divisibility (c : config) (tr : bool)
    (iv : init_values) :
  is_ok (DocFormerEmbeddings.init c tr iv) =
    (pad_token_id c <? vocab_size c)
    && negb (hidden_size c =? 0)
    && (Nat.even (hidden_size c) || (hidden_size c =? 1))
    && (Qle_bool 0 (hidden_dropout_prob c)
        && Qle_bool (hidden_dropout_prob c) 1) /\
  forall (emb : DocFormerEmbeddings.t) (rng : DocFormerEmbeddings.draws)
         (x_feature y_feature : LongTensor) (B T : nat),
    DocFormerEmbeddings.init c tr iv = Ok emb ->
    shape x_feature = [B; T; 8] -> shape y_feature = [B; T; 8] ->
    (forall b t i, b < B -> t < T -> i < 8 ->
       (0 <= data x_feature [b; t; i]
          < Z.of_nat (max_2d_position_embeddings c))%Z /\
       (0 <= data y_feature [b; t; i]
          < Z.of_nat (max_2d_position_embeddings c))%Z) ->
    T = max_position_embeddings c ->
    coordinate_size c = hidden_size c / 8 \/ coordinate_size c = 1 ->
    shape_size c = hidden_size c / 8 \/ shape_size c = 1 ->
    exists v_bar_s t_bar_s pos_v pos_t,
      DocFormerEmbeddings.forward emb rng x_feature y_feature
        = Ok (v_bar_s, t_bar_s) /\
      shape v_bar_s = [B; T; hidden_size c] /\
      shape t_bar_s = [B; T; hidden_size c] /\
      PositionalEncoding.forward (DocFormerEmbeddings.position_embeddings_v emb)
        (DocFormerEmbeddings.mask_v rng) = Ok pos_v /\
      PositionalEncoding.forward (DocFormerEmbeddings.position_embeddings_t emb)
        (DocFormerEmbeddings.mask_t rng) = Ok pos_t /\
      forall b t j, b < B -> t < T ->
        8 * (hidden_size c / 8) <= j -> j < hidden_size c ->
        data v_bar_s [b; t; j] = (0 + 0 + data pos_v [0%nat; t; j])%R /\
        data t_bar_s [b; t; j] = (0 + 0 + data pos_t [0%nat; t; j])%R.
Proof.
  split.
  - apply embeddings_init_ok.
  - intros emb rng x_feature y_feature B T.
    apply embeddings_forward_bands.
Qed.

(** Hidden size 12: the module is constructed, [forward] returns, and
    column 8 of the visual-spatial embedding is the positional encoding
    alone. *)
Lemma C7_construction_ignores_divisibility_witness :
  exists emb v_bar_s t_bar_s pos_v,
    DocFormerEmbeddings.init config_12 false (fun _ _ => 0%R) = Ok emb /\
    DocFormerEmbeddings.forward emb embeddings_keep_all
      (zero_features [1; 2; 8]) (zero_features [1; 2; 8])
      = Ok (v_bar_s, t_bar_s) /\
    shape v_bar_s = [1; 2; 12] /\
    PositionalEncoding.forward (DocFormerEmbeddings.position_embeddings_v emb)
      (DocFormerEmbeddings.mask_v embeddings_keep_all) = Ok pos_v /\
    data v_bar_s [0; 1; 8] = (0 + 0 + data pos_v [0%nat; 1%nat; 8%nat])%R.
Proof.
  assert (Hinit : exists emb,
            DocFormerEmbeddings.init config_12 false (fun _ _ => 0%R) = Ok emb).
  { destruct (DocFormerEmbeddings.init config_12 false (fun _ _ => 0%R))
      as [emb|x] eqn:E; [now exists emb|].
    pose proof (proj1 (C7_construction_ignores_divisibility config_12 false
                         (fun _ _ => 0%R))) as H.
    rewrite E in H. discriminate H. }
  destruct Hinit as [emb Hinit].
  destruct (proj2 (C7_construction_ignores_divisibility config_12 false
                     (fun _ _ => 0%R))
              emb embeddings_keep_all
              (zero_features [1; 2; 8]) (zero_features [1; 2; 8]) 1 2
              Hinit eq_refl eq_refl
              ltac:(intros; cbn; lia) eq_refl
              (or_introl eq_refl) (or_introl eq_refl))
    as (v & t & pv & pt & Ef & Sv & _ & Epv & _ & Hd).
  exists emb, v, t, pv. split; [exact Hinit|]. split; [exact Ef|].
  split; [exact Sv|]. split; [exact Epv|].
  apply (Hd 0 1 8); cbn; lia.
Defined.

(** C7 fails on the code: with [hidden_size = 12], which leaves
    remainder 4 modulo 8, the module is constructed, and [forward]
    returns two tensors of width 12. *)
Lemma C7_counterexample :
  hidden_size config_12 mod 8 = 4 /\
  exists emb v_bar_s t_bar_s,
    DocFormerEmbeddings.init config_12 false (fun _ _ => 0%R) = Ok emb /\
    DocFormerEmbeddings.forward emb embeddings_keep_all
      (zero_features [1; 2; 8]) (zero_features [1; 2; 8])
      = Ok (v_bar_s, t_bar_s) /\
    shape v_bar_s = [1; 2; 12] /\ shape t_bar_s = [1; 2; 12].
Proof.
  split; [reflexivity|].
  destruct (DocFormerEmbeddings.init config_12 false (fun _ _ => 0%R))
    as [emb|x] eqn:Hinit.
  2:{ pose proof (embeddings_init_ok config_12 false (fun _ _ => 0%R)) as H.
      rewrite Hinit in H. discriminate H. }
  destruct (@embeddings_forward_bands config_12 false (fun _ _ => 0%R) emb
              embeddings_keep_all
              (zero_features [1; 2; 8]) (zero_features [1; 2; 8]) 1 2
              Hinit eq_refl eq_refl
              ltac:(intros; cbn; lia) eq_refl
              (or_introl eq_refl) (or_introl eq_refl))
    as (v & t & _ & _ & Ef & Sv & St & _).
  exists emb, v, t. auto.
Qed.

(* ================================================================= *)
(** * Further properties of the layers *)

(** ** Attention probabilities *)









(** ** Splitting into heads and merging back *)

(** X2.  The two [rearrange] patterns of [forward] are inverse to each
    other: splitting the last dimension of a [(b, t, e)] tensor into
    [head] heads and merging the heads again gives the tensor back.
    The split raises when [head] does not divide [e]. *)
Theorem split_merge_heads_round_trip (x : FloatTensor) (b t e head : nat) :
  shape x = [b; t; e] -> head <> 0 ->
  (e mod head = 0 ->
   exists y z,
     rearrange_split_heads x head = Ok y /\
     shape y = [head; b; t; e / head] /\
     rearrange_merge_heads y = Ok z /\
     shape z = [b; t; e] /\
     forall b0 t0 j, data z [b0; t0; j] = data x [b0; t0; j]) /\
  (e mod head <> 0 -> rearrange_split_heads x head = Raise EinopsError).
Proof.
  intros Hx Hh.
  assert (Hh' : (head =? 0) = false) by now apply Nat.eqb_neq.
  split.
  - intros Hmod. unfold rearrange_split_heads. rewrite Hx, Hh'. cbn [negb].
    rewrite (proj2 (Nat.eqb_eq _ _) Hmod).
    eexists. eexists. split; [reflexivity|]. split; [reflexivity|].
    unfold rearrange_merge_heads. cbn [shape].
    split; [reflexivity|]. split.
    + pose proof (Nat.div_mod_eq e head) as Hdm. rewrite Hmod in Hdm.
      replace (head * (e / head)) with e by lia. reflexivity.
    + intros b0 t0 j. cbn [data]. f_equal. f_equal. f_equal. f_equal.
      pose proof (Nat.div_mod_eq j (e / head)). lia.
  - intros Hmod. unfold rearrange_split_heads. rewrite Hx, Hh'. cbn [negb].
    rewrite (proj2 (Nat.eqb_neq _ _) Hmod). reflexivity.
Qed.

Lemma split_merge_heads_round_trip_witness :
  exists y z,
    rearrange_split_heads (zeros [1; 2; 6]) 3 = Ok y /\
    shape y = [3; 1; 2; 6 / 3] /\
    rearrange_merge_heads y = Ok z /\
    shape z = [1; 2; 6] /\
    forall b0 t0 j, data z [b0; t0; j] = data (zeros [1; 2; 6]) [b0; t0; j].
Proof.
  apply (proj1 (@split_merge_heads_round_trip (zeros [1; 2; 6]) 1 2 6 3
                  eq_refl ltac:(discriminate))).
  reflexivity.
Defined.

(** ** Construction of the attention layer and of the encoder *)

(** X3.  What [MultiModalAttentionLayer.__init__] checks, in its order:
    [embed_dim % n_heads] raises [ZeroDivisionError] for no head, the
    assertion fails when the heads do not divide the width, and
    [nn.Dropout] rejects a probability outside [[0, 1]]; every other
    combination of arguments is constructed, whatever the window and
    the maximal length. *)
Theorem attention_layer_init_errors (E nh mrp L : nat) (p : Q) (tr : bool)
    (iv : init_values) :
  (nh = 0 ->
   MultiModalAttentionLayer.init E nh mrp L p tr iv = Raise ZeroDivisionError) /\
  (nh <> 0 -> E mod nh <> 0 ->
   MultiModalAttentionLayer.init E nh mrp L p tr iv = Raise AssertionError) /\
  (nh <> 0 -> E mod nh = 0 -> (Qle_bool 0 p && Qle_bool p 1) = false ->
   MultiModalAttentionLayer.init E nh mrp L p tr iv = Raise ValueError) /\
  (nh <> 0 -> E mod nh = 0 -> (Qle_bool 0 p && Qle_bool p 1) = true ->
   exists self,
     MultiModalAttentionLayer.init E nh mrp L p tr iv = Ok self /\
     MultiModalAttentionLayer.head_dim self = E / nh).
Proof.
  unfold MultiModalAttentionLayer.init.
  destruct (init_spec (E / nh) mrp L
              (iv "relative_positions_text.embeddings_table"%string))
    as (rt & Ert & _).
  destruct (init_spec (E / nh) mrp L
              (iv "relative_positions_img.embeddings_table"%string))
    as (ri & Eri & _).
  repeat split.
  - intros ->. reflexivity.
  - intros Hnh Hmod. rewrite (proj2 (Nat.eqb_neq _ _) Hnh). cbn [negb].
    rewrite (proj2 (Nat.eqb_neq _ _) Hmod). reflexivity.
  - intros Hnh Hmod Hp. rewrite (proj2 (Nat.eqb_neq _ _) Hnh). cbn [negb].
    rewrite (proj2 (Nat.eqb_eq _ _) Hmod). rewrite Ert, Eri. cbn [bind].
    unfold Dropout.init. rewrite Hp. reflexivity.
  - intros Hnh Hmod Hp. rewrite (proj2 (Nat.eqb_neq _ _) Hnh). cbn [negb].
    rewrite (proj2 (Nat.eqb_eq _ _) Hmod). rewrite Ert, Eri. cbn [bind].
    unfold Dropout.init. rewrite Hp. cbn [bind].
    eexists. split; reflexivity.
Qed.

Lemma attention_layer_init_errors_witness :
  MultiModalAttentionLayer.init 4 0 1 2 0%Q false (fun _ _ => 0%R)
    = Raise ZeroDivisionError /\
  MultiModalAttentionLayer.init 4 3 1 2 0%Q false (fun _ _ => 0%R)
    = Raise AssertionError /\
  MultiModalAttentionLayer.init 4 2 1 2 (3 # 2)%Q false (fun _ _ => 0%R)
    = Raise ValueError /\
  exists self,
    MultiModalAttentionLayer.init 4 2 1 2 (1 # 10)%Q false (fun _ _ => 0%R)
      = Ok self /\
    MultiModalAttentionLayer.head_dim self = 4 / 2.
Proof.
  split; [|split; [|split]].
  - apply (proj1 (attention_layer_init_errors 4 0 1 2 0%Q false (fun _ _ => 0%R))).
    reflexivity.
  - apply (proj1 (proj2 (attention_layer_init_errors 4 3 1 2 0%Q false
                           (fun _ _ => 0%R)))); discriminate.
  - apply (proj1 (proj2 (proj2 (attention_layer_init_errors 4 2 1 2 (3 # 2)%Q false
                                  (fun _ _ => 0%R)))));
      [discriminate|reflexivity|reflexivity].
  - apply (proj2 (proj2 (proj2 (attention_layer_init_errors 4 2 1 2 (1 # 10)%Q false
                                  (fun _ _ => 0%R)))));
      [discriminate|reflexivity|reflexivity].
Defined.

Lemma encoder_init_inv (cfg : config) (tr : bool) (iv : nat -> init_values)
    (enc : DocFormerEncoder.t) :
  DocFormerEncoder.init cfg tr iv = Ok enc ->
  length (DocFormerEncoder.layers enc) = num_hidden_layers cfg /\
  forall k blk, nth_error (DocFormerEncoder.layers enc) k = Some blk ->
    DocFormerEncoder.init_block cfg tr (iv k) = Ok blk.
Proof.
  intros Hinit. unfold DocFormerEncoder.init in Hinit.
  destruct (DocFormerEncoder.init_layers cfg tr iv 0 (num_hidden_layers cfg))
    as [ls|] eqn:Els; [|discriminate Hinit].
  cbn [bind] in Hinit. injection Hinit as <-. cbn [DocFormerEncoder.layers].
  destruct (init_layers_inv _ _ _ _ _ Els) as [Hlen Hblocks].
  split; [exact Hlen|]. intros k blk Hk. exact (Hblocks k blk Hk).
Qed.

Lemma rev_cons_last {A} (l : list A) (a : A) (r : list A) :
  rev l = a :: r -> nth_error l (length r) = Some a /\ length l = S (length r).
Proof.
  intros H. apply (f_equal (@rev A)) in H. rewrite rev_involutive in H.
  subst l. cbn [rev]. split.
  - rewrite nth_error_app2 by (rewrite length_rev; lia).
    rewrite length_rev, Nat.sub_diag. reflexivity.
  - rewrite length_app, length_rev. cbn. lia.
Qed.

(** A constructed encoder with at least one layer returns on four
    inputs of shape [(B, T, hidden_size)], [T] within the maximal
    length, and what it returns has that shape. *)
Lemma encoder_forward_returns (gelu : R -> R) (cfg : config) (tr : bool)
    (iv : nat -> init_values) (enc : DocFormerEncoder.t)
    (rng : nat -> DocFormerEncoder.draws)
    (text_feat img_feat text_spatial_feat img_spatial_feat : FloatTensor)
    (B T : nat) :
  DocFormerEncoder.init cfg tr iv = Ok enc ->
  1 <= num_hidden_layers cfg ->
  shape text_feat = [B; T; hidden_size cfg] ->
  shape img_feat = [B; T; hidden_size cfg] ->
  shape text_spatial_feat = [B; T; hidden_size cfg] ->
  shape img_spatial_feat = [B; T; hidden_size cfg] ->
  T <= max_position_embeddings cfg ->
  exists out,
    DocFormerEncoder.forward gelu enc rng
      text_feat img_feat text_spatial_feat img_spatial_feat = Ok out /\
    shape out = [B; T; hidden_size cfg].
Proof.
  intros Hinit Hn H1 H2 H3 H4 HT.
  destruct (encoder_init_inv _ _ _ Hinit) as [Hlen Hblocks].
  unfold DocFormerEncoder.forward, DocFormerEncoder.forward_trace.
  destruct (@loop_spec gelu cfg tr rng img_feat text_spatial_feat
              img_spatial_feat B T H2 H3 H4 HT (DocFormerEncoder.layers enc)
              (fun k blk Hk => ex_intro _ (iv k) (Hblocks k blk Hk))
              0 text_feat H1)
    as (its & El & Hits).
  rewrite El. cbn [bind].
  destruct (@loop_frame gelu rng img_feat text_spatial_feat img_spatial_feat
              (DocFormerEncoder.layers enc) 0 text_feat its El) as [Hl _].
  destruct (rev its) as [|it r] eqn:Hrev.
  - apply (f_equal (@length _)) in Hrev. rewrite length_rev in Hrev.
    cbn in Hrev. lia.
  - destruct (rev_cons_last _ Hrev) as [Hnth _].
    destruct (Hits _ _ Hnth) as (blk & _ & Hit).
    exists (DocFormerEncoder.x it). split; [reflexivity|].
    exact (proj1 (it_x Hit)).
Qed.

(** X4.  An encoder configured with no hidden layer is constructed
    without any check of its configuration, and its [forward] raises on
    every input: the loop body never runs, and [return x] reads a local
    variable that was never assigned. *)
Theorem encoder_without_layers (cfg : config) (tr : bool)
    (iv : nat -> init_values) :
  num_hidden_layers cfg = 0 ->
  exists enc,
    DocFormerEncoder.init cfg tr iv = Ok enc /\
    forall (gelu : R -> R) (rng : nat -> DocFormerEncoder.draws)
           (text_feat img_feat text_spatial_feat img_spatial_feat : FloatTensor),
      DocFormerEncoder.forward gelu enc rng
        text_feat img_feat text_spatial_feat img_spatial_feat
      = Raise UnboundLocalError.
Proof.
  intros Hn. unfold DocFormerEncoder.init. rewrite Hn. cbn.
  eexists. split; [reflexivity|]. intros. reflexivity.
Qed.

Lemma encoder_without_layers_witness :
  exists enc,
    DocFormerEncoder.init (mk_config 1 3 0 2 1 1 1 layer_norm_default_eps (5 # 1)%Q
                             0 0 1 1) false (fun _ _ _ => 0%R) = Ok enc /\
    forall (gelu : R -> R) (rng : nat -> DocFormerEncoder.draws)
           (text_feat img_feat text_spatial_feat img_spatial_feat : FloatTensor),
      DocFormerEncoder.forward gelu enc rng
        text_feat img_feat text_spatial_feat img_spatial_feat
      = Raise UnboundLocalError.
Proof.
  apply (@encoder_without_layers
           (mk_config 1 3 0 2 1 1 1 layer_norm_default_eps (5 # 1)%Q 0 0 1 1)
           false (fun _ _ _ => 0%R)).
  reflexivity.
Defined.

(** X5.  A constructed encoder with at least one layer, called on four
    tensors of shape [(B, T, hidden_size)] with [T] at most
    [max_position_embeddings], returns a tensor of the same shape. *)
Theorem encoder_forward_shape (gelu : R -> R) (cfg : config) (tr : bool)
    (iv : nat -> init_values) (enc : DocFormerEncoder.t)
    (rng : nat -> DocFormerEncoder.draws)
    (text_feat img_feat text_spatial_feat img_spatial_feat : FloatTensor)
    (B T : nat) :
  DocFormerEncoder.init cfg tr iv = Ok enc ->
  1 <= num_hidden_layers cfg ->
  shape text_feat = [B; T; hidden_size cfg] ->
  shape img_feat = [B; T; hidden_size cfg] ->
  shape text_spatial_feat = [B; T; hidden_size cfg] ->
  shape img_spatial_feat = [B; T; hidden_size cfg] ->
  T <= max_position_embeddings cfg ->
  exists out,
    DocFormerEncoder.forward gelu enc rng
      text_feat img_feat text_spatial_feat img_spatial_feat = Ok out /\
    shape out = shape text_feat.
Proof.
  intros Hinit Hn H1 H2 H3 H4 HT.
  destruct (@encoder_forward_returns gelu cfg tr iv enc rng
              text_feat img_feat text_spatial_feat img_spatial_feat B T
              Hinit Hn H1 H2 H3 H4 HT) as (out & E & Hs).
  exists out. split; [exact E|]. now rewrite Hs, H1.
Qed.

Lemma encoder_forward_shape_witness :
  exists enc out,
    DocFormerEncoder.init small_config false (fun _ _ _ => 0%R) = Ok enc /\
    DocFormerEncoder.forward (fun v => v) enc encoder_keep_all
      (zeros [1; 2; 2]) (zeros [1; 2; 2]) (zeros [1; 2; 2]) (zeros [1; 2; 2])
      = Ok out /\
    shape out = [1; 2; 2].
Proof.
  assert (Hinit : exists enc,
            DocFormerEncoder.init small_config false (fun _ _ _ => 0%R) = Ok enc)
    by (eexists; reflexivity).
  destruct Hinit as [enc Hinit].
  destruct (@encoder_forward_shape (fun v => v) small_config false
              (fun _ _ _ => 0%R) enc encoder_keep_all
              (zeros [1; 2; 2]) (zeros [1; 2; 2]) (zeros [1; 2; 2])
              (zeros [1; 2; 2]) 1 2 Hinit (le_S _ _ (le_n 1))
              eq_refl eq_refl eq_refl eq_refl (le_n 2))
    as (out & E & Hs).
  exists enc, out. split; [exact Hinit|]. split; [exact E|]. exact Hs.
Defined.

Lemma attention_layer_init_ok (E nh mrp L : nat) (p : Q) (tr : bool)
    (iv : init_values) :
  is_ok (MultiModalAttentionLayer.init E nh mrp L p tr iv) =
  negb (nh =? 0) && (E mod nh =? 0) && (Qle_bool 0 p && Qle_bool p 1).
Proof.
  unfold MultiModalAttentionLayer.init.
  destruct (init_spec (E / nh) mrp L
              (iv "relative_positions_text.embeddings_table"%string))
    as (rt & Ert & _).
  destruct (init_spec (E / nh) mrp L
              (iv "relative_positions_img.embeddings_table"%string))
    as (ri & Eri & _).
  destruct (nh =? 0); [reflexivity|]. cbn [negb andb].
  destruct (E mod nh =? 0); [|reflexivity]. cbn [andb].
  rewrite Ert, Eri. cbn [bind]. unfold Dropout.init.
  destruct (Qle_bool 0 p && Qle_bool p 1); reflexivity.
Qed.

Lemma init_block_ok (cfg : config) (tr : bool) (iv : init_values) :
  is_ok (DocFormerEncoder.init_block cfg tr iv) =
  negb (num_attention_heads cfg =? 0)
  && (hidden_size cfg mod num_attention_heads cfg =? 0)
  && (Qle_bool 0 (hidden_dropout_prob cfg) && Qle_bool (hidden_dropout_prob cfg) 1).
Proof.
  unfold DocFormerEncoder.init_block.
  pose proof (attention_layer_init_ok (hidden_size cfg) (num_attention_heads cfg)
                (max_relative_positions cfg) (max_position_embeddings cfg)
                (hidden_dropout_prob cfg) tr
                (DocFormerEncoder.prefixed "0.fn." iv)) as Hm.
  destruct (MultiModalAttentionLayer.init _ _ _ _ _ _ _) as [m|x];
    cbn [is_ok bind] in *; [|exact Hm].
  rewrite <- Hm. symmetry in Hm.
  apply andb_true_iff in Hm. destruct Hm as [_ Hp].
  unfold FeedForward.init, Dropout.init. rewrite Hp. reflexivity.
Qed.

Lemma init_layers_ok (cfg : config) (tr : bool) (iv : nat -> init_values) :
  forall n i,
    is_ok (DocFormerEncoder.init_layers cfg tr iv i n) =
    (n =? 0) || is_ok (DocFormerEncoder.init_block cfg tr (iv i)).
Proof.
  assert (Hsame : forall i j,
            is_ok (DocFormerEncoder.init_block cfg tr (iv i)) =
            is_ok (DocFormerEncoder.init_block cfg tr (iv j))).
  { intros i j. now rewrite !init_block_ok. }
  induction n as [|n IH]; intros i; [reflexivity|].
  cbn [DocFormerEncoder.init_layers Nat.eqb orb].
  specialize (IH (S i)). rewrite (Hsame (S i) i) in IH.
  destruct (DocFormerEncoder.init_block cfg tr (iv i)) as [b|x];
    cbn [bind is_ok] in *; [|reflexivity].
  destruct (DocFormerEncoder.init_layers cfg tr iv (S i) n) as [bs|x];
    cbn [bind is_ok] in *; [reflexivity|].
  rewrite orb_true_r in IH. discriminate IH.
Qed.

Lemma encoder_init_is_ok (cfg : config) (tr : bool) (iv : nat -> init_values) :
  is_ok (DocFormerEncoder.init cfg tr iv) =
  (num_hidden_layers cfg =? 0)
  || (negb (num_attention_heads cfg =? 0)
      && (hidden_size cfg mod num_attention_heads cfg =? 0)
      && (Qle_bool 0 (hidden_dropout_prob cfg)
          && Qle_bool (hidden_dropout_prob cfg) 1)).
Proof.
  unfold DocFormerEncoder.init.
  rewrite <- init_block_ok with (tr := tr) (iv := iv 0).
  rewrite <- init_layers_ok.
  destruct (DocFormerEncoder.init_layers cfg tr iv 0 (num_hidden_layers cfg));
    reflexivity.
Qed.

(** X6.  [DocFormerEncoder.__init__] succeeds exactly when it builds no
    layer, or the number of attention heads is positive and divides
    [hidden_size] and [hidden_dropout_prob] lies in [[0, 1]]; nothing
    else of the configuration is checked. *)
Theorem encoder_init_succeeds_iff (cfg : config) (tr : bool)
    (iv : nat -> init_values) :
  is_ok (DocFormerEncoder.init cfg tr iv) =
  (num_hidden_layers cfg =? 0)
  || (negb (num_attention_heads cfg =? 0)
      && (hidden_size cfg mod num_attention_heads cfg =? 0)
      && (Qle_bool 0 (hidden_dropout_prob cfg)
          && Qle_bool (hidden_dropout_prob cfg) 1)).
Proof. apply encoder_init_is_ok. Qed.

(** ** Layer normalisation in front of the two sublayers *)





(** ** The feed-forward sublayer *)

Lemma layer_norm_row (ln : LayerNorm.t) (x x' n n' : FloatTensor) (pre : list nat) :
  LayerNorm.forward ln x = Ok n -> LayerNorm.forward ln x' = Ok n' ->
  (forall i, data x (pre ++ [i]) = data x' (pre ++ [i])) ->
  forall i, data n (pre ++ [i]) = data n' (pre ++ [i]).
Proof.
  unfold LayerNorm.forward. intros H H' Hrow i.
  destruct (last_dim x) as [d|]; cbn [bind] in H; [|discriminate H].
  destruct (last_dim x') as [d'|]; cbn [bind] in H'; [|discriminate H'].
  destruct (d =? LayerNorm.normalized_shape ln) eqn:Ed; [|discriminate H].
  destruct (d' =? LayerNorm.normalized_shape ln) eqn:Ed'; [|discriminate H'].
  apply Nat.eqb_eq in Ed, Ed'. subst d'. rewrite Ed in *.
  injection H as <-. injection H' as <-. cbn [data]. cbv zeta.
  rewrite !removelast_last, !last_last.
  rewrite (@sum_n_ext _ (fun i0 => data x (pre ++ [i0]))
             (fun i0 => data x' (pre ++ [i0]))) by (intros; apply Hrow).
  set (mean := (sum_n _ (fun i0 => data x' (pre ++ [i0])) / _)%R).
  rewrite (@sum_n_ext _
             (fun i0 => ((data x (pre ++ [i0]) - mean)
                         * (data x (pre ++ [i0]) - mean))%R)
             (fun i0 => ((data x' (pre ++ [i0]) - mean)
                         * (data x' (pre ++ [i0]) - mean))%R))
    by (intros; now rewrite Hrow).
  now rewrite Hrow.
Qed.

Lemma linear_row (lin : Linear.t) (x x' y y' : FloatTensor) (pre : list nat) :
  Linear.forward lin x = Ok y -> Linear.forward lin x' = Ok y' ->
  (forall i, data x (pre ++ [i]) = data x' (pre ++ [i])) ->
  forall j, data y (pre ++ [j]) = data y' (pre ++ [j]).
Proof.
  unfold Linear.forward. intros H H' Hrow j.
  destruct (last_dim x) as [d|]; cbn [bind] in H; [|discriminate H].
  destruct (last_dim x') as [d'|]; cbn [bind] in H'; [|discriminate H'].
  destruct (d =? Linear.in_features lin); [|discriminate H].
  destruct (d' =? Linear.in_features lin); [|discriminate H'].
  injection H as <-. injection H' as <-. cbn [data]. cbv zeta.
  rewrite !removelast_last, !last_last.
  f_equal. apply sum_n_ext. intros i _. now rewrite Hrow.
Qed.

Lemma dropout_row (d : Dropout.t) (m : list nat -> bool) (x x' : FloatTensor)
    (idx : list nat) :
  data x idx = data x' idx ->
  data (Dropout.forward d m x) idx = data (Dropout.forward d m x') idx.
Proof.
  intros H. unfold Dropout.forward. destruct (Dropout.training d); cbn [data].
  - now rewrite H.
  - exact H.
Qed.

(** X8.  The feed-forward sublayer works on every token by itself, in
    training as in evaluation mode: when two inputs on which
    [PreNorm.forward] returns agree on the features of one token, the
    two results agree on that token, whatever the other tokens hold. *)
Theorem feed_forward_is_position_wise (gelu : R -> R) (self : PreNorm.t)
    (rng : FeedForward.draws) (x x' y y' : FloatTensor) (token : list nat) :
  PreNorm.forward gelu self rng x = Ok y ->
  PreNorm.forward gelu self rng x' = Ok y' ->
  (forall i, data x (token ++ [i]) = data x' (token ++ [i])) ->
  forall j, data y (token ++ [j]) = data y' (token ++ [j]).
Proof.
  unfold PreNorm.forward, FeedForward.forward. intros H H' Hrow.
  destruct (LayerNorm.forward (PreNorm.norm self) x) as [n|] eqn:En;
    cbn [bind] in H; [|discriminate H].
  destruct (LayerNorm.forward (PreNorm.norm self) x') as [n'|] eqn:En';
    cbn [bind] in H'; [|discriminate H'].
  destruct (Linear.forward (FeedForward.net_0 (PreNorm.fn self)) n) as [h|] eqn:Eh;
    cbn [bind] in H; [|discriminate H].
  destruct (Linear.forward (FeedForward.net_0 (PreNorm.fn self)) n') as [h'|] eqn:Eh';
    cbn [bind] in H'; [|discriminate H'].
  cbv zeta in H, H'.
  destruct (Linear.forward (FeedForward.net_3 (PreNorm.fn self)) _) as [o|] eqn:Eo
    in H; cbn [bind] in H; [|discriminate H].
  destruct (Linear.forward (FeedForward.net_3 (PreNorm.fn self)) _) as [o'|] eqn:Eo'
    in H'; cbn [bind] in H'; [|discriminate H'].
  injection H as <-. injection H' as <-. intros j.
  apply dropout_row.
  eapply linear_row; [exact Eo|exact Eo'|]. intros i.
  apply dropout_row. unfold tmap. cbn [data]. f_equal.
  eapply linear_row; [exact Eh|exact Eh'|].
  eapply layer_norm_row; [exact En|exact En'|]. exact Hrow.
Qed.

Lemma feed_forward_is_position_wise_witness :
  exists ff y y',
    FeedForward.init 1 1 0%Q false (fun _ _ => 1%R) = Ok ff /\
    PreNorm.forward (fun v => v) (PreNorm.init 1 ff (fun _ _ => 1%R))
      (FeedForward.mk_draws (fun _ => true) (fun _ => true)) (zeros [1; 2; 1])
    = Ok y /\
    PreNorm.forward (fun v => v) (PreNorm.init 1 ff (fun _ _ => 1%R))
      (FeedForward.mk_draws (fun _ => true) (fun _ => true)) zero_one
    = Ok y' /\
    forall j, data y ([0; 0] ++ [j]) = data y' ([0; 0] ++ [j]).
Proof.
  assert (Hff : exists ff, FeedForward.init 1 1 0%Q false (fun _ _ => 1%R) = Ok ff)
    by (eexists; reflexivity).
  destruct Hff as [ff Hff].
  assert (Hy : exists y,
            PreNorm.forward (fun v => v) (PreNorm.init 1 ff (fun _ _ => 1%R))
              (FeedForward.mk_draws (fun _ => true) (fun _ => true))
              (zeros [1; 2; 1]) = Ok y).
  { injection Hff as <-. eexists. reflexivity. }
  destruct Hy as [y Hy].
  assert (Hy' : exists y',
            PreNorm.forward (fun v => v) (PreNorm.init 1 ff (fun _ _ => 1%R))
              (FeedForward.mk_draws (fun _ => true) (fun _ => true))
              zero_one = Ok y').
  { injection Hff as <-. eexists. reflexivity. }
  destruct Hy' as [y' Hy'].
  exists ff, y, y'. split; [exact Hff|]. split; [exact Hy|]. split; [exact Hy'|].
  apply (@feed_forward_is_position_wise (fun v => v)
           (PreNorm.init 1 ff (fun _ _ => 1%R))
           (FeedForward.mk_draws (fun _ => true) (fun _ => true))
           (zeros [1; 2; 1]) zero_one y y' [0; 0] Hy Hy').
  intros i. reflexivity.
Defined.

(** ** Relative positions *)

(** X9.  The relative-position embedding of a query position and a key
    position depends on their clipped distance alone: [forward] gives
    two pairs of positions with the same value of
    [clamp(k - q, -max_relative_position, max_relative_position)] the
    same embedding vector.  So the embeddings are invariant under a
    common shift of both positions, and all pairs further apart than the
    window, on one side, share one vector. *)
Theorem relative_embedding_depends_on_distance (nu mrp L : nat)
    (xavier : list nat -> R) (self : RelativePosition.t)
    (length_q length_k : nat) (e : FloatTensor) :
  RelativePosition.init nu mrp L xavier = Ok self ->
  RelativePosition.forward self (Z.of_nat length_q) (Z.of_nat length_k) = Ok e ->
  forall q k q' k' d,
    q < Nat.min length_q L -> k < Nat.min length_k L ->
    q' < Nat.min length_q L -> k' < Nat.min length_k L ->
    clamp_Z (- Z.of_nat mrp) (Z.of_nat mrp) (Z.of_nat k - Z.of_nat q) =
    clamp_Z (- Z.of_nat mrp) (Z.of_nat mrp) (Z.of_nat k' - Z.of_nat q') ->
    data e [q; k; d] = data e [q'; k'; d].
Proof.
  intros Hinit Hfw q k q' k' d Hq Hk Hq' Hk' Hc.
  destruct (@forward_spec nu mrp L xavier self (Z.of_nat length_q)
              (Z.of_nat length_k) Hinit) as (e' & E & _ & Hd).
  rewrite E in Hfw. injection Hfw as <-.
  assert (Hsq : slice_stop (Z.of_nat length_q) L = Nat.min length_q L).
  { unfold slice_stop. destruct (Z.of_nat length_q <? 0)%Z eqn:Hn.
    - apply Z.ltb_lt in Hn. lia.
    - now rewrite Nat2Z.id. }
  assert (Hsk : slice_stop (Z.of_nat length_k) L = Nat.min length_k L).
  { unfold slice_stop. destruct (Z.of_nat length_k <? 0)%Z eqn:Hn.
    - apply Z.ltb_lt in Hn. lia.
    - now rewrite Nat2Z.id. }
  rewrite Hsq, Hsk in Hd.
  rewrite (Hd q k d Hq Hk), (Hd q' k' d Hq' Hk').
  unfold rel_index. now rewrite Hc.
Qed.

Lemma relative_embedding_depends_on_distance_witness :
  exists self e,
    RelativePosition.init 1 1 4 (fun idx => INR (hd 0 idx)) = Ok self /\
    RelativePosition.forward self 4%Z 4%Z = Ok e /\
    data e [0; 1; 0] = data e [2; 3; 0] /\
    data e [0; 2; 0] = data e [0; 3; 0].
Proof.
  assert (Hs : exists self,
            RelativePosition.init 1 1 4 (fun idx => INR (hd 0 idx)) = Ok self)
    by (eexists; reflexivity).
  destruct Hs as [self Hs].
  assert (He : exists e, RelativePosition.forward self 4%Z 4%Z = Ok e).
  { injection Hs as <-. eexists. reflexivity. }
  destruct He as [e He].
  exists self, e. split; [exact Hs|]. split; [exact He|].
  split.
  - apply (@relative_embedding_depends_on_distance 1 1 4
             (fun idx => INR (hd 0 idx)) self 4 4 e Hs He 0 1 2 3 0);
      cbn; lia.
  - apply (@relative_embedding_depends_on_distance 1 1 4
             (fun idx => INR (hd 0 idx)) self 4 4 e Hs He 0 2 0 3 0);
      cbn; lia.
Defined.

(** ** The positional encoding *)

(** The buffer [pe] that [__init__] fills: sines in the even columns,
    cosines in the odd ones. *)
Lemma positional_encoding_values (d : nat) (p : Q) (max_len : nat) (tr : bool)
    (pe : PositionalEncoding.t) :
  PositionalEncoding.init d p max_len tr = Ok pe ->
  forall pos i, pos < max_len ->
    (2 * i < d ->
     data (PositionalEncoding.pe pe) [0; pos; 2 * i] =
     sin (IZR (Z.of_nat pos)
          * exp (IZR (2 * Z.of_nat i) * (- ln 10000 / INR d)))) /\
    (2 * i + 1 < d ->
     data (PositionalEncoding.pe pe) [0; pos; 2 * i + 1] =
     cos (IZR (Z.of_nat pos)
          * exp (IZR (2 * Z.of_nat i) * (- ln 10000 / INR d)))).
Proof.
  unfold PositionalEncoding.init, Dropout.init.
  destruct (Qle_bool 0 p && Qle_bool p 1) eqn:Ep; cbn [bind andb]; [|discriminate].
  destruct (d =? 0) eqn:Ed; cbn [negb andb]; [discriminate|].
  apply Nat.eqb_neq in Ed.
  unfold broadcast2, broadcast_shapes. cbn [shape to_float unsqueeze_last arange
    tmap arange_step2 app rev bshape_rev bind fmap].
  rewrite bdim_1_l. cbn [bind fmap rev app].
  unfold assign_0_all_step2. cbn [shape zeros tmap Nat.eqb negb].
  unfold expandable. cbn [rev app expandable_rev].
  rewrite !Nat.eqb_refl. cbn [orb andb bind shape Nat.eqb negb].
  replace (d - Nat.min 0 d + 1) with (d + 1) by lia.
  rewrite !Nat.eqb_refl. cbn [orb andb bind shape Nat.eqb negb].
  rewrite (half_columns Ed).
  destruct (Nat.even d || (d =? 1)) eqn:Ev;
    rewrite ?Nat.eqb_refl; cbn [orb andb bind shape Nat.eqb negb];
    [|discriminate].
  intros H. injection H as <-. 
  intros pos i Hpos. cbn [PositionalEncoding.pe]. cbv beta iota delta [data].
  repeat match goal with
         | |- context [fst (Nat.divmod ?n 1 0 1)] =>
             change (fst (Nat.divmod n 1 0 1)) with (n / 2)
         end.
  repeat match goal with
         | |- context [match Z.of_nat ?n with
                       | 0%Z => 0%Z
                       | Z.pos a => Z.pos a~0
                       | Z.neg b => Z.neg b~0
                       end] =>
             change (match Z.of_nat n with
                     | 0%Z => 0%Z
                     | Z.pos a0 => Z.pos a0~0
                     | Z.neg b0 => Z.neg b0~0
                     end) with (2 * Z.of_nat n)%Z
         end.
  repeat match goal with
         | |- context [match ?n with 0 => false | S _ => true end] =>
             change (match n with 0 => false | S _ => true end) with (1 <=? n)
         end.
  assert (Hp : (if max_len =? 1 then 0 else if max_len =? 1 then 0 else pos) = pos).
  { destruct (max_len =? 1) eqn:E; [apply Nat.eqb_eq in E; lia|reflexivity]. }
  rewrite Hp.
  assert (Hcol : forall c, 2 * c < d ->
            (if (d + 1) / 2 =? 1 then 0
             else if (d + 1) / 2 =? 1 then 0 else c) = c).
  { intros c Hc. destruct ((d + 1) / 2 =? 1) eqn:E; [|reflexivity].
    apply Nat.eqb_eq in E.
    pose proof (Nat.div_mod_eq (d + 1) 2).
    pose proof (Nat.mod_upper_bound (d + 1) 2). lia. }
  assert (Hodd : forall n, Nat.even (2 * n + 1) = false).
  { intros n. apply Bool.not_true_is_false. intros He.
    apply Nat.even_spec in He. destruct He as [m Hm]. lia. }
  assert (Heven : forall n, Nat.even (2 * n) = true).
  { intros n. apply Nat.even_spec. now exists n. }
  split; intros Hi.
  - assert (E1 : (1 <=? 2 * i) && Nat.even (2 * i - 1) = false).
    { destruct i as [|i]; [reflexivity|].
      replace (2 * S i - 1) with (2 * i + 1) by lia.
      rewrite Hodd. apply andb_false_r. }
    rewrite E1. replace (2 * i - 0) with (2 * i) by lia. rewrite Heven.
    replace (2 * i / 2) with i by (apply Nat.div_unique with 0; lia).
    rewrite Hcol by lia. reflexivity.
  - assert (E1 : (1 <=? 2 * i + 1) && Nat.even (2 * i + 1 - 1) = true).
    { replace (2 * i + 1 - 1) with (2 * i) by lia. rewrite Heven.
      replace (1 <=? 2 * i + 1) with true by (symmetry; apply Nat.leb_le; lia).
      reflexivity. }
    rewrite E1. replace (2 * i + 1 - 1) with (2 * i) by lia.
    replace (2 * i / 2) with i by (apply Nat.div_unique with 0; lia).
    rewrite Hcol by lia. reflexivity.
Qed.


Lemma sinusoid_angle_eq (d pos i : nat) :
  d <> 0 ->
  (IZR (Z.of_nat pos) * exp (IZR (2 * Z.of_nat i) * (- ln 10000 / INR d)))%R
  = sinusoid_angle d pos i.
Proof.
  intros Hd. unfold sinusoid_angle, Rpower.
  assert (Hd0 : INR d <> 0%R) by (apply not_0_INR; exact Hd).
  rewrite <- INR_IZR_INZ.
  replace (2 * Z.of_nat i)%Z with (Z.of_nat (2 * i)) by lia.
  rewrite <- INR_IZR_INZ.
  replace (INR (2 * i) * (- ln 10000 / INR d))%R
    with (- (INR (2 * i) / INR d * ln 10000))%R by (field; exact Hd0).
  rewrite exp_Ropp. reflexivity.
Qed.

(** X10.  [PositionalEncoding] is the sinusoidal encoding: [forward]
    takes no input and returns a [(1, max_len, d_model)] tensor whose
    entry at position [pos] is [sin(pos / 10000^(2i/d_model))] in column
    [2i] and the cosine of the same angle in column [2i+1], passed
    through the dropout of the module (the identity in evaluation
    mode). *)
Theorem positional_encoding_is_sinusoidal (d : nat) (p : Q) (max_len : nat)
    (tr : bool) (pe : PositionalEncoding.t) (mask : list nat -> bool) :
  PositionalEncoding.init d p max_len tr = Ok pe ->
  exists out,
    PositionalEncoding.forward pe mask = Ok out /\
    shape out = [1; max_len; d] /\
    Dropout.training (PositionalEncoding.dropout pe) = tr /\
    forall pos i, pos < max_len ->
      (2 * i < d ->
       data out [0; pos; 2 * i] =
       dropout_at (PositionalEncoding.dropout pe) (mask [pos; 2 * i])
         (sin (sinusoid_angle d pos i))) /\
      (2 * i + 1 < d ->
       data out [0; pos; 2 * i + 1] =
       dropout_at (PositionalEncoding.dropout pe) (mask [pos; 2 * i + 1])
         (cos (sinusoid_angle d pos i))).
Proof.
  intros Hinit.
  assert (Hd : d <> 0).
  { intros ->. unfold PositionalEncoding.init, Dropout.init in Hinit.
    destruct (Qle_bool 0 p && Qle_bool p 1); discriminate Hinit. }
  pose proof (@positional_encoding_values d p max_len tr pe Hinit) as Hval.
  destruct (positional_encoding_init d p max_len tr)
    as [(pe' & Epe & Hs & Hm & Htr)|[[x Ex] _]];
    [|rewrite Hinit in Ex; discriminate Ex].
  rewrite Hinit in Epe. injection Epe as <-.
  unfold PositionalEncoding.forward. rewrite Hs, Hm. cbn [Nat.eqb negb].
  eexists. split; [reflexivity|]. split.
  { cbn [shape unsqueeze_first]. rewrite dropout_forward_shape. cbn [shape].
    rewrite slice_stop_in_range, Nat2Z.id by lia. reflexivity. }
  split; [exact Htr|].
  intros pos i Hpos. destruct (Hval pos i Hpos) as [Hsin Hcos].
  cbn [data unsqueeze_first tl]. rewrite !dropout_forward_data. cbn [data].
  split; intros Hi.
  - rewrite (Hsin Hi), sinusoid_angle_eq by exact Hd. reflexivity.
  - rewrite (Hcos Hi), sinusoid_angle_eq by exact Hd. reflexivity.
Qed.

Lemma positional_encoding_is_sinusoidal_witness :
  exists pe out,
    PositionalEncoding.init 4 (1 # 10)%Q 3 false = Ok pe /\
    PositionalEncoding.forward pe (fun _ => true) = Ok out /\
    shape out = [1; 3; 4] /\
    data out [0; 2; 2 * 1] = sin (sinusoid_angle 4 2 1) /\
    data out [0; 2; 2 * 1 + 1] = cos (sinusoid_angle 4 2 1).
Proof.
  assert (Hpe : exists pe, PositionalEncoding.init 4 (1 # 10)%Q 3 false = Ok pe)
    by (eexists; reflexivity).
  destruct Hpe as [pe Hpe].
  destruct (@positional_encoding_is_sinusoidal 4 (1 # 10)%Q 3 false pe
              (fun _ => true) Hpe) as (out & E & Hs & Htr & Hd).
  exists pe, out. split; [exact Hpe|]. split; [exact E|]. split; [exact Hs|].
  destruct (Hd 2 1 ltac:(lia)) as [Hsin Hcos].
  unfold dropout_at in Hsin, Hcos. rewrite Htr in Hsin, Hcos.
  split; [apply Hsin; lia|apply Hcos; lia].
Defined.

(** ** What [DocFormerEmbeddings.forward] asks of its input *)

Lemma bdim_neq (a b : nat) :
  a <> b -> a <> 1 -> b <> 1 -> bdim a b = Raise RuntimeError.
Proof.
  intros H1 H2 H3. unfold bdim.
  rewrite (proj2 (Nat.eqb_neq _ _) H1), (proj2 (Nat.eqb_neq _ _) H2),
    (proj2 (Nat.eqb_neq _ _) H3).
  reflexivity.
Qed.

Lemma assign_last_slice_shape (x v y : FloatTensor) (start stop : nat) :
  assign_last_slice x start stop v = Ok y -> shape y = shape x.
Proof.
  unfold assign_last_slice. destruct (last_dim x); cbn [bind]; [|discriminate].
  destruct (expandable _ _); [|discriminate].
  intros H. injection H as <-. reflexivity.
Qed.

(** The loop over the features keeps the shapes of the two tensors it
    assigns into. *)
Lemma fill_shape (xs ys : list Embedding.t) (x_feature y_feature : LongTensor)
    (sub : nat) :
  forall range x_calc y_calc x_calc' y_calc',
    DocFormerEmbeddings.fill xs ys x_feature y_feature sub range x_calc y_calc
      = Ok (x_calc', y_calc') ->
    shape x_calc' = shape x_calc /\ shape y_calc' = shape y_calc.
Proof.
  induction range as [|i range IH]; intros xc yc xc' yc' H.
  - cbn in H. injection H as <- <-. split; reflexivity.
  - cbn [DocFormerEmbeddings.fill] in H.
    destruct (select_last x_feature i) as [tx|]; cbn [bind] in H; [|discriminate H].
    destruct (match nth_error xs i with
              | Some e => Embedding.forward e tx
              | None => Raise IndexError
              end) as [ex|]; cbn [bind] in H; [|discriminate H].
    destruct (assign_last_slice xc (i * sub) ((i + 1) * sub) ex) as [xc1|] eqn:E1;
      cbn [bind] in H; [|discriminate H].
    destruct (select_last y_feature i) as [ty|]; cbn [bind] in H; [|discriminate H].
    destruct (match nth_error ys i with
              | Some e => Embedding.forward e ty
              | None => Raise IndexError
              end) as [ey|]; cbn [bind] in H; [|discriminate H].
    destruct (assign_last_slice yc (i * sub) ((i + 1) * sub) ey) as [yc1|] eqn:E2;
      cbn [bind] in H; [|discriminate H].
    destruct (IH _ _ _ _ H) as [Hx Hy].
    rewrite Hx, Hy, (assign_last_slice_shape _ _ _ _ E1),
      (assign_last_slice_shape _ _ _ _ E2).
    split; reflexivity.
Qed.

(** The loop raises when it raises at one of its features, whatever the
    tensors hold when it gets there. *)
Lemma fill_raises (xs ys : list Embedding.t) (x_feature y_feature : LongTensor)
    (sub i : nat) :
  (forall range x_calc y_calc,
     exists e,
       DocFormerEmbeddings.fill xs ys x_feature y_feature sub (i :: range)
         x_calc y_calc = Raise e) ->
  forall range x_calc y_calc,
    In i range ->
    exists e,
      DocFormerEmbeddings.fill xs ys x_feature y_feature sub range x_calc y_calc
      = Raise e.
Proof.
  intros Hi. induction range as [|j range IH]; intros xc yc Hin; [contradiction|].
  destruct (Nat.eq_dec j i) as [->|Hne]; [apply Hi|].
  assert (Hin' : In i range) by (destruct Hin; [contradiction|assumption]).
  cbn [DocFormerEmbeddings.fill].
  destruct (select_last x_feature j) as [tx|x]; cbn [bind]; [|now exists x].
  destruct (match nth_error xs j with
            | Some e => Embedding.forward e tx
            | None => Raise IndexError
            end) as [ex|x]; cbn [bind]; [|now exists x].
  destruct (assign_last_slice xc (j * sub) ((j + 1) * sub) ex) as [xc1|x];
    cbn [bind]; [|now exists x].
  destruct (select_last y_feature j) as [ty|x]; cbn [bind]; [|now exists x].
  destruct (match nth_error ys j with
            | Some e => Embedding.forward e ty
            | None => Raise IndexError
            end) as [ey|x]; cbn [bind]; [|now exists x].
  destruct (assign_last_slice yc (j * sub) ((j + 1) * sub) ey) as [yc1|x];
    cbn [bind]; [|now exists x].
  apply IH, Hin'.
Qed.

(** [forward] raises when its first loop does. *)
Lemma embeddings_forward_raises (emb : DocFormerEmbeddings.t)
    (rng : DocFormerEmbeddings.draws) (x_feature y_feature : LongTensor)
    (B T F : nat) :
  shape x_feature = [B; T; F] ->
  (forall x_calc y_calc,
     exists e,
       DocFormerEmbeddings.fill (DocFormerEmbeddings.x_embedding_v emb)
         (DocFormerEmbeddings.y_embedding_v emb) x_feature y_feature
         (hidden_size (DocFormerEmbeddings.cfg emb) / F) (seq 0 F) x_calc y_calc
       = Raise e) ->
  exists e, DocFormerEmbeddings.forward emb rng x_feature y_feature = Raise e.
Proof.
  intros Hx Hfill. unfold DocFormerEmbeddings.forward. rewrite Hx.
  destruct (F =? 0); cbn [negb]; [now eexists|].
  cbv zeta.
  destruct (Hfill (zeros [B; T; hidden_size (DocFormerEmbeddings.cfg emb)])
                  (zeros [B; T; hidden_size (DocFormerEmbeddings.cfg emb)]))
    as [e He].
  rewrite He. cbn [bind]. now exists e.
Qed.

Lemma embedding_forward_out_of_range (e : Embedding.t) (input : LongTensor)
    (idx : list nat) :
  in_shape (shape input) idx ->
  ~ (0 <= data input idx < Z.of_nat (Embedding.num_embeddings e))%Z ->
  Embedding.forward e input = Raise IndexError.
Proof.
  intros Hin Hout. unfold Embedding.forward.
  match goal with |- context [forallb ?f ?l] =>
    destruct (forallb f l) eqn:Hall end; [|reflexivity].
  exfalso. apply Hout.
  rewrite forallb_forall in Hall.
  specialize (Hall idx (indices_complete _ _ Hin)).
  apply andb_true_iff in Hall. destruct Hall as [H1 H2].
  apply Z.leb_le in H1. apply Z.ltb_lt in H2. lia.
Qed.

Lemma eight_length (c : config) (iv : init_values) (names : list string)
    (es : list Embedding.t) :
  length names = 8 ->
  DocFormerEmbeddings.eight c iv names = Ok es -> length es = 8.
Proof.
  intros Hn He.
  destruct (eight_spec c iv names) as (es' & E & ->).
  rewrite E in He. injection He as <-.
  rewrite length_map, length_combine, Hn. reflexivity.
Qed.

(** X11.  The sequence length of the geometric features must be
    [max_position_embeddings]: for any other length [forward] raises,
    because the positional encoding, which always has
    [max_position_embeddings] positions, cannot be added (lengths of 1
    apart, which broadcast). *)
Theorem embeddings_forward_wrong_length (c : config) (tr : bool)
    (iv : init_values) (emb : DocFormerEmbeddings.t)
    (rng : DocFormerEmbeddings.draws) (x_feature y_feature : LongTensor)
    (B T F : nat) :
  DocFormerEmbeddings.init c tr iv = Ok emb ->
  shape x_feature = [B; T; F] ->
  T <> max_position_embeddings c -> T <> 1 -> max_position_embeddings c <> 1 ->
  exists e, DocFormerEmbeddings.forward emb rng x_feature y_feature = Raise e.
Proof.
  intros Hinit Hx HT HT1 HL1.
  destruct (embeddings_init_inv _ _ _ Hinit)
    as (Hcfg & (pv & Epv & Hpv) & _).
  unfold DocFormerEmbeddings.forward. rewrite Hx, Hcfg.
  destruct (F =? 0); cbn [negb]; [now eexists|]. cbv zeta.
  destruct (DocFormerEmbeddings.fill _ _ _ _ _ _ _ _) as [[xc yc]|e] eqn:Efill;
    cbn [bind]; [|now exists e].
  destruct (fill_shape _ _ _ _ _ _ _ _ Efill) as [Hsx Hsy].
  cbn [shape zeros] in Hsx, Hsy. cbn [fst snd].
  destruct (@broadcast2_same Rplus xc yc [B; T; hidden_size c] Hsx Hsy)
    as (s & Es & Hss & _).
  rewrite Es. cbn [bind].
  rewrite Hpv.
  destruct (@positional_encoding_forward (hidden_size c) (1 # 10)
              (max_position_embeddings c) tr pv (DocFormerEmbeddings.mask_v rng) Epv)
    as (pos & Epos & Hsp).
  rewrite Epos. cbn [bind].
  unfold broadcast2, broadcast_shapes. rewrite Hss, Hsp.
  cbn [rev app bshape_rev]. rewrite bdim_refl. cbn [bind].
  rewrite (@bdim_neq T (max_position_embeddings c)) by assumption.
  cbn. now eexists.
Qed.

Lemma embeddings_forward_wrong_length_witness :
  exists emb e,
    DocFormerEmbeddings.init config_12 false (fun _ _ => 0%R) = Ok emb /\
    DocFormerEmbeddings.forward emb embeddings_keep_all
      (zero_features [1; 3; 8]) (zero_features [1; 3; 8]) = Raise e.
Proof.
  destruct (DocFormerEmbeddings.init config_12 false (fun _ _ => 0%R))
    as [emb|x] eqn:Hinit.
  2:{ pose proof (embeddings_init_ok config_12 false (fun _ _ => 0%R)) as H.
      rewrite Hinit in H. discriminate H. }
  destruct (@embeddings_forward_wrong_length config_12 false (fun _ _ => 0%R) emb
              embeddings_keep_all (zero_features [1; 3; 8])
              (zero_features [1; 3; 8]) 1 3 8 Hinit eq_refl
              ltac:(discriminate) ltac:(discriminate) ltac:(discriminate))
    as [e He].
  exists emb, e. split; [reflexivity|exact He].
Defined.

(** One feature of the loop raises when the list of tables has no table
    for it, or when a bucket of that feature is no row of its table. *)
Lemma fill_feature_raises (c : config) (iv : init_values) (xn yn : list string)
    (xs ys : list Embedding.t) (x_feature y_feature : LongTensor)
    (B T F sub i : nat) :
  length xn = 8 -> length yn = 8 ->
  DocFormerEmbeddings.eight c iv xn = Ok xs ->
  DocFormerEmbeddings.eight c iv yn = Ok ys ->
  shape x_feature = [B; T; F] ->
  (8 <= i \/
   exists b t, b < B /\ t < T /\ i < F /\
     (~ (0 <= data x_feature [b; t; i]
           < Z.of_nat (max_2d_position_embeddings c))%Z \/
      shape y_feature = [B; T; F] /\
      ~ (0 <= data y_feature [b; t; i]
           < Z.of_nat (max_2d_position_embeddings c))%Z)) ->
  forall range x_calc y_calc,
    exists e,
      DocFormerEmbeddings.fill xs ys x_feature y_feature sub (i :: range)
        x_calc y_calc = Raise e.
Proof.
  intros Hxn Hyn Exs Eys Hx Hcase range xc yc.
  pose proof (eight_length _ _ _ Hxn Exs) as Hlx.
  pose proof (eight_length _ _ _ Hyn Eys) as Hly.
  cbn [DocFormerEmbeddings.fill].
  destruct (select_last x_feature i) as [tx|x] eqn:Etx; cbn [bind]; [|now exists x].
  destruct Hcase as [Hi|(b & t & Hb & Ht & Hi & Hcase)].
  - assert (Hnone : nth_error xs i = None) by (apply nth_error_None; lia).
    rewrite Hnone. cbn [bind]. now eexists.
  - unfold select_last in Etx. rewrite Hx in Etx.
    rewrite (proj2 (Nat.ltb_lt _ _) Hi) in Etx. injection Etx as <-.
    destruct (le_lt_dec 8 i) as [Hi8|Hi8].
    { assert (Hnone : nth_error xs i = None) by (apply nth_error_None; lia).
      rewrite Hnone. cbn [bind]. now eexists. }
    destruct (@eight_nth c iv xn xs i Hxn Exs Hi8) as (ex & Enx & Hnum & _).
    rewrite Enx.
    destruct Hcase as [Hbad|[Hy Hbad]].
    + rewrite (@embedding_forward_out_of_range ex _ [b; t]).
      * cbn [bind]. now eexists.
      * cbn. lia.
      * cbn [data app]. now rewrite Hnum.
    + destruct (Embedding.forward ex _) as [vx|x]; cbn [bind]; [|now exists x].
      destruct (assign_last_slice xc _ _ vx) as [xc1|x]; cbn [bind];
        [|now exists x].
      unfold select_last. rewrite Hy. rewrite (proj2 (Nat.ltb_lt _ _) Hi).
      cbn [bind].
      destruct (@eight_nth c iv yn ys i Hyn Eys Hi8) as (ey & Eny & Hnumy & _).
      rewrite Eny.
      rewrite (@embedding_forward_out_of_range ey _ [b; t]).
      * cbn [bind]. now eexists.
      * cbn. lia.
      * cbn [data app]. now rewrite Hnumy.
Qed.

(** X12.  [forward] raises when the geometric features have more than
    eight columns, for which no embedding table exists, and when one of
    the buckets it reads is negative or not below
    [max_2d_position_embeddings]. *)
Theorem embeddings_forward_out_of_bounds (c : config) (tr : bool)
    (iv : init_values) (emb : DocFormerEmbeddings.t)
    (rng : DocFormerEmbeddings.draws) (x_feature y_feature : LongTensor)
    (B T F : nat) :
  DocFormerEmbeddings.init c tr iv = Ok emb ->
  shape x_feature = [B; T; F] ->
  (8 < F \/
   exists b t i, b < B /\ t < T /\ i < F /\
     (~ (0 <= data x_feature [b; t; i]
           < Z.of_nat (max_2d_position_embeddings c))%Z \/
      shape y_feature = [B; T; F] /\
      ~ (0 <= data y_feature [b; t; i]
           < Z.of_nat (max_2d_position_embeddings c))%Z)) ->
  exists e, DocFormerEmbeddings.forward emb rng x_feature y_feature = Raise e.
Proof.
  intros Hinit Hx Hcase.
  destruct (embeddings_init_inv _ _ _ Hinit)
    as (Hcfg & _ & _ & Exv & Eyv & _).
  apply (@embeddings_forward_raises emb rng x_feature y_feature B T F Hx).
  intros xc yc.
  assert (Hn : forall sfx, length (DocFormerEmbeddings.x_names sfx) = 8 /\
                           length (DocFormerEmbeddings.y_names sfx) = 8).
  { intros sfx. unfold DocFormerEmbeddings.x_names, DocFormerEmbeddings.y_names.
    rewrite !length_map. split; reflexivity. }
  destruct (Hn "_v"%string) as [Hxn Hyn].
  destruct Hcase as [HF|(b & t & i & Hb & Ht & Hi & Hbad)].
  - apply (@fill_raises _ _ _ _ _ 8).
    + apply (@fill_feature_raises c iv _ _ _ _ x_feature y_feature B T F _ 8
               Hxn Hyn Exv Eyv Hx).
      left. apply le_n.
    + apply in_seq. lia.
  - apply (@fill_raises _ _ _ _ _ i).
    + apply (@fill_feature_raises c iv _ _ _ _ x_feature y_feature B T F _ i
               Hxn Hyn Exv Eyv Hx).
      right. exists b, t. auto.
    + apply in_seq. lia.
Qed.

Lemma embeddings_forward_out_of_bounds_witness :
  exists emb e1 e2,
    DocFormerEmbeddings.init config_12 false (fun _ _ => 0%R) = Ok emb /\
    DocFormerEmbeddings.forward emb embeddings_keep_all
      (zero_features [1; 2; 9]) (zero_features [1; 2; 9]) = Raise e1 /\
    DocFormerEmbeddings.forward emb embeddings_keep_all
      (mkTensor [1; 2; 8] (fun _ => 1%Z)) (zero_features [1; 2; 8]) = Raise e2.
Proof.
  destruct (DocFormerEmbeddings.init config_12 false (fun _ _ => 0%R))
    as [emb|x] eqn:Hinit.
  2:{ pose proof (embeddings_init_ok config_12 false (fun _ _ => 0%R)) as H.
      rewrite Hinit in H. discriminate H. }
  destruct (@embeddings_forward_out_of_bounds config_12 false (fun _ _ => 0%R) emb
              embeddings_keep_all (zero_features [1; 2; 9])
              (zero_features [1; 2; 9]) 1 2 9 Hinit eq_refl
              (or_introl (le_n 9)))
    as [e1 He1].
  assert (Hbad : exists b t i, b < 1 /\ t < 2 /\ i < 8 /\
            (~ (0 <= data (mkTensor [1%nat; 2%nat; 8%nat] (fun _ => 1%Z)) [b; t; i]
                  < Z.of_nat (max_2d_position_embeddings config_12))%Z \/
             shape (zero_features [1; 2; 8]) = [1; 2; 8] /\
             ~ (0 <= data (zero_features [1%nat; 2%nat; 8%nat]) [b; t; i]
                  < Z.of_nat (max_2d_position_embeddings config_12))%Z)).
  { exists 0, 0, 0. repeat split; try lia. left. unfold config_12. cbn. lia. }
  destruct (@embeddings_forward_out_of_bounds config_12 false (fun _ _ => 0%R) emb
              embeddings_keep_all (mkTensor [1; 2; 8] (fun _ => 1%Z))
              (zero_features [1; 2; 8]) 1 2 8 Hinit eq_refl (or_intror Hbad))
    as [e2 He2].
  exists emb, e1, e2. split; [reflexivity|]. split; [exact He1|exact He2].
Defined.

(* ================================================================= *)
(** * The feature extractors *)

(** ** [LanguageFeatureExtractor] *)

Lemma embedding_forward_in_range (e : Embedding.t) (input : LongTensor) :
  (forall idx, in_shape (shape input) idx ->
     (0 <= data input idx < Z.of_nat (Embedding.num_embeddings e))%Z) ->
  Embedding.forward e input =
  Ok (mkTensor (shape input ++ [Embedding.embedding_dim e])
        (fun idx =>
           data (Embedding.weight e)
                [Z.to_nat (data input (removelast idx)); last idx 0])).
Proof.
  intros Hin. unfold Embedding.forward.
  match goal with |- context [forallb ?f ?l] =>
    assert (Hall : forallb f l = true) end.
  { apply forallb_forall. intros idx Hidx. apply in_indices in Hidx.
    specialize (Hin idx Hidx). apply andb_true_iff.
    split; [apply Z.leb_le|apply Z.ltb_lt]; lia. }
  rewrite Hall. reflexivity.
Qed.



(** ** [ResNetFeatureExtractor] *)


(** The two lemmas below are stated for any numbers of channels and
    positions; [ResNetFeatureExtractor.init] fixes them to 2048, 768, 49
    and 512. *)
Lemma resnet_forward_inv_gen (backbone : FloatTensor -> result FloatTensor)
    (cin cout pin pout : nat) (wc bc wl bl : list nat -> R) (x v : FloatTensor) :
  ResNetFeatureExtractor.forward
    (ResNetFeatureExtractor.mk backbone (Conv2d.init cin cout 1 1 wc bc)
       (Linear.init pin pout wl bl)) x = Ok v ->
  exists b, shape v = [b; pout; cout].
Proof.
  unfold ResNetFeatureExtractor.forward.
  cbn [ResNetFeatureExtractor.resnet50 ResNetFeatureExtractor.conv1
       ResNetFeatureExtractor.linear1].
  destruct (backbone x) as [f|]; cbn [bind]; [|discriminate].
  unfold Conv2d.forward, Conv2d.init.
  cbn [Conv2d.in_channels Conv2d.kernel_size Conv2d.out_channels].
  destruct (shape f) as [|d0 [|d1 [|d2 [|d3 [|d4 s]]]]]; try discriminate.
  - destruct (d0 =? cin); [|discriminate].
    destruct ((1 <=? d1) && (1 <=? d2)); [|discriminate].
    cbn [bind]. unfold rearrange_flatten_wh. cbn [tmap shape]. discriminate.
  - destruct (d1 =? cin); [|discriminate].
    destruct ((1 <=? d2) && (1 <=? d3)); [|discriminate].
    cbn [bind]. unfold rearrange_flatten_wh. cbn [tmap shape bind].
    unfold Linear.forward, Linear.init, last_dim.
    cbn [shape rev app bind Linear.in_features Linear.out_features].
    match goal with |- context [?m =? pin] => destruct (m =? pin) end;
      [|discriminate].
    cbn [removelast app]. unfold rearrange_swap_es. cbn [shape bind].
    intros H. injection H as <-. now exists d0.
Qed.

Lemma resnet_forward_spec_gen (backbone : FloatTensor -> result FloatTensor)
    (cin cout pin pout : nat) (wc bc wl bl : list nat -> R)
    (x f : FloatTensor) (b w h : nat) :
  backbone x = Ok f -> shape f = [b; cin; w; h] -> 1 <= pin ->
  (w * h = pin ->
   exists v,
     ResNetFeatureExtractor.forward
       (ResNetFeatureExtractor.mk backbone (Conv2d.init cin cout 1 1 wc bc)
          (Linear.init pin pout wl bl)) x = Ok v /\
     shape v = [b; pout; cout] /\
     forall b0 s e,
       data v [b0; s; e] =
       (sum_n pin (fun p =>
          relu (sum_n cin (fun c =>
                  data f [b0; c; (p / h)%nat; (p mod h)%nat]
                  * wc [e; c; 0%nat; 0%nat])
                + bc [e])
          * wl [s; p])
        + bl [s])%R) /\
  (w * h <> pin ->
   ResNetFeatureExtractor.forward
     (ResNetFeatureExtractor.mk backbone (Conv2d.init cin cout 1 1 wc bc)
        (Linear.init pin pout wl bl)) x = Raise RuntimeError).
Proof.
  intros Hb Hf Hpin.
  unfold ResNetFeatureExtractor.forward.
  cbn [ResNetFeatureExtractor.resnet50 ResNetFeatureExtractor.conv1
       ResNetFeatureExtractor.linear1].
  rewrite Hb. cbn [bind].
  unfold Conv2d.forward, Conv2d.init.
  cbn [Conv2d.in_channels Conv2d.kernel_size Conv2d.out_channels].
  rewrite Hf, Nat.eqb_refl.
  destruct ((1 <=? w) && (1 <=? h)) eqn:Ek.
  - apply andb_true_iff in Ek. destruct Ek as [Hw Hh].
    apply Nat.leb_le in Hw, Hh.
    cbn [bind]. unfold rearrange_flatten_wh. cbn [tmap shape bind].
    unfold Conv2d.out_size. cbn [Conv2d.kernel_size Conv2d.stride].
    rewrite !Nat.div_1_r.
    replace (w - 1 + 1) with w by lia. replace (h - 1 + 1) with h by lia.
    unfold Linear.forward, Linear.init, last_dim.
    cbn [shape rev app bind Linear.in_features Linear.out_features].
    split.
    + intros Hwh. rewrite (proj2 (Nat.eqb_eq _ _) Hwh).
      cbn [removelast app]. unfold rearrange_swap_es. cbn [shape bind].
      eexists. split; [reflexivity|]. split; [reflexivity|].
      intros b0 s e.
      cbn [data removelast last app Linear.weight Linear.bias tmap].
      f_equal. apply sum_n_ext. intros p _. f_equal. unfold relu. f_equal.
      unfold Conv2d.at_position.
      cbn [Conv2d.in_channels Conv2d.kernel_size Conv2d.stride Conv2d.weight
           Conv2d.bias data].
      f_equal. apply sum_n_ext. intros c _.
      change (sum_n 1) with (fun g : nat -> R => (0 + g 0%nat)%R). cbv beta.
      rewrite !Nat.mul_1_r, !Nat.add_0_r. ring.
    + intros Hwh. rewrite (proj2 (Nat.eqb_neq _ _) Hwh). reflexivity.
  - cbn [bind]. split; [|reflexivity].
    intros Hwh. apply andb_false_iff in Ek.
    destruct Ek as [E|E]; apply Nat.leb_gt in E; nia.
Qed.

(** X14.  The visual feature has a fixed size: whatever the backbone
    computes and whatever the configuration says, a call of
    [ResNetFeatureExtractor.forward] that returns gives a tensor of
    shape [(b, 512, 768)].  On a backbone feature map [(b, 2048, w, h)]
    it returns exactly when [w * h = 49], as for a 224 x 224 image:
    every one of the 512 positions is a linear combination of the 49
    positions of the rectified 1 x 1 convolution; for every other size
    it raises [RuntimeError]. *)
Theorem visual_feature_shape (backbone : FloatTensor -> result FloatTensor)
    (iv : init_values) (x : FloatTensor) :
  (forall v,
     ResNetFeatureExtractor.forward (ResNetFeatureExtractor.init backbone iv) x
       = Ok v ->
     exists b, shape v = [b; 512; 768]) /\
  (forall f b w h,
     backbone x = Ok f -> shape f = [b; 2048; w; h] ->
     (w * h = 49 ->
      exists v,
        ResNetFeatureExtractor.forward (ResNetFeatureExtractor.init backbone iv) x
          = Ok v /\
        shape v = [b; 512; 768] /\
        forall b0 s e,
          data v [b0; s; e] =
          (sum_n 49 (fun p =>
             relu (sum_n 2048 (fun c =>
                     data f [b0; c; (p / h)%nat; (p mod h)%nat]
                     * iv "conv1.weight"%string [e; c; 0%nat; 0%nat])
                   + iv "conv1.bias"%string [e])
             * iv "linear1.weight"%string [s; p])
           + iv "linear1.bias"%string [s])%R) /\
     (w * h <> 49 ->
      ResNetFeatureExtractor.forward (ResNetFeatureExtractor.init backbone iv) x
        = Raise RuntimeError)).
Proof.
  split.
  - intros v. apply resnet_forward_inv_gen.
  - intros f b w h Hb Hf.
    apply (@resnet_forward_spec_gen backbone 2048 768 49 512 _ _ _ _ x f b w h
             Hb Hf).
    apply Nat.lt_0_succ.
Qed.

Lemma visual_feature_shape_witness :
  (exists v,
     ResNetFeatureExtractor.forward
       (ResNetFeatureExtractor.init (fun _ => Ok (zeros [1; 2048; 7; 7]))
          (fun _ _ => 0%R)) (zeros [1; 3; 224; 224]) = Ok v /\
     shape v = [1; 512; 768]) /\
  ResNetFeatureExtractor.forward
    (ResNetFeatureExtractor.init (fun _ => Ok (zeros [1; 2048; 8; 8]))
       (fun _ _ => 0%R)) (zeros [1; 3; 256; 256]) = Raise RuntimeError.
Proof.
  split.
  - destruct (proj1 (proj2 (visual_feature_shape
                              (fun _ => Ok (zeros [1; 2048; 7; 7]))
                              (fun _ _ => 0%R) (zeros [1; 3; 224; 224]))
                        (zeros [1; 2048; 7; 7]) 1 7 7 eq_refl eq_refl) eq_refl)
      as (v & E & Hs & _).
    exists v. split; [exact E|exact Hs].
  - apply (proj2 (proj2 (visual_feature_shape
                           (fun _ => Ok (zeros [1; 2048; 8; 8]))
                           (fun _ _ => 0%R) (zeros [1; 3; 256; 256]))
                     (zeros [1; 2048; 8; 8]) 1 8 8 eq_refl eq_refl)).
    discriminate.
Defined.

(* ================================================================= *)
(** * The task models *)

(** ** What a call of the encoder that returns says about its input *)

Lemma last_dim_app {A} (x : Tensor A) (l : list nat) (d : nat) :
  shape x = l ++ [d] -> last_dim x = Ok d.
Proof. intros H. unfold last_dim. rewrite H, rev_app_distr. reflexivity. Qed.

Lemma last_dim_inv {A} (x : Tensor A) (d : nat) :
  last_dim x = Ok d -> shape x = removelast (shape x) ++ [d].
Proof.
  unfold last_dim. destruct (rev (shape x)) as [|a r] eqn:E; [discriminate|].
  intros H. injection H as ->.
  apply (f_equal (@rev nat)) in E. rewrite rev_involutive in E. cbn in E.
  rewrite E at 2. rewrite E, removelast_last. reflexivity.
Qed.

Lemma layer_norm_forward_inv (ln : LayerNorm.t) (x y : FloatTensor) :
  LayerNorm.forward ln x = Ok y ->
  last_dim x = Ok (LayerNorm.normalized_shape ln) /\ shape y = shape x.
Proof.
  unfold LayerNorm.forward. destruct (last_dim x) as [d|]; cbn [bind];
    [|discriminate].
  destruct (d =? LayerNorm.normalized_shape ln) eqn:E; [|discriminate].
  apply Nat.eqb_eq in E. subst d. intros H. injection H as <-. auto.
Qed.

Lemma linear_forward_inv (lin : Linear.t) (x y : FloatTensor) :
  Linear.forward lin x = Ok y ->
  last_dim x = Ok (Linear.in_features lin) /\
  shape y = removelast (shape x) ++ [Linear.out_features lin].
Proof.
  unfold Linear.forward. destruct (last_dim x) as [d|]; cbn [bind];
    [|discriminate].
  destruct (d =? Linear.in_features lin) eqn:E; [|discriminate].
  apply Nat.eqb_eq in E. subst d. intros H. injection H as <-. auto.
Qed.

Lemma broadcast2_last_dim (f : R -> R -> R) (x y z : FloatTensor) (d : nat) :
  last_dim x = Ok d -> last_dim y = Ok d ->
  broadcast2 f x y = Ok z -> last_dim z = Ok d.
Proof.
  unfold broadcast2, broadcast_shapes, last_dim, fmap.
  destruct (rev (shape x)) as [|a r]; [discriminate|].
  destruct (rev (shape y)) as [|a' r']; [discriminate|].
  intros H H'. injection H as ->. injection H' as ->.
  cbn [bshape_rev]. rewrite bdim_refl. cbn [bind].
  destruct (bshape_rev r r') as [s|]; cbn [bind]; [|discriminate].
  intros Hz. injection Hz as <-. cbn [shape rev].
  rewrite rev_app_distr, rev_involutive. reflexivity.
Qed.

(** The result of one encoder block has the width of the model, and so
    has the image feature it was given. *)
Lemma body_inv (gelu : R -> R) (cfg : config) (tr : bool) (iv : init_values)
    (blk : DocFormerEncoder.block) (d : DocFormerEncoder.draws)
    (text_feat img_feat text_spatial_feat img_spatial_feat : FloatTensor)
    (it : DocFormerEncoder.iteration) :
  DocFormerEncoder.init_block cfg tr iv = Ok blk ->
  DocFormerEncoder.body gelu blk d
    text_feat img_feat text_spatial_feat img_spatial_feat = Ok it ->
  last_dim img_feat = Ok (hidden_size cfg) /\
  last_dim (DocFormerEncoder.x it) = Ok (hidden_size cfg).
Proof.
  intros Hblk Hbody.
  destruct (init_block_inv _ _ _ Hblk)
    as (_ & _ & _ & Hnv & _ & _ & Hnf & _ & _ & _ & Hout).
  unfold DocFormerEncoder.body in Hbody.
  repeat match type of Hbody with
         | bind ?m _ = Ok _ =>
             let E := fresh "E" in
             destruct m eqn:E; cbn [bind] in Hbody; [|discriminate Hbody]
         end.
  injection Hbody as <-. cbn [DocFormerEncoder.x].
  split.
  - unfold PreNormAttn.forward in E2.
    repeat match type of E2 with
           | bind ?m _ = Ok _ =>
               let E := fresh "N" in
               destruct m eqn:E; cbn [bind] in E2; [|discriminate E2]
           end.
    destruct (layer_norm_forward_inv _ _ N0) as [Hl _]. now rewrite Hnv in Hl.
  - unfold PreNorm.forward in E4.
    destruct (LayerNorm.forward _ _) as [n|] eqn:En in E4; cbn [bind] in E4;
      [|discriminate E4].
    destruct (layer_norm_forward_inv _ _ En) as [Hl Hsn]. rewrite Hnf in Hl.
    unfold FeedForward.forward in E4.
    destruct (Linear.forward _ _) as [h|] eqn:Eh in E4; cbn [bind] in E4;
      [|discriminate E4].
    cbv zeta in E4.
    destruct (Linear.forward _ _) as [o|] eqn:Eo in E4; cbn [bind] in E4;
      [|discriminate E4].
    injection E4 as <-.
    destruct (linear_forward_inv _ _ Eo) as [_ Hso]. rewrite Hout in Hso.
    eapply broadcast2_last_dim; [| |exact E5].
    + apply last_dim_app with (l := removelast
        (shape (Dropout.forward (FeedForward.net_2 (PreNorm.fn (DocFormerEncoder.ff blk)))
                  (FeedForward.mask_hidden (DocFormerEncoder.ff_draws d))
                  (tmap gelu h)))).
      rewrite dropout_forward_shape. exact Hso.
    + exact Hl.
Qed.

(** Every iteration of the loop ran the body of one layer on the three
    arguments that are never assigned. *)
Lemma loop_inv (gelu : R -> R) (rng : nat -> DocFormerEncoder.draws)
    (img_feat text_spatial_feat img_spatial_feat : FloatTensor) :
  forall ls i0 text_feat its,
    DocFormerEncoder.loop gelu ls rng i0
      text_feat img_feat text_spatial_feat img_spatial_feat = Ok its ->
    forall k it, nth_error its k = Some it ->
      exists blk text_in,
        nth_error ls k = Some blk /\
        DocFormerEncoder.body gelu blk (rng (i0 + k))
          text_in img_feat text_spatial_feat img_spatial_feat = Ok it.
Proof.
  induction ls as [|b ls IH]; intros i0 text_feat its H k it Hk.
  - cbn in H. injection H as <-. destruct k; discriminate Hk.
  - cbn [DocFormerEncoder.loop] in H.
    destruct (DocFormerEncoder.body gelu b (rng i0) text_feat img_feat
                text_spatial_feat img_spatial_feat) as [it0|] eqn:E0;
      cbn [bind] in H; [|discriminate H].
    cbv zeta in H.
    destruct (DocFormerEncoder.loop gelu ls rng (S i0) _ _ _ _) as [its'|] eqn:E1;
      cbn [bind] in H; [|discriminate H].
    injection H as <-. destruct k as [|k].
    + cbn in Hk. injection Hk as <-. exists b, text_feat.
      rewrite Nat.add_0_r. split; [reflexivity|exact E0].
    + cbn in Hk. destruct (IH _ _ _ E1 k it Hk) as (blk & tin & Hn & Hb).
      exists blk, tin. split; [exact Hn|].
      replace (i0 + S k) with (S i0 + k) by lia. exact Hb.
Qed.

(** A call of a constructed encoder that returns was given an image
    feature of the width of the model, and returns a tensor of that
    width. *)
Lemma encoder_forward_inv (gelu : R -> R) (cfg : config) (tr : bool)
    (iv : nat -> init_values) (enc : DocFormerEncoder.t)
    (rng : nat -> DocFormerEncoder.draws)
    (text_feat img_feat text_spatial_feat img_spatial_feat out : FloatTensor) :
  DocFormerEncoder.init cfg tr iv = Ok enc ->
  DocFormerEncoder.forward gelu enc rng
    text_feat img_feat text_spatial_feat img_spatial_feat = Ok out ->
  last_dim img_feat = Ok (hidden_size cfg) /\
  last_dim out = Ok (hidden_size cfg).
Proof.
  intros Hinit Hfw.
  destruct (encoder_init_inv _ _ _ Hinit) as [_ Hblocks].
  unfold DocFormerEncoder.forward, DocFormerEncoder.forward_trace in Hfw.
  destruct (DocFormerEncoder.loop _ _ _ _ _ _ _ _) as [its|] eqn:El;
    cbn [bind] in Hfw; [|discriminate Hfw].
  destruct (rev its) as [|it r] eqn:Hrev; [discriminate Hfw|].
  injection Hfw as <-.
  destruct (rev_cons_last _ Hrev) as [Hnth _].
  destruct (@loop_inv gelu rng img_feat text_spatial_feat img_spatial_feat
              (DocFormerEncoder.layers enc) 0 text_feat its El _ _ Hnth)
    as (blk & tin & Hb & Hbody).
  exact (@body_inv gelu cfg tr _ blk _ _ _ _ _ _ (Hblocks _ _ Hb) Hbody).
Qed.

(** ** The width of the model is fixed by the visual branch *)

Lemma extract_features_init_inv (c : config) (tr : bool)
    (backbone : FloatTensor -> result FloatTensor) (iv : init_values)
    (ef : ExtractFeatures.t) :
  ExtractFeatures.init c tr backbone iv = Ok ef ->
  ExtractFeatures.visual_feature ef =
    ResNetFeatureExtractor.init backbone
      (DocFormerEncoder.prefixed "visual_feature." iv) /\
  LanguageFeatureExtractor.init (vocab_size c) (hidden_size c)
    (DocFormerEncoder.prefixed "language_feature." iv)
    = Ok (ExtractFeatures.language_feature ef) /\
  DocFormerEmbeddings.init c tr (DocFormerEncoder.prefixed "spatial_feature." iv)
    = Ok (ExtractFeatures.spatial_feature ef).
Proof.
  unfold ExtractFeatures.init. cbv zeta.
  destruct (LanguageFeatureExtractor.init _ _ _) as [lf|]; cbn [bind];
    [|discriminate].
  destruct (DocFormerEmbeddings.init _ _ _) as [sf|]; cbn [bind];
    [|discriminate].
  intros H. injection H as <-. cbn. auto.
Qed.

Lemma obind_returns_inv {A B} (m : outcome A) (k : A -> outcome B) (b : B) :
  obind m k = Returns b -> exists a, m = Returns a /\ k a = Returns b.
Proof. destruct m; cbn; intros H; try discriminate H. now exists a. Qed.

Lemma lift_returns_inv {A} (m : result A) (a : A) :
  lift m = Returns a -> m = Ok a.
Proof. destruct m; cbn; intros H; [now injection H as ->|discriminate H]. Qed.

(** The visual feature that [ExtractFeatures.forward] returns has 512
    positions of width 768, whatever the configuration. *)
Lemma extract_features_forward_inv (c : config) (tr : bool)
    (backbone : FloatTensor -> result FloatTensor) (iv : init_values)
    (ef : ExtractFeatures.t) (rng : DocFormerEmbeddings.draws)
    (x : encoding) (use_tdi : bool)
    (v_bar t_bar v_bar_s t_bar_s : FloatTensor) :
  ExtractFeatures.init c tr backbone iv = Ok ef ->
  ExtractFeatures.forward ef rng x use_tdi
    = Returns (v_bar, t_bar, v_bar_s, t_bar_s) ->
  exists b, shape v_bar = [b; 512; 768].
Proof.
  intros Hinit Hfw.
  destruct (@extract_features_init_inv c tr backbone iv ef Hinit) as (Hv & _ & _).
  unfold ExtractFeatures.forward in Hfw.
  apply obind_returns_inv in Hfw. destruct Hfw as (image & _ & Hfw).
  apply obind_returns_inv in Hfw. destruct Hfw as (language & _ & Hfw).
  apply obind_returns_inv in Hfw. destruct Hfw as (xf & _ & Hfw).
  apply obind_returns_inv in Hfw. destruct Hfw as (yf & _ & Hfw).
  apply obind_returns_inv in Hfw. destruct Hfw as (v & Ev & Hfw).
  apply obind_returns_inv in Hfw. destruct Hfw as (t & _ & Hfw).
  apply obind_returns_inv in Hfw. destruct Hfw as (s & _ & Hfw).
  cbv zeta in Hfw. injection Hfw as -> _ _ _.
  apply lift_returns_inv in Ev. rewrite Hv in Ev.
  exact (@resnet_forward_inv_gen _ _ _ _ _ _ _ _ _ _ _ Ev).
Qed.

(** When the common part of the three task models returns, the
    configured width is 768, and so is the width of what it returns. *)
Lemma encode_inv (gelu : R -> R) (c : config) (tr : bool)
    (backbone : FloatTensor -> result FloatTensor) (iv : init_values)
    (ivl : nat -> init_values)
    (ef : ExtractFeatures.t) (enc : DocFormerEncoder.t) (dr : Dropout.t)
    (rng : model_draws) (x : encoding) (use_tdi : bool) (out : FloatTensor) :
  ExtractFeatures.init c tr backbone iv = Ok ef ->
  DocFormerEncoder.init c tr ivl = Ok enc ->
  encode gelu ef enc dr rng x use_tdi = Returns out ->
  hidden_size c = 768 /\ last_dim out = Ok (hidden_size c).
Proof.
  intros Hef Henc H. unfold encode in H.
  apply obind_returns_inv in H. destruct H as ([[[v t] vs] ts] & Ef & H).
  apply obind_returns_inv in H. destruct H as (o & Eo & H).
  cbv zeta in H. injection H as <-.
  apply lift_returns_inv in Eo.
  destruct (@extract_features_forward_inv c tr backbone iv ef _ _ _ _ _ _ _ Hef Ef) as [b Hv].
  destruct (@encoder_forward_inv gelu c tr ivl enc _ _ _ _ _ _ Henc Eo) as [Hlv Hlo].
  assert (H768 : last_dim v = Ok 768)
    by (apply last_dim_app with (l := [b; 512]); exact Hv).
  rewrite H768 in Hlv. injection Hlv as Hh.
  split; [now symmetry|].
  unfold last_dim in *. now rewrite dropout_forward_shape.
Qed.

(** X15.  The width of the model is fixed to 768 by the visual branch:
    when [hidden_size] is another number, no call of [forward] of a
    constructed [DocFormer] or [DocFormerForClassification] returns,
    whatever the input: the visual feature has width 768, and the layer
    normalisation of the first encoder layer rejects it, if nothing was
    raised before. *)
Theorem docformer_needs_hidden_size_768 (gelu : R -> R) (c : config)
    (num_classes : nat) (tr : bool)
    (backbone : FloatTensor -> result FloatTensor) (iv : init_values)
    (ivl : nat -> init_values) (rng : model_draws) (x : encoding)
    (use_tdi : bool) :
  hidden_size c <> 768 ->
  (forall self out,
     DocFormer.init c tr backbone iv ivl = Ok self ->
     DocFormer.forward gelu self rng x use_tdi <> Returns out) /\
  (forall self out,
     DocFormerForClassification.init c num_classes tr backbone iv ivl = Ok self ->
     DocFormerForClassification.forward gelu self rng x use_tdi <> Returns out).
Proof.
  intros Hh. split; intros self out Hinit Hfw.
  - unfold DocFormer.init in Hinit.
    destruct (ExtractFeatures.init _ _ _ _) as [ef|] eqn:Eef; cbn [bind] in Hinit;
      [|discriminate Hinit].
    destruct (DocFormerEncoder.init _ _ _) as [enc|] eqn:Eenc; cbn [bind] in Hinit;
      [|discriminate Hinit].
    destruct (Dropout.init _ _) as [dr|]; cbn [bind] in Hinit;
      [|discriminate Hinit].
    injection Hinit as <-. unfold DocFormer.forward in Hfw.
    cbn [DocFormer.extract_feature DocFormer.encoder DocFormer.dropout] in Hfw.
    apply obind_returns_inv in Hfw. destruct Hfw as (o & Eo & _).
    destruct (@encode_inv gelu c tr backbone _ ivl ef enc _ _ _ _ _ Eef Eenc Eo)
      as [H768 _]. contradiction.
  - unfold DocFormerForClassification.init in Hinit.
    destruct (ExtractFeatures.init _ _ _ _) as [ef|] eqn:Eef; cbn [bind] in Hinit;
      [|discriminate Hinit].
    destruct (DocFormerEncoder.init _ _ _) as [enc|] eqn:Eenc; cbn [bind] in Hinit;
      [|discriminate Hinit].
    destruct (Dropout.init _ _) as [dr|]; cbn [bind] in Hinit;
      [|discriminate Hinit].
    injection Hinit as <-. unfold DocFormerForClassification.forward in Hfw.
    cbn [DocFormerForClassification.extract_feature
         DocFormerForClassification.encoder
         DocFormerForClassification.dropout] in Hfw.
    apply obind_returns_inv in Hfw. destruct Hfw as (o & Eo & _).
    destruct (@encode_inv gelu c tr backbone _ ivl ef enc _ _ _ _ _ Eef Eenc Eo)
      as [H768 _]. contradiction.
Qed.

Lemma docformer_needs_hidden_size_768_witness :
  exists self,
    DocFormer.init small_config false (zero_backbone 1)
      (fun _ _ => 0%R) (fun _ _ _ => 0%R) = Ok self /\
    forall out,
      DocFormer.forward (fun v => v) self model_keep_all (zero_encoding 1 2) false
      <> Returns out.
Proof.
  assert (Hs : exists self,
            DocFormer.init small_config false (zero_backbone 1)
              (fun _ _ => 0%R) (fun _ _ _ => 0%R) = Ok self)
    by (eexists; reflexivity).
  destruct Hs as [self Hs]. exists self. split; [exact Hs|].
  intros out.
  apply (proj1 (@docformer_needs_hidden_size_768 (fun v => v) small_config 0 false
                  (zero_backbone 1) (fun _ _ => 0%R) (fun _ _ _ => 0%R)
                  model_keep_all (zero_encoding 1 2) false
                  ltac:(discriminate)) self out Hs).
Defined.


(** X16.  No call of [DocFormer_For_IR.forward] returns, whatever the
    configuration and the input: when the encoder returns, its output
    has width 768, and the classifier, built for inputs of width 68,
    raises. *)
Theorem docformer_for_ir_never_returns (cuda_error : option exn) (gelu : R -> R)
    (c : config) (num_classes : nat) (tr : bool)
    (backbone : FloatTensor -> result FloatTensor) (iv : init_values)
    (ivl : nat -> init_values) (self : DocFormer_For_IR.t)
    (rng : model_draws) (x : encoding) (use_tdi : bool) :
  DocFormer_For_IR.init cuda_error c num_classes tr backbone iv ivl = Ok self ->
  forall r,
    DocFormer_For_IR.forward cuda_error gelu self rng x use_tdi <> Returns r.
Proof.
  intros Hinit r Hfw. unfold DocFormer_For_IR.init in Hinit.
  destruct (ExtractFeatures.init _ _ _ _) as [ef|] eqn:Eef; cbn [bind] in Hinit;
    [|discriminate Hinit].
  destruct (DocFormerEncoder.init _ _ _) as [enc|] eqn:Eenc; cbn [bind] in Hinit;
    [|discriminate Hinit].
  destruct (Dropout.init _ _) as [dr|]; cbn [bind] in Hinit; [|discriminate Hinit].
  cbv zeta in Hinit.
  destruct (ShallowDecoder.to_cuda _ _) as [dec|]; cbn [bind] in Hinit;
    [|discriminate Hinit].
  injection Hinit as <-. unfold DocFormer_For_IR.forward in Hfw.
  cbn [DocFormer_For_IR.extract_feature DocFormer_For_IR.encoder
       DocFormer_For_IR.dropout DocFormer_For_IR.classifier
       DocFormer_For_IR.decoder] in Hfw.
  apply obind_returns_inv in Hfw. destruct Hfw as (o & Eo & Hfw).
  apply obind_returns_inv in Hfw. destruct Hfw as (mlm & Em & _).
  apply lift_returns_inv in Em.
  destruct (@encode_inv gelu c tr backbone _ ivl ef enc _ _ _ _ _ Eef Eenc Eo)
    as [H768 Hlo].
  destruct (@linear_forward_inv _ _ _ Em) as [Hin _].
  rewrite Hlo, H768 in Hin. discriminate Hin.
Qed.

Lemma docformer_for_ir_never_returns_witness :
  exists self,
    DocFormer_For_IR.init None small_config 3 false (zero_backbone 1)
      (fun _ _ => 0%R) (fun _ _ _ => 0%R) = Ok self /\
    forall r,
      DocFormer_For_IR.forward None (fun v => v) self model_keep_all
        (zero_encoding 1 2) false <> Returns r.
Proof.
  assert (Hs : exists self,
            DocFormer_For_IR.init None small_config 3 false (zero_backbone 1)
              (fun _ _ => 0%R) (fun _ _ _ => 0%R) = Ok self)
    by (eexists; reflexivity).
  destruct Hs as [self Hs]. exists self. split; [exact Hs|].
  apply (@docformer_for_ir_never_returns None (fun v => v) small_config 3 false
           (zero_backbone 1) (fun _ _ => 0%R) (fun _ _ _ => 0%R) self
           model_keep_all (zero_encoding 1 2) false Hs).
Defined.

(** ** A call that returns *)

(** The common part of the three task models on a well-formed input:
    all four features have shape [(B, 512, 768)], and so has the
    result. *)
Lemma encode_returns (gelu : R -> R) (c : config) (tr : bool)
    (backbone : FloatTensor -> result FloatTensor) (iv : init_values)
    (ivl : nat -> init_values)
    (ef : ExtractFeatures.t) (enc : DocFormerEncoder.t) (dr : Dropout.t)
    (rng : model_draws) (x : encoding) (use_tdi : bool)
    (img f : FloatTensor) (ids xf yf : LongTensor) (B w h : nat) :
  ExtractFeatures.init c tr backbone iv = Ok ef ->
  DocFormerEncoder.init c tr ivl = Ok enc ->
  hidden_size c = 768 -> max_position_embeddings c = 512 ->
  1 <= num_hidden_layers c ->
  coordinate_size c = 96 \/ coordinate_size c = 1 ->
  shape_size c = 96 \/ shape_size c = 1 ->
  (if use_tdi then d_resized_scaled_img x else resized_scaled_img x) = Some img ->
  input_ids x = Some ids -> x_features x = Some xf -> y_features x = Some yf ->
  backbone img = Ok f -> shape f = [B; 2048; w; h] -> w * h = 49 ->
  shape ids = [B; 512] ->
  (forall b t, b < B -> t < 512 ->
     (0 <= data ids [b; t] < Z.of_nat (vocab_size c))%Z) ->
  shape xf = [B; 512; 8] -> shape yf = [B; 512; 8] ->
  (forall b t i, b < B -> t < 512 -> i < 8 ->
     (0 <= data xf [b; t; i] < Z.of_nat (max_2d_position_embeddings c))%Z /\
     (0 <= data yf [b; t; i] < Z.of_nat (max_2d_position_embeddings c))%Z) ->
  exists out,
    encode gelu ef enc dr rng x use_tdi = Returns out /\
    shape out = [B; 512; 768].
Proof.
  intros Hef Henc Hh HL Hn Hcs Hss Himg Hids Hxf Hyf Hb Hf Hwh
         Hsi Hri Hsx Hsy Hrx.
  destruct (@extract_features_init_inv c tr backbone iv ef Hef) as (Hv & Hl & Hsf).
  (* the visual feature *)
  destruct (proj1 (@resnet_forward_spec_gen backbone 2048 768 49 512
                     (DocFormerEncoder.prefixed "visual_feature." iv "conv1.weight"%string)
                     (DocFormerEncoder.prefixed "visual_feature." iv "conv1.bias"%string)
                     (DocFormerEncoder.prefixed "visual_feature." iv "linear1.weight"%string)
                     (DocFormerEncoder.prefixed "visual_feature." iv "linear1.bias"%string)
                     img f B w h Hb Hf (Nat.lt_0_succ 48)) Hwh)
    as (v_bar & Ev & Hsv & _).
  change (ResNetFeatureExtractor.forward
            (ResNetFeatureExtractor.init backbone
               (DocFormerEncoder.prefixed "visual_feature." iv)) img = Ok v_bar)
    in Ev.
  rewrite <- Hv in Ev.
  (* the language feature *)
  unfold LanguageFeatureExtractor.init, Embedding.init in Hl. cbn [bind] in Hl.
  injection Hl as Hl.
  destruct (@embedding_forward2
              (LanguageFeatureExtractor.embedding_vector
                 (ExtractFeatures.language_feature ef)) ids B 512 Hsi)
    as (t_bar & Et & Hst).
  { rewrite <- Hl. cbn [LanguageFeatureExtractor.embedding_vector
                         Embedding.num_embeddings]. exact Hri. }
  rewrite <- Hl in Hst.
  cbn [LanguageFeatureExtractor.embedding_vector Embedding.embedding_dim] in Hst.
  (* the spatial features *)
  assert (Hsv' : shape v_bar = [B; max_position_embeddings c; hidden_size c])
    by (rewrite Hsv, HL, Hh; reflexivity).
  assert (Hst' : shape t_bar = [B; max_position_embeddings c; hidden_size c])
    by (rewrite Hst, HL; reflexivity).
  assert (Hsx' : shape xf = [B; max_position_embeddings c; 8])
    by (rewrite HL; exact Hsx).
  assert (Hsy' : shape yf = [B; max_position_embeddings c; 8])
    by (rewrite HL; exact Hsy).
  assert (Hrx' : forall b t i, b < B -> t < max_position_embeddings c -> i < 8 ->
            (0 <= data xf [b; t; i] < Z.of_nat (max_2d_position_embeddings c))%Z /\
            (0 <= data yf [b; t; i] < Z.of_nat (max_2d_position_embeddings c))%Z)
    by (rewrite HL; exact Hrx).
  clear Hsv Hst Hsx Hsy Hrx.
  destruct (@embeddings_forward_bands c tr _ (ExtractFeatures.spatial_feature ef)
              (embeddings_draws rng) xf yf B (max_position_embeddings c)
              Hsf Hsx' Hsy' Hrx' eq_refl)
    as (v_bar_s & t_bar_s & _ & _ & Es & Hsvs & Hsts & _).
  { rewrite Hh. exact Hcs. }
  { rewrite Hh. exact Hss. }
  (* the encoder *)
  destruct (@encoder_forward_returns gelu c tr ivl enc (encoder_draws rng)
              t_bar v_bar t_bar_s v_bar_s B (max_position_embeddings c)
              Henc Hn Hst' Hsv' Hsts Hsvs (le_n _))
    as (o & Eo & Hso).
  exists (Dropout.forward dr (mask_output rng) o). split.
  - unfold encode, ExtractFeatures.forward.
    assert (Eimg : (if use_tdi
                    then getitem "d_resized_scaled_img" (d_resized_scaled_img x)
                    else getitem "resized_scaled_img" (resized_scaled_img x))
                   = Returns img).
    { destruct use_tdi; rewrite Himg; reflexivity. }
    rewrite Eimg, Hids, Hxf, Hyf. cbn [obind getitem].
    rewrite Ev. cbn [obind lift].
    unfold LanguageFeatureExtractor.forward. rewrite Et. cbn [obind lift].
    rewrite Es. cbn [obind lift fst snd].
    rewrite Eo. reflexivity.
  - rewrite dropout_forward_shape, Hso, HL, Hh. reflexivity.
Qed.

(** ** Construction of the task models *)

Lemma extract_features_init_ok (c : config) (tr : bool)
    (backbone : FloatTensor -> result FloatTensor) (iv : init_values) :
  is_ok (ExtractFeatures.init c tr backbone iv) =
  is_ok (DocFormerEmbeddings.init c tr
           (DocFormerEncoder.prefixed "spatial_feature." iv)).
Proof.
  unfold ExtractFeatures.init, LanguageFeatureExtractor.init, Embedding.init.
  cbv zeta. cbn [bind].
  destruct (DocFormerEmbeddings.init _ _ _); reflexivity.
Qed.

Lemma constructible_spec (c : config) (tr : bool)
    (backbone : FloatTensor -> result FloatTensor) (iv : init_values)
    (ivl : nat -> init_values) :
  is_ok (ExtractFeatures.init c tr backbone iv)
  && is_ok (DocFormerEncoder.init c tr ivl)
  && is_ok (Dropout.init (hidden_dropout_prob c) tr)
  = constructible c.
Proof.
  rewrite extract_features_init_ok, embeddings_init_ok, encoder_init_is_ok.
  unfold Dropout.init, constructible.
  destruct (pad_token_id c <? vocab_size c); cbn [andb]; [|reflexivity].
  destruct (negb (hidden_size c =? 0)); cbn [andb]; [|reflexivity].
  destruct (Nat.even (hidden_size c) || (hidden_size c =? 1)); cbn [andb];
    [|reflexivity].
  destruct (Qle_bool 0 (hidden_dropout_prob c)
            && Qle_bool (hidden_dropout_prob c) 1); cbn [andb is_ok];
    [|now rewrite ?andb_false_r].
  destruct (num_hidden_layers c =? 0); cbn [orb]; [reflexivity|].
  now rewrite !andb_true_r.
Qed.

Lemma task_models_init_ok (c : config) (num_classes : nat)
    (tr : bool) (backbone : FloatTensor -> result FloatTensor)
    (iv : init_values) (ivl : nat -> init_values) (cuda_error : option exn) :
  is_ok (DocFormer.init c tr backbone iv ivl) = constructible c /\
  is_ok (DocFormerForClassification.init c num_classes tr backbone iv ivl)
    = constructible c /\
  is_ok (DocFormer_For_IR.init cuda_error c num_classes tr backbone iv ivl)
    = constructible c && match cuda_error with None => true | Some _ => false end.
Proof.
  rewrite <- (constructible_spec c tr backbone
                (DocFormerEncoder.prefixed "extract_feature." iv) ivl).
  unfold DocFormer.init, DocFormerForClassification.init, DocFormer_For_IR.init.
  destruct (ExtractFeatures.init _ _ _ _) as [ef|]; cbn [bind is_ok andb];
    [|auto].
  destruct (DocFormerEncoder.init _ _ _) as [enc|]; cbn [bind is_ok andb];
    [|auto].
  destruct (Dropout.init _ _) as [dr|]; cbn [bind is_ok andb]; [|auto].
  cbv zeta. unfold ShallowDecoder.to_cuda, cuda.
  destruct cuda_error; cbn [bind is_ok]; auto.
Qed.

(** X17.  What the constructors check: [DocFormer] and
    [DocFormerForClassification] are constructed exactly for the
    configurations that are [constructible]; [DocFormer_For_IR] needs a
    CUDA device besides.  That [hidden_size] is 768 and
    [max_position_embeddings] is 512, which [forward] needs, is not
    checked. *)
Theorem task_models_init_succeeds_iff (c : config) (num_classes : nat)
    (tr : bool) (backbone : FloatTensor -> result FloatTensor)
    (iv : init_values) (ivl : nat -> init_values) (cuda_error : option exn) :
  is_ok (DocFormer.init c tr backbone iv ivl) = constructible c /\
  is_ok (DocFormerForClassification.init c num_classes tr backbone iv ivl)
    = constructible c /\
  is_ok (DocFormer_For_IR.init cuda_error c num_classes tr backbone iv ivl)
    = constructible c && match cuda_error with None => true | Some _ => false end.
Proof. apply task_models_init_ok. Qed.

(** X18.  On a well-formed input the models run: with [hidden_size]
    768, 512 positions, at least one layer and coordinate tables of
    width 96 (or 1), a dictionary that holds the image selected by
    [use_tdi], whose backbone feature map is [(B, 2048, w, h)] with
    [w * h = 49], [B] sequences of 512 token ids below [vocab_size] and
    eight geometric features per position and axis, all below
    [max_2d_position_embeddings], makes [DocFormer.forward] return a
    tensor of shape [(B, 512, 768)] and
    [DocFormerForClassification.forward] one of shape
    [(B, 512, num_classes)]: a class score for every position.  Device
    placement is outside the model, as for the layers above: the
    statement is read with [DEVICE = "cpu"]. *)
Theorem task_models_forward_returns (gelu : R -> R) (c : config)
    (num_classes : nat) (tr : bool)
    (backbone : FloatTensor -> result FloatTensor) (iv : init_values)
    (ivl : nat -> init_values) (rng : model_draws) (x : encoding)
    (use_tdi : bool) (img f : FloatTensor) (ids xf yf : LongTensor)
    (B w h : nat) :
  hidden_size c = 768 -> max_position_embeddings c = 512 ->
  1 <= num_hidden_layers c ->
  coordinate_size c = 96 \/ coordinate_size c = 1 ->
  shape_size c = 96 \/ shape_size c = 1 ->
  (if use_tdi then d_resized_scaled_img x else resized_scaled_img x) = Some img ->
  input_ids x = Some ids -> x_features x = Some xf -> y_features x = Some yf ->
  backbone img = Ok f -> shape f = [B; 2048; w; h] -> w * h = 49 ->
  shape ids = [B; 512] ->
  (forall b t, b < B -> t < 512 ->
     (0 <= data ids [b; t] < Z.of_nat (vocab_size c))%Z) ->
  shape xf = [B; 512; 8] -> shape yf = [B; 512; 8] ->
  (forall b t i, b < B -> t < 512 -> i < 8 ->
     (0 <= data xf [b; t; i] < Z.of_nat (max_2d_position_embeddings c))%Z /\
     (0 <= data yf [b; t; i] < Z.of_nat (max_2d_position_embeddings c))%Z) ->
  (forall self,
     DocFormer.init c tr backbone iv ivl = Ok self ->
     exists out,
       DocFormer.forward gelu self rng x use_tdi = Returns out /\
       shape out = [B; 512; 768]) /\
  (forall self,
     DocFormerForClassification.init c num_classes tr backbone iv ivl = Ok self ->
     exists out,
       DocFormerForClassification.forward gelu self rng x use_tdi = Returns out /\
       shape out = [B; 512; num_classes]).
Proof.
  intros Hh HL Hn Hcs Hss Himg Hids Hxf Hyf Hb Hf Hwh Hsi Hri Hsx Hsy Hrx.
  split; intros self Hinit.
  - unfold DocFormer.init in Hinit.
    destruct (ExtractFeatures.init _ _ _ _) as [ef|] eqn:Eef; cbn [bind] in Hinit;
      [|discriminate Hinit].
    destruct (DocFormerEncoder.init _ _ _) as [enc|] eqn:Eenc; cbn [bind] in Hinit;
      [|discriminate Hinit].
    destruct (Dropout.init _ _) as [dr|]; cbn [bind] in Hinit;
      [|discriminate Hinit].
    injection Hinit as <-. unfold DocFormer.forward.
    cbn [DocFormer.extract_feature DocFormer.encoder DocFormer.dropout].
    destruct (@encode_returns gelu c tr backbone _ ivl ef enc dr rng x use_tdi
                img f ids xf yf B w h Eef Eenc Hh HL Hn Hcs Hss Himg Hids Hxf Hyf
                Hb Hf Hwh Hsi Hri Hsx Hsy Hrx) as (o & Eo & Hso).
    rewrite Eo. cbn [obind]. exists o. split; [reflexivity|exact Hso].
  - unfold DocFormerForClassification.init in Hinit.
    destruct (ExtractFeatures.init _ _ _ _) as [ef|] eqn:Eef; cbn [bind] in Hinit;
      [|discriminate Hinit].
    destruct (DocFormerEncoder.init _ _ _) as [enc|] eqn:Eenc; cbn [bind] in Hinit;
      [|discriminate Hinit].
    destruct (Dropout.init _ _) as [dr|]; cbn [bind] in Hinit;
      [|discriminate Hinit].
    injection Hinit as <-. unfold DocFormerForClassification.forward.
    cbn [DocFormerForClassification.extract_feature
         DocFormerForClassification.encoder DocFormerForClassification.dropout
         DocFormerForClassification.classifier].
    destruct (@encode_returns gelu c tr backbone _ ivl ef enc dr rng x use_tdi
                img f ids xf yf B w h Eef Eenc Hh HL Hn Hcs Hss Himg Hids Hxf Hyf
                Hb Hf Hwh Hsi Hri Hsx Hsy Hrx) as (o & Eo & Hso).
    rewrite Eo. cbn [obind].
    unfold Linear.forward, Linear.init.
    rewrite (@last_dim_app _ o [B; 512] 768 Hso). cbn [bind Linear.in_features].
    rewrite Hh, Nat.eqb_refl. cbn [obind lift].
    eexists. split; [reflexivity|]. cbn [shape Linear.out_features].
    rewrite Hso. reflexivity.
Qed.

Lemma task_models_forward_returns_witness :
  (exists self out,
     DocFormer.init base_config false (zero_backbone 1)
       (fun _ _ => 0%R) (fun _ _ _ => 0%R) = Ok self /\
     DocFormer.forward (fun v => v) self model_keep_all (zero_encoding 1 512) false
       = Returns out /\
     shape out = [1; 512; 768]) /\
  (exists self out,
     DocFormerForClassification.init base_config 16 false (zero_backbone 1)
       (fun _ _ => 0%R) (fun _ _ _ => 0%R) = Ok self /\
     DocFormerForClassification.forward (fun v => v) self model_keep_all
       (zero_encoding 1 512) false = Returns out /\
     shape out = [1; 512; 16]).
Proof.
  destruct (@task_models_forward_returns (fun v => v) base_config 16 false
              (zero_backbone 1) (fun _ _ => 0%R) (fun _ _ _ => 0%R)
              model_keep_all (zero_encoding 1 512) false
              (zeros [1; 3; 224; 224]) (zeros [1; 2048; 7; 7])
              (zero_features [1; 512]) (zero_features [1; 512; 8])
              (zero_features [1; 512; 8]) 1 7 7
              eq_refl eq_refl (le_n 1) (or_introl eq_refl) (or_introl eq_refl)
              eq_refl eq_refl eq_refl eq_refl eq_refl eq_refl eq_refl eq_refl
              ltac:(intros; cbn; lia) eq_refl eq_refl
              ltac:(intros; cbn; lia))
    as [Hd Hc].
  split.
  - destruct (DocFormer.init base_config false (zero_backbone 1)
                (fun _ _ => 0%R) (fun _ _ _ => 0%R)) as [self|e] eqn:Hinit.
    + destruct (Hd self eq_refl) as (out & E & Hs). now exists self, out.
    + pose proof (proj1 (task_models_init_ok base_config 16 false (zero_backbone 1)
                           (fun _ _ => 0%R) (fun _ _ _ => 0%R) None)) as Hok.
      rewrite Hinit in Hok. discriminate Hok.
  - destruct (DocFormerForClassification.init base_config 16 false (zero_backbone 1)
                (fun _ _ => 0%R) (fun _ _ _ => 0%R)) as [self|e] eqn:Hinit.
    + destruct (Hc self eq_refl) as (out & E & Hs). now exists self, out.
    + pose proof (proj1 (proj2 (task_models_init_ok base_config 16 false
                                  (zero_backbone 1)
                                  (fun _ _ => 0%R) (fun _ _ _ => 0%R) None))) as Hok.
      rewrite Hinit in Hok. discriminate Hok.
Defined.

(** ** [ShallowDecoder] *)









(** ** The input dictionary *)

(** X21.  [ExtractFeatures.forward] raises [KeyError] exactly when the
    dictionary lacks one of the four keys it reads, and the key it
    names is the first one missing, the image key, chosen by [use_tdi],
    coming first: all four lookups happen before any feature is
    computed, and no layer raises a [KeyError].  [DocFormer.forward]
    passes the exception on. *)
Theorem missing_key_raises_key_error (gelu : R -> R) (self : DocFormer.t)
    (rng : model_draws) (x : encoding) (use_tdi : bool) (key : string) :
  (ExtractFeatures.forward (DocFormer.extract_feature self) (embeddings_draws rng)
     x use_tdi = KeyError key
   <-> first_missing_key x use_tdi = Some key) /\
  (DocFormer.forward gelu self rng x use_tdi = KeyError key
   <-> first_missing_key x use_tdi = Some key).
Proof.
  assert (Hex : ExtractFeatures.forward (DocFormer.extract_feature self)
                  (embeddings_draws rng) x use_tdi = KeyError key
                <-> first_missing_key x use_tdi = Some key).
  { unfold ExtractFeatures.forward, first_missing_key.
    destruct use_tdi;
      [destruct (d_resized_scaled_img x) as [img|]
      |destruct (resized_scaled_img x) as [img|]];
      cbn [getitem obind];
      try (split; intros H; injection H as <-; reflexivity);
      (destruct (input_ids x) as [ids|]; cbn [getitem obind];
       [|split; intros H; injection H as <-; reflexivity]);
      (destruct (x_features x) as [xf|]; cbn [getitem obind];
       [|split; intros H; injection H as <-; reflexivity]);
      (destruct (y_features x) as [yf|]; cbn [getitem obind];
       [|split; intros H; injection H as <-; reflexivity]);
      (split; [|discriminate]);
      (destruct (ResNetFeatureExtractor.forward _ _); cbn [lift obind];
       [|discriminate]);
      (destruct (LanguageFeatureExtractor.forward _ _); cbn [lift obind];
       [|discriminate]);
      (destruct (DocFormerEmbeddings.forward _ _ _ _); cbn [lift obind];
       discriminate). }
  split; [exact Hex|].
  rewrite <- Hex. unfold DocFormer.forward, encode.
  destruct (ExtractFeatures.forward _ _ _ _) as [[[[v t] vs] ts]|k|e];
    cbn [obind].
  - split; [|discriminate].
    destruct (DocFormerEncoder.forward _ _ _ _ _ _ _); cbn [lift obind];
      discriminate.
  - split; intros H; injection H as ->; reflexivity.
  - split; discriminate.
Qed.

Lemma missing_key_raises_key_error_witness :
  exists self,
    DocFormer.init small_config false (zero_backbone 1)
      (fun _ _ => 0%R) (fun _ _ _ => 0%R) = Ok self /\
    DocFormer.forward (fun v => v) self model_keep_all (zero_encoding 1 2) true
      = KeyError "d_resized_scaled_img" /\
    DocFormer.forward (fun v => v) self model_keep_all
      (mk_encoding (Some (zeros [1; 3; 224; 224])) None
                   (Some (zero_features [1; 2])) None None) false
      = KeyError "x_features".
Proof.
  assert (Hs : exists self,
            DocFormer.init small_config false (zero_backbone 1)
              (fun _ _ => 0%R) (fun _ _ _ => 0%R) = Ok self)
    by (eexists; reflexivity).
  destruct Hs as [self Hs]. exists self. split; [exact Hs|]. split.
  - apply (proj2 (proj2 (@missing_key_raises_key_error (fun v => v) self
                           model_keep_all (zero_encoding 1 2) true
                           "d_resized_scaled_img"))).
    reflexivity.
  - apply (proj2 (proj2 (@missing_key_raises_key_error (fun v => v) self
                           model_keep_all
                           (mk_encoding (Some (zeros [1; 3; 224; 224])) None
                              (Some (zero_features [1; 2])) None None) false
                           "x_features"))).
    reflexivity.
Defined.

(** ** The bands of the spatial embeddings *)

Lemma band_disjoint (sub i i' j : nat) :
  i * sub <= j < (i + 1) * sub -> i' * sub <= j < (i' + 1) * sub -> i = i'.
Proof.
  intros H H'. destruct (Nat.lt_trichotomy i i') as [Hlt|[Heq|Hgt]];
    [|exact Heq|].
  - assert ((i + 1) * sub <= i' * sub) by (apply Nat.mul_le_mono_r; lia). lia.
  - assert ((i' + 1) * sub <= i * sub) by (apply Nat.mul_le_mono_r; lia). lia.
Qed.

(** One slice assignment into band [i] of a value as wide as the
    band. *)
Lemma assign_band_values (x v : FloatTensor) (B T H sub i : nat) :
  shape x = [B; T; H] -> shape v = [B; T; sub] ->
  (i + 1) * sub <= H ->
  exists y,
    assign_last_slice x (i * sub) ((i + 1) * sub) v = Ok y /\
    shape y = [B; T; H] /\
    forall b t j, b < B -> t < T ->
      (i * sub <= j < (i + 1) * sub ->
       data y [b; t; j] = data v [b; t; j - i * sub]) /\
      (~ (i * sub <= j < (i + 1) * sub) ->
       data y [b; t; j] = data x [b; t; j]).
Proof.
  intros Hx Hv Hle. unfold assign_last_slice, last_dim. rewrite Hx, Hv.
  cbn [rev app bind removelast].
  replace (Nat.min ((i + 1) * sub) H) with ((i + 1) * sub) by lia.
  replace (Nat.min (i * sub) H) with (i * sub) by lia.
  replace ((i + 1) * sub - i * sub) with sub by lia.
  unfold expandable. cbn [rev app expandable_rev].
  rewrite !Nat.eqb_refl. cbn [orb andb].
  eexists. split; [reflexivity|]. split; [reflexivity|].
  intros b t j Hb Ht. cbn [data last removelast app]. split.
  - intros [H1 H2].
    rewrite (proj2 (Nat.leb_le _ _) H1), (proj2 (Nat.ltb_lt _ _) H2).
    cbn [andb]. rewrite bidx_in_shape; [reflexivity|].
    cbn. repeat split; try assumption. lia.
  - intros Hn.
    destruct (i * sub <=? j) eqn:E1; [|reflexivity].
    destruct (j <? (i + 1) * sub) eqn:E2; [|reflexivity].
    apply Nat.leb_le in E1. apply Nat.ltb_lt in E2. exfalso. apply Hn. lia.
Qed.

(** Table [i] of one axis, when both kinds of table have one width. *)
Lemma eight_nth_table (c : config) (iv : init_values) (names : list string)
    (es : list Embedding.t) (i sub : nat) :
  length names = 8 ->
  DocFormerEmbeddings.eight c iv names = Ok es ->
  coordinate_size c = sub -> shape_size c = sub ->
  i < 8 ->
  nth_error es i =
  Some (Embedding.mk (max_2d_position_embeddings c) sub None
          (mkTensor [max_2d_position_embeddings c; sub]
             (iv (nth i names ""%string ++ ".weight")%string))).
Proof.
  intros Hlen Hes Hcs Hss Hi.
  destruct (eight_spec c iv names) as (es' & Ees & Hes').
  rewrite Hes in Ees. injection Ees as <-. subst es. rewrite Hcs, Hss.
  destruct names as [|n0 [|n1 [|n2 [|n3 [|n4 [|n5 [|n6 [|n7 [|n8 names]]]]]]]]];
    try discriminate Hlen.
  do 8 (destruct i as [|i]; [reflexivity|]).
  lia.
Qed.

(** The loop over the features fills, for every feature it visits, the
    band of that feature with the rows its buckets select, and leaves
    every other column as it was. *)
Lemma fill_values (c : config) (iv : init_values) (xn yn : list string)
    (xs ys : list Embedding.t) (x_feature y_feature : LongTensor)
    (B T sub : nat) :
  length xn = 8 -> length yn = 8 ->
  DocFormerEmbeddings.eight c iv xn = Ok xs ->
  DocFormerEmbeddings.eight c iv yn = Ok ys ->
  shape x_feature = [B; T; 8] -> shape y_feature = [B; T; 8] ->
  (forall b t i, b < B -> t < T -> i < 8 ->
     (0 <= data x_feature [b; t; i] < Z.of_nat (max_2d_position_embeddings c))%Z /\
     (0 <= data y_feature [b; t; i] < Z.of_nat (max_2d_position_embeddings c))%Z) ->
  8 * sub <= hidden_size c ->
  coordinate_size c = sub -> shape_size c = sub ->
  forall range x_calc y_calc,
    (forall i, In i range -> i < 8) ->
    shape x_calc = [B; T; hidden_size c] ->
    shape y_calc = [B; T; hidden_size c] ->
    exists x_calc' y_calc',
      DocFormerEmbeddings.fill xs ys x_feature y_feature sub range x_calc y_calc
        = Ok (x_calc', y_calc') /\
      shape x_calc' = [B; T; hidden_size c] /\
      shape y_calc' = [B; T; hidden_size c] /\
      forall b t j, b < B -> t < T ->
        (forall i, In i range -> i * sub <= j < (i + 1) * sub ->
           data x_calc' [b; t; j] =
             feature_embedding iv (nth i xn ""%string) x_feature b t i (j - i * sub) /\
           data y_calc' [b; t; j] =
             feature_embedding iv (nth i yn ""%string) y_feature b t i (j - i * sub)) /\
        ((forall i, In i range -> ~ (i * sub <= j < (i + 1) * sub)) ->
         data x_calc' [b; t; j] = data x_calc [b; t; j] /\
         data y_calc' [b; t; j] = data y_calc [b; t; j]).
Proof.
  intros Hxn Hyn Hxs Hys Hxf Hyf Hrange Hsub Hcs Hss.
  induction range as [|i range IH]; intros xc yc Hin Hxc Hyc;
    cbn [DocFormerEmbeddings.fill].
  - exists xc, yc. split; [reflexivity|]. split; [exact Hxc|].
    split; [exact Hyc|]. intros b t j Hb Ht. split.
    + intros i [].
    + intros _. split; reflexivity.
  - assert (Hi : i < 8) by (apply Hin; now left).
    unfold select_last at 1. rewrite Hxf.
    replace (i <? 8) with true by (symmetry; apply Nat.ltb_lt; exact Hi).
    cbn [bind].
    rewrite (@eight_nth_table c iv xn xs i sub Hxn Hxs Hcs Hss Hi).
    rewrite embedding_forward_in_range.
    2:{ intros idx Hidx. cbn [shape] in Hidx.
        destruct idx as [|b [|t [|? ?]]]; cbn in Hidx; try tauto.
        destruct Hidx as (Hb & Ht & _). cbn [data app Embedding.num_embeddings].
        apply (Hrange b t i Hb Ht Hi). }
    cbn [bind shape app Embedding.embedding_dim Embedding.weight].
    match goal with |- context [assign_last_slice xc _ _ ?v] =>
      destruct (@assign_band_values xc v B T (hidden_size c) sub i Hxc eq_refl
                  ltac:(nia)) as (xc1 & Exc1 & Sxc1 & Dxc1)
    end.
    rewrite Exc1. cbn [bind].
    unfold select_last at 1. rewrite Hyf.
    replace (i <? 8) with true by (symmetry; apply Nat.ltb_lt; exact Hi).
    cbn [bind].
    rewrite (@eight_nth_table c iv yn ys i sub Hyn Hys Hcs Hss Hi).
    rewrite embedding_forward_in_range.
    2:{ intros idx Hidx. cbn [shape] in Hidx.
        destruct idx as [|b [|t [|? ?]]]; cbn in Hidx; try tauto.
        destruct Hidx as (Hb & Ht & _). cbn [data app Embedding.num_embeddings].
        apply (Hrange b t i Hb Ht Hi). }
    cbn [bind shape app Embedding.embedding_dim Embedding.weight].
    match goal with |- context [assign_last_slice yc _ _ ?v] =>
      destruct (@assign_band_values yc v B T (hidden_size c) sub i Hyc eq_refl
                  ltac:(nia)) as (yc1 & Eyc1 & Syc1 & Dyc1)
    end.
    rewrite Eyc1. cbn [bind].
    destruct (IH xc1 yc1 (fun k Hk => Hin k (or_intror Hk)) Sxc1 Syc1)
      as (xc' & yc' & E' & Sx' & Sy' & D').
    exists xc', yc'. split; [exact E'|]. split; [exact Sx'|].
    split; [exact Sy'|].
    intros b t j Hb Ht. destruct (D' b t j Hb Ht) as [Din Dout].
    destruct (Dxc1 b t j Hb Ht) as [Xin Xout].
    destruct (Dyc1 b t j Hb Ht) as [Yin Yout].
    split.
    + intros i0 Hi0 Hband.
      destruct (in_dec Nat.eq_dec i0 range) as [Hr|Hr];
        [exact (Din i0 Hr Hband)|].
      destruct Hi0 as [<-|Hi0]; [|contradiction].
      assert (Hfree : forall i', In i' range ->
                ~ (i' * sub <= j < (i' + 1) * sub)).
      { intros i' Hi' Hb'. apply Hr.
        now rewrite (band_disjoint _ _ _ Hband Hb'). }
      destruct (Dout Hfree) as [-> ->].
      rewrite (Xin Hband), (Yin Hband).
      unfold feature_embedding. cbn [data removelast last app].
      split; reflexivity.
    + intros Hfree.
      destruct (Dout (fun i' Hi' => Hfree i' (or_intror Hi'))) as [-> ->].
      rewrite (Xout (Hfree i (or_introl eq_refl))),
        (Yout (Hfree i (or_introl eq_refl))).
      split; reflexivity.
Qed.

(** X22.  What [DocFormerEmbeddings.forward] computes when the sixteen
    tables of a stream are as wide as a band, [hidden_size // 8]:
    columns [i * sub .. (i + 1) * sub - 1] of the visual-spatial
    embedding of a position hold the row of the [i]-th x table that the
    bucket of x feature [i] selects, plus the row of the [i]-th y table
    for y feature [i], plus the positional encoding; the text-spatial
    embedding is built in the same way from the tables of the text
    stream. *)
Theorem spatial_embeddings_bands (c : config) (tr : bool) (iv : init_values)
    (emb : DocFormerEmbeddings.t) (rng : DocFormerEmbeddings.draws)
    (x_feature y_feature : LongTensor) (B T : nat) :
  DocFormerEmbeddings.init c tr iv = Ok emb ->
  shape x_feature = [B; T; 8] -> shape y_feature = [B; T; 8] ->
  (forall b t i, b < B -> t < T -> i < 8 ->
     (0 <= data x_feature [b; t; i] < Z.of_nat (max_2d_position_embeddings c))%Z /\
     (0 <= data y_feature [b; t; i] < Z.of_nat (max_2d_position_embeddings c))%Z) ->
  T = max_position_embeddings c ->
  coordinate_size c = hidden_size c / 8 ->
  shape_size c = hidden_size c / 8 ->
  exists v_bar_s t_bar_s pos_v pos_t,
    DocFormerEmbeddings.forward emb rng x_feature y_feature
      = Ok (v_bar_s, t_bar_s) /\
    PositionalEncoding.forward (DocFormerEmbeddings.position_embeddings_v emb)
      (DocFormerEmbeddings.mask_v rng) = Ok pos_v /\
    PositionalEncoding.forward (DocFormerEmbeddings.position_embeddings_t emb)
      (DocFormerEmbeddings.mask_t rng) = Ok pos_t /\
    forall b t i k, b < B -> t < T -> i < 8 -> k < hidden_size c / 8 ->
      data v_bar_s [b; t; i * (hidden_size c / 8) + k] =
      (feature_embedding iv (nth i (DocFormerEmbeddings.x_names "_v") ""%string)
         x_feature b t i k
       + feature_embedding iv (nth i (DocFormerEmbeddings.y_names "_v") ""%string)
           y_feature b t i k
       + data pos_v [0%nat; t; (i * (hidden_size c / 8) + k)%nat])%R /\
      data t_bar_s [b; t; i * (hidden_size c / 8) + k] =
      (feature_embedding iv (nth i (DocFormerEmbeddings.x_names "_t") ""%string)
         x_feature b t i k
       + feature_embedding iv (nth i (DocFormerEmbeddings.y_names "_t") ""%string)
           y_feature b t i k
       + data pos_t [0%nat; t; (i * (hidden_size c / 8) + k)%nat])%R.
Proof.
  intros Hinit Hxf Hyf Hrange HT Hcs Hss.
  destruct (embeddings_init_inv _ _ _ Hinit)
    as (Hcfg & (pv & Epv & Hpv) & (pt & Ept & Hpt) & Exv & Eyv & Ext & Eyt).
  set (sub := hidden_size c / 8) in *.
  assert (Hsub : 8 * sub <= hidden_size c).
  { pose proof (Nat.div_mod (hidden_size c) 8 ltac:(lia)). unfold sub. lia. }
  assert (Hseq : forall i, In i (seq 0 8) -> i < 8)
    by (intros i Hi; apply in_seq in Hi; lia).
  unfold DocFormerEmbeddings.forward. rewrite Hxf, Hcfg.
  cbn [Nat.eqb negb]. fold sub.
  destruct (@fill_values c iv (DocFormerEmbeddings.x_names "_v")
              (DocFormerEmbeddings.y_names "_v") _ _ x_feature y_feature B T
              sub eq_refl eq_refl Exv Eyv Hxf Hyf Hrange Hsub
              Hcs Hss (seq 0 8) (zeros [B; T; hidden_size c])
              (zeros [B; T; hidden_size c]) Hseq eq_refl eq_refl)
    as (xv & yv & Ev & Sxv & Syv & Dv).
  rewrite Ev. cbn [bind fst snd].
  step sv (broadcast2_same Rplus xv yv Sxv Syv).
  destruct (@positional_encoding_forward _ _ _ _ pv
              (DocFormerEmbeddings.mask_v rng) Epv) as (pos_v & Epos_v & Spos_v).
  rewrite Hpv, Epos_v. cbn [bind]. rewrite <- HT in Spos_v.
  step v (broadcast2_batch1 Rplus sv pos_v Hs_sv Spos_v).
  destruct (@fill_values c iv (DocFormerEmbeddings.x_names "_t")
              (DocFormerEmbeddings.y_names "_t") _ _ x_feature y_feature B T
              sub eq_refl eq_refl Ext Eyt Hxf Hyf Hrange Hsub
              Hcs Hss (seq 0 8) (zeros [B; T; hidden_size c])
              (zeros [B; T; hidden_size c]) Hseq eq_refl eq_refl)
    as (xt & yt & Et & Sxt & Syt & Dt).
  rewrite Et. cbn [bind fst snd].
  step st (broadcast2_same Rplus xt yt Sxt Syt).
  destruct (@positional_encoding_forward _ _ _ _ pt
              (DocFormerEmbeddings.mask_t rng) Ept) as (pos_t & Epos_t & Spos_t).
  rewrite Hpt, Epos_t. cbn [bind]. rewrite <- HT in Spos_t.
  step t (broadcast2_batch1 Rplus st pos_t Hs_st Spos_t).
  exists v, t, pos_v, pos_t.
  split; [reflexivity|]. split; [reflexivity|]. split; [reflexivity|].
  intros b t0 i k Hb Ht0 Hi Hk.
  assert (Hband : i * sub <= i * sub + k < (i + 1) * sub) by nia.
  assert (Hj : i * sub + k < hidden_size c) by nia.
  assert (Hi' : In i (seq 0 8)) by (apply in_seq; lia).
  rewrite Hd_v, Hd_t by assumption.
  rewrite Hd_sv, Hd_st by (simpl; tauto).
  destruct (proj1 (Dv b t0 (i * sub + k) Hb Ht0) i Hi' Hband) as [-> ->].
  destruct (proj1 (Dt b t0 (i * sub + k) Hb Ht0) i Hi' Hband) as [-> ->].
  replace (i * sub + k - i * sub) with k by lia.
  split; reflexivity.
Qed.

Lemma spatial_embeddings_bands_witness :
  exists emb v_bar_s t_bar_s pos_v,
    DocFormerEmbeddings.init config_16 false (fun _ idx => INR (hd 0 idx)) = Ok emb /\
    DocFormerEmbeddings.forward emb embeddings_keep_all
      (mkTensor [1; 2; 8] (fun _ => 2%Z)) (mkTensor [1; 2; 8] (fun _ => 1%Z))
      = Ok (v_bar_s, t_bar_s) /\
    PositionalEncoding.forward (DocFormerEmbeddings.position_embeddings_v emb)
      (DocFormerEmbeddings.mask_v embeddings_keep_all) = Ok pos_v /\
    data v_bar_s [0; 1; 5] = (2 + 1 + data pos_v [0; 1; 5]%nat)%R.
Proof.
  destruct (DocFormerEmbeddings.init config_16 false (fun _ idx => INR (hd 0 idx)))
    as [emb|x] eqn:Hinit.
  2:{ pose proof (embeddings_init_ok config_16 false
                    (fun _ idx => INR (hd 0 idx))) as H.
      rewrite Hinit in H. discriminate H. }
  destruct (@spatial_embeddings_bands config_16 false (fun _ idx => INR (hd 0 idx))
              emb embeddings_keep_all
              (mkTensor [1; 2; 8] (fun _ => 2%Z)) (mkTensor [1; 2; 8] (fun _ => 1%Z))
              1 2 Hinit eq_refl eq_refl
              ltac:(intros; unfold config_16; cbn; lia) eq_refl eq_refl eq_refl)
    as (v & t & pv & pt & Ef & Epv & _ & Hd).
  exists emb, v, t, pv. split; [reflexivity|]. split; [exact Ef|].
  split; [exact Epv|].
  destruct (Hd 0 1 2 1 ltac:(lia) ltac:(lia) ltac:(lia)
              ltac:(unfold config_16; cbn; lia)) as [Hv _].
  change (2 * (hidden_size config_16 / 8) + 1) with 5 in Hv.
  rewrite Hv. unfold feature_embedding. cbn [data hd].
  change (Z.to_nat 2) with 2. change (Z.to_nat 1) with 1. simpl INR.
  f_equal.
Defined.

(** ** Evaluation mode *)

Lemma dropout_eval (d : Dropout.t) (m : list nat -> bool) (x : FloatTensor) :
  Dropout.training d = false -> Dropout.forward d m x = x.
Proof. intros H. unfold Dropout.forward. now rewrite H. Qed.

Lemma attention_forward_eval (self : MultiModalAttentionLayer.t)
    (rng rng' : MultiModalAttentionLayer.draws)
    (text_feat img_feat text_spatial_feat img_spatial_feat : FloatTensor) :
  Dropout.training (MultiModalAttentionLayer.dropout self) = false ->
  Dropout.training (snd (MultiModalAttentionLayer.to_out self)) = false ->
  MultiModalAttentionLayer.forward self rng
    text_feat img_feat text_spatial_feat img_spatial_feat
  = MultiModalAttentionLayer.forward self rng'
      text_feat img_feat text_spatial_feat img_spatial_feat.
Proof.
  intros H1 H2.
  unfold MultiModalAttentionLayer.forward, MultiModalAttentionLayer.forward_locals,
    Dropout.forward.
  rewrite H1, H2. reflexivity.
Qed.

Lemma init_block_eval (cfg : config) (iv : init_values)
    (blk : DocFormerEncoder.block) :
  DocFormerEncoder.init_block cfg false iv = Ok blk ->
  Dropout.training (MultiModalAttentionLayer.dropout
                      (PreNormAttn.fn (DocFormerEncoder.attn blk))) = false /\
  Dropout.training (snd (MultiModalAttentionLayer.to_out
                           (PreNormAttn.fn (DocFormerEncoder.attn blk)))) = false /\
  Dropout.training (FeedForward.net_2 (PreNorm.fn (DocFormerEncoder.ff blk)))
    = false /\
  Dropout.training (FeedForward.net_4 (PreNorm.fn (DocFormerEncoder.ff blk)))
    = false.
Proof.
  unfold DocFormerEncoder.init_block. intros H.
  destruct (MultiModalAttentionLayer.init _ _ _ _ _ _ _) as [m|] eqn:Em;
    cbn [bind] in H; [|discriminate H].
  destruct (FeedForward.init _ _ _ _ _) as [f|] eqn:Ef; cbn [bind] in H;
    [|discriminate H].
  injection H as <-.
  cbn [DocFormerEncoder.attn DocFormerEncoder.ff PreNormAttn.init PreNormAttn.fn
       PreNorm.init PreNorm.fn].
  pose proof (mmal_init_inv _ _ _ _ _ _ _ Em) as Hm.
  destruct Hm as (_ & _ & _ & _ & _ & _ & _ & _ & _ & Hd1 & Hd2).
  unfold FeedForward.init, Dropout.init in Ef.
  destruct (Qle_bool 0 (hidden_dropout_prob cfg)
            && Qle_bool (hidden_dropout_prob cfg) 1); cbn [bind] in Ef;
    [|discriminate Ef].
  injection Ef as <-. cbn. auto.
Qed.

Lemma body_eval (gelu : R -> R) (cfg : config) (iv : init_values)
    (blk : DocFormerEncoder.block) (d d' : DocFormerEncoder.draws)
    (text_feat img_feat text_spatial_feat img_spatial_feat : FloatTensor) :
  DocFormerEncoder.init_block cfg false iv = Ok blk ->
  DocFormerEncoder.body gelu blk d
    text_feat img_feat text_spatial_feat img_spatial_feat
  = DocFormerEncoder.body gelu blk d'
      text_feat img_feat text_spatial_feat img_spatial_feat.
Proof.
  intros Hblk. destruct (init_block_eval _ _ Hblk) as (H1 & H2 & H3 & H4).
  unfold DocFormerEncoder.body, PreNormAttn.forward, PreNorm.forward,
    FeedForward.forward.
  destruct (broadcast2 Rplus text_feat img_feat) as [s1|]; cbn [bind];
    [|reflexivity].
  destruct (broadcast2 Rplus s1 text_spatial_feat) as [s2|]; cbn [bind];
    [|reflexivity].
  destruct (broadcast2 Rplus s2 img_spatial_feat) as [sk|]; cbn [bind];
    [|reflexivity].
  destruct (LayerNorm.forward _ text_feat) as [a1|]; cbn [bind]; [|reflexivity].
  destruct (LayerNorm.forward _ img_feat) as [a2|]; cbn [bind]; [|reflexivity].
  destruct (LayerNorm.forward _ text_spatial_feat) as [a3|]; cbn [bind];
    [|reflexivity].
  destruct (LayerNorm.forward _ img_spatial_feat) as [a4|]; cbn [bind];
    [|reflexivity].
  rewrite (@attention_forward_eval _ (DocFormerEncoder.attn_draws d)
             (DocFormerEncoder.attn_draws d') a1 a2 a3 a4 H1 H2).
  destruct (MultiModalAttentionLayer.forward _ _ a1 a2 a3 a4) as [a|];
    cbn [bind]; [|reflexivity].
  destruct (broadcast2 Rplus a sk) as [x1|]; cbn [bind]; [|reflexivity].
  unfold Dropout.forward. rewrite H3, H4. reflexivity.
Qed.

Lemma loop_eval (gelu : R -> R) (cfg : config) (rng rng' : nat -> DocFormerEncoder.draws)
    (img_feat text_spatial_feat img_spatial_feat : FloatTensor) :
  forall ls,
    (forall k blk, nth_error ls k = Some blk ->
       exists ivb, DocFormerEncoder.init_block cfg false ivb = Ok blk) ->
    forall i0 text_feat,
      DocFormerEncoder.loop gelu ls rng i0
        text_feat img_feat text_spatial_feat img_spatial_feat
      = DocFormerEncoder.loop gelu ls rng' i0
          text_feat img_feat text_spatial_feat img_spatial_feat.
Proof.
  induction ls as [|b ls IH]; intros Hls i0 text_feat; [reflexivity|].
  cbn [DocFormerEncoder.loop].
  destruct (Hls 0 b eq_refl) as [ivb Hb].
  rewrite (@body_eval gelu cfg ivb b (rng i0) (rng' i0) _ _ _ _ Hb).
  destruct (DocFormerEncoder.body _ _ _ _ _ _ _) as [it|]; cbn [bind];
    [|reflexivity].
  cbv zeta. rewrite (IH (fun k blk Hk => Hls (S k) blk Hk)). reflexivity.
Qed.

Lemma embeddings_forward_eval (c : config) (iv : init_values)
    (emb : DocFormerEmbeddings.t) (rng rng' : DocFormerEmbeddings.draws)
    (x_feature y_feature : LongTensor) :
  DocFormerEmbeddings.init c false iv = Ok emb ->
  DocFormerEmbeddings.forward emb rng x_feature y_feature
  = DocFormerEmbeddings.forward emb rng' x_feature y_feature.
Proof.
  intros Hinit.
  destruct (embeddings_init_inv _ _ _ Hinit)
    as (_ & (pv & Epv & Hpv) & (pt & Ept & Hpt) & _).
  assert (Heval : forall pe, PositionalEncoding.init (hidden_size c) (1 # 10)
                               (max_position_embeddings c) false = Ok pe ->
                             Dropout.training (PositionalEncoding.dropout pe) = false).
  { intros pe Hpe.
    destruct (positional_encoding_init (hidden_size c) (1 # 10)
                (max_position_embeddings c) false)
      as [(pe' & Epe & _ & _ & Htr)|[[x Ex] _]].
    - rewrite Hpe in Epe. now injection Epe as <-.
    - rewrite Hpe in Ex. discriminate Ex. }
  unfold DocFormerEmbeddings.forward, PositionalEncoding.forward, Dropout.forward.
  rewrite Hpv, Hpt, (Heval pv Epv), (Heval pt Ept). reflexivity.
Qed.

(** X23.  In evaluation mode the model is a function of its input: a
    [DocFormer] constructed in evaluation mode gives the same result, or
    raises the same exception, whatever masks the dropout layers
    draw. *)
Theorem eval_mode_ignores_masks (gelu : R -> R) (c : config)
    (backbone : FloatTensor -> result FloatTensor) (iv : init_values)
    (ivl : nat -> init_values) (self : DocFormer.t) (rng rng' : model_draws)
    (x : encoding) (use_tdi : bool) :
  DocFormer.init c false backbone iv ivl = Ok self ->
  DocFormer.forward gelu self rng x use_tdi
  = DocFormer.forward gelu self rng' x use_tdi.
Proof.
  intros Hinit. unfold DocFormer.init in Hinit.
  destruct (ExtractFeatures.init _ _ _ _) as [ef|] eqn:Eef; cbn [bind] in Hinit;
    [|discriminate Hinit].
  destruct (DocFormerEncoder.init _ _ _) as [enc|] eqn:Eenc; cbn [bind] in Hinit;
    [|discriminate Hinit].
  destruct (Dropout.init _ _) as [dr|] eqn:Edr; cbn [bind] in Hinit;
    [|discriminate Hinit].
  injection Hinit as <-.
  destruct (@extract_features_init_inv c false backbone _ ef Eef) as (_ & _ & Hsf).
  destruct (encoder_init_inv _ _ _ Eenc) as [_ Hblocks].
  assert (Hdr : Dropout.training dr = false).
  { unfold Dropout.init in Edr.
    destruct (Qle_bool 0 (hidden_dropout_prob c)
              && Qle_bool (hidden_dropout_prob c) 1); [|discriminate Edr].
    now injection Edr as <-. }
  unfold DocFormer.forward, encode, ExtractFeatures.forward.
  cbn [DocFormer.extract_feature DocFormer.encoder DocFormer.dropout].
  destruct (if use_tdi
            then getitem "d_resized_scaled_img" (d_resized_scaled_img x)
            else getitem "resized_scaled_img" (resized_scaled_img x))
    as [img| |]; cbn [obind]; try reflexivity.
  destruct (getitem "input_ids" (input_ids x)) as [ids| |]; cbn [obind];
    try reflexivity.
  destruct (getitem "x_features" (x_features x)) as [xf| |]; cbn [obind];
    try reflexivity.
  destruct (getitem "y_features" (y_features x)) as [yf| |]; cbn [obind];
    try reflexivity.
  destruct (lift (ResNetFeatureExtractor.forward _ img)) as [v| |]; cbn [obind];
    try reflexivity.
  destruct (lift (LanguageFeatureExtractor.forward _ ids)) as [t| |]; cbn [obind];
    try reflexivity.
  rewrite (@embeddings_forward_eval c _ (ExtractFeatures.spatial_feature ef)
             (embeddings_draws rng) (embeddings_draws rng') xf yf Hsf).
  destruct (lift (DocFormerEmbeddings.forward _ _ xf yf)) as [[vs ts]| |];
    cbn [obind fst snd]; try reflexivity.
  unfold DocFormerEncoder.forward, DocFormerEncoder.forward_trace.
  rewrite (@loop_eval gelu c (encoder_draws rng) (encoder_draws rng') v ts vs
             (DocFormerEncoder.layers enc)
             (fun k blk Hk => ex_intro _ (ivl k) (Hblocks k blk Hk)) 0 t).
  destruct (DocFormerEncoder.loop _ _ _ _ _ _ _ _) as [its|]; cbn [bind lift obind];
    [|reflexivity].
  destruct (rev its) as [|it r]; cbn [lift obind]; [reflexivity|].
  rewrite !dropout_eval by exact Hdr. reflexivity.
Qed.

Lemma eval_mode_ignores_masks_witness :
  exists self,
    DocFormer.init small_config false (zero_backbone 1)
      (fun _ _ => 0%R) (fun _ _ _ => 0%R) = Ok self /\
    DocFormer.forward (fun v => v) self model_keep_all (zero_encoding 1 2) false
    = DocFormer.forward (fun v => v) self
        (mk_model_draws
           (DocFormerEmbeddings.mk_draws (fun _ => false) (fun _ => false))
           (fun _ => DocFormerEncoder.mk_draws
                       (MultiModalAttentionLayer.mk_draws
                          (fun _ => false) (fun _ => false) (fun _ => false))
                       (FeedForward.mk_draws (fun _ => false) (fun _ => false)))
           (fun _ => false))
        (zero_encoding 1 2) false.
Proof.
  assert (Hs : exists self,
            DocFormer.init small_config false (zero_backbone 1)
              (fun _ _ => 0%R) (fun _ _ _ => 0%R) = Ok self)
    by (eexists; reflexivity).
  destruct Hs as [self Hs]. exists self. split; [exact Hs|].
  apply (@eval_mode_ignores_masks (fun v => v) small_config (zero_backbone 1)
           (fun _ _ => 0%R) (fun _ _ _ => 0%R) self _ _ (zero_encoding 1 2) false Hs).
Defined.

(** ** Inputs the attention layer rejects *)

(** X24.  What [MultiModalAttentionLayer.forward] raises on a text
    feature of the wrong form, before anything else is looked at: a
    tensor with fewer than two dimensions has no [shape[1]]
    ([IndexError]); a three-dimensional one whose width is not
    [embed_dim] is rejected by the first linear layer ([RuntimeError]);
    one sequence without a batch dimension, of the right width, passes
    the linear layer and is rejected by [rearrange] ([EinopsError]). *)
Theorem attention_forward_rejects_text_feat (E nh mrp L : nat) (p : Q) (tr : bool)
    (iv : init_values) (self : MultiModalAttentionLayer.t)
    (rng : MultiModalAttentionLayer.draws)
    (text_feat img_feat text_spatial_feat img_spatial_feat : FloatTensor) :
  MultiModalAttentionLayer.init E nh mrp L p tr iv = Ok self ->
  (length (shape text_feat) < 2 ->
   MultiModalAttentionLayer.forward self rng
     text_feat img_feat text_spatial_feat img_spatial_feat = Raise IndexError) /\
  (forall B T E', shape text_feat = [B; T; E'] -> E' <> E ->
   MultiModalAttentionLayer.forward self rng
     text_feat img_feat text_spatial_feat img_spatial_feat = Raise RuntimeError) /\
  (forall T, shape text_feat = [T; E] ->
   MultiModalAttentionLayer.forward self rng
     text_feat img_feat text_spatial_feat img_spatial_feat = Raise EinopsError).
Proof.
  intros Hinit.
  destruct (mmal_init_inv _ _ _ _ _ _ _ Hinit)
    as (_ & _ & _ & _ & _ & _ & _ & Hlin & _).
  destruct (Hlin (MultiModalAttentionLayer.fc_k_text self) (or_introl eq_refl))
    as [Hin _].
  unfold MultiModalAttentionLayer.forward, MultiModalAttentionLayer.forward_locals.
  repeat split.
  - intros Hlen. unfold size.
    destruct (shape text_feat) as [|d0 [|d1 s]]; cbn in Hlen; try lia; reflexivity.
  - intros B T E' Hs HE. unfold size. rewrite Hs. cbn [nth_error bind].
    unfold Linear.forward, last_dim. rewrite Hs. cbn [rev app bind].
    rewrite Hin, (proj2 (Nat.eqb_neq _ _) HE). reflexivity.
  - intros T Hs. unfold size. rewrite Hs. cbn [nth_error bind].
    unfold Linear.forward, last_dim. rewrite Hs. cbn [rev app bind].
    rewrite Hin, Nat.eqb_refl. cbn [bind].
    unfold rearrange_split_heads. cbn [shape removelast app]. reflexivity.
Qed.

Lemma attention_forward_rejects_text_feat_witness :
  exists self,
    MultiModalAttentionLayer.init 2 1 1 2 0%Q false (fun _ _ => 0%R) = Ok self /\
    MultiModalAttentionLayer.forward self keep_all
      (zeros [2]) (zeros [1; 2; 2]) (zeros [1; 2; 2]) (zeros [1; 2; 2])
      = Raise IndexError /\
    MultiModalAttentionLayer.forward self keep_all
      (zeros [1; 2; 3]) (zeros [1; 2; 2]) (zeros [1; 2; 2]) (zeros [1; 2; 2])
      = Raise RuntimeError /\
    MultiModalAttentionLayer.forward self keep_all
      (zeros [2; 2]) (zeros [1; 2; 2]) (zeros [1; 2; 2]) (zeros [1; 2; 2])
      = Raise EinopsError.
Proof.
  assert (Hs : exists self,
            MultiModalAttentionLayer.init 2 1 1 2 0%Q false (fun _ _ => 0%R)
            = Ok self) by (eexists; reflexivity).
  destruct Hs as [self Hs]. exists self. split; [exact Hs|].
  split; [|split].
  - apply (proj1 (@attention_forward_rejects_text_feat 2 1 1 2 0%Q false
                    (fun _ _ => 0%R) self keep_all (zeros [2]) (zeros [1; 2; 2])
                    (zeros [1; 2; 2]) (zeros [1; 2; 2]) Hs)).
    cbn. lia.
  - apply (proj1 (proj2 (@attention_forward_rejects_text_feat 2 1 1 2 0%Q false
                    (fun _ _ => 0%R) self keep_all (zeros [1; 2; 3])
                    (zeros [1; 2; 2]) (zeros [1; 2; 2]) (zeros [1; 2; 2]) Hs))
             1 2 3 eq_refl).
    discriminate.
  - apply (proj2 (proj2 (@attention_forward_rejects_text_feat 2 1 1 2 0%Q false
                    (fun _ _ => 0%R) self keep_all (zeros [2; 2])
                    (zeros [1; 2; 2]) (zeros [1; 2; 2]) (zeros [1; 2; 2]) Hs))
             2 eq_refl).
Defined.

(** ** The sequence length is fixed by the visual branch *)

Lemma broadcast2_positions_mismatch (f : R -> R -> R) (x y : FloatTensor)
    (B T H b T' H' : nat) :
  shape x = [B; T; H] -> shape y = [b; T'; H'] ->
  T <> T' -> T <> 1 -> T' <> 1 ->
  broadcast2 f x y = Raise RuntimeError.
Proof.
  intros Hx Hy H1 H2 H3. unfold broadcast2, broadcast_shapes, fmap.
  rewrite Hx, Hy. cbn [rev app bshape_rev].
  destruct (bdim H H') as [d|e] eqn:E; cbn [bind].
  - rewrite (@bdim_neq T T' H1 H2 H3). reflexivity.
  - unfold bdim in E.
    destruct (H =? H'); [discriminate E|].
    destruct (H =? 1); [discriminate E|].
    destruct (H' =? 1); [discriminate E|].
    now injection E as <-.
Qed.

(** X25.  The number of positions is fixed to 512 by the visual branch:
    when [input_ids] is a batch of sequences of another length (other
    than 1, which broadcasts), no call of [forward] of a constructed
    [DocFormer] returns: the text feature has that many positions, the
    visual feature 512, and the skip connection of the first layer
    cannot add them. *)
Theorem docformer_needs_512_positions (gelu : R -> R) (c : config) (tr : bool)
    (backbone : FloatTensor -> result FloatTensor) (iv : init_values)
    (ivl : nat -> init_values) (self : DocFormer.t) (rng : model_draws)
    (x : encoding) (use_tdi : bool) (ids : LongTensor) (B T : nat) :
  DocFormer.init c tr backbone iv ivl = Ok self ->
  input_ids x = Some ids -> shape ids = [B; T] ->
  T <> 512 -> T <> 1 ->
  forall out, DocFormer.forward gelu self rng x use_tdi <> Returns out.
Proof.
  intros Hinit Hids Hsi HT HT1 out Hfw.
  unfold DocFormer.init in Hinit.
  destruct (ExtractFeatures.init _ _ _ _) as [ef|] eqn:Eef; cbn [bind] in Hinit;
    [|discriminate Hinit].
  destruct (DocFormerEncoder.init _ _ _) as [enc|] eqn:Eenc; cbn [bind] in Hinit;
    [|discriminate Hinit].
  destruct (Dropout.init _ _) as [dr|]; cbn [bind] in Hinit; [|discriminate Hinit].
  injection Hinit as <-. unfold DocFormer.forward, encode in Hfw.
  cbn [DocFormer.extract_feature DocFormer.encoder DocFormer.dropout] in Hfw.
  apply obind_returns_inv in Hfw. destruct Hfw as (o & Hfw & _).
  apply obind_returns_inv in Hfw. destruct Hfw as ([[[v t] vs] ts] & Ef & Hfw).
  apply obind_returns_inv in Hfw. destruct Hfw as (o' & Eo & _).
  apply lift_returns_inv in Eo.
  destruct (@extract_features_forward_inv c tr backbone _ ef _ _ _ _ _ _ _ Eef Ef)
    as [b Hv].
  (* the text feature has the positions of the ids *)
  assert (Ht : exists H, shape t = [B; T; H]).
  { unfold ExtractFeatures.forward in Ef.
    apply obind_returns_inv in Ef. destruct Ef as (image & _ & Ef).
    rewrite Hids in Ef. cbn [getitem obind] in Ef.
    apply obind_returns_inv in Ef. destruct Ef as (xf & _ & Ef).
    apply obind_returns_inv in Ef. destruct Ef as (yf & _ & Ef).
    apply obind_returns_inv in Ef. destruct Ef as (v' & _ & Ef).
    apply obind_returns_inv in Ef. destruct Ef as (t' & Et & Ef).
    apply obind_returns_inv in Ef. destruct Ef as (s & _ & Ef).
    cbv zeta in Ef. injection Ef as _ <- _ _.
    apply lift_returns_inv in Et.
    unfold LanguageFeatureExtractor.forward, Embedding.forward in Et.
    destruct (forallb _ _); [|discriminate Et].
    injection Et as <-. cbn [shape]. rewrite Hsi. eexists. reflexivity. }
  destruct Ht as [H Ht].
  (* the first layer cannot add the two *)
  unfold DocFormerEncoder.forward, DocFormerEncoder.forward_trace in Eo.
  destruct (DocFormerEncoder.layers enc) as [|blk ls].
  - cbn in Eo. discriminate Eo.
  - cbn [DocFormerEncoder.loop] in Eo. unfold DocFormerEncoder.body in Eo.
    rewrite (@broadcast2_positions_mismatch Rplus t v B T H b 512 768 Ht Hv HT HT1)
      in Eo by discriminate.
    cbn in Eo. discriminate Eo.
Qed.

Lemma docformer_needs_512_positions_witness :
  exists self,
    DocFormer.init base_config false (zero_backbone 1)
      (fun _ _ => 0%R) (fun _ _ _ => 0%R) = Ok self /\
    forall out,
      DocFormer.forward (fun v => v) self model_keep_all (zero_encoding 1 128) false
      <> Returns out.
Proof.
  destruct (DocFormer.init base_config false (zero_backbone 1)
              (fun _ _ => 0%R) (fun _ _ _ => 0%R)) as [self|e] eqn:Hinit.
  2:{ pose proof (proj1 (task_models_init_ok base_config 16 false (zero_backbone 1)
                           (fun _ _ => 0%R) (fun _ _ _ => 0%R) None)) as Hok.
      rewrite Hinit in Hok. discriminate Hok. }
  exists self. split; [reflexivity|].
  apply (@docformer_needs_512_positions (fun v => v) base_config false
           (zero_backbone 1) (fun _ _ => 0%R) (fun _ _ _ => 0%R) self
           model_keep_all (zero_encoding 1 128) false (zero_features [1; 128])
           1 128 Hinit eq_refl eq_refl);
    discriminate.
Defined.
